(** * MOAT (Mock Orcid API Thing): record model, dual-format codec,
      content negotiation and request handlers.

    The development follows the layout of the Go sources:
    - [strings], [strconv], [rand]: the few standard-library functions the
      handlers call, with the behaviour their documentation and code fix;
    - [xml], [json]: the tag-driven encoders (and the XML decoder) of
      encoding/xml and encoding/json, as interpreters of per-struct field
      tables that repeat the struct tags of the sources;
    - the record model of main.go and of models/person.go;
    - [http]: the ResponseWriter contract, then writeResponse, the handlers,
      the routing table and the middleware of main.go;
    - the semantic XML comparison of models/person_test.go. *)

From Stdlib Require Import ZArith Ascii String DecimalString DecimalPos Lia Bool.
From stdpp Require Import base option gmap strings list.

Open Scope Z_scope.

(* ===================================================================== *)
(** ** Package strings *)
(* ===================================================================== *)

Module strings.

(** strings.HasPrefix(s, prefix) *)
Definition HasPrefix (s prefix : string) : bool := String.prefix prefix s.

(** strings.Contains(s, substr): some suffix of [s] starts with [substr]. *)
Fixpoint Contains (s substr : string) : bool :=
  if String.prefix substr s then true
  else match s with
       | EmptyString => false
       | String _ s' => Contains s' substr
       end.

Definition lower (c : ascii) : ascii :=
  let n := N_of_ascii c in
  if ((65 <=? n) && (n <=? 90))%N then ascii_of_N (n + 32) else c.

(** strings.ToLower on its byte-wise path (every byte below 0x80); bytes
    from 0x80 up are left as they are. *)
Fixpoint ToLower (s : string) : string :=
  match s with
  | EmptyString => EmptyString
  | String c s' => String (lower c) (ToLower s')
  end.

(** The white space bytes.TrimSpace and strings.TrimSpace cut on the
    one-byte range: '\t', '\n', '\v', '\f', '\r', ' '. *)
Definition isSpace (c : ascii) : bool :=
  let n := N_of_ascii c in
  (((9 <=? n) && (n <=? 13)) || (n =? 32))%N.

Fixpoint TrimLeft (s : string) : string :=
  match s with
  | EmptyString => EmptyString
  | String c s' => if isSpace c then TrimLeft s' else s
  end.

Fixpoint TrimRight (s : string) : string :=
  match s with
  | EmptyString => EmptyString
  | String c s' =>
      match TrimRight s' with
      | EmptyString => if isSpace c then EmptyString else String c EmptyString
      | t => String c t
      end
  end.

Definition TrimSpace (s : string) : string := TrimRight (TrimLeft s).

(** strings.Split(s, sep) for a one-byte separator. *)
Fixpoint Split (s : string) (sep : ascii) : list string :=
  match s with
  | EmptyString => [EmptyString]
  | String c s' =>
      if Ascii.eqb c sep then EmptyString :: Split s' sep
      else match Split s' sep with
           | [] => [String c EmptyString]
           | w :: ws => String c w :: ws
           end
  end.

(** string(b) for a byte [b]: the UTF-8 encoding of the code point [b]. *)
Definition ofByte (c : ascii) : string :=
  let n := N_of_ascii c in
  if (n <? 128)%N then String c EmptyString
  else String (ascii_of_N (192 + n / 64))
         (String (ascii_of_N (128 + n mod 64)) EmptyString).

End strings.

(* ===================================================================== *)
(** ** Package strconv *)
(* ===================================================================== *)

Module strconv.

Inductive error := ErrSyntax | ErrRange.

(** strconv.Itoa, and the verb %d of fmt.Sprintf. *)
Definition Itoa (n : Z) : string := NilZero.string_of_int (Z.to_int n).

Definition maxUint64 : Z := 2 ^ 64 - 1.

(** [c - '0'] on a byte, [None] when the difference exceeds 9. *)
Definition digit (c : ascii) : option Z :=
  let n := Z.of_N (N_of_ascii c) in
  if (48 <=? n) && (n <=? 57) then Some (n - 48) else None.

(** The loop of ParseUint(s, 10, 64) with accumulator [n]: a byte that is
    no digit is a syntax error; an overflow returns at once, before the
    rest of the string is looked at. *)
Fixpoint parseUintLoop (s : string) (n : Z) : Z * option error :=
  match s with
  | EmptyString => (n, None)
  | String c s' =>
      match digit c with
      | None => (0, Some ErrSyntax)
      | Some d =>
          if maxUint64 / 10 + 1 <=? n then (maxUint64, Some ErrRange)
          else
            let n10 := n * 10 in
            let n1 := (n10 + d) mod 2 ^ 64 in
            if (n1 <? n10) || (maxUint64 <? n1) then (maxUint64, Some ErrRange)
            else parseUintLoop s' n1
      end
  end.

Definition ParseUint (s : string) : Z * option error :=
  match s with
  | EmptyString => (0, Some ErrSyntax)
  | _ => parseUintLoop s 0
  end.

(** ParseInt(s, 10, 64) *)
Definition ParseInt (s : string) : Z * option error :=
  match s with
  | EmptyString => (0, Some ErrSyntax)
  | String c rest =>
      let neg := Ascii.eqb c "-" in
      let s1 := if Ascii.eqb c "+" || Ascii.eqb c "-" then rest else s in
      match ParseUint s1 with
      | (_, Some ErrSyntax) => (0, Some ErrSyntax)
      | (un, _) =>
          let cutoff := 2 ^ 63 in
          if negb neg && (cutoff <=? un) then (cutoff - 1, Some ErrRange)
          else if neg && (cutoff <? un) then (- cutoff, Some ErrRange)
          else (if neg then - un else un, None)
      end
  end.

(** The fast path of Atoi: plain accumulation, no overflow possible on
    fewer than 19 bytes. *)
Fixpoint atoiLoop (s : string) (n : Z) : Z * option error :=
  match s with
  | EmptyString => (n, None)
  | String c s' =>
      match digit c with
      | None => (0, Some ErrSyntax)
      | Some d => atoiLoop s' (n * 10 + d)
      end
  end.

(** strconv.Atoi on a 64-bit platform. *)
Definition Atoi (s : string) : Z * option error :=
  let sLen := String.length s in
  if ((0 <? sLen) && (sLen <? 19))%nat then
    match s with
    | EmptyString => (0, Some ErrSyntax)
    | String c rest =>
        let signed := Ascii.eqb c "-" || Ascii.eqb c "+" in
        let s1 := if signed then rest else s in
        if signed && (String.length s1 <? 1)%nat then (0, Some ErrSyntax)
        else
          match atoiLoop s1 0 with
          | (n, None) => (if Ascii.eqb c "-" then - n else n, None)
          | r => r
          end
    end
  else ParseInt s.

(** strconv.ParseBool *)
Definition ParseBool (s : string) : option bool :=
  if existsb (String.eqb s) ["1"; "t"; "T"; "TRUE"; "true"; "True"] then Some true
  else if existsb (String.eqb s) ["0"; "f"; "F"; "FALSE"; "false"; "False"] then Some false
  else None.

Definition FormatBool (b : bool) : string := if b then "true" else "false".

Definition isDigit (c : ascii) : bool :=
  match digit c with Some _ => true | None => false end.



End strconv.


(* ===================================================================== *)
(** ** Package math/rand *)
(* ===================================================================== *)

Module rand.

(** The process-wide source: an unending sequence of raw draws and the
    number of draws consumed so far. *)
Record Source := { raw : nat → Z; used : nat }.

(** rand.Intn(n), for [0 < n]: consumes one draw and returns a number of
    the half-open interval [0, n).  Which number of the interval a raw
    draw is turned into is immaterial below; the reduction modulo [n]
    reaches every one of them. *)
Definition Intn (n : Z) (src : Source) : Z * Source :=
  (raw src (used src) mod n, {| raw := raw src; used := S (used src) |}).

End rand.

(* ===================================================================== *)
(** ** Package encoding/xml *)
(* ===================================================================== *)

Module xml.

Definition quote : string := String "034"%char EmptyString.
Definition newline : string := String "010"%char EmptyString.

(** xml.Header *)
Definition Header : string :=
  "<?xml version=" +:+ quote +:+ "1.0" +:+ quote +:+
  " encoding=" +:+ quote +:+ "UTF-8" +:+ quote +:+ "?>" +:+ newline.

Record Name := { Space : string; Local : string }.
Record Attr := { Attr_Name : Name; Attr_Value : string }.

Inductive Token :=
| StartElement (name : Name) (attr : list Attr)
| EndElement (name : Name)
| CharData (data : string)
| Comment (data : string)
| ProcInst (target inst : string)
| Directive (data : string).

(** A document as the encoder builds it and as the decoder reports it:
    elements with their attributes and ordered content.  A text node with
    no bytes stands for nothing written. *)
#[warnings="-register-all"]
Inductive Node :=
| Elem (name : Name) (attr : list Attr) (kids : list Node)
| Text (data : string).

Definition eqName (a b : Name) : bool :=
  String.eqb (Space a) (Space b) && String.eqb (Local a) (Local b).


(** The character data directly inside an element, in order. *)
Fixpoint chardata (kids : list Node) : string :=
  match kids with
  | [] => EmptyString
  | Text data :: rest => data +:+ chardata rest
  | Elem _ _ _ :: rest => chardata rest
  end.

(** *** Values: Marshal and Unmarshal by kind

    One instance per Go kind the sources use; [marshalValue] gets the
    element name the enclosing field supplies, [unmarshal] the value
    already stored at the destination and the element to read. *)
Class Value (A : Type) := {
  typeName : string;
  zero : A;
  isEmptyValue : A → bool;
  marshalValue : Name → A → list Node;
  unmarshal : A → Node → option A;
}.
Global Arguments typeName A {_}.
Global Arguments zero A {_}.

Definition kidsOf (n : Node) : list Node :=
  match n with Elem _ _ kids => kids | Text _ => [] end.

#[global] Instance string_Value : Value string := {|
  typeName := "string";
  zero := EmptyString;
  isEmptyValue s := String.eqb s EmptyString;
  marshalValue name s := [Elem name [] [Text s]];
  unmarshal _ n := Some (chardata (kidsOf n));
|}.

(** copyValue for the integer kinds: no data is 0, otherwise ParseInt of
    the trimmed data, whose error fails the whole Unmarshal. *)
Definition parseInt (data : string) : option Z :=
  if String.eqb data EmptyString then Some 0
  else match strconv.ParseInt (strings.TrimSpace data) with
       | (n, None) => Some n
       | (_, Some _) => None
       end.

#[global] Instance int_Value : Value Z := {|
  typeName := "int";
  zero := 0;
  isEmptyValue n := n =? 0;
  marshalValue name n := [Elem name [] [Text (strconv.Itoa n)]];
  unmarshal _ n := parseInt (chardata (kidsOf n));
|}.

Definition parseBool (data : string) : option bool :=
  if String.eqb data EmptyString then Some false
  else strconv.ParseBool (strings.TrimSpace data).

#[global] Instance bool_Value : Value bool := {|
  typeName := "bool";
  zero := false;
  isEmptyValue b := negb b;
  marshalValue name b := [Elem name [] [Text (strconv.FormatBool b)]];
  unmarshal _ n := parseBool (chardata (kidsOf n));
|}.

(** A pointer: nil writes nothing; reading allocates a zero value when
    the destination is nil. *)
#[global] Instance ptr_Value {A} `{Value A} : Value (option A) := {|
  typeName := typeName A;
  zero := None;
  isEmptyValue p := match p with None => true | Some _ => false end;
  marshalValue name p :=
    match p with None => [] | Some x => marshalValue name x end;
  unmarshal p n :=
    x ← unmarshal (default (zero A) p) n; Some (Some x);
|}.

(** A slice: one element per entry under the same name; reading grows
    the slice by one zero entry and reads into it. *)
#[global] Instance slice_Value {A} `{Value A} : Value (list A) := {|
  typeName := typeName A;
  zero := [];
  isEmptyValue l := match l with [] => true | _ => false end;
  marshalValue name l := flat_map (marshalValue name) l;
  unmarshal l n := x ← unmarshal (zero A) n; Some (l ++ [x]);
|}.

(** *** Structs: the field table of typeinfo.go

    One entry per tagged struct field, in declaration order, carrying
    what the tag says (name space, name, mode, omitempty) and the
    field's accessors. *)
Inductive fieldInfo (T : Type) :=
| fXMLName (xmlns name : string) (get : T → Name) (set : Name → T → T)
| fAttr (xmlns name : string) (omitempty : bool)
    (get : T → string) (set : string → T → T)
| fCharData (get : T → string) (set : string → T → T)
| fElement (xmlns name : string) (omitempty : bool)
    {F : Type} {V : Value F} (get : T → F) (set : F → T → T).
Global Arguments fXMLName {T}.
Global Arguments fAttr {T}.
Global Arguments fCharData {T}.
Global Arguments fElement {T} xmlns name omitempty {F V}.

Section Struct.
Context {T : Type}.
Variable tinfo : list (fieldInfo T).

(** tinfo.xmlname *)
Definition xmlname : option (fieldInfo T) :=
  List.find (λ f, match f with fXMLName _ _ _ _ => true | _ => false end) tinfo.

(** An element field tagged without a name space takes the one of the
    struct's XMLName tag. *)
Definition elemSpace (xmlns : string) : string :=
  if String.eqb xmlns EmptyString then
    match xmlname with
    | Some (fXMLName ns _ _ _) => ns
    | _ => EmptyString
    end
  else xmlns.

(** The name of the start tag: the XMLName tag, else the value of the
    XMLName field, else the name the caller supplies. *)
Definition startName (start : Name) (v : T) : Name :=
  match xmlname with
  | Some (fXMLName ns name get _) =>
      if negb (String.eqb name EmptyString) then {| Space := ns; Local := name |}
      else if negb (String.eqb (Local (get v)) EmptyString) then get v
      else start
  | _ => start
  end.

Definition marshalAttrs (v : T) : list Attr :=
  flat_map (λ f,
    match f with
    | fAttr xmlns name omitempty get _ =>
        if omitempty && String.eqb (get v) EmptyString then []
        else [{| Attr_Name := {| Space := xmlns; Local := name |};
                 Attr_Value := get v |}]
    | _ => []
    end) tinfo.

Definition marshalFields (v : T) : list Node :=
  flat_map (λ f,
    match f with
    | fCharData get _ => [Text (get v)]
    | fElement xmlns name omitempty get _ =>
        if omitempty && isEmptyValue (get v) then []
        else marshalValue {| Space := elemSpace xmlns; Local := name |} (get v)
    | _ => []
    end) tinfo.

Definition marshalStruct (start : Name) (v : T) : list Node :=
  [Elem (startName start v) (marshalAttrs v) (marshalFields v)].

(** Every attribute field the attribute matches is assigned. *)
Definition assignAttr (v : T) (a : Attr) : T :=
  fold_left (λ v f,
    match f with
    | fAttr xmlns name _ _ set =>
        if String.eqb (Local (Attr_Name a)) name
           && (String.eqb xmlns EmptyString
               || String.eqb xmlns (Space (Attr_Name a)))
        then set (Attr_Value a) v else v
    | _ => v
    end) tinfo v.

(** unmarshalPath: the first element field the start tag matches. *)
Definition matches (start : Name) (f : fieldInfo T) : bool :=
  match f with
  | fElement xmlns name _ _ _ =>
      (String.eqb (elemSpace xmlns) EmptyString
       || String.eqb (elemSpace xmlns) (Space start))
      && String.eqb name (Local start)
  | _ => false
  end.

(** One child of the element: a sub-element is read into the field it
    matches, or skipped when it matches none. *)
Definition unmarshalChild (v : T) (kid : Node) : option T :=
  match kid with
  | Text _ => Some v
  | Elem start _ _ =>
      match List.find (matches start) tinfo with
      | Some (fElement _ _ _ get set) =>
          x ← unmarshal (get v) kid; Some (set x v)
      | _ => Some v
      end
  end.

Fixpoint unmarshalChildren (v : T) (kids : list Node) : option T :=
  match kids with
  | [] => Some v
  | kid :: rest => v' ← unmarshalChild v kid; unmarshalChildren v' rest
  end.

(** The first chardata field receives the accumulated text. *)
Definition saveData (data : string) (v : T) : T :=
  match List.find (λ f, match f with fCharData _ _ => true | _ => false end) tinfo with
  | Some (fCharData _ set) => set data v
  | _ => v
  end.

Definition checkName (start : Name) (v : T) : option T :=
  match xmlname with
  | Some (fXMLName ns name _ set) =>
      if negb (String.eqb name EmptyString) && negb (String.eqb name (Local start))
      then None
      else if negb (String.eqb ns EmptyString) && negb (String.eqb ns (Space start))
      then None
      else Some (set start v)
  | _ => Some v
  end.

Definition unmarshalStruct (v : T) (n : Node) : option T :=
  match n with
  | Text _ => None
  | Elem start attr kids =>
      v1 ← checkName start v;
      v2 ← unmarshalChildren (fold_left assignAttr attr v1) kids;
      Some (saveData (chardata kids) v2)
  end.

Definition structValue (name : string) (z : T) : Value T := {|
  typeName := name;
  zero := z;
  isEmptyValue _ := false;
  marshalValue := marshalStruct;
  unmarshal := unmarshalStruct;
|}.
End Struct.

(** Marshal / Encoder.Encode of a value: the root element is named by
    the XMLName of the type or, failing that, by the type's name. *)
Definition Marshal {A} `{Value A} (v : A) : list Node :=
  marshalValue {| Space := EmptyString; Local := typeName A |} v.

(** *** The printer: a document as written

    Tags carry their names and attributes as they are spelled in the
    output; the lexical layer (escapes, quotes) is not represented. *)
#[warnings="-register-all"]
Inductive Raw :=
| RawElem (name : string) (attr : list (string * string)) (kids : list Raw)
| RawText (data : string).

(** The printer's name-space state: the prefixes created for attribute
    name spaces that are in scope (URL, prefix), and its counter. *)
Record printer := { attrPrefix : list (string * string); seq : nat }.

Definition isLetter (c : ascii) : bool :=
  let n := N_of_ascii c in
  (((65 <=? n) && (n <=? 90)) || ((97 <=? n) && (n <=? 122)))%N.

Definition isNameStart (c : ascii) : bool :=
  isLetter c || Ascii.eqb c "_" || Ascii.eqb c ":".

Definition isNameByte (c : ascii) : bool :=
  isNameStart c || strconv.isDigit c || Ascii.eqb c "-" || Ascii.eqb c ".".

(** isName on the one-byte range. *)
Definition isName (s : string) : bool :=
  match s with
  | EmptyString => false
  | String c rest => isNameStart c && forallb isNameByte (list_ascii_of_string rest)
  end.

Fixpoint trimRightSlash (s : string) : string :=
  match s with
  | EmptyString => EmptyString
  | String c s' =>
      match trimRightSlash s' with
      | EmptyString => if Ascii.eqb c "/" then EmptyString else String c EmptyString
      | t => String c t
      end
  end.

(** The part of [s] after its last slash, [s] itself when it has none. *)
Definition afterLastSlash (s : string) : string :=
  List.last (strings.Split s "/") s.

Definition startsWithXml (s : string) : bool :=
  match s with
  | String a (String b (String c _)) =>
      String.eqb (strings.ToLower (String a (String b (String c EmptyString)))) "xml"
  | _ => false
  end.

(** The name createAttrPrefix first tries for a name space. *)
Definition pickPrefix (url : string) : string :=
  let prefix := afterLastSlash (trimRightSlash url) in
  let prefix :=
    if String.eqb prefix EmptyString || negb (isName prefix) || strings.Contains prefix ":"
    then "_" else prefix in
  if startsWithXml prefix then "_" +:+ prefix else prefix.

Definition prefixTaken (env : list (string * string)) (prefix : string) : bool :=
  existsb (λ up, String.eqb (snd up) prefix) env.

(** The search for a free name: prefix_1, prefix_2, ... from the counter
    on. *)
Fixpoint freshPrefix (tries : nat) (env : list (string * string))
    (prefix : string) (n : nat) : string * nat :=
  let id := prefix +:+ "_" +:+ strconv.Itoa (Z.of_nat n) in
  match tries with
  | O => (id, n)
  | S tries' =>
      if prefixTaken env id then freshPrefix tries' env prefix (S n) else (id, n)
  end.

Definition xmlURL : string := "http://www.w3.org/XML/1998/namespace".

(** createAttrPrefix: the prefix for [url], together with the declaration
    it writes when the prefix is new. *)
Definition createAttrPrefix (url : string) (p : printer)
    : string * list (string * string) * printer :=
  match List.find (λ up, String.eqb (fst up) url) (attrPrefix p) with
  | Some (_, prefix) => (prefix, [], p)
  | None =>
      if String.eqb url xmlURL then ("xml", [], p)
      else
        let prefix := pickPrefix url in
        let '(prefix, n) :=
          if prefixTaken (attrPrefix p) prefix
          then freshPrefix (length (attrPrefix p)) (attrPrefix p) prefix (S (seq p))
          else (prefix, seq p) in
        (prefix, [("xmlns:" +:+ prefix, url)],
         {| attrPrefix := (url, prefix) :: attrPrefix p; seq := n |})
  end.

(** The attributes of a start tag as writeStart spells them. *)
Fixpoint printAttrs (attr : list Attr) (p : printer)
    : list (string * string) * printer :=
  match attr with
  | [] => ([], p)
  | a :: rest =>
      let name := Attr_Name a in
      let '(here, p1) :=
        if String.eqb (Local name) EmptyString then ([], p)
        else if String.eqb (Space name) EmptyString
        then ([(Local name, Attr_Value a)], p)
        else
          let '(prefix, decl, p') := createAttrPrefix (Space name) p in
          (decl ++ [(prefix +:+ ":" +:+ Local name, Attr_Value a)], p') in
      let '(others, p2) := printAttrs rest p1 in
      (here ++ others, p2)
  end.

(** writeStart, the content, writeEnd: the element is written under its
    local name, with a default name-space declaration when it has a name
    space; the prefixes created inside go out of scope at its end. *)
Fixpoint print (n : Node) (p : printer) : Raw * printer :=
  match n with
  | Text data => (RawText data, p)
  | Elem name attr kids =>
      let xmlns :=
        if String.eqb (Space name) EmptyString then []
        else [("xmlns", Space name)] in
      let '(rattr, p1) := printAttrs attr p in
      let '(rkids, p2) :=
        (fix printAll (kids : list Node) (p : printer) : list Raw * printer :=
           match kids with
           | [] => ([], p)
           | kid :: rest =>
               let '(r, p') := print kid p in
               let '(rs, p'') := printAll rest p' in
               (r :: rs, p'')
           end) kids p1 in
      (RawElem (Local name) (xmlns ++ rattr) rkids,
       {| attrPrefix := attrPrefix p; seq := seq p2 |})
  end.

(** *** The tokenizer: a written document as Decoder.Token reports it *)

Fixpoint countColons (s : string) : nat :=
  match s with
  | EmptyString => O
  | String c s' => ((if Ascii.eqb c ":" then 1 else 0) + countColons s')%nat
  end.

(** strings.Cut(s, ":") *)
Fixpoint cutColon (s : string) : option (string * string) :=
  match s with
  | EmptyString => None
  | String c s' =>
      if Ascii.eqb c ":" then Some (EmptyString, s')
      else match cutColon s' with
           | Some (before, after) => Some (String c before, after)
           | None => None
           end
  end.

(** nsname: a spelled name is split at its colon into prefix and local
    part; more than one colon is a syntax error. *)
Definition nsname (s : string) : option Name :=
  if (1 <? countColons s)%nat then None
  else match cutColon s with
       | Some (space, local) =>
           if String.eqb space EmptyString || String.eqb local EmptyString
           then Some {| Space := EmptyString; Local := s |}
           else Some {| Space := space; Local := local |}
       | None => Some {| Space := EmptyString; Local := s |}
       end.

Definition lookupNs (ns : list (string * string)) (prefix : string) : option string :=
  snd <$> List.find (λ pu, String.eqb (fst pu) prefix) ns.

(** Decoder.translate: an element name without prefix takes the default
    name space, a prefixed name the name space its prefix is bound to; an
    unbound prefix stays as it is. *)
Definition translate (ns : list (string * string)) (n : Name) (isElementName : bool) : Name :=
  if String.eqb (Space n) "xmlns" then n
  else if String.eqb (Space n) EmptyString && negb isElementName then n
  else if String.eqb (Space n) EmptyString && String.eqb (Local n) "xmlns" then n
  else
    let space := if String.eqb (Space n) "xml" then xmlURL else Space n in
    match lookupNs ns space with
    | Some url => {| Space := url; Local := Local n |}
    | None => {| Space := space; Local := Local n |}
    end.

(** The name-space declarations among the attributes of a start tag. *)
Definition declare (ns : list (string * string)) (a : Attr) : list (string * string) :=
  let name := Attr_Name a in
  if String.eqb (Space name) "xmlns" then (Local name, Attr_Value a) :: ns
  else if String.eqb (Space name) EmptyString && String.eqb (Local name) "xmlns"
  then (EmptyString, Attr_Value a) :: ns
  else ns.

Fixpoint readAttrs (attr : list (string * string)) : option (list Attr) :=
  match attr with
  | [] => Some []
  | (k, v) :: rest =>
      name ← nsname k;
      others ← readAttrs rest;
      Some ({| Attr_Name := name; Attr_Value := v |} :: others)
  end.

Fixpoint tokenize (ns : list (string * string)) (r : Raw) : option Node :=
  match r with
  | RawText data => Some (Text data)
  | RawElem name attr kids =>
      n ← nsname name;
      attr' ← readAttrs attr;
      let ns' := fold_left declare attr' ns in
      kids' ← (fix tokenizeAll (kids : list Raw) : option (list Node) :=
                 match kids with
                 | [] => Some []
                 | kid :: rest =>
                     k ← tokenize ns' kid;
                     ks ← tokenizeAll rest;
                     Some (k :: ks)
                 end) kids;
      Some (Elem (translate ns' n true)
              (List.map (λ a, {| Attr_Name := translate ns' (Attr_Name a) false;
                                 Attr_Value := Attr_Value a |}) attr')
              kids')
  end.

(** A marshalled element as a Decoder reads it back: printed, then
    tokenized.  [None] is a syntax error. *)
Definition reread (n : Node) : option Node :=
  tokenize [] (fst (print n {| attrPrefix := []; seq := 0 |})).

(** Unmarshal(data, &v) on the output of Marshal for a zero [v]: the
    first element of the document is read into [v]. *)
Definition Unmarshal {A} `{Value A} (doc : list Node) : option A :=
  match doc with
  | n :: _ => n' ← reread n; unmarshal (zero A) n'
  | [] => None
  end.

(** *** Looking into a document *)

(** The value of the attribute of local name [local] on an element. *)
Definition attrOf (n : Node) (local : string) : option string :=
  match n with
  | Elem _ attr _ =>
      Attr_Value <$> List.find (λ a, String.eqb (Local (Attr_Name a)) local) attr
  | Text _ => None
  end.

Definition isElemNamed (local : string) (n : Node) : bool :=
  match n with
  | Elem name _ _ => String.eqb (Local name) local
  | Text _ => false
  end.

(** The character data of the first child element of local name [local]. *)
Definition childOf (n : Node) (local : string) : option string :=
  (λ kid, chardata (kidsOf kid)) <$> List.find (isElemNamed local) (kidsOf n).

(** Whether an element of local name [local] occurs anywhere in the
    document. *)
Fixpoint occurs (local : string) (n : Node) : bool :=
  match n with
  | Text _ => false
  | Elem name _ kids =>
      String.eqb (Local name) local
      || (fix occursAny (kids : list Node) : bool :=
            match kids with
            | [] => false
            | kid :: rest => occurs local kid || occursAny rest
            end) kids
  end.

Definition occursIn (local : string) (doc : list Node) : bool :=
  existsb (occurs local) doc.

End xml.

(* ===================================================================== *)
(** ** Package encoding/json *)
(* ===================================================================== *)

Module json.

(** A JSON document.  An object keeps its members in the order they are
    written. *)
#[warnings="-register-all"]
Inductive Tree :=
| JNull
| JBool (b : bool)
| JNumber (n : Z)
| JString (s : string)
| JArray (items : list Tree)
| JObject (members : list (string * Tree)).

Class Value (A : Type) := {
  isEmptyValue : A → bool;
  marshal : A → Tree;
}.

#[global] Instance string_Value : Value string := {|
  isEmptyValue s := String.eqb s EmptyString;
  marshal s := JString s;
|}.

#[global] Instance int_Value : Value Z := {|
  isEmptyValue n := n =? 0;
  marshal n := JNumber n;
|}.

#[global] Instance bool_Value : Value bool := {|
  isEmptyValue b := negb b;
  marshal b := JBool b;
|}.

(** A nil pointer is null. *)
#[global] Instance ptr_Value {A} `{Value A} : Value (option A) := {|
  isEmptyValue p := match p with None => true | Some _ => false end;
  marshal p := match p with None => JNull | Some x => marshal x end;
|}.

(** A slice is an array, in order.  (A nil slice, which Go writes as
    null, is not told apart from the empty slice here.) *)
#[global] Instance slice_Value {A} `{Value A} : Value (list A) := {|
  isEmptyValue l := match l with [] => true | _ => false end;
  marshal l := JArray (List.map marshal l);
|}.

(** One entry per struct field with a json tag other than "-". *)
Inductive fieldInfo (T : Type) :=
| field (name : string) (omitEmpty : bool) {F : Type} {V : Value F} (get : T → F).
Global Arguments field {T} name omitEmpty {F V}.

Definition marshalStruct {T} (tinfo : list (fieldInfo T)) (v : T) : Tree :=
  JObject (flat_map (λ f,
    match f with
    | field name omitEmpty get =>
        if omitEmpty && isEmptyValue (get v) then []
        else [(name, marshal (get v))]
    end) tinfo).

Definition structValue {T} (tinfo : list (fieldInfo T)) : Value T := {|
  isEmptyValue _ := false;
  marshal := marshalStruct tinfo;
|}.

(** *** Looking into a JSON document *)

(** The member of key [key] of an object. *)
Definition member (t : Tree) (key : string) : option Tree :=
  match t with
  | JObject members => snd <$> List.find (λ kv, String.eqb (fst kv) key) members
  | _ => None
  end.

(** Whether [key] is a key of some object anywhere in the document. *)
Fixpoint hasKey (key : string) (t : Tree) : bool :=
  match t with
  | JObject members =>
      (fix any (ms : list (string * Tree)) : bool :=
         match ms with
         | [] => false
         | (k, v) :: rest => String.eqb k key || hasKey key v || any rest
         end) members
  | JArray items =>
      (fix any (ts : list Tree) : bool :=
         match ts with
         | [] => false
         | t :: rest => hasKey key t || any rest
         end) items
  | _ => false
  end.

End json.

(* ===================================================================== *)
(** ** main.go: data models *)
(* ===================================================================== *)

(** type TokenResponse: the OAuth 2.0 response (JSON only) *)
Record TokenResponse := {
  TokenResponse_AccessToken : string;
  TokenResponse_TokenType : string;
  TokenResponse_RefreshToken : string;
  TokenResponse_ExpiresIn : Z;
  TokenResponse_Scope : string;
  TokenResponse_Name : string;
  TokenResponse_ORCID : string;
}.

Definition TokenResponse_jinfo : list (json.fieldInfo TokenResponse) := [
  json.field "access_token" false TokenResponse_AccessToken;
  json.field "token_type" false TokenResponse_TokenType;
  json.field "refresh_token" false TokenResponse_RefreshToken;
  json.field "expires_in" false TokenResponse_ExpiresIn;
  json.field "scope" false TokenResponse_Scope;
  json.field "name" false TokenResponse_Name;
  json.field "orcid" false TokenResponse_ORCID
].

#[export] Instance TokenResponse_json : json.Value TokenResponse :=
  json.structValue TokenResponse_jinfo.

(** type OrcidIdentifier *)
Record OrcidIdentifier := {
  OrcidIdentifier_Uri : string;
  OrcidIdentifier_Path : string;
  OrcidIdentifier_Host : string;
}.

Definition OrcidIdentifier_zero : OrcidIdentifier :=
  {| OrcidIdentifier_Uri := EmptyString; OrcidIdentifier_Path := EmptyString; OrcidIdentifier_Host := EmptyString |}.

Definition set_OrcidIdentifier_Uri (x : string) (v : OrcidIdentifier) : OrcidIdentifier :=
  {| OrcidIdentifier_Uri := x; OrcidIdentifier_Path := OrcidIdentifier_Path v; OrcidIdentifier_Host := OrcidIdentifier_Host v |}.
Definition set_OrcidIdentifier_Path (x : string) (v : OrcidIdentifier) : OrcidIdentifier :=
  {| OrcidIdentifier_Uri := OrcidIdentifier_Uri v; OrcidIdentifier_Path := x; OrcidIdentifier_Host := OrcidIdentifier_Host v |}.
Definition set_OrcidIdentifier_Host (x : string) (v : OrcidIdentifier) : OrcidIdentifier :=
  {| OrcidIdentifier_Uri := OrcidIdentifier_Uri v; OrcidIdentifier_Path := OrcidIdentifier_Path v; OrcidIdentifier_Host := x |}.

Definition OrcidIdentifier_tinfo : list (xml.fieldInfo OrcidIdentifier) := [
  xml.fElement EmptyString "uri" false OrcidIdentifier_Uri set_OrcidIdentifier_Uri;
  xml.fElement EmptyString "path" false OrcidIdentifier_Path set_OrcidIdentifier_Path;
  xml.fElement EmptyString "host" false OrcidIdentifier_Host set_OrcidIdentifier_Host
].

#[export] Instance OrcidIdentifier_xml : xml.Value OrcidIdentifier :=
  xml.structValue OrcidIdentifier_tinfo "OrcidIdentifier" OrcidIdentifier_zero.

Definition OrcidIdentifier_jinfo : list (json.fieldInfo OrcidIdentifier) := [
  json.field "uri" false OrcidIdentifier_Uri;
  json.field "path" false OrcidIdentifier_Path;
  json.field "host" false OrcidIdentifier_Host
].

#[export] Instance OrcidIdentifier_json : json.Value OrcidIdentifier :=
  json.structValue OrcidIdentifier_jinfo.

(** type Value: the one-field wrapper of a scalar *)
Record Value := {
  Value_Value : string;
}.

Definition Value_zero : Value :=
  {| Value_Value := EmptyString |}.

Definition set_Value_Value (x : string) (v : Value) : Value :=
  {| Value_Value := x |}.

Definition Value_tinfo : list (xml.fieldInfo Value) := [
  xml.fElement EmptyString "value" false Value_Value set_Value_Value
].

#[export] Instance Value_xml : xml.Value Value :=
  xml.structValue Value_tinfo "Value" Value_zero.

Definition Value_jinfo : list (json.fieldInfo Value) := [
  json.field "value" false Value_Value
].

#[export] Instance Value_json : json.Value Value :=
  json.structValue Value_jinfo.

(** type Name *)
Record Name := {
  Name_GivenNames : Value;
  Name_FamilyName : Value;
  Name_CreditName : Value;
}.

Definition Name_zero : Name :=
  {| Name_GivenNames := Value_zero; Name_FamilyName := Value_zero; Name_CreditName := Value_zero |}.

Definition set_Name_GivenNames (x : Value) (v : Name) : Name :=
  {| Name_GivenNames := x; Name_FamilyName := Name_FamilyName v; Name_CreditName := Name_CreditName v |}.
Definition set_Name_FamilyName (x : Value) (v : Name) : Name :=
  {| Name_GivenNames := Name_GivenNames v; Name_FamilyName := x; Name_CreditName := Name_CreditName v |}.
Definition set_Name_CreditName (x : Value) (v : Name) : Name :=
  {| Name_GivenNames := Name_GivenNames v; Name_FamilyName := Name_FamilyName v; Name_CreditName := x |}.

Definition Name_tinfo : list (xml.fieldInfo Name) := [
  xml.fElement EmptyString "given-names" false Name_GivenNames set_Name_GivenNames;
  xml.fElement EmptyString "family-name" false Name_FamilyName set_Name_FamilyName;
  xml.fElement EmptyString "credit-name" false Name_CreditName set_Name_CreditName
].

#[export] Instance Name_xml : xml.Value Name :=
  xml.structValue Name_tinfo "Name" Name_zero.

Definition Name_jinfo : list (json.fieldInfo Name) := [
  json.field "given-names" false Name_GivenNames;
  json.field "family-name" false Name_FamilyName;
  json.field "credit-name" false Name_CreditName
].

#[export] Instance Name_json : json.Value Name :=
  json.structValue Name_jinfo.

(** type Biography *)
Record Biography := {
  Biography_Content : string;
}.

Definition Biography_zero : Biography :=
  {| Biography_Content := EmptyString |}.

Definition set_Biography_Content (x : string) (v : Biography) : Biography :=
  {| Biography_Content := x |}.

Definition Biography_tinfo : list (xml.fieldInfo Biography) := [
  xml.fElement EmptyString "content" false Biography_Content set_Biography_Content
].

#[export] Instance Biography_xml : xml.Value Biography :=
  xml.structValue Biography_tinfo "Biography" Biography_zero.

Definition Biography_jinfo : list (json.fieldInfo Biography) := [
  json.field "content" false Biography_Content
].

#[export] Instance Biography_json : json.Value Biography :=
  json.structValue Biography_jinfo.

(** type Email *)
Record Email := {
  Email_Email : string;
  Email_Verified : bool;
  Email_Primary : bool;
  Email_Visibility : string;
}.

Definition Email_zero : Email :=
  {| Email_Email := EmptyString; Email_Verified := false; Email_Primary := false; Email_Visibility := EmptyString |}.

Definition set_Email_Email (x : string) (v : Email) : Email :=
  {| Email_Email := x; Email_Verified := Email_Verified v; Email_Primary := Email_Primary v; Email_Visibility := Email_Visibility v |}.
Definition set_Email_Verified (x : bool) (v : Email) : Email :=
  {| Email_Email := Email_Email v; Email_Verified := x; Email_Primary := Email_Primary v; Email_Visibility := Email_Visibility v |}.
Definition set_Email_Primary (x : bool) (v : Email) : Email :=
  {| Email_Email := Email_Email v; Email_Verified := Email_Verified v; Email_Primary := x; Email_Visibility := Email_Visibility v |}.
Definition set_Email_Visibility (x : string) (v : Email) : Email :=
  {| Email_Email := Email_Email v; Email_Verified := Email_Verified v; Email_Primary := Email_Primary v; Email_Visibility := x |}.

Definition Email_tinfo : list (xml.fieldInfo Email) := [
  xml.fElement EmptyString "email" false Email_Email set_Email_Email;
  xml.fElement EmptyString "verified" false Email_Verified set_Email_Verified;
  xml.fElement EmptyString "primary" false Email_Primary set_Email_Primary;
  xml.fElement EmptyString "visibility" false Email_Visibility set_Email_Visibility
].

#[export] Instance Email_xml : xml.Value Email :=
  xml.structValue Email_tinfo "Email" Email_zero.

Definition Email_jinfo : list (json.fieldInfo Email) := [
  json.field "email" false Email_Email;
  json.field "verified" false Email_Verified;
  json.field "primary" false Email_Primary;
  json.field "visibility" false Email_Visibility
].

#[export] Instance Email_json : json.Value Email :=
  json.structValue Email_jinfo.

(** type Emails *)
Record Emails := {
  Emails_Email : list Email;
}.

Definition Emails_zero : Emails :=
  {| Emails_Email := [] |}.

Definition set_Emails_Email (x : list Email) (v : Emails) : Emails :=
  {| Emails_Email := x |}.

Definition Emails_tinfo : list (xml.fieldInfo Emails) := [
  xml.fElement EmptyString "email" false Emails_Email set_Emails_Email
].

#[export] Instance Emails_xml : xml.Value Emails :=
  xml.structValue Emails_tinfo "Emails" Emails_zero.

Definition Emails_jinfo : list (json.fieldInfo Emails) := [
  json.field "email" false Emails_Email
].

#[export] Instance Emails_json : json.Value Emails :=
  json.structValue Emails_jinfo.

(** type ResearcherUrl *)
Record ResearcherUrl := {
  ResearcherUrl_UrlName : string;
  ResearcherUrl_Url : Value;
}.

Definition ResearcherUrl_zero : ResearcherUrl :=
  {| ResearcherUrl_UrlName := EmptyString; ResearcherUrl_Url := Value_zero |}.

Definition set_ResearcherUrl_UrlName (x : string) (v : ResearcherUrl) : ResearcherUrl :=
  {| ResearcherUrl_UrlName := x; ResearcherUrl_Url := ResearcherUrl_Url v |}.
Definition set_ResearcherUrl_Url (x : Value) (v : ResearcherUrl) : ResearcherUrl :=
  {| ResearcherUrl_UrlName := ResearcherUrl_UrlName v; ResearcherUrl_Url := x |}.

Definition ResearcherUrl_tinfo : list (xml.fieldInfo ResearcherUrl) := [
  xml.fElement EmptyString "url-name" false ResearcherUrl_UrlName set_ResearcherUrl_UrlName;
  xml.fElement EmptyString "url" false ResearcherUrl_Url set_ResearcherUrl_Url
].

#[export] Instance ResearcherUrl_xml : xml.Value ResearcherUrl :=
  xml.structValue ResearcherUrl_tinfo "ResearcherUrl" ResearcherUrl_zero.

Definition ResearcherUrl_jinfo : list (json.fieldInfo ResearcherUrl) := [
  json.field "url-name" false ResearcherUrl_UrlName;
  json.field "url" false ResearcherUrl_Url
].

#[export] Instance ResearcherUrl_json : json.Value ResearcherUrl :=
  json.structValue ResearcherUrl_jinfo.

(** type ResearcherUrls *)
Record ResearcherUrls := {
  ResearcherUrls_ResearcherUrl : list ResearcherUrl;
}.

Definition ResearcherUrls_zero : ResearcherUrls :=
  {| ResearcherUrls_ResearcherUrl := [] |}.

Definition set_ResearcherUrls_ResearcherUrl (x : list ResearcherUrl) (v : ResearcherUrls) : ResearcherUrls :=
  {| ResearcherUrls_ResearcherUrl := x |}.

Definition ResearcherUrls_tinfo : list (xml.fieldInfo ResearcherUrls) := [
  xml.fElement EmptyString "researcher-url" false ResearcherUrls_ResearcherUrl set_ResearcherUrls_ResearcherUrl
].

#[export] Instance ResearcherUrls_xml : xml.Value ResearcherUrls :=
  xml.structValue ResearcherUrls_tinfo "ResearcherUrls" ResearcherUrls_zero.

Definition ResearcherUrls_jinfo : list (json.fieldInfo ResearcherUrls) := [
  json.field "researcher-url" false ResearcherUrls_ResearcherUrl
].

#[export] Instance ResearcherUrls_json : json.Value ResearcherUrls :=
  json.structValue ResearcherUrls_jinfo.

(** type Person: the three optional parts are pointers *)
Record Person := {
  Person_Name : Name;
  Person_Biography : option Biography;
  Person_Emails : option Emails;
  Person_ResearcherUrls : option ResearcherUrls;
}.

Definition Person_zero : Person :=
  {| Person_Name := Name_zero; Person_Biography := None; Person_Emails := None; Person_ResearcherUrls := None |}.

Definition set_Person_Name (x : Name) (v : Person) : Person :=
  {| Person_Name := x; Person_Biography := Person_Biography v; Person_Emails := Person_Emails v; Person_ResearcherUrls := Person_ResearcherUrls v |}.
Definition set_Person_Biography (x : option Biography) (v : Person) : Person :=
  {| Person_Name := Person_Name v; Person_Biography := x; Person_Emails := Person_Emails v; Person_ResearcherUrls := Person_ResearcherUrls v |}.
Definition set_Person_Emails (x : option Emails) (v : Person) : Person :=
  {| Person_Name := Person_Name v; Person_Biography := Person_Biography v; Person_Emails := x; Person_ResearcherUrls := Person_ResearcherUrls v |}.
Definition set_Person_ResearcherUrls (x : option ResearcherUrls) (v : Person) : Person :=
  {| Person_Name := Person_Name v; Person_Biography := Person_Biography v; Person_Emails := Person_Emails v; Person_ResearcherUrls := x |}.

Definition Person_tinfo : list (xml.fieldInfo Person) := [
  xml.fElement EmptyString "name" false Person_Name set_Person_Name;
  xml.fElement EmptyString "biography" true Person_Biography set_Person_Biography;
  xml.fElement EmptyString "emails" true Person_Emails set_Person_Emails;
  xml.fElement EmptyString "researcher-urls" true Person_ResearcherUrls set_Person_ResearcherUrls
].

#[export] Instance Person_xml : xml.Value Person :=
  xml.structValue Person_tinfo "Person" Person_zero.

Definition Person_jinfo : list (json.fieldInfo Person) := [
  json.field "name" false Person_Name;
  json.field "biography" true Person_Biography;
  json.field "emails" true Person_Emails;
  json.field "researcher-urls" true Person_ResearcherUrls
].

#[export] Instance Person_json : json.Value Person :=
  json.structValue Person_jinfo.

(** type Title *)
Record Title := {
  Title_Title : Value;
}.

Definition Title_zero : Title :=
  {| Title_Title := Value_zero |}.

Definition set_Title_Title (x : Value) (v : Title) : Title :=
  {| Title_Title := x |}.

Definition Title_tinfo : list (xml.fieldInfo Title) := [
  xml.fElement EmptyString "title" false Title_Title set_Title_Title
].

#[export] Instance Title_xml : xml.Value Title :=
  xml.structValue Title_tinfo "Title" Title_zero.

Definition Title_jinfo : list (json.fieldInfo Title) := [
  json.field "title" false Title_Title
].

#[export] Instance Title_json : json.Value Title :=
  json.structValue Title_jinfo.

(** type LastModified: a Unix timestamp *)
Record LastModified := {
  LastModified_Value : Z;
}.

Definition LastModified_zero : LastModified :=
  {| LastModified_Value := 0 |}.

Definition set_LastModified_Value (x : Z) (v : LastModified) : LastModified :=
  {| LastModified_Value := x |}.

Definition LastModified_tinfo : list (xml.fieldInfo LastModified) := [
  xml.fElement EmptyString "value" false LastModified_Value set_LastModified_Value
].

#[export] Instance LastModified_xml : xml.Value LastModified :=
  xml.structValue LastModified_tinfo "LastModified" LastModified_zero.

Definition LastModified_jinfo : list (json.fieldInfo LastModified) := [
  json.field "value" false LastModified_Value
].

#[export] Instance LastModified_json : json.Value LastModified :=
  json.structValue LastModified_jinfo.

(** type WorkSummary *)
Record WorkSummary := {
  WorkSummary_PutCode : Z;
  WorkSummary_Title : Title;
  WorkSummary_Type : string;
  WorkSummary_LastModified : LastModified;
}.

Definition WorkSummary_zero : WorkSummary :=
  {| WorkSummary_PutCode := 0; WorkSummary_Title := Title_zero; WorkSummary_Type := EmptyString; WorkSummary_LastModified := LastModified_zero |}.

Definition set_WorkSummary_PutCode (x : Z) (v : WorkSummary) : WorkSummary :=
  {| WorkSummary_PutCode := x; WorkSummary_Title := WorkSummary_Title v; WorkSummary_Type := WorkSummary_Type v; WorkSummary_LastModified := WorkSummary_LastModified v |}.
Definition set_WorkSummary_Title (x : Title) (v : WorkSummary) : WorkSummary :=
  {| WorkSummary_PutCode := WorkSummary_PutCode v; WorkSummary_Title := x; WorkSummary_Type := WorkSummary_Type v; WorkSummary_LastModified := WorkSummary_LastModified v |}.
Definition set_WorkSummary_Type (x : string) (v : WorkSummary) : WorkSummary :=
  {| WorkSummary_PutCode := WorkSummary_PutCode v; WorkSummary_Title := WorkSummary_Title v; WorkSummary_Type := x; WorkSummary_LastModified := WorkSummary_LastModified v |}.
Definition set_WorkSummary_LastModified (x : LastModified) (v : WorkSummary) : WorkSummary :=
  {| WorkSummary_PutCode := WorkSummary_PutCode v; WorkSummary_Title := WorkSummary_Title v; WorkSummary_Type := WorkSummary_Type v; WorkSummary_LastModified := x |}.

Definition WorkSummary_tinfo : list (xml.fieldInfo WorkSummary) := [
  xml.fElement EmptyString "put-code" false WorkSummary_PutCode set_WorkSummary_PutCode;
  xml.fElement EmptyString "title" false WorkSummary_Title set_WorkSummary_Title;
  xml.fElement EmptyString "type" false WorkSummary_Type set_WorkSummary_Type;
  xml.fElement EmptyString "last-modified-date" false WorkSummary_LastModified set_WorkSummary_LastModified
].

#[export] Instance WorkSummary_xml : xml.Value WorkSummary :=
  xml.structValue WorkSummary_tinfo "WorkSummary" WorkSummary_zero.

Definition WorkSummary_jinfo : list (json.fieldInfo WorkSummary) := [
  json.field "put-code" false WorkSummary_PutCode;
  json.field "title" false WorkSummary_Title;
  json.field "type" false WorkSummary_Type;
  json.field "last-modified-date" false WorkSummary_LastModified
].

#[export] Instance WorkSummary_json : json.Value WorkSummary :=
  json.structValue WorkSummary_jinfo.

(** type WorkGroup *)
Record WorkGroup := {
  WorkGroup_WorkSummary : list WorkSummary;
}.

Definition WorkGroup_zero : WorkGroup :=
  {| WorkGroup_WorkSummary := [] |}.

Definition set_WorkGroup_WorkSummary (x : list WorkSummary) (v : WorkGroup) : WorkGroup :=
  {| WorkGroup_WorkSummary := x |}.

Definition WorkGroup_tinfo : list (xml.fieldInfo WorkGroup) := [
  xml.fElement EmptyString "work-summary" false WorkGroup_WorkSummary set_WorkGroup_WorkSummary
].

#[export] Instance WorkGroup_xml : xml.Value WorkGroup :=
  xml.structValue WorkGroup_tinfo "WorkGroup" WorkGroup_zero.

Definition WorkGroup_jinfo : list (json.fieldInfo WorkGroup) := [
  json.field "work-summary" false WorkGroup_WorkSummary
].

#[export] Instance WorkGroup_json : json.Value WorkGroup :=
  json.structValue WorkGroup_jinfo.

(** type WorkSummaryGroup *)
Record WorkSummaryGroup := {
  WorkSummaryGroup_Group : list WorkGroup;
}.

Definition WorkSummaryGroup_zero : WorkSummaryGroup :=
  {| WorkSummaryGroup_Group := [] |}.

Definition set_WorkSummaryGroup_Group (x : list WorkGroup) (v : WorkSummaryGroup) : WorkSummaryGroup :=
  {| WorkSummaryGroup_Group := x |}.

Definition WorkSummaryGroup_tinfo : list (xml.fieldInfo WorkSummaryGroup) := [
  xml.fElement EmptyString "group" false WorkSummaryGroup_Group set_WorkSummaryGroup_Group
].

#[export] Instance WorkSummaryGroup_xml : xml.Value WorkSummaryGroup :=
  xml.structValue WorkSummaryGroup_tinfo "WorkSummaryGroup" WorkSummaryGroup_zero.

Definition WorkSummaryGroup_jinfo : list (json.fieldInfo WorkSummaryGroup) := [
  json.field "group" false WorkSummaryGroup_Group
].

#[export] Instance WorkSummaryGroup_json : json.Value WorkSummaryGroup :=
  json.structValue WorkSummaryGroup_jinfo.

(** type Org *)
Record Org := {
  Org_Name : string;
}.

Definition Org_zero : Org :=
  {| Org_Name := EmptyString |}.

Definition set_Org_Name (x : string) (v : Org) : Org :=
  {| Org_Name := x |}.

Definition Org_tinfo : list (xml.fieldInfo Org) := [
  xml.fElement EmptyString "name" false Org_Name set_Org_Name
].

#[export] Instance Org_xml : xml.Value Org :=
  xml.structValue Org_tinfo "Org" Org_zero.

Definition Org_jinfo : list (json.fieldInfo Org) := [
  json.field "name" false Org_Name
].

#[export] Instance Org_json : json.Value Org :=
  json.structValue Org_jinfo.

(** type EmploymentSummary *)
Record EmploymentSummary := {
  EmploymentSummary_PutCode : Z;
  EmploymentSummary_DepartmentName : string;
  EmploymentSummary_RoleTitle : string;
  EmploymentSummary_Organization : Org;
}.

Definition EmploymentSummary_zero : EmploymentSummary :=
  {| EmploymentSummary_PutCode := 0; EmploymentSummary_DepartmentName := EmptyString; EmploymentSummary_RoleTitle := EmptyString; EmploymentSummary_Organization := Org_zero |}.

Definition set_EmploymentSummary_PutCode (x : Z) (v : EmploymentSummary) : EmploymentSummary :=
  {| EmploymentSummary_PutCode := x; EmploymentSummary_DepartmentName := EmploymentSummary_DepartmentName v; EmploymentSummary_RoleTitle := EmploymentSummary_RoleTitle v; EmploymentSummary_Organization := EmploymentSummary_Organization v |}.
Definition set_EmploymentSummary_DepartmentName (x : string) (v : EmploymentSummary) : EmploymentSummary :=
  {| EmploymentSummary_PutCode := EmploymentSummary_PutCode v; EmploymentSummary_DepartmentName := x; EmploymentSummary_RoleTitle := EmploymentSummary_RoleTitle v; EmploymentSummary_Organization := EmploymentSummary_Organization v |}.
Definition set_EmploymentSummary_RoleTitle (x : string) (v : EmploymentSummary) : EmploymentSummary :=
  {| EmploymentSummary_PutCode := EmploymentSummary_PutCode v; EmploymentSummary_DepartmentName := EmploymentSummary_DepartmentName v; EmploymentSummary_RoleTitle := x; EmploymentSummary_Organization := EmploymentSummary_Organization v |}.
Definition set_EmploymentSummary_Organization (x : Org) (v : EmploymentSummary) : EmploymentSummary :=
  {| EmploymentSummary_PutCode := EmploymentSummary_PutCode v; EmploymentSummary_DepartmentName := EmploymentSummary_DepartmentName v; EmploymentSummary_RoleTitle := EmploymentSummary_RoleTitle v; EmploymentSummary_Organization := x |}.

Definition EmploymentSummary_tinfo : list (xml.fieldInfo EmploymentSummary) := [
  xml.fElement EmptyString "put-code" false EmploymentSummary_PutCode set_EmploymentSummary_PutCode;
  xml.fElement EmptyString "department-name" false EmploymentSummary_DepartmentName set_EmploymentSummary_DepartmentName;
  xml.fElement EmptyString "role-title" false EmploymentSummary_RoleTitle set_EmploymentSummary_RoleTitle;
  xml.fElement EmptyString "organization" false EmploymentSummary_Organization set_EmploymentSummary_Organization
].

#[export] Instance EmploymentSummary_xml : xml.Value EmploymentSummary :=
  xml.structValue EmploymentSummary_tinfo "EmploymentSummary" EmploymentSummary_zero.

Definition EmploymentSummary_jinfo : list (json.fieldInfo EmploymentSummary) := [
  json.field "put-code" false EmploymentSummary_PutCode;
  json.field "department-name" false EmploymentSummary_DepartmentName;
  json.field "role-title" false EmploymentSummary_RoleTitle;
  json.field "organization" false EmploymentSummary_Organization
].

#[export] Instance EmploymentSummary_json : json.Value EmploymentSummary :=
  json.structValue EmploymentSummary_jinfo.

(** type AffiliationGroup *)
Record AffiliationGroup := {
  AffiliationGroup_Summaries : list EmploymentSummary;
}.

Definition AffiliationGroup_zero : AffiliationGroup :=
  {| AffiliationGroup_Summaries := [] |}.

Definition set_AffiliationGroup_Summaries (x : list EmploymentSummary) (v : AffiliationGroup) : AffiliationGroup :=
  {| AffiliationGroup_Summaries := x |}.

Definition AffiliationGroup_tinfo : list (xml.fieldInfo AffiliationGroup) := [
  xml.fElement EmptyString "employment-summary" false AffiliationGroup_Summaries set_AffiliationGroup_Summaries
].

#[export] Instance AffiliationGroup_xml : xml.Value AffiliationGroup :=
  xml.structValue AffiliationGroup_tinfo "AffiliationGroup" AffiliationGroup_zero.

Definition AffiliationGroup_jinfo : list (json.fieldInfo AffiliationGroup) := [
  json.field "employment-summary" false AffiliationGroup_Summaries
].

#[export] Instance AffiliationGroup_json : json.Value AffiliationGroup :=
  json.structValue AffiliationGroup_jinfo.

(** type EmploymentSummaryGroup *)
Record EmploymentSummaryGroup := {
  EmploymentSummaryGroup_AffiliationGroup : list AffiliationGroup;
}.

Definition EmploymentSummaryGroup_zero : EmploymentSummaryGroup :=
  {| EmploymentSummaryGroup_AffiliationGroup := [] |}.

Definition set_EmploymentSummaryGroup_AffiliationGroup (x : list AffiliationGroup) (v : EmploymentSummaryGroup) : EmploymentSummaryGroup :=
  {| EmploymentSummaryGroup_AffiliationGroup := x |}.

Definition EmploymentSummaryGroup_tinfo : list (xml.fieldInfo EmploymentSummaryGroup) := [
  xml.fElement EmptyString "affiliation-group" false EmploymentSummaryGroup_AffiliationGroup set_EmploymentSummaryGroup_AffiliationGroup
].

#[export] Instance EmploymentSummaryGroup_xml : xml.Value EmploymentSummaryGroup :=
  xml.structValue EmploymentSummaryGroup_tinfo "EmploymentSummaryGroup" EmploymentSummaryGroup_zero.

Definition EmploymentSummaryGroup_jinfo : list (json.fieldInfo EmploymentSummaryGroup) := [
  json.field "affiliation-group" false EmploymentSummaryGroup_AffiliationGroup
].

#[export] Instance EmploymentSummaryGroup_json : json.Value EmploymentSummaryGroup :=
  json.structValue EmploymentSummaryGroup_jinfo.

(** type Activities *)
Record Activities := {
  Activities_Works : WorkSummaryGroup;
  Activities_Employment : EmploymentSummaryGroup;
}.

Definition Activities_zero : Activities :=
  {| Activities_Works := WorkSummaryGroup_zero; Activities_Employment := EmploymentSummaryGroup_zero |}.

Definition set_Activities_Works (x : WorkSummaryGroup) (v : Activities) : Activities :=
  {| Activities_Works := x; Activities_Employment := Activities_Employment v |}.
Definition set_Activities_Employment (x : EmploymentSummaryGroup) (v : Activities) : Activities :=
  {| Activities_Works := Activities_Works v; Activities_Employment := x |}.

Definition Activities_tinfo : list (xml.fieldInfo Activities) := [
  xml.fElement EmptyString "works" false Activities_Works set_Activities_Works;
  xml.fElement EmptyString "employments" false Activities_Employment set_Activities_Employment
].

#[export] Instance Activities_xml : xml.Value Activities :=
  xml.structValue Activities_tinfo "Activities" Activities_zero.

Definition Activities_jinfo : list (json.fieldInfo Activities) := [
  json.field "works" false Activities_Works;
  json.field "employments" false Activities_Employment
].

#[export] Instance Activities_json : json.Value Activities :=
  json.structValue Activities_jinfo.

(** type OrcidRecord: the root of the record response *)
Record OrcidRecord := {
  OrcidRecord_XMLName : xml.Name;
  OrcidRecord_OrcidIdentifier : OrcidIdentifier;
  OrcidRecord_Person : Person;
  OrcidRecord_Activities : Activities;
}.

Definition OrcidRecord_zero : OrcidRecord :=
  {| OrcidRecord_XMLName := {| xml.Space := EmptyString; xml.Local := EmptyString |}; OrcidRecord_OrcidIdentifier := OrcidIdentifier_zero; OrcidRecord_Person := Person_zero; OrcidRecord_Activities := Activities_zero |}.

Definition set_OrcidRecord_XMLName (x : xml.Name) (v : OrcidRecord) : OrcidRecord :=
  {| OrcidRecord_XMLName := x; OrcidRecord_OrcidIdentifier := OrcidRecord_OrcidIdentifier v; OrcidRecord_Person := OrcidRecord_Person v; OrcidRecord_Activities := OrcidRecord_Activities v |}.
Definition set_OrcidRecord_OrcidIdentifier (x : OrcidIdentifier) (v : OrcidRecord) : OrcidRecord :=
  {| OrcidRecord_XMLName := OrcidRecord_XMLName v; OrcidRecord_OrcidIdentifier := x; OrcidRecord_Person := OrcidRecord_Person v; OrcidRecord_Activities := OrcidRecord_Activities v |}.
Definition set_OrcidRecord_Person (x : Person) (v : OrcidRecord) : OrcidRecord :=
  {| OrcidRecord_XMLName := OrcidRecord_XMLName v; OrcidRecord_OrcidIdentifier := OrcidRecord_OrcidIdentifier v; OrcidRecord_Person := x; OrcidRecord_Activities := OrcidRecord_Activities v |}.
Definition set_OrcidRecord_Activities (x : Activities) (v : OrcidRecord) : OrcidRecord :=
  {| OrcidRecord_XMLName := OrcidRecord_XMLName v; OrcidRecord_OrcidIdentifier := OrcidRecord_OrcidIdentifier v; OrcidRecord_Person := OrcidRecord_Person v; OrcidRecord_Activities := x |}.

Definition OrcidRecord_tinfo : list (xml.fieldInfo OrcidRecord) := [
  xml.fXMLName EmptyString "record" OrcidRecord_XMLName set_OrcidRecord_XMLName;
  xml.fElement EmptyString "orcid-identifier" false OrcidRecord_OrcidIdentifier set_OrcidRecord_OrcidIdentifier;
  xml.fElement EmptyString "person" false OrcidRecord_Person set_OrcidRecord_Person;
  xml.fElement EmptyString "activities-summary" false OrcidRecord_Activities set_OrcidRecord_Activities
].

#[export] Instance OrcidRecord_xml : xml.Value OrcidRecord :=
  xml.structValue OrcidRecord_tinfo "OrcidRecord" OrcidRecord_zero.

Definition OrcidRecord_jinfo : list (json.fieldInfo OrcidRecord) := [
  json.field "orcid-identifier" false OrcidRecord_OrcidIdentifier;
  json.field "person" false OrcidRecord_Person;
  json.field "activities-summary" false OrcidRecord_Activities
].

#[export] Instance OrcidRecord_json : json.Value OrcidRecord :=
  json.structValue OrcidRecord_jinfo.

(** type SearchResult *)
Record SearchResult := {
  SearchResult_OrcidIdentifier : OrcidIdentifier;
}.

Definition SearchResult_zero : SearchResult :=
  {| SearchResult_OrcidIdentifier := OrcidIdentifier_zero |}.

Definition set_SearchResult_OrcidIdentifier (x : OrcidIdentifier) (v : SearchResult) : SearchResult :=
  {| SearchResult_OrcidIdentifier := x |}.

Definition SearchResult_tinfo : list (xml.fieldInfo SearchResult) := [
  xml.fElement EmptyString "orcid-identifier" false SearchResult_OrcidIdentifier set_SearchResult_OrcidIdentifier
].

#[export] Instance SearchResult_xml : xml.Value SearchResult :=
  xml.structValue SearchResult_tinfo "SearchResult" SearchResult_zero.

Definition SearchResult_jinfo : list (json.fieldInfo SearchResult) := [
  json.field "orcid-identifier" false SearchResult_OrcidIdentifier
].

#[export] Instance SearchResult_json : json.Value SearchResult :=
  json.structValue SearchResult_jinfo.

(** type SearchResponse *)
Record SearchResponse := {
  SearchResponse_XMLName : xml.Name;
  SearchResponse_Result : list SearchResult;
  SearchResponse_NumFound : Z;
}.

Definition SearchResponse_zero : SearchResponse :=
  {| SearchResponse_XMLName := {| xml.Space := EmptyString; xml.Local := EmptyString |}; SearchResponse_Result := []; SearchResponse_NumFound := 0 |}.

Definition set_SearchResponse_XMLName (x : xml.Name) (v : SearchResponse) : SearchResponse :=
  {| SearchResponse_XMLName := x; SearchResponse_Result := SearchResponse_Result v; SearchResponse_NumFound := SearchResponse_NumFound v |}.
Definition set_SearchResponse_Result (x : list SearchResult) (v : SearchResponse) : SearchResponse :=
  {| SearchResponse_XMLName := SearchResponse_XMLName v; SearchResponse_Result := x; SearchResponse_NumFound := SearchResponse_NumFound v |}.
Definition set_SearchResponse_NumFound (x : Z) (v : SearchResponse) : SearchResponse :=
  {| SearchResponse_XMLName := SearchResponse_XMLName v; SearchResponse_Result := SearchResponse_Result v; SearchResponse_NumFound := x |}.

Definition SearchResponse_tinfo : list (xml.fieldInfo SearchResponse) := [
  xml.fXMLName EmptyString "search:search" SearchResponse_XMLName set_SearchResponse_XMLName;
  xml.fElement EmptyString "result" false SearchResponse_Result set_SearchResponse_Result;
  xml.fElement EmptyString "num-found" false SearchResponse_NumFound set_SearchResponse_NumFound
].

#[export] Instance SearchResponse_xml : xml.Value SearchResponse :=
  xml.structValue SearchResponse_tinfo "SearchResponse" SearchResponse_zero.

Definition SearchResponse_jinfo : list (json.fieldInfo SearchResponse) := [
  json.field "result" false SearchResponse_Result;
  json.field "num-found" false SearchResponse_NumFound
].

#[export] Instance SearchResponse_json : json.Value SearchResponse :=
  json.structValue SearchResponse_jinfo.

(** type DateYear *)
Record DateYear := {
  DateYear_Year : Value;
}.

Definition DateYear_zero : DateYear :=
  {| DateYear_Year := Value_zero |}.

Definition set_DateYear_Year (x : Value) (v : DateYear) : DateYear :=
  {| DateYear_Year := x |}.

Definition DateYear_tinfo : list (xml.fieldInfo DateYear) := [
  xml.fElement EmptyString "year" false DateYear_Year set_DateYear_Year
].

#[export] Instance DateYear_xml : xml.Value DateYear :=
  xml.structValue DateYear_tinfo "DateYear" DateYear_zero.

Definition DateYear_jinfo : list (json.fieldInfo DateYear) := [
  json.field "year" false DateYear_Year
].

#[export] Instance DateYear_json : json.Value DateYear :=
  json.structValue DateYear_jinfo.

(** type GenericWorkResponse *)
Record GenericWorkResponse := {
  GenericWorkResponse_XMLName : xml.Name;
  GenericWorkResponse_Type : string;
  GenericWorkResponse_PutCode : Z;
  GenericWorkResponse_Title : Title;
  GenericWorkResponse_PublicationDate : DateYear;
}.

Definition GenericWorkResponse_zero : GenericWorkResponse :=
  {| GenericWorkResponse_XMLName := {| xml.Space := EmptyString; xml.Local := EmptyString |}; GenericWorkResponse_Type := EmptyString; GenericWorkResponse_PutCode := 0; GenericWorkResponse_Title := Title_zero; GenericWorkResponse_PublicationDate := DateYear_zero |}.

Definition set_GenericWorkResponse_XMLName (x : xml.Name) (v : GenericWorkResponse) : GenericWorkResponse :=
  {| GenericWorkResponse_XMLName := x; GenericWorkResponse_Type := GenericWorkResponse_Type v; GenericWorkResponse_PutCode := GenericWorkResponse_PutCode v; GenericWorkResponse_Title := GenericWorkResponse_Title v; GenericWorkResponse_PublicationDate := GenericWorkResponse_PublicationDate v |}.
Definition set_GenericWorkResponse_Type (x : string) (v : GenericWorkResponse) : GenericWorkResponse :=
  {| GenericWorkResponse_XMLName := GenericWorkResponse_XMLName v; GenericWorkResponse_Type := x; GenericWorkResponse_PutCode := GenericWorkResponse_PutCode v; GenericWorkResponse_Title := GenericWorkResponse_Title v; GenericWorkResponse_PublicationDate := GenericWorkResponse_PublicationDate v |}.
Definition set_GenericWorkResponse_PutCode (x : Z) (v : GenericWorkResponse) : GenericWorkResponse :=
  {| GenericWorkResponse_XMLName := GenericWorkResponse_XMLName v; GenericWorkResponse_Type := GenericWorkResponse_Type v; GenericWorkResponse_PutCode := x; GenericWorkResponse_Title := GenericWorkResponse_Title v; GenericWorkResponse_PublicationDate := GenericWorkResponse_PublicationDate v |}.
Definition set_GenericWorkResponse_Title (x : Title) (v : GenericWorkResponse) : GenericWorkResponse :=
  {| GenericWorkResponse_XMLName := GenericWorkResponse_XMLName v; GenericWorkResponse_Type := GenericWorkResponse_Type v; GenericWorkResponse_PutCode := GenericWorkResponse_PutCode v; GenericWorkResponse_Title := x; GenericWorkResponse_PublicationDate := GenericWorkResponse_PublicationDate v |}.
Definition set_GenericWorkResponse_PublicationDate (x : DateYear) (v : GenericWorkResponse) : GenericWorkResponse :=
  {| GenericWorkResponse_XMLName := GenericWorkResponse_XMLName v; GenericWorkResponse_Type := GenericWorkResponse_Type v; GenericWorkResponse_PutCode := GenericWorkResponse_PutCode v; GenericWorkResponse_Title := GenericWorkResponse_Title v; GenericWorkResponse_PublicationDate := x |}.

Definition GenericWorkResponse_tinfo : list (xml.fieldInfo GenericWorkResponse) := [
  xml.fXMLName EmptyString "work:work" GenericWorkResponse_XMLName set_GenericWorkResponse_XMLName;
  xml.fElement EmptyString "type" false GenericWorkResponse_Type set_GenericWorkResponse_Type;
  xml.fElement EmptyString "put-code" false GenericWorkResponse_PutCode set_GenericWorkResponse_PutCode;
  xml.fElement EmptyString "title" false GenericWorkResponse_Title set_GenericWorkResponse_Title;
  xml.fElement EmptyString "publication-date" false GenericWorkResponse_PublicationDate set_GenericWorkResponse_PublicationDate
].

#[export] Instance GenericWorkResponse_xml : xml.Value GenericWorkResponse :=
  xml.structValue GenericWorkResponse_tinfo "GenericWorkResponse" GenericWorkResponse_zero.

Definition GenericWorkResponse_jinfo : list (json.fieldInfo GenericWorkResponse) := [
  json.field "type" false GenericWorkResponse_Type;
  json.field "put-code" false GenericWorkResponse_PutCode;
  json.field "title" false GenericWorkResponse_Title;
  json.field "publication-date" false GenericWorkResponse_PublicationDate
].

#[export] Instance GenericWorkResponse_json : json.Value GenericWorkResponse :=
  json.structValue GenericWorkResponse_jinfo.

(** type GenericEmploymentResponse *)
Record GenericEmploymentResponse := {
  GenericEmploymentResponse_XMLName : xml.Name;
  GenericEmploymentResponse_PutCode : Z;
  GenericEmploymentResponse_DepartmentName : string;
  GenericEmploymentResponse_RoleTitle : string;
  GenericEmploymentResponse_Organization : Org;
  GenericEmploymentResponse_StartDate : DateYear;
}.

Definition GenericEmploymentResponse_zero : GenericEmploymentResponse :=
  {| GenericEmploymentResponse_XMLName := {| xml.Space := EmptyString; xml.Local := EmptyString |}; GenericEmploymentResponse_PutCode := 0; GenericEmploymentResponse_DepartmentName := EmptyString; GenericEmploymentResponse_RoleTitle := EmptyString; GenericEmploymentResponse_Organization := Org_zero; GenericEmploymentResponse_StartDate := DateYear_zero |}.

Definition set_GenericEmploymentResponse_XMLName (x : xml.Name) (v : GenericEmploymentResponse) : GenericEmploymentResponse :=
  {| GenericEmploymentResponse_XMLName := x; GenericEmploymentResponse_PutCode := GenericEmploymentResponse_PutCode v; GenericEmploymentResponse_DepartmentName := GenericEmploymentResponse_DepartmentName v; GenericEmploymentResponse_RoleTitle := GenericEmploymentResponse_RoleTitle v; GenericEmploymentResponse_Organization := GenericEmploymentResponse_Organization v; GenericEmploymentResponse_StartDate := GenericEmploymentResponse_StartDate v |}.
Definition set_GenericEmploymentResponse_PutCode (x : Z) (v : GenericEmploymentResponse) : GenericEmploymentResponse :=
  {| GenericEmploymentResponse_XMLName := GenericEmploymentResponse_XMLName v; GenericEmploymentResponse_PutCode := x; GenericEmploymentResponse_DepartmentName := GenericEmploymentResponse_DepartmentName v; GenericEmploymentResponse_RoleTitle := GenericEmploymentResponse_RoleTitle v; GenericEmploymentResponse_Organization := GenericEmploymentResponse_Organization v; GenericEmploymentResponse_StartDate := GenericEmploymentResponse_StartDate v |}.
Definition set_GenericEmploymentResponse_DepartmentName (x : string) (v : GenericEmploymentResponse) : GenericEmploymentResponse :=
  {| GenericEmploymentResponse_XMLName := GenericEmploymentResponse_XMLName v; GenericEmploymentResponse_PutCode := GenericEmploymentResponse_PutCode v; GenericEmploymentResponse_DepartmentName := x; GenericEmploymentResponse_RoleTitle := GenericEmploymentResponse_RoleTitle v; GenericEmploymentResponse_Organization := GenericEmploymentResponse_Organization v; GenericEmploymentResponse_StartDate := GenericEmploymentResponse_StartDate v |}.
Definition set_GenericEmploymentResponse_RoleTitle (x : string) (v : GenericEmploymentResponse) : GenericEmploymentResponse :=
  {| GenericEmploymentResponse_XMLName := GenericEmploymentResponse_XMLName v; GenericEmploymentResponse_PutCode := GenericEmploymentResponse_PutCode v; GenericEmploymentResponse_DepartmentName := GenericEmploymentResponse_DepartmentName v; GenericEmploymentResponse_RoleTitle := x; GenericEmploymentResponse_Organization := GenericEmploymentResponse_Organization v; GenericEmploymentResponse_StartDate := GenericEmploymentResponse_StartDate v |}.
Definition set_GenericEmploymentResponse_Organization (x : Org) (v : GenericEmploymentResponse) : GenericEmploymentResponse :=
  {| GenericEmploymentResponse_XMLName := GenericEmploymentResponse_XMLName v; GenericEmploymentResponse_PutCode := GenericEmploymentResponse_PutCode v; GenericEmploymentResponse_DepartmentName := GenericEmploymentResponse_DepartmentName v; GenericEmploymentResponse_RoleTitle := GenericEmploymentResponse_RoleTitle v; GenericEmploymentResponse_Organization := x; GenericEmploymentResponse_StartDate := GenericEmploymentResponse_StartDate v |}.
Definition set_GenericEmploymentResponse_StartDate (x : DateYear) (v : GenericEmploymentResponse) : GenericEmploymentResponse :=
  {| GenericEmploymentResponse_XMLName := GenericEmploymentResponse_XMLName v; GenericEmploymentResponse_PutCode := GenericEmploymentResponse_PutCode v; GenericEmploymentResponse_DepartmentName := GenericEmploymentResponse_DepartmentName v; GenericEmploymentResponse_RoleTitle := GenericEmploymentResponse_RoleTitle v; GenericEmploymentResponse_Organization := GenericEmploymentResponse_Organization v; GenericEmploymentResponse_StartDate := x |}.

Definition GenericEmploymentResponse_tinfo : list (xml.fieldInfo GenericEmploymentResponse) := [
  xml.fXMLName EmptyString "employment:employment" GenericEmploymentResponse_XMLName set_GenericEmploymentResponse_XMLName;
  xml.fElement EmptyString "put-code" false GenericEmploymentResponse_PutCode set_GenericEmploymentResponse_PutCode;
  xml.fElement EmptyString "department-name" false GenericEmploymentResponse_DepartmentName set_GenericEmploymentResponse_DepartmentName;
  xml.fElement EmptyString "role-title" false GenericEmploymentResponse_RoleTitle set_GenericEmploymentResponse_RoleTitle;
  xml.fElement EmptyString "organization" false GenericEmploymentResponse_Organization set_GenericEmploymentResponse_Organization;
  xml.fElement EmptyString "start-date" false GenericEmploymentResponse_StartDate set_GenericEmploymentResponse_StartDate
].

#[export] Instance GenericEmploymentResponse_xml : xml.Value GenericEmploymentResponse :=
  xml.structValue GenericEmploymentResponse_tinfo "GenericEmploymentResponse" GenericEmploymentResponse_zero.

Definition GenericEmploymentResponse_jinfo : list (json.fieldInfo GenericEmploymentResponse) := [
  json.field "put-code" false GenericEmploymentResponse_PutCode;
  json.field "department-name" false GenericEmploymentResponse_DepartmentName;
  json.field "role-title" false GenericEmploymentResponse_RoleTitle;
  json.field "organization" false GenericEmploymentResponse_Organization;
  json.field "start-date" false GenericEmploymentResponse_StartDate
].

#[export] Instance GenericEmploymentResponse_json : json.Value GenericEmploymentResponse :=
  json.structValue GenericEmploymentResponse_jinfo.

(** type PutCodeResponse, local to handlePostWork and handlePostEmployment *)
Record PutCodeResponse := {
  PutCodeResponse_XMLName : xml.Name;
  PutCodeResponse_PutCode : Z;
}.

Definition PutCodeResponse_zero : PutCodeResponse :=
  {| PutCodeResponse_XMLName := {| xml.Space := EmptyString; xml.Local := EmptyString |}; PutCodeResponse_PutCode := 0 |}.

Definition set_PutCodeResponse_XMLName (x : xml.Name) (v : PutCodeResponse) : PutCodeResponse :=
  {| PutCodeResponse_XMLName := x; PutCodeResponse_PutCode := PutCodeResponse_PutCode v |}.
Definition set_PutCodeResponse_PutCode (x : Z) (v : PutCodeResponse) : PutCodeResponse :=
  {| PutCodeResponse_XMLName := PutCodeResponse_XMLName v; PutCodeResponse_PutCode := x |}.

Definition PutCodeResponse_tinfo : list (xml.fieldInfo PutCodeResponse) := [
  xml.fXMLName EmptyString "response" PutCodeResponse_XMLName set_PutCodeResponse_XMLName;
  xml.fElement EmptyString "put-code" false PutCodeResponse_PutCode set_PutCodeResponse_PutCode
].

#[export] Instance PutCodeResponse_xml : xml.Value PutCodeResponse :=
  xml.structValue PutCodeResponse_tinfo "PutCodeResponse" PutCodeResponse_zero.

Definition PutCodeResponse_jinfo : list (json.fieldInfo PutCodeResponse) := [
  json.field "put-code" false PutCodeResponse_PutCode
].

#[export] Instance PutCodeResponse_json : json.Value PutCodeResponse :=
  json.structValue PutCodeResponse_jinfo.

(** type UpdateResponse, local to handlePutWork and handlePutEmployment *)
Record UpdateResponse := {
  UpdateResponse_XMLName : xml.Name;
  UpdateResponse_PutCode : string;
  UpdateResponse_Status : string;
}.

Definition UpdateResponse_zero : UpdateResponse :=
  {| UpdateResponse_XMLName := {| xml.Space := EmptyString; xml.Local := EmptyString |}; UpdateResponse_PutCode := EmptyString; UpdateResponse_Status := EmptyString |}.

Definition set_UpdateResponse_XMLName (x : xml.Name) (v : UpdateResponse) : UpdateResponse :=
  {| UpdateResponse_XMLName := x; UpdateResponse_PutCode := UpdateResponse_PutCode v; UpdateResponse_Status := UpdateResponse_Status v |}.
Definition set_UpdateResponse_PutCode (x : string) (v : UpdateResponse) : UpdateResponse :=
  {| UpdateResponse_XMLName := UpdateResponse_XMLName v; UpdateResponse_PutCode := x; UpdateResponse_Status := UpdateResponse_Status v |}.
Definition set_UpdateResponse_Status (x : string) (v : UpdateResponse) : UpdateResponse :=
  {| UpdateResponse_XMLName := UpdateResponse_XMLName v; UpdateResponse_PutCode := UpdateResponse_PutCode v; UpdateResponse_Status := x |}.

Definition UpdateResponse_tinfo : list (xml.fieldInfo UpdateResponse) := [
  xml.fXMLName EmptyString "response" UpdateResponse_XMLName set_UpdateResponse_XMLName;
  xml.fElement EmptyString "put-code" false UpdateResponse_PutCode set_UpdateResponse_PutCode;
  xml.fElement EmptyString "status" false UpdateResponse_Status set_UpdateResponse_Status
].

#[export] Instance UpdateResponse_xml : xml.Value UpdateResponse :=
  xml.structValue UpdateResponse_tinfo "UpdateResponse" UpdateResponse_zero.

Definition UpdateResponse_jinfo : list (json.fieldInfo UpdateResponse) := [
  json.field "put-code" false UpdateResponse_PutCode;
  json.field "status" false UpdateResponse_Status
].

#[export] Instance UpdateResponse_json : json.Value UpdateResponse :=
  json.structValue UpdateResponse_jinfo.

(* ===================================================================== *)
(** ** models/person.go *)
(* ===================================================================== *)

Module models.

(** The name spaces the struct tags spell out. *)
Definition ns_person : string := "http://www.orcid.org/ns/person".
Definition ns_common : string := "http://www.orcid.org/ns/common".
Definition ns_personal_details : string := "http://www.orcid.org/ns/personal-details".
Definition ns_other_name : string := "http://www.orcid.org/ns/other-name".
Definition ns_researcher_url : string := "http://www.orcid.org/ns/researcher-url".
Definition ns_email : string := "http://www.orcid.org/ns/email".
Definition ns_address : string := "http://www.orcid.org/ns/address".
Definition ns_keyword : string := "http://www.orcid.org/ns/keyword".
Definition ns_external_identifier : string := "http://www.orcid.org/ns/external-identifier".
Definition ns_xsi : string := "http://www.w3.org/2001/XMLSchema-instance".

(** type SourceOrcid *)
Record SourceOrcid := {
  SourceOrcid_Uri : string;
  SourceOrcid_Path : string;
  SourceOrcid_Host : string;
}.

Definition SourceOrcid_zero : SourceOrcid :=
  {| SourceOrcid_Uri := EmptyString; SourceOrcid_Path := EmptyString; SourceOrcid_Host := EmptyString |}.

Definition set_SourceOrcid_Uri (x : string) (v : SourceOrcid) : SourceOrcid :=
  {| SourceOrcid_Uri := x; SourceOrcid_Path := SourceOrcid_Path v; SourceOrcid_Host := SourceOrcid_Host v |}.
Definition set_SourceOrcid_Path (x : string) (v : SourceOrcid) : SourceOrcid :=
  {| SourceOrcid_Uri := SourceOrcid_Uri v; SourceOrcid_Path := x; SourceOrcid_Host := SourceOrcid_Host v |}.
Definition set_SourceOrcid_Host (x : string) (v : SourceOrcid) : SourceOrcid :=
  {| SourceOrcid_Uri := SourceOrcid_Uri v; SourceOrcid_Path := SourceOrcid_Path v; SourceOrcid_Host := x |}.

Definition SourceOrcid_tinfo : list (xml.fieldInfo SourceOrcid) := [
  xml.fElement ns_common "uri" true SourceOrcid_Uri set_SourceOrcid_Uri;
  xml.fElement ns_common "path" true SourceOrcid_Path set_SourceOrcid_Path;
  xml.fElement ns_common "host" true SourceOrcid_Host set_SourceOrcid_Host
].

#[global] Instance SourceOrcid_xml : xml.Value SourceOrcid :=
  xml.structValue SourceOrcid_tinfo "SourceOrcid" SourceOrcid_zero.

(** type SourceName *)
Record SourceName := {
  SourceName_Value : string;
}.

Definition SourceName_zero : SourceName :=
  {| SourceName_Value := EmptyString |}.

Definition set_SourceName_Value (x : string) (v : SourceName) : SourceName :=
  {| SourceName_Value := x |}.

Definition SourceName_tinfo : list (xml.fieldInfo SourceName) := [
  xml.fCharData SourceName_Value set_SourceName_Value
].

#[global] Instance SourceName_xml : xml.Value SourceName :=
  xml.structValue SourceName_tinfo "SourceName" SourceName_zero.

(** type Source *)
Record Source := {
  Source_SourceOrcid : option SourceOrcid;
  Source_SourceName : option SourceName;
}.

Definition Source_zero : Source :=
  {| Source_SourceOrcid := None; Source_SourceName := None |}.

Definition set_Source_SourceOrcid (x : option SourceOrcid) (v : Source) : Source :=
  {| Source_SourceOrcid := x; Source_SourceName := Source_SourceName v |}.
Definition set_Source_SourceName (x : option SourceName) (v : Source) : Source :=
  {| Source_SourceOrcid := Source_SourceOrcid v; Source_SourceName := x |}.

Definition Source_tinfo : list (xml.fieldInfo Source) := [
  xml.fElement ns_common "source-orcid" false Source_SourceOrcid set_Source_SourceOrcid;
  xml.fElement ns_common "source-name" false Source_SourceName set_Source_SourceName
].

#[global] Instance Source_xml : xml.Value Source :=
  xml.structValue Source_tinfo "Source" Source_zero.

(** type PersonName *)
Record PersonName := {
  PersonName_Visibility : string;
  PersonName_CreatedDate : option string;
  PersonName_LastModifiedDate : option string;
  PersonName_GivenNames : string;
  PersonName_FamilyName : string;
  PersonName_CreditName : string;
}.

Definition PersonName_zero : PersonName :=
  {| PersonName_Visibility := EmptyString; PersonName_CreatedDate := None; PersonName_LastModifiedDate := None; PersonName_GivenNames := EmptyString; PersonName_FamilyName := EmptyString; PersonName_CreditName := EmptyString |}.

Definition set_PersonName_Visibility (x : string) (v : PersonName) : PersonName :=
  {| PersonName_Visibility := x; PersonName_CreatedDate := PersonName_CreatedDate v; PersonName_LastModifiedDate := PersonName_LastModifiedDate v; PersonName_GivenNames := PersonName_GivenNames v; PersonName_FamilyName := PersonName_FamilyName v; PersonName_CreditName := PersonName_CreditName v |}.
Definition set_PersonName_CreatedDate (x : option string) (v : PersonName) : PersonName :=
  {| PersonName_Visibility := PersonName_Visibility v; PersonName_CreatedDate := x; PersonName_LastModifiedDate := PersonName_LastModifiedDate v; PersonName_GivenNames := PersonName_GivenNames v; PersonName_FamilyName := PersonName_FamilyName v; PersonName_CreditName := PersonName_CreditName v |}.
Definition set_PersonName_LastModifiedDate (x : option string) (v : PersonName) : PersonName :=
  {| PersonName_Visibility := PersonName_Visibility v; PersonName_CreatedDate := PersonName_CreatedDate v; PersonName_LastModifiedDate := x; PersonName_GivenNames := PersonName_GivenNames v; PersonName_FamilyName := PersonName_FamilyName v; PersonName_CreditName := PersonName_CreditName v |}.
Definition set_PersonName_GivenNames (x : string) (v : PersonName) : PersonName :=
  {| PersonName_Visibility := PersonName_Visibility v; PersonName_CreatedDate := PersonName_CreatedDate v; PersonName_LastModifiedDate := PersonName_LastModifiedDate v; PersonName_GivenNames := x; PersonName_FamilyName := PersonName_FamilyName v; PersonName_CreditName := PersonName_CreditName v |}.
Definition set_PersonName_FamilyName (x : string) (v : PersonName) : PersonName :=
  {| PersonName_Visibility := PersonName_Visibility v; PersonName_CreatedDate := PersonName_CreatedDate v; PersonName_LastModifiedDate := PersonName_LastModifiedDate v; PersonName_GivenNames := PersonName_GivenNames v; PersonName_FamilyName := x; PersonName_CreditName := PersonName_CreditName v |}.
Definition set_PersonName_CreditName (x : string) (v : PersonName) : PersonName :=
  {| PersonName_Visibility := PersonName_Visibility v; PersonName_CreatedDate := PersonName_CreatedDate v; PersonName_LastModifiedDate := PersonName_LastModifiedDate v; PersonName_GivenNames := PersonName_GivenNames v; PersonName_FamilyName := PersonName_FamilyName v; PersonName_CreditName := x |}.

Definition PersonName_tinfo : list (xml.fieldInfo PersonName) := [
  xml.fAttr EmptyString "visibility" true PersonName_Visibility set_PersonName_Visibility;
  xml.fElement ns_common "created-date" false PersonName_CreatedDate set_PersonName_CreatedDate;
  xml.fElement ns_common "last-modified-date" false PersonName_LastModifiedDate set_PersonName_LastModifiedDate;
  xml.fElement ns_personal_details "given-names" true PersonName_GivenNames set_PersonName_GivenNames;
  xml.fElement ns_personal_details "family-name" true PersonName_FamilyName set_PersonName_FamilyName;
  xml.fElement ns_personal_details "credit-name" true PersonName_CreditName set_PersonName_CreditName
].

#[global] Instance PersonName_xml : xml.Value PersonName :=
  xml.structValue PersonName_tinfo "PersonName" PersonName_zero.

(** type OtherName *)
Record OtherName := {
  OtherName_Visibility : string;
  OtherName_PutCode : string;
  OtherName_CreatedDate : option string;
  OtherName_LastModifiedDate : option string;
  OtherName_Source : option Source;
  OtherName_Content : string;
}.

Definition OtherName_zero : OtherName :=
  {| OtherName_Visibility := EmptyString; OtherName_PutCode := EmptyString; OtherName_CreatedDate := None; OtherName_LastModifiedDate := None; OtherName_Source := None; OtherName_Content := EmptyString |}.

Definition set_OtherName_Visibility (x : string) (v : OtherName) : OtherName :=
  {| OtherName_Visibility := x; OtherName_PutCode := OtherName_PutCode v; OtherName_CreatedDate := OtherName_CreatedDate v; OtherName_LastModifiedDate := OtherName_LastModifiedDate v; OtherName_Source := OtherName_Source v; OtherName_Content := OtherName_Content v |}.
Definition set_OtherName_PutCode (x : string) (v : OtherName) : OtherName :=
  {| OtherName_Visibility := OtherName_Visibility v; OtherName_PutCode := x; OtherName_CreatedDate := OtherName_CreatedDate v; OtherName_LastModifiedDate := OtherName_LastModifiedDate v; OtherName_Source := OtherName_Source v; OtherName_Content := OtherName_Content v |}.
Definition set_OtherName_CreatedDate (x : option string) (v : OtherName) : OtherName :=
  {| OtherName_Visibility := OtherName_Visibility v; OtherName_PutCode := OtherName_PutCode v; OtherName_CreatedDate := x; OtherName_LastModifiedDate := OtherName_LastModifiedDate v; OtherName_Source := OtherName_Source v; OtherName_Content := OtherName_Content v |}.
Definition set_OtherName_LastModifiedDate (x : option string) (v : OtherName) : OtherName :=
  {| OtherName_Visibility := OtherName_Visibility v; OtherName_PutCode := OtherName_PutCode v; OtherName_CreatedDate := OtherName_CreatedDate v; OtherName_LastModifiedDate := x; OtherName_Source := OtherName_Source v; OtherName_Content := OtherName_Content v |}.
Definition set_OtherName_Source (x : option Source) (v : OtherName) : OtherName :=
  {| OtherName_Visibility := OtherName_Visibility v; OtherName_PutCode := OtherName_PutCode v; OtherName_CreatedDate := OtherName_CreatedDate v; OtherName_LastModifiedDate := OtherName_LastModifiedDate v; OtherName_Source := x; OtherName_Content := OtherName_Content v |}.
Definition set_OtherName_Content (x : string) (v : OtherName) : OtherName :=
  {| OtherName_Visibility := OtherName_Visibility v; OtherName_PutCode := OtherName_PutCode v; OtherName_CreatedDate := OtherName_CreatedDate v; OtherName_LastModifiedDate := OtherName_LastModifiedDate v; OtherName_Source := OtherName_Source v; OtherName_Content := x |}.

Definition OtherName_tinfo : list (xml.fieldInfo OtherName) := [
  xml.fAttr EmptyString "visibility" true OtherName_Visibility set_OtherName_Visibility;
  xml.fAttr EmptyString "put-code" true OtherName_PutCode set_OtherName_PutCode;
  xml.fElement ns_common "created-date" false OtherName_CreatedDate set_OtherName_CreatedDate;
  xml.fElement ns_common "last-modified-date" false OtherName_LastModifiedDate set_OtherName_LastModifiedDate;
  xml.fElement ns_common "source" false OtherName_Source set_OtherName_Source;
  xml.fElement ns_other_name "content" false OtherName_Content set_OtherName_Content
].

#[global] Instance OtherName_xml : xml.Value OtherName :=
  xml.structValue OtherName_tinfo "OtherName" OtherName_zero.

(** type OtherNames *)
Record OtherNames := {
  OtherNames_LastModifiedDate : option string;
  OtherNames_OtherNames : list (option OtherName);
}.

Definition OtherNames_zero : OtherNames :=
  {| OtherNames_LastModifiedDate := None; OtherNames_OtherNames := [] |}.

Definition set_OtherNames_LastModifiedDate (x : option string) (v : OtherNames) : OtherNames :=
  {| OtherNames_LastModifiedDate := x; OtherNames_OtherNames := OtherNames_OtherNames v |}.
Definition set_OtherNames_OtherNames (x : list (option OtherName)) (v : OtherNames) : OtherNames :=
  {| OtherNames_LastModifiedDate := OtherNames_LastModifiedDate v; OtherNames_OtherNames := x |}.

Definition OtherNames_tinfo : list (xml.fieldInfo OtherNames) := [
  xml.fElement ns_common "last-modified-date" false OtherNames_LastModifiedDate set_OtherNames_LastModifiedDate;
  xml.fElement ns_other_name "other-name" false OtherNames_OtherNames set_OtherNames_OtherNames
].

#[global] Instance OtherNames_xml : xml.Value OtherNames :=
  xml.structValue OtherNames_tinfo "OtherNames" OtherNames_zero.

(** type Biography *)
Record Biography := {
  Biography_Visibility : string;
  Biography_CreatedDate : option string;
  Biography_LastModifiedDate : option string;
  Biography_Content : string;
}.

Definition Biography_zero : Biography :=
  {| Biography_Visibility := EmptyString; Biography_CreatedDate := None; Biography_LastModifiedDate := None; Biography_Content := EmptyString |}.

Definition set_Biography_Visibility (x : string) (v : Biography) : Biography :=
  {| Biography_Visibility := x; Biography_CreatedDate := Biography_CreatedDate v; Biography_LastModifiedDate := Biography_LastModifiedDate v; Biography_Content := Biography_Content v |}.
Definition set_Biography_CreatedDate (x : option string) (v : Biography) : Biography :=
  {| Biography_Visibility := Biography_Visibility v; Biography_CreatedDate := x; Biography_LastModifiedDate := Biography_LastModifiedDate v; Biography_Content := Biography_Content v |}.
Definition set_Biography_LastModifiedDate (x : option string) (v : Biography) : Biography :=
  {| Biography_Visibility := Biography_Visibility v; Biography_CreatedDate := Biography_CreatedDate v; Biography_LastModifiedDate := x; Biography_Content := Biography_Content v |}.
Definition set_Biography_Content (x : string) (v : Biography) : Biography :=
  {| Biography_Visibility := Biography_Visibility v; Biography_CreatedDate := Biography_CreatedDate v; Biography_LastModifiedDate := Biography_LastModifiedDate v; Biography_Content := x |}.

Definition Biography_tinfo : list (xml.fieldInfo Biography) := [
  xml.fAttr EmptyString "visibility" true Biography_Visibility set_Biography_Visibility;
  xml.fElement ns_common "created-date" false Biography_CreatedDate set_Biography_CreatedDate;
  xml.fElement ns_common "last-modified-date" false Biography_LastModifiedDate set_Biography_LastModifiedDate;
  xml.fElement ns_personal_details "content" false Biography_Content set_Biography_Content
].

#[global] Instance Biography_xml : xml.Value Biography :=
  xml.structValue Biography_tinfo "Biography" Biography_zero.

(** type ResearcherUrl *)
Record ResearcherUrl := {
  ResearcherUrl_Visibility : string;
  ResearcherUrl_PutCode : string;
  ResearcherUrl_CreatedDate : option string;
  ResearcherUrl_LastModifiedDate : option string;
  ResearcherUrl_Source : option Source;
  ResearcherUrl_UrlName : string;
  ResearcherUrl_Url : string;
}.

Definition ResearcherUrl_zero : ResearcherUrl :=
  {| ResearcherUrl_Visibility := EmptyString; ResearcherUrl_PutCode := EmptyString; ResearcherUrl_CreatedDate := None; ResearcherUrl_LastModifiedDate := None; ResearcherUrl_Source := None; ResearcherUrl_UrlName := EmptyString; ResearcherUrl_Url := EmptyString |}.

Definition set_ResearcherUrl_Visibility (x : string) (v : ResearcherUrl) : ResearcherUrl :=
  {| ResearcherUrl_Visibility := x; ResearcherUrl_PutCode := ResearcherUrl_PutCode v; ResearcherUrl_CreatedDate := ResearcherUrl_CreatedDate v; ResearcherUrl_LastModifiedDate := ResearcherUrl_LastModifiedDate v; ResearcherUrl_Source := ResearcherUrl_Source v; ResearcherUrl_UrlName := ResearcherUrl_UrlName v; ResearcherUrl_Url := ResearcherUrl_Url v |}.
Definition set_ResearcherUrl_PutCode (x : string) (v : ResearcherUrl) : ResearcherUrl :=
  {| ResearcherUrl_Visibility := ResearcherUrl_Visibility v; ResearcherUrl_PutCode := x; ResearcherUrl_CreatedDate := ResearcherUrl_CreatedDate v; ResearcherUrl_LastModifiedDate := ResearcherUrl_LastModifiedDate v; ResearcherUrl_Source := ResearcherUrl_Source v; ResearcherUrl_UrlName := ResearcherUrl_UrlName v; ResearcherUrl_Url := ResearcherUrl_Url v |}.
Definition set_ResearcherUrl_CreatedDate (x : option string) (v : ResearcherUrl) : ResearcherUrl :=
  {| ResearcherUrl_Visibility := ResearcherUrl_Visibility v; ResearcherUrl_PutCode := ResearcherUrl_PutCode v; ResearcherUrl_CreatedDate := x; ResearcherUrl_LastModifiedDate := ResearcherUrl_LastModifiedDate v; ResearcherUrl_Source := ResearcherUrl_Source v; ResearcherUrl_UrlName := ResearcherUrl_UrlName v; ResearcherUrl_Url := ResearcherUrl_Url v |}.
Definition set_ResearcherUrl_LastModifiedDate (x : option string) (v : ResearcherUrl) : ResearcherUrl :=
  {| ResearcherUrl_Visibility := ResearcherUrl_Visibility v; ResearcherUrl_PutCode := ResearcherUrl_PutCode v; ResearcherUrl_CreatedDate := ResearcherUrl_CreatedDate v; ResearcherUrl_LastModifiedDate := x; ResearcherUrl_Source := ResearcherUrl_Source v; ResearcherUrl_UrlName := ResearcherUrl_UrlName v; ResearcherUrl_Url := ResearcherUrl_Url v |}.
Definition set_ResearcherUrl_Source (x : option Source) (v : ResearcherUrl) : ResearcherUrl :=
  {| ResearcherUrl_Visibility := ResearcherUrl_Visibility v; ResearcherUrl_PutCode := ResearcherUrl_PutCode v; ResearcherUrl_CreatedDate := ResearcherUrl_CreatedDate v; ResearcherUrl_LastModifiedDate := ResearcherUrl_LastModifiedDate v; ResearcherUrl_Source := x; ResearcherUrl_UrlName := ResearcherUrl_UrlName v; ResearcherUrl_Url := ResearcherUrl_Url v |}.
Definition set_ResearcherUrl_UrlName (x : string) (v : ResearcherUrl) : ResearcherUrl :=
  {| ResearcherUrl_Visibility := ResearcherUrl_Visibility v; ResearcherUrl_PutCode := ResearcherUrl_PutCode v; ResearcherUrl_CreatedDate := ResearcherUrl_CreatedDate v; ResearcherUrl_LastModifiedDate := ResearcherUrl_LastModifiedDate v; ResearcherUrl_Source := ResearcherUrl_Source v; ResearcherUrl_UrlName := x; ResearcherUrl_Url := ResearcherUrl_Url v |}.
Definition set_ResearcherUrl_Url (x : string) (v : ResearcherUrl) : ResearcherUrl :=
  {| ResearcherUrl_Visibility := ResearcherUrl_Visibility v; ResearcherUrl_PutCode := ResearcherUrl_PutCode v; ResearcherUrl_CreatedDate := ResearcherUrl_CreatedDate v; ResearcherUrl_LastModifiedDate := ResearcherUrl_LastModifiedDate v; ResearcherUrl_Source := ResearcherUrl_Source v; ResearcherUrl_UrlName := ResearcherUrl_UrlName v; ResearcherUrl_Url := x |}.

Definition ResearcherUrl_tinfo : list (xml.fieldInfo ResearcherUrl) := [
  xml.fAttr EmptyString "visibility" true ResearcherUrl_Visibility set_ResearcherUrl_Visibility;
  xml.fAttr EmptyString "put-code" true ResearcherUrl_PutCode set_ResearcherUrl_PutCode;
  xml.fElement ns_common "created-date" false ResearcherUrl_CreatedDate set_ResearcherUrl_CreatedDate;
  xml.fElement ns_common "last-modified-date" false ResearcherUrl_LastModifiedDate set_ResearcherUrl_LastModifiedDate;
  xml.fElement ns_common "source" false ResearcherUrl_Source set_ResearcherUrl_Source;
  xml.fElement ns_researcher_url "url-name" false ResearcherUrl_UrlName set_ResearcherUrl_UrlName;
  xml.fElement ns_researcher_url "url" false ResearcherUrl_Url set_ResearcherUrl_Url
].

#[global] Instance ResearcherUrl_xml : xml.Value ResearcherUrl :=
  xml.structValue ResearcherUrl_tinfo "ResearcherUrl" ResearcherUrl_zero.

(** type ResearcherUrls *)
Record ResearcherUrls := {
  ResearcherUrls_LastModifiedDate : option string;
  ResearcherUrls_ResearcherUrls : list (option ResearcherUrl);
}.

Definition ResearcherUrls_zero : ResearcherUrls :=
  {| ResearcherUrls_LastModifiedDate := None; ResearcherUrls_ResearcherUrls := [] |}.

Definition set_ResearcherUrls_LastModifiedDate (x : option string) (v : ResearcherUrls) : ResearcherUrls :=
  {| ResearcherUrls_LastModifiedDate := x; ResearcherUrls_ResearcherUrls := ResearcherUrls_ResearcherUrls v |}.
Definition set_ResearcherUrls_ResearcherUrls (x : list (option ResearcherUrl)) (v : ResearcherUrls) : ResearcherUrls :=
  {| ResearcherUrls_LastModifiedDate := ResearcherUrls_LastModifiedDate v; ResearcherUrls_ResearcherUrls := x |}.

Definition ResearcherUrls_tinfo : list (xml.fieldInfo ResearcherUrls) := [
  xml.fElement ns_common "last-modified-date" false ResearcherUrls_LastModifiedDate set_ResearcherUrls_LastModifiedDate;
  xml.fElement ns_researcher_url "researcher-url" false ResearcherUrls_ResearcherUrls set_ResearcherUrls_ResearcherUrls
].

#[global] Instance ResearcherUrls_xml : xml.Value ResearcherUrls :=
  xml.structValue ResearcherUrls_tinfo "ResearcherUrls" ResearcherUrls_zero.

(** type Email *)
Record Email := {
  Email_Visibility : string;
  Email_CreatedDate : option string;
  Email_LastModifiedDate : option string;
  Email_Source : option Source;
  Email_Email : string;
}.

Definition Email_zero : Email :=
  {| Email_Visibility := EmptyString; Email_CreatedDate := None; Email_LastModifiedDate := None; Email_Source := None; Email_Email := EmptyString |}.

Definition set_Email_Visibility (x : string) (v : Email) : Email :=
  {| Email_Visibility := x; Email_CreatedDate := Email_CreatedDate v; Email_LastModifiedDate := Email_LastModifiedDate v; Email_Source := Email_Source v; Email_Email := Email_Email v |}.
Definition set_Email_CreatedDate (x : option string) (v : Email) : Email :=
  {| Email_Visibility := Email_Visibility v; Email_CreatedDate := x; Email_LastModifiedDate := Email_LastModifiedDate v; Email_Source := Email_Source v; Email_Email := Email_Email v |}.
Definition set_Email_LastModifiedDate (x : option string) (v : Email) : Email :=
  {| Email_Visibility := Email_Visibility v; Email_CreatedDate := Email_CreatedDate v; Email_LastModifiedDate := x; Email_Source := Email_Source v; Email_Email := Email_Email v |}.
Definition set_Email_Source (x : option Source) (v : Email) : Email :=
  {| Email_Visibility := Email_Visibility v; Email_CreatedDate := Email_CreatedDate v; Email_LastModifiedDate := Email_LastModifiedDate v; Email_Source := x; Email_Email := Email_Email v |}.
Definition set_Email_Email (x : string) (v : Email) : Email :=
  {| Email_Visibility := Email_Visibility v; Email_CreatedDate := Email_CreatedDate v; Email_LastModifiedDate := Email_LastModifiedDate v; Email_Source := Email_Source v; Email_Email := x |}.

Definition Email_tinfo : list (xml.fieldInfo Email) := [
  xml.fAttr EmptyString "visibility" true Email_Visibility set_Email_Visibility;
  xml.fElement ns_common "created-date" false Email_CreatedDate set_Email_CreatedDate;
  xml.fElement ns_common "last-modified-date" false Email_LastModifiedDate set_Email_LastModifiedDate;
  xml.fElement ns_common "source" false Email_Source set_Email_Source;
  xml.fElement ns_email "email" false Email_Email set_Email_Email
].

#[global] Instance Email_xml : xml.Value Email :=
  xml.structValue Email_tinfo "Email" Email_zero.

(** type Emails *)
Record Emails := {
  Emails_Emails : list (option Email);
}.

Definition Emails_zero : Emails :=
  {| Emails_Emails := [] |}.

Definition set_Emails_Emails (x : list (option Email)) (v : Emails) : Emails :=
  {| Emails_Emails := x |}.

Definition Emails_tinfo : list (xml.fieldInfo Emails) := [
  xml.fElement ns_email "email" false Emails_Emails set_Emails_Emails
].

#[global] Instance Emails_xml : xml.Value Emails :=
  xml.structValue Emails_tinfo "Emails" Emails_zero.

(** type Address *)
Record Address := {
  Address_Visibility : string;
  Address_PutCode : string;
  Address_CreatedDate : option string;
  Address_LastModifiedDate : option string;
  Address_Source : option Source;
  Address_Country : string;
}.

Definition Address_zero : Address :=
  {| Address_Visibility := EmptyString; Address_PutCode := EmptyString; Address_CreatedDate := None; Address_LastModifiedDate := None; Address_Source := None; Address_Country := EmptyString |}.

Definition set_Address_Visibility (x : string) (v : Address) : Address :=
  {| Address_Visibility := x; Address_PutCode := Address_PutCode v; Address_CreatedDate := Address_CreatedDate v; Address_LastModifiedDate := Address_LastModifiedDate v; Address_Source := Address_Source v; Address_Country := Address_Country v |}.
Definition set_Address_PutCode (x : string) (v : Address) : Address :=
  {| Address_Visibility := Address_Visibility v; Address_PutCode := x; Address_CreatedDate := Address_CreatedDate v; Address_LastModifiedDate := Address_LastModifiedDate v; Address_Source := Address_Source v; Address_Country := Address_Country v |}.
Definition set_Address_CreatedDate (x : option string) (v : Address) : Address :=
  {| Address_Visibility := Address_Visibility v; Address_PutCode := Address_PutCode v; Address_CreatedDate := x; Address_LastModifiedDate := Address_LastModifiedDate v; Address_Source := Address_Source v; Address_Country := Address_Country v |}.
Definition set_Address_LastModifiedDate (x : option string) (v : Address) : Address :=
  {| Address_Visibility := Address_Visibility v; Address_PutCode := Address_PutCode v; Address_CreatedDate := Address_CreatedDate v; Address_LastModifiedDate := x; Address_Source := Address_Source v; Address_Country := Address_Country v |}.
Definition set_Address_Source (x : option Source) (v : Address) : Address :=
  {| Address_Visibility := Address_Visibility v; Address_PutCode := Address_PutCode v; Address_CreatedDate := Address_CreatedDate v; Address_LastModifiedDate := Address_LastModifiedDate v; Address_Source := x; Address_Country := Address_Country v |}.
Definition set_Address_Country (x : string) (v : Address) : Address :=
  {| Address_Visibility := Address_Visibility v; Address_PutCode := Address_PutCode v; Address_CreatedDate := Address_CreatedDate v; Address_LastModifiedDate := Address_LastModifiedDate v; Address_Source := Address_Source v; Address_Country := x |}.

Definition Address_tinfo : list (xml.fieldInfo Address) := [
  xml.fAttr EmptyString "visibility" true Address_Visibility set_Address_Visibility;
  xml.fAttr EmptyString "put-code" true Address_PutCode set_Address_PutCode;
  xml.fElement ns_common "created-date" false Address_CreatedDate set_Address_CreatedDate;
  xml.fElement ns_common "last-modified-date" false Address_LastModifiedDate set_Address_LastModifiedDate;
  xml.fElement ns_common "source" false Address_Source set_Address_Source;
  xml.fElement ns_address "country" false Address_Country set_Address_Country
].

#[global] Instance Address_xml : xml.Value Address :=
  xml.structValue Address_tinfo "Address" Address_zero.

(** type Addresses *)
Record Addresses := {
  Addresses_Addresses : list (option Address);
}.

Definition Addresses_zero : Addresses :=
  {| Addresses_Addresses := [] |}.

Definition set_Addresses_Addresses (x : list (option Address)) (v : Addresses) : Addresses :=
  {| Addresses_Addresses := x |}.

Definition Addresses_tinfo : list (xml.fieldInfo Addresses) := [
  xml.fElement ns_address "address" false Addresses_Addresses set_Addresses_Addresses
].

#[global] Instance Addresses_xml : xml.Value Addresses :=
  xml.structValue Addresses_tinfo "Addresses" Addresses_zero.

(** type Keyword *)
Record Keyword := {
  Keyword_Visibility : string;
  Keyword_PutCode : string;
  Keyword_CreatedDate : option string;
  Keyword_LastModifiedDate : option string;
  Keyword_Source : option Source;
  Keyword_Content : string;
}.

Definition Keyword_zero : Keyword :=
  {| Keyword_Visibility := EmptyString; Keyword_PutCode := EmptyString; Keyword_CreatedDate := None; Keyword_LastModifiedDate := None; Keyword_Source := None; Keyword_Content := EmptyString |}.

Definition set_Keyword_Visibility (x : string) (v : Keyword) : Keyword :=
  {| Keyword_Visibility := x; Keyword_PutCode := Keyword_PutCode v; Keyword_CreatedDate := Keyword_CreatedDate v; Keyword_LastModifiedDate := Keyword_LastModifiedDate v; Keyword_Source := Keyword_Source v; Keyword_Content := Keyword_Content v |}.
Definition set_Keyword_PutCode (x : string) (v : Keyword) : Keyword :=
  {| Keyword_Visibility := Keyword_Visibility v; Keyword_PutCode := x; Keyword_CreatedDate := Keyword_CreatedDate v; Keyword_LastModifiedDate := Keyword_LastModifiedDate v; Keyword_Source := Keyword_Source v; Keyword_Content := Keyword_Content v |}.
Definition set_Keyword_CreatedDate (x : option string) (v : Keyword) : Keyword :=
  {| Keyword_Visibility := Keyword_Visibility v; Keyword_PutCode := Keyword_PutCode v; Keyword_CreatedDate := x; Keyword_LastModifiedDate := Keyword_LastModifiedDate v; Keyword_Source := Keyword_Source v; Keyword_Content := Keyword_Content v |}.
Definition set_Keyword_LastModifiedDate (x : option string) (v : Keyword) : Keyword :=
  {| Keyword_Visibility := Keyword_Visibility v; Keyword_PutCode := Keyword_PutCode v; Keyword_CreatedDate := Keyword_CreatedDate v; Keyword_LastModifiedDate := x; Keyword_Source := Keyword_Source v; Keyword_Content := Keyword_Content v |}.
Definition set_Keyword_Source (x : option Source) (v : Keyword) : Keyword :=
  {| Keyword_Visibility := Keyword_Visibility v; Keyword_PutCode := Keyword_PutCode v; Keyword_CreatedDate := Keyword_CreatedDate v; Keyword_LastModifiedDate := Keyword_LastModifiedDate v; Keyword_Source := x; Keyword_Content := Keyword_Content v |}.
Definition set_Keyword_Content (x : string) (v : Keyword) : Keyword :=
  {| Keyword_Visibility := Keyword_Visibility v; Keyword_PutCode := Keyword_PutCode v; Keyword_CreatedDate := Keyword_CreatedDate v; Keyword_LastModifiedDate := Keyword_LastModifiedDate v; Keyword_Source := Keyword_Source v; Keyword_Content := x |}.

Definition Keyword_tinfo : list (xml.fieldInfo Keyword) := [
  xml.fAttr EmptyString "visibility" true Keyword_Visibility set_Keyword_Visibility;
  xml.fAttr EmptyString "put-code" true Keyword_PutCode set_Keyword_PutCode;
  xml.fElement ns_common "created-date" false Keyword_CreatedDate set_Keyword_CreatedDate;
  xml.fElement ns_common "last-modified-date" false Keyword_LastModifiedDate set_Keyword_LastModifiedDate;
  xml.fElement ns_common "source" false Keyword_Source set_Keyword_Source;
  xml.fElement ns_keyword "content" false Keyword_Content set_Keyword_Content
].

#[global] Instance Keyword_xml : xml.Value Keyword :=
  xml.structValue Keyword_tinfo "Keyword" Keyword_zero.

(** type Keywords *)
Record Keywords := {
  Keywords_Keywords : list (option Keyword);
}.

Definition Keywords_zero : Keywords :=
  {| Keywords_Keywords := [] |}.

Definition set_Keywords_Keywords (x : list (option Keyword)) (v : Keywords) : Keywords :=
  {| Keywords_Keywords := x |}.

Definition Keywords_tinfo : list (xml.fieldInfo Keywords) := [
  xml.fElement ns_keyword "keyword" false Keywords_Keywords set_Keywords_Keywords
].

#[global] Instance Keywords_xml : xml.Value Keywords :=
  xml.structValue Keywords_tinfo "Keywords" Keywords_zero.

(** type ExternalIdentifier *)
Record ExternalIdentifier := {
  ExternalIdentifier_Visibility : string;
  ExternalIdentifier_PutCode : string;
  ExternalIdentifier_CreatedDate : option string;
  ExternalIdentifier_LastModifiedDate : option string;
  ExternalIdentifier_Source : option Source;
  ExternalIdentifier_ExternalIdType : string;
  ExternalIdentifier_ExternalIdValue : string;
  ExternalIdentifier_ExternalIdUrl : string;
}.

Definition ExternalIdentifier_zero : ExternalIdentifier :=
  {| ExternalIdentifier_Visibility := EmptyString; ExternalIdentifier_PutCode := EmptyString; ExternalIdentifier_CreatedDate := None; ExternalIdentifier_LastModifiedDate := None; ExternalIdentifier_Source := None; ExternalIdentifier_ExternalIdType := EmptyString; ExternalIdentifier_ExternalIdValue := EmptyString; ExternalIdentifier_ExternalIdUrl := EmptyString |}.

Definition set_ExternalIdentifier_Visibility (x : string) (v : ExternalIdentifier) : ExternalIdentifier :=
  {| ExternalIdentifier_Visibility := x; ExternalIdentifier_PutCode := ExternalIdentifier_PutCode v; ExternalIdentifier_CreatedDate := ExternalIdentifier_CreatedDate v; ExternalIdentifier_LastModifiedDate := ExternalIdentifier_LastModifiedDate v; ExternalIdentifier_Source := ExternalIdentifier_Source v; ExternalIdentifier_ExternalIdType := ExternalIdentifier_ExternalIdType v; ExternalIdentifier_ExternalIdValue := ExternalIdentifier_ExternalIdValue v; ExternalIdentifier_ExternalIdUrl := ExternalIdentifier_ExternalIdUrl v |}.
Definition set_ExternalIdentifier_PutCode (x : string) (v : ExternalIdentifier) : ExternalIdentifier :=
  {| ExternalIdentifier_Visibility := ExternalIdentifier_Visibility v; ExternalIdentifier_PutCode := x; ExternalIdentifier_CreatedDate := ExternalIdentifier_CreatedDate v; ExternalIdentifier_LastModifiedDate := ExternalIdentifier_LastModifiedDate v; ExternalIdentifier_Source := ExternalIdentifier_Source v; ExternalIdentifier_ExternalIdType := ExternalIdentifier_ExternalIdType v; ExternalIdentifier_ExternalIdValue := ExternalIdentifier_ExternalIdValue v; ExternalIdentifier_ExternalIdUrl := ExternalIdentifier_ExternalIdUrl v |}.
Definition set_ExternalIdentifier_CreatedDate (x : option string) (v : ExternalIdentifier) : ExternalIdentifier :=
  {| ExternalIdentifier_Visibility := ExternalIdentifier_Visibility v; ExternalIdentifier_PutCode := ExternalIdentifier_PutCode v; ExternalIdentifier_CreatedDate := x; ExternalIdentifier_LastModifiedDate := ExternalIdentifier_LastModifiedDate v; ExternalIdentifier_Source := ExternalIdentifier_Source v; ExternalIdentifier_ExternalIdType := ExternalIdentifier_ExternalIdType v; ExternalIdentifier_ExternalIdValue := ExternalIdentifier_ExternalIdValue v; ExternalIdentifier_ExternalIdUrl := ExternalIdentifier_ExternalIdUrl v |}.
Definition set_ExternalIdentifier_LastModifiedDate (x : option string) (v : ExternalIdentifier) : ExternalIdentifier :=
  {| ExternalIdentifier_Visibility := ExternalIdentifier_Visibility v; ExternalIdentifier_PutCode := ExternalIdentifier_PutCode v; ExternalIdentifier_CreatedDate := ExternalIdentifier_CreatedDate v; ExternalIdentifier_LastModifiedDate := x; ExternalIdentifier_Source := ExternalIdentifier_Source v; ExternalIdentifier_ExternalIdType := ExternalIdentifier_ExternalIdType v; ExternalIdentifier_ExternalIdValue := ExternalIdentifier_ExternalIdValue v; ExternalIdentifier_ExternalIdUrl := ExternalIdentifier_ExternalIdUrl v |}.
Definition set_ExternalIdentifier_Source (x : option Source) (v : ExternalIdentifier) : ExternalIdentifier :=
  {| ExternalIdentifier_Visibility := ExternalIdentifier_Visibility v; ExternalIdentifier_PutCode := ExternalIdentifier_PutCode v; ExternalIdentifier_CreatedDate := ExternalIdentifier_CreatedDate v; ExternalIdentifier_LastModifiedDate := ExternalIdentifier_LastModifiedDate v; ExternalIdentifier_Source := x; ExternalIdentifier_ExternalIdType := ExternalIdentifier_ExternalIdType v; ExternalIdentifier_ExternalIdValue := ExternalIdentifier_ExternalIdValue v; ExternalIdentifier_ExternalIdUrl := ExternalIdentifier_ExternalIdUrl v |}.
Definition set_ExternalIdentifier_ExternalIdType (x : string) (v : ExternalIdentifier) : ExternalIdentifier :=
  {| ExternalIdentifier_Visibility := ExternalIdentifier_Visibility v; ExternalIdentifier_PutCode := ExternalIdentifier_PutCode v; ExternalIdentifier_CreatedDate := ExternalIdentifier_CreatedDate v; ExternalIdentifier_LastModifiedDate := ExternalIdentifier_LastModifiedDate v; ExternalIdentifier_Source := ExternalIdentifier_Source v; ExternalIdentifier_ExternalIdType := x; ExternalIdentifier_ExternalIdValue := ExternalIdentifier_ExternalIdValue v; ExternalIdentifier_ExternalIdUrl := ExternalIdentifier_ExternalIdUrl v |}.
Definition set_ExternalIdentifier_ExternalIdValue (x : string) (v : ExternalIdentifier) : ExternalIdentifier :=
  {| ExternalIdentifier_Visibility := ExternalIdentifier_Visibility v; ExternalIdentifier_PutCode := ExternalIdentifier_PutCode v; ExternalIdentifier_CreatedDate := ExternalIdentifier_CreatedDate v; ExternalIdentifier_LastModifiedDate := ExternalIdentifier_LastModifiedDate v; ExternalIdentifier_Source := ExternalIdentifier_Source v; ExternalIdentifier_ExternalIdType := ExternalIdentifier_ExternalIdType v; ExternalIdentifier_ExternalIdValue := x; ExternalIdentifier_ExternalIdUrl := ExternalIdentifier_ExternalIdUrl v |}.
Definition set_ExternalIdentifier_ExternalIdUrl (x : string) (v : ExternalIdentifier) : ExternalIdentifier :=
  {| ExternalIdentifier_Visibility := ExternalIdentifier_Visibility v; ExternalIdentifier_PutCode := ExternalIdentifier_PutCode v; ExternalIdentifier_CreatedDate := ExternalIdentifier_CreatedDate v; ExternalIdentifier_LastModifiedDate := ExternalIdentifier_LastModifiedDate v; ExternalIdentifier_Source := ExternalIdentifier_Source v; ExternalIdentifier_ExternalIdType := ExternalIdentifier_ExternalIdType v; ExternalIdentifier_ExternalIdValue := ExternalIdentifier_ExternalIdValue v; ExternalIdentifier_ExternalIdUrl := x |}.

Definition ExternalIdentifier_tinfo : list (xml.fieldInfo ExternalIdentifier) := [
  xml.fAttr EmptyString "visibility" true ExternalIdentifier_Visibility set_ExternalIdentifier_Visibility;
  xml.fAttr EmptyString "put-code" true ExternalIdentifier_PutCode set_ExternalIdentifier_PutCode;
  xml.fElement ns_common "created-date" false ExternalIdentifier_CreatedDate set_ExternalIdentifier_CreatedDate;
  xml.fElement ns_common "last-modified-date" false ExternalIdentifier_LastModifiedDate set_ExternalIdentifier_LastModifiedDate;
  xml.fElement ns_common "source" false ExternalIdentifier_Source set_ExternalIdentifier_Source;
  xml.fElement ns_common "external-id-type" false ExternalIdentifier_ExternalIdType set_ExternalIdentifier_ExternalIdType;
  xml.fElement ns_common "external-id-value" false ExternalIdentifier_ExternalIdValue set_ExternalIdentifier_ExternalIdValue;
  xml.fElement ns_common "external-id-url" false ExternalIdentifier_ExternalIdUrl set_ExternalIdentifier_ExternalIdUrl
].

#[global] Instance ExternalIdentifier_xml : xml.Value ExternalIdentifier :=
  xml.structValue ExternalIdentifier_tinfo "ExternalIdentifier" ExternalIdentifier_zero.

(** type ExternalIdentifiers *)
Record ExternalIdentifiers := {
  ExternalIdentifiers_ExternalIdentifiers : list (option ExternalIdentifier);
}.

Definition ExternalIdentifiers_zero : ExternalIdentifiers :=
  {| ExternalIdentifiers_ExternalIdentifiers := [] |}.

Definition set_ExternalIdentifiers_ExternalIdentifiers (x : list (option ExternalIdentifier)) (v : ExternalIdentifiers) : ExternalIdentifiers :=
  {| ExternalIdentifiers_ExternalIdentifiers := x |}.

Definition ExternalIdentifiers_tinfo : list (xml.fieldInfo ExternalIdentifiers) := [
  xml.fElement ns_external_identifier "external-identifier" false ExternalIdentifiers_ExternalIdentifiers set_ExternalIdentifiers_ExternalIdentifiers
].

#[global] Instance ExternalIdentifiers_xml : xml.Value ExternalIdentifiers :=
  xml.structValue ExternalIdentifiers_tinfo "ExternalIdentifiers" ExternalIdentifiers_zero.

(** type Person *)
Record Person := {
  Person_XMLName : xml.Name;
  Person_XmlnsCommon : string;
  Person_XmlnsPerson : string;
  Person_XmlnsPersonal : string;
  Person_XmlnsOtherName : string;
  Person_XmlnsResearcherUrl : string;
  Person_XmlnsEmail : string;
  Person_XmlnsAddress : string;
  Person_XmlnsKeyword : string;
  Person_XmlnsExternalId : string;
  Person_XmlnsXsi : string;
  Person_XsiSchemaLocation : string;
  Person_LastModifiedDate : option string;
  Person_Name : option PersonName;
  Person_OtherNames : option OtherNames;
  Person_Biography : option Biography;
  Person_ResearcherUrls : option ResearcherUrls;
  Person_Emails : option Emails;
  Person_Addresses : option Addresses;
  Person_Keywords : option Keywords;
  Person_ExternalIdentifiers : option ExternalIdentifiers;
  Person_Path : string;
}.

Definition Person_zero : Person :=
  {| Person_XMLName := {| xml.Space := EmptyString; xml.Local := EmptyString |}; Person_XmlnsCommon := EmptyString; Person_XmlnsPerson := EmptyString; Person_XmlnsPersonal := EmptyString; Person_XmlnsOtherName := EmptyString; Person_XmlnsResearcherUrl := EmptyString; Person_XmlnsEmail := EmptyString; Person_XmlnsAddress := EmptyString; Person_XmlnsKeyword := EmptyString; Person_XmlnsExternalId := EmptyString; Person_XmlnsXsi := EmptyString; Person_XsiSchemaLocation := EmptyString; Person_LastModifiedDate := None; Person_Name := None; Person_OtherNames := None; Person_Biography := None; Person_ResearcherUrls := None; Person_Emails := None; Person_Addresses := None; Person_Keywords := None; Person_ExternalIdentifiers := None; Person_Path := EmptyString |}.

Definition set_Person_XMLName (x : xml.Name) (v : Person) : Person :=
  {| Person_XMLName := x; Person_XmlnsCommon := Person_XmlnsCommon v; Person_XmlnsPerson := Person_XmlnsPerson v; Person_XmlnsPersonal := Person_XmlnsPersonal v; Person_XmlnsOtherName := Person_XmlnsOtherName v; Person_XmlnsResearcherUrl := Person_XmlnsResearcherUrl v; Person_XmlnsEmail := Person_XmlnsEmail v; Person_XmlnsAddress := Person_XmlnsAddress v; Person_XmlnsKeyword := Person_XmlnsKeyword v; Person_XmlnsExternalId := Person_XmlnsExternalId v; Person_XmlnsXsi := Person_XmlnsXsi v; Person_XsiSchemaLocation := Person_XsiSchemaLocation v; Person_LastModifiedDate := Person_LastModifiedDate v; Person_Name := Person_Name v; Person_OtherNames := Person_OtherNames v; Person_Biography := Person_Biography v; Person_ResearcherUrls := Person_ResearcherUrls v; Person_Emails := Person_Emails v; Person_Addresses := Person_Addresses v; Person_Keywords := Person_Keywords v; Person_ExternalIdentifiers := Person_ExternalIdentifiers v; Person_Path := Person_Path v |}.
Definition set_Person_XmlnsCommon (x : string) (v : Person) : Person :=
  {| Person_XMLName := Person_XMLName v; Person_XmlnsCommon := x; Person_XmlnsPerson := Person_XmlnsPerson v; Person_XmlnsPersonal := Person_XmlnsPersonal v; Person_XmlnsOtherName := Person_XmlnsOtherName v; Person_XmlnsResearcherUrl := Person_XmlnsResearcherUrl v; Person_XmlnsEmail := Person_XmlnsEmail v; Person_XmlnsAddress := Person_XmlnsAddress v; Person_XmlnsKeyword := Person_XmlnsKeyword v; Person_XmlnsExternalId := Person_XmlnsExternalId v; Person_XmlnsXsi := Person_XmlnsXsi v; Person_XsiSchemaLocation := Person_XsiSchemaLocation v; Person_LastModifiedDate := Person_LastModifiedDate v; Person_Name := Person_Name v; Person_OtherNames := Person_OtherNames v; Person_Biography := Person_Biography v; Person_ResearcherUrls := Person_ResearcherUrls v; Person_Emails := Person_Emails v; Person_Addresses := Person_Addresses v; Person_Keywords := Person_Keywords v; Person_ExternalIdentifiers := Person_ExternalIdentifiers v; Person_Path := Person_Path v |}.
Definition set_Person_XmlnsPerson (x : string) (v : Person) : Person :=
  {| Person_XMLName := Person_XMLName v; Person_XmlnsCommon := Person_XmlnsCommon v; Person_XmlnsPerson := x; Person_XmlnsPersonal := Person_XmlnsPersonal v; Person_XmlnsOtherName := Person_XmlnsOtherName v; Person_XmlnsResearcherUrl := Person_XmlnsResearcherUrl v; Person_XmlnsEmail := Person_XmlnsEmail v; Person_XmlnsAddress := Person_XmlnsAddress v; Person_XmlnsKeyword := Person_XmlnsKeyword v; Person_XmlnsExternalId := Person_XmlnsExternalId v; Person_XmlnsXsi := Person_XmlnsXsi v; Person_XsiSchemaLocation := Person_XsiSchemaLocation v; Person_LastModifiedDate := Person_LastModifiedDate v; Person_Name := Person_Name v; Person_OtherNames := Person_OtherNames v; Person_Biography := Person_Biography v; Person_ResearcherUrls := Person_ResearcherUrls v; Person_Emails := Person_Emails v; Person_Addresses := Person_Addresses v; Person_Keywords := Person_Keywords v; Person_ExternalIdentifiers := Person_ExternalIdentifiers v; Person_Path := Person_Path v |}.
Definition set_Person_XmlnsPersonal (x : string) (v : Person) : Person :=
  {| Person_XMLName := Person_XMLName v; Person_XmlnsCommon := Person_XmlnsCommon v; Person_XmlnsPerson := Person_XmlnsPerson v; Person_XmlnsPersonal := x; Person_XmlnsOtherName := Person_XmlnsOtherName v; Person_XmlnsResearcherUrl := Person_XmlnsResearcherUrl v; Person_XmlnsEmail := Person_XmlnsEmail v; Person_XmlnsAddress := Person_XmlnsAddress v; Person_XmlnsKeyword := Person_XmlnsKeyword v; Person_XmlnsExternalId := Person_XmlnsExternalId v; Person_XmlnsXsi := Person_XmlnsXsi v; Person_XsiSchemaLocation := Person_XsiSchemaLocation v; Person_LastModifiedDate := Person_LastModifiedDate v; Person_Name := Person_Name v; Person_OtherNames := Person_OtherNames v; Person_Biography := Person_Biography v; Person_ResearcherUrls := Person_ResearcherUrls v; Person_Emails := Person_Emails v; Person_Addresses := Person_Addresses v; Person_Keywords := Person_Keywords v; Person_ExternalIdentifiers := Person_ExternalIdentifiers v; Person_Path := Person_Path v |}.
Definition set_Person_XmlnsOtherName (x : string) (v : Person) : Person :=
  {| Person_XMLName := Person_XMLName v; Person_XmlnsCommon := Person_XmlnsCommon v; Person_XmlnsPerson := Person_XmlnsPerson v; Person_XmlnsPersonal := Person_XmlnsPersonal v; Person_XmlnsOtherName := x; Person_XmlnsResearcherUrl := Person_XmlnsResearcherUrl v; Person_XmlnsEmail := Person_XmlnsEmail v; Person_XmlnsAddress := Person_XmlnsAddress v; Person_XmlnsKeyword := Person_XmlnsKeyword v; Person_XmlnsExternalId := Person_XmlnsExternalId v; Person_XmlnsXsi := Person_XmlnsXsi v; Person_XsiSchemaLocation := Person_XsiSchemaLocation v; Person_LastModifiedDate := Person_LastModifiedDate v; Person_Name := Person_Name v; Person_OtherNames := Person_OtherNames v; Person_Biography := Person_Biography v; Person_ResearcherUrls := Person_ResearcherUrls v; Person_Emails := Person_Emails v; Person_Addresses := Person_Addresses v; Person_Keywords := Person_Keywords v; Person_ExternalIdentifiers := Person_ExternalIdentifiers v; Person_Path := Person_Path v |}.
Definition set_Person_XmlnsResearcherUrl (x : string) (v : Person) : Person :=
  {| Person_XMLName := Person_XMLName v; Person_XmlnsCommon := Person_XmlnsCommon v; Person_XmlnsPerson := Person_XmlnsPerson v; Person_XmlnsPersonal := Person_XmlnsPersonal v; Person_XmlnsOtherName := Person_XmlnsOtherName v; Person_XmlnsResearcherUrl := x; Person_XmlnsEmail := Person_XmlnsEmail v; Person_XmlnsAddress := Person_XmlnsAddress v; Person_XmlnsKeyword := Person_XmlnsKeyword v; Person_XmlnsExternalId := Person_XmlnsExternalId v; Person_XmlnsXsi := Person_XmlnsXsi v; Person_XsiSchemaLocation := Person_XsiSchemaLocation v; Person_LastModifiedDate := Person_LastModifiedDate v; Person_Name := Person_Name v; Person_OtherNames := Person_OtherNames v; Person_Biography := Person_Biography v; Person_ResearcherUrls := Person_ResearcherUrls v; Person_Emails := Person_Emails v; Person_Addresses := Person_Addresses v; Person_Keywords := Person_Keywords v; Person_ExternalIdentifiers := Person_ExternalIdentifiers v; Person_Path := Person_Path v |}.
Definition set_Person_XmlnsEmail (x : string) (v : Person) : Person :=
  {| Person_XMLName := Person_XMLName v; Person_XmlnsCommon := Person_XmlnsCommon v; Person_XmlnsPerson := Person_XmlnsPerson v; Person_XmlnsPersonal := Person_XmlnsPersonal v; Person_XmlnsOtherName := Person_XmlnsOtherName v; Person_XmlnsResearcherUrl := Person_XmlnsResearcherUrl v; Person_XmlnsEmail := x; Person_XmlnsAddress := Person_XmlnsAddress v; Person_XmlnsKeyword := Person_XmlnsKeyword v; Person_XmlnsExternalId := Person_XmlnsExternalId v; Person_XmlnsXsi := Person_XmlnsXsi v; Person_XsiSchemaLocation := Person_XsiSchemaLocation v; Person_LastModifiedDate := Person_LastModifiedDate v; Person_Name := Person_Name v; Person_OtherNames := Person_OtherNames v; Person_Biography := Person_Biography v; Person_ResearcherUrls := Person_ResearcherUrls v; Person_Emails := Person_Emails v; Person_Addresses := Person_Addresses v; Person_Keywords := Person_Keywords v; Person_ExternalIdentifiers := Person_ExternalIdentifiers v; Person_Path := Person_Path v |}.
Definition set_Person_XmlnsAddress (x : string) (v : Person) : Person :=
  {| Person_XMLName := Person_XMLName v; Person_XmlnsCommon := Person_XmlnsCommon v; Person_XmlnsPerson := Person_XmlnsPerson v; Person_XmlnsPersonal := Person_XmlnsPersonal v; Person_XmlnsOtherName := Person_XmlnsOtherName v; Person_XmlnsResearcherUrl := Person_XmlnsResearcherUrl v; Person_XmlnsEmail := Person_XmlnsEmail v; Person_XmlnsAddress := x; Person_XmlnsKeyword := Person_XmlnsKeyword v; Person_XmlnsExternalId := Person_XmlnsExternalId v; Person_XmlnsXsi := Person_XmlnsXsi v; Person_XsiSchemaLocation := Person_XsiSchemaLocation v; Person_LastModifiedDate := Person_LastModifiedDate v; Person_Name := Person_Name v; Person_OtherNames := Person_OtherNames v; Person_Biography := Person_Biography v; Person_ResearcherUrls := Person_ResearcherUrls v; Person_Emails := Person_Emails v; Person_Addresses := Person_Addresses v; Person_Keywords := Person_Keywords v; Person_ExternalIdentifiers := Person_ExternalIdentifiers v; Person_Path := Person_Path v |}.
Definition set_Person_XmlnsKeyword (x : string) (v : Person) : Person :=
  {| Person_XMLName := Person_XMLName v; Person_XmlnsCommon := Person_XmlnsCommon v; Person_XmlnsPerson := Person_XmlnsPerson v; Person_XmlnsPersonal := Person_XmlnsPersonal v; Person_XmlnsOtherName := Person_XmlnsOtherName v; Person_XmlnsResearcherUrl := Person_XmlnsResearcherUrl v; Person_XmlnsEmail := Person_XmlnsEmail v; Person_XmlnsAddress := Person_XmlnsAddress v; Person_XmlnsKeyword := x; Person_XmlnsExternalId := Person_XmlnsExternalId v; Person_XmlnsXsi := Person_XmlnsXsi v; Person_XsiSchemaLocation := Person_XsiSchemaLocation v; Person_LastModifiedDate := Person_LastModifiedDate v; Person_Name := Person_Name v; Person_OtherNames := Person_OtherNames v; Person_Biography := Person_Biography v; Person_ResearcherUrls := Person_ResearcherUrls v; Person_Emails := Person_Emails v; Person_Addresses := Person_Addresses v; Person_Keywords := Person_Keywords v; Person_ExternalIdentifiers := Person_ExternalIdentifiers v; Person_Path := Person_Path v |}.
Definition set_Person_XmlnsExternalId (x : string) (v : Person) : Person :=
  {| Person_XMLName := Person_XMLName v; Person_XmlnsCommon := Person_XmlnsCommon v; Person_XmlnsPerson := Person_XmlnsPerson v; Person_XmlnsPersonal := Person_XmlnsPersonal v; Person_XmlnsOtherName := Person_XmlnsOtherName v; Person_XmlnsResearcherUrl := Person_XmlnsResearcherUrl v; Person_XmlnsEmail := Person_XmlnsEmail v; Person_XmlnsAddress := Person_XmlnsAddress v; Person_XmlnsKeyword := Person_XmlnsKeyword v; Person_XmlnsExternalId := x; Person_XmlnsXsi := Person_XmlnsXsi v; Person_XsiSchemaLocation := Person_XsiSchemaLocation v; Person_LastModifiedDate := Person_LastModifiedDate v; Person_Name := Person_Name v; Person_OtherNames := Person_OtherNames v; Person_Biography := Person_Biography v; Person_ResearcherUrls := Person_ResearcherUrls v; Person_Emails := Person_Emails v; Person_Addresses := Person_Addresses v; Person_Keywords := Person_Keywords v; Person_ExternalIdentifiers := Person_ExternalIdentifiers v; Person_Path := Person_Path v |}.
Definition set_Person_XmlnsXsi (x : string) (v : Person) : Person :=
  {| Person_XMLName := Person_XMLName v; Person_XmlnsCommon := Person_XmlnsCommon v; Person_XmlnsPerson := Person_XmlnsPerson v; Person_XmlnsPersonal := Person_XmlnsPersonal v; Person_XmlnsOtherName := Person_XmlnsOtherName v; Person_XmlnsResearcherUrl := Person_XmlnsResearcherUrl v; Person_XmlnsEmail := Person_XmlnsEmail v; Person_XmlnsAddress := Person_XmlnsAddress v; Person_XmlnsKeyword := Person_XmlnsKeyword v; Person_XmlnsExternalId := Person_XmlnsExternalId v; Person_XmlnsXsi := x; Person_XsiSchemaLocation := Person_XsiSchemaLocation v; Person_LastModifiedDate := Person_LastModifiedDate v; Person_Name := Person_Name v; Person_OtherNames := Person_OtherNames v; Person_Biography := Person_Biography v; Person_ResearcherUrls := Person_ResearcherUrls v; Person_Emails := Person_Emails v; Person_Addresses := Person_Addresses v; Person_Keywords := Person_Keywords v; Person_ExternalIdentifiers := Person_ExternalIdentifiers v; Person_Path := Person_Path v |}.
Definition set_Person_XsiSchemaLocation (x : string) (v : Person) : Person :=
  {| Person_XMLName := Person_XMLName v; Person_XmlnsCommon := Person_XmlnsCommon v; Person_XmlnsPerson := Person_XmlnsPerson v; Person_XmlnsPersonal := Person_XmlnsPersonal v; Person_XmlnsOtherName := Person_XmlnsOtherName v; Person_XmlnsResearcherUrl := Person_XmlnsResearcherUrl v; Person_XmlnsEmail := Person_XmlnsEmail v; Person_XmlnsAddress := Person_XmlnsAddress v; Person_XmlnsKeyword := Person_XmlnsKeyword v; Person_XmlnsExternalId := Person_XmlnsExternalId v; Person_XmlnsXsi := Person_XmlnsXsi v; Person_XsiSchemaLocation := x; Person_LastModifiedDate := Person_LastModifiedDate v; Person_Name := Person_Name v; Person_OtherNames := Person_OtherNames v; Person_Biography := Person_Biography v; Person_ResearcherUrls := Person_ResearcherUrls v; Person_Emails := Person_Emails v; Person_Addresses := Person_Addresses v; Person_Keywords := Person_Keywords v; Person_ExternalIdentifiers := Person_ExternalIdentifiers v; Person_Path := Person_Path v |}.
Definition set_Person_LastModifiedDate (x : option string) (v : Person) : Person :=
  {| Person_XMLName := Person_XMLName v; Person_XmlnsCommon := Person_XmlnsCommon v; Person_XmlnsPerson := Person_XmlnsPerson v; Person_XmlnsPersonal := Person_XmlnsPersonal v; Person_XmlnsOtherName := Person_XmlnsOtherName v; Person_XmlnsResearcherUrl := Person_XmlnsResearcherUrl v; Person_XmlnsEmail := Person_XmlnsEmail v; Person_XmlnsAddress := Person_XmlnsAddress v; Person_XmlnsKeyword := Person_XmlnsKeyword v; Person_XmlnsExternalId := Person_XmlnsExternalId v; Person_XmlnsXsi := Person_XmlnsXsi v; Person_XsiSchemaLocation := Person_XsiSchemaLocation v; Person_LastModifiedDate := x; Person_Name := Person_Name v; Person_OtherNames := Person_OtherNames v; Person_Biography := Person_Biography v; Person_ResearcherUrls := Person_ResearcherUrls v; Person_Emails := Person_Emails v; Person_Addresses := Person_Addresses v; Person_Keywords := Person_Keywords v; Person_ExternalIdentifiers := Person_ExternalIdentifiers v; Person_Path := Person_Path v |}.
Definition set_Person_Name (x : option PersonName) (v : Person) : Person :=
  {| Person_XMLName := Person_XMLName v; Person_XmlnsCommon := Person_XmlnsCommon v; Person_XmlnsPerson := Person_XmlnsPerson v; Person_XmlnsPersonal := Person_XmlnsPersonal v; Person_XmlnsOtherName := Person_XmlnsOtherName v; Person_XmlnsResearcherUrl := Person_XmlnsResearcherUrl v; Person_XmlnsEmail := Person_XmlnsEmail v; Person_XmlnsAddress := Person_XmlnsAddress v; Person_XmlnsKeyword := Person_XmlnsKeyword v; Person_XmlnsExternalId := Person_XmlnsExternalId v; Person_XmlnsXsi := Person_XmlnsXsi v; Person_XsiSchemaLocation := Person_XsiSchemaLocation v; Person_LastModifiedDate := Person_LastModifiedDate v; Person_Name := x; Person_OtherNames := Person_OtherNames v; Person_Biography := Person_Biography v; Person_ResearcherUrls := Person_ResearcherUrls v; Person_Emails := Person_Emails v; Person_Addresses := Person_Addresses v; Person_Keywords := Person_Keywords v; Person_ExternalIdentifiers := Person_ExternalIdentifiers v; Person_Path := Person_Path v |}.
Definition set_Person_OtherNames (x : option OtherNames) (v : Person) : Person :=
  {| Person_XMLName := Person_XMLName v; Person_XmlnsCommon := Person_XmlnsCommon v; Person_XmlnsPerson := Person_XmlnsPerson v; Person_XmlnsPersonal := Person_XmlnsPersonal v; Person_XmlnsOtherName := Person_XmlnsOtherName v; Person_XmlnsResearcherUrl := Person_XmlnsResearcherUrl v; Person_XmlnsEmail := Person_XmlnsEmail v; Person_XmlnsAddress := Person_XmlnsAddress v; Person_XmlnsKeyword := Person_XmlnsKeyword v; Person_XmlnsExternalId := Person_XmlnsExternalId v; Person_XmlnsXsi := Person_XmlnsXsi v; Person_XsiSchemaLocation := Person_XsiSchemaLocation v; Person_LastModifiedDate := Person_LastModifiedDate v; Person_Name := Person_Name v; Person_OtherNames := x; Person_Biography := Person_Biography v; Person_ResearcherUrls := Person_ResearcherUrls v; Person_Emails := Person_Emails v; Person_Addresses := Person_Addresses v; Person_Keywords := Person_Keywords v; Person_ExternalIdentifiers := Person_ExternalIdentifiers v; Person_Path := Person_Path v |}.
Definition set_Person_Biography (x : option Biography) (v : Person) : Person :=
  {| Person_XMLName := Person_XMLName v; Person_XmlnsCommon := Person_XmlnsCommon v; Person_XmlnsPerson := Person_XmlnsPerson v; Person_XmlnsPersonal := Person_XmlnsPersonal v; Person_XmlnsOtherName := Person_XmlnsOtherName v; Person_XmlnsResearcherUrl := Person_XmlnsResearcherUrl v; Person_XmlnsEmail := Person_XmlnsEmail v; Person_XmlnsAddress := Person_XmlnsAddress v; Person_XmlnsKeyword := Person_XmlnsKeyword v; Person_XmlnsExternalId := Person_XmlnsExternalId v; Person_XmlnsXsi := Person_XmlnsXsi v; Person_XsiSchemaLocation := Person_XsiSchemaLocation v; Person_LastModifiedDate := Person_LastModifiedDate v; Person_Name := Person_Name v; Person_OtherNames := Person_OtherNames v; Person_Biography := x; Person_ResearcherUrls := Person_ResearcherUrls v; Person_Emails := Person_Emails v; Person_Addresses := Person_Addresses v; Person_Keywords := Person_Keywords v; Person_ExternalIdentifiers := Person_ExternalIdentifiers v; Person_Path := Person_Path v |}.
Definition set_Person_ResearcherUrls (x : option ResearcherUrls) (v : Person) : Person :=
  {| Person_XMLName := Person_XMLName v; Person_XmlnsCommon := Person_XmlnsCommon v; Person_XmlnsPerson := Person_XmlnsPerson v; Person_XmlnsPersonal := Person_XmlnsPersonal v; Person_XmlnsOtherName := Person_XmlnsOtherName v; Person_XmlnsResearcherUrl := Person_XmlnsResearcherUrl v; Person_XmlnsEmail := Person_XmlnsEmail v; Person_XmlnsAddress := Person_XmlnsAddress v; Person_XmlnsKeyword := Person_XmlnsKeyword v; Person_XmlnsExternalId := Person_XmlnsExternalId v; Person_XmlnsXsi := Person_XmlnsXsi v; Person_XsiSchemaLocation := Person_XsiSchemaLocation v; Person_LastModifiedDate := Person_LastModifiedDate v; Person_Name := Person_Name v; Person_OtherNames := Person_OtherNames v; Person_Biography := Person_Biography v; Person_ResearcherUrls := x; Person_Emails := Person_Emails v; Person_Addresses := Person_Addresses v; Person_Keywords := Person_Keywords v; Person_ExternalIdentifiers := Person_ExternalIdentifiers v; Person_Path := Person_Path v |}.
Definition set_Person_Emails (x : option Emails) (v : Person) : Person :=
  {| Person_XMLName := Person_XMLName v; Person_XmlnsCommon := Person_XmlnsCommon v; Person_XmlnsPerson := Person_XmlnsPerson v; Person_XmlnsPersonal := Person_XmlnsPersonal v; Person_XmlnsOtherName := Person_XmlnsOtherName v; Person_XmlnsResearcherUrl := Person_XmlnsResearcherUrl v; Person_XmlnsEmail := Person_XmlnsEmail v; Person_XmlnsAddress := Person_XmlnsAddress v; Person_XmlnsKeyword := Person_XmlnsKeyword v; Person_XmlnsExternalId := Person_XmlnsExternalId v; Person_XmlnsXsi := Person_XmlnsXsi v; Person_XsiSchemaLocation := Person_XsiSchemaLocation v; Person_LastModifiedDate := Person_LastModifiedDate v; Person_Name := Person_Name v; Person_OtherNames := Person_OtherNames v; Person_Biography := Person_Biography v; Person_ResearcherUrls := Person_ResearcherUrls v; Person_Emails := x; Person_Addresses := Person_Addresses v; Person_Keywords := Person_Keywords v; Person_ExternalIdentifiers := Person_ExternalIdentifiers v; Person_Path := Person_Path v |}.
Definition set_Person_Addresses (x : option Addresses) (v : Person) : Person :=
  {| Person_XMLName := Person_XMLName v; Person_XmlnsCommon := Person_XmlnsCommon v; Person_XmlnsPerson := Person_XmlnsPerson v; Person_XmlnsPersonal := Person_XmlnsPersonal v; Person_XmlnsOtherName := Person_XmlnsOtherName v; Person_XmlnsResearcherUrl := Person_XmlnsResearcherUrl v; Person_XmlnsEmail := Person_XmlnsEmail v; Person_XmlnsAddress := Person_XmlnsAddress v; Person_XmlnsKeyword := Person_XmlnsKeyword v; Person_XmlnsExternalId := Person_XmlnsExternalId v; Person_XmlnsXsi := Person_XmlnsXsi v; Person_XsiSchemaLocation := Person_XsiSchemaLocation v; Person_LastModifiedDate := Person_LastModifiedDate v; Person_Name := Person_Name v; Person_OtherNames := Person_OtherNames v; Person_Biography := Person_Biography v; Person_ResearcherUrls := Person_ResearcherUrls v; Person_Emails := Person_Emails v; Person_Addresses := x; Person_Keywords := Person_Keywords v; Person_ExternalIdentifiers := Person_ExternalIdentifiers v; Person_Path := Person_Path v |}.
Definition set_Person_Keywords (x : option Keywords) (v : Person) : Person :=
  {| Person_XMLName := Person_XMLName v; Person_XmlnsCommon := Person_XmlnsCommon v; Person_XmlnsPerson := Person_XmlnsPerson v; Person_XmlnsPersonal := Person_XmlnsPersonal v; Person_XmlnsOtherName := Person_XmlnsOtherName v; Person_XmlnsResearcherUrl := Person_XmlnsResearcherUrl v; Person_XmlnsEmail := Person_XmlnsEmail v; Person_XmlnsAddress := Person_XmlnsAddress v; Person_XmlnsKeyword := Person_XmlnsKeyword v; Person_XmlnsExternalId := Person_XmlnsExternalId v; Person_XmlnsXsi := Person_XmlnsXsi v; Person_XsiSchemaLocation := Person_XsiSchemaLocation v; Person_LastModifiedDate := Person_LastModifiedDate v; Person_Name := Person_Name v; Person_OtherNames := Person_OtherNames v; Person_Biography := Person_Biography v; Person_ResearcherUrls := Person_ResearcherUrls v; Person_Emails := Person_Emails v; Person_Addresses := Person_Addresses v; Person_Keywords := x; Person_ExternalIdentifiers := Person_ExternalIdentifiers v; Person_Path := Person_Path v |}.
Definition set_Person_ExternalIdentifiers (x : option ExternalIdentifiers) (v : Person) : Person :=
  {| Person_XMLName := Person_XMLName v; Person_XmlnsCommon := Person_XmlnsCommon v; Person_XmlnsPerson := Person_XmlnsPerson v; Person_XmlnsPersonal := Person_XmlnsPersonal v; Person_XmlnsOtherName := Person_XmlnsOtherName v; Person_XmlnsResearcherUrl := Person_XmlnsResearcherUrl v; Person_XmlnsEmail := Person_XmlnsEmail v; Person_XmlnsAddress := Person_XmlnsAddress v; Person_XmlnsKeyword := Person_XmlnsKeyword v; Person_XmlnsExternalId := Person_XmlnsExternalId v; Person_XmlnsXsi := Person_XmlnsXsi v; Person_XsiSchemaLocation := Person_XsiSchemaLocation v; Person_LastModifiedDate := Person_LastModifiedDate v; Person_Name := Person_Name v; Person_OtherNames := Person_OtherNames v; Person_Biography := Person_Biography v; Person_ResearcherUrls := Person_ResearcherUrls v; Person_Emails := Person_Emails v; Person_Addresses := Person_Addresses v; Person_Keywords := Person_Keywords v; Person_ExternalIdentifiers := x; Person_Path := Person_Path v |}.
Definition set_Person_Path (x : string) (v : Person) : Person :=
  {| Person_XMLName := Person_XMLName v; Person_XmlnsCommon := Person_XmlnsCommon v; Person_XmlnsPerson := Person_XmlnsPerson v; Person_XmlnsPersonal := Person_XmlnsPersonal v; Person_XmlnsOtherName := Person_XmlnsOtherName v; Person_XmlnsResearcherUrl := Person_XmlnsResearcherUrl v; Person_XmlnsEmail := Person_XmlnsEmail v; Person_XmlnsAddress := Person_XmlnsAddress v; Person_XmlnsKeyword := Person_XmlnsKeyword v; Person_XmlnsExternalId := Person_XmlnsExternalId v; Person_XmlnsXsi := Person_XmlnsXsi v; Person_XsiSchemaLocation := Person_XsiSchemaLocation v; Person_LastModifiedDate := Person_LastModifiedDate v; Person_Name := Person_Name v; Person_OtherNames := Person_OtherNames v; Person_Biography := Person_Biography v; Person_ResearcherUrls := Person_ResearcherUrls v; Person_Emails := Person_Emails v; Person_Addresses := Person_Addresses v; Person_Keywords := Person_Keywords v; Person_ExternalIdentifiers := Person_ExternalIdentifiers v; Person_Path := x |}.

Definition Person_tinfo : list (xml.fieldInfo Person) := [
  xml.fXMLName ns_person "person" Person_XMLName set_Person_XMLName;
  xml.fAttr EmptyString "xmlns:common" true Person_XmlnsCommon set_Person_XmlnsCommon;
  xml.fAttr EmptyString "xmlns:person" true Person_XmlnsPerson set_Person_XmlnsPerson;
  xml.fAttr EmptyString "xmlns:personal-details" true Person_XmlnsPersonal set_Person_XmlnsPersonal;
  xml.fAttr EmptyString "xmlns:other-name" true Person_XmlnsOtherName set_Person_XmlnsOtherName;
  xml.fAttr EmptyString "xmlns:researcher-url" true Person_XmlnsResearcherUrl set_Person_XmlnsResearcherUrl;
  xml.fAttr EmptyString "xmlns:email" true Person_XmlnsEmail set_Person_XmlnsEmail;
  xml.fAttr EmptyString "xmlns:address" true Person_XmlnsAddress set_Person_XmlnsAddress;
  xml.fAttr EmptyString "xmlns:keyword" true Person_XmlnsKeyword set_Person_XmlnsKeyword;
  xml.fAttr EmptyString "xmlns:external-identifier" true Person_XmlnsExternalId set_Person_XmlnsExternalId;
  xml.fAttr EmptyString "xmlns:xsi" true Person_XmlnsXsi set_Person_XmlnsXsi;
  xml.fAttr ns_xsi "schemaLocation" true Person_XsiSchemaLocation set_Person_XsiSchemaLocation;
  xml.fElement ns_common "last-modified-date" false Person_LastModifiedDate set_Person_LastModifiedDate;
  xml.fElement ns_person "name" false Person_Name set_Person_Name;
  xml.fElement ns_other_name "other-names" false Person_OtherNames set_Person_OtherNames;
  xml.fElement ns_person "biography" false Person_Biography set_Person_Biography;
  xml.fElement ns_researcher_url "researcher-urls" false Person_ResearcherUrls set_Person_ResearcherUrls;
  xml.fElement ns_email "emails" false Person_Emails set_Person_Emails;
  xml.fElement ns_address "addresses" false Person_Addresses set_Person_Addresses;
  xml.fElement ns_keyword "keywords" false Person_Keywords set_Person_Keywords;
  xml.fElement ns_external_identifier "external-identifiers" false Person_ExternalIdentifiers set_Person_ExternalIdentifiers;
  xml.fAttr EmptyString "path" true Person_Path set_Person_Path
].

#[global] Instance Person_xml : xml.Value Person :=
  xml.structValue Person_tinfo "Person" Person_zero.

End models.

(* ===================================================================== *)
(** ** models/person_test.go: the semantic comparison of two documents *)
(* ===================================================================== *)

Module models_test.

(** What is left of a Decoder's input: its tokens still to come.  Token()
    hands out the first of them, and io.EOF ([None]) when none is left. *)
Definition Decoder : Type := list xml.Token.

(** nextSignificantToken: comments, processing instructions, directives
    and character data of white space only are passed over. *)
Fixpoint nextSignificantToken (d : Decoder) : option (xml.Token * Decoder) :=
  match d with
  | [] => None
  | tok :: d' =>
      match tok with
      | xml.Comment _ | xml.ProcInst _ _ | xml.Directive _ => nextSignificantToken d'
      | xml.CharData t =>
          if (String.length (strings.TrimSpace t) =? 0)%nat
          then nextSignificantToken d'
          else Some (tok, d')
      | _ => Some (tok, d')
      end
  end.

(** The attributes normalizeAttrs leaves out: name-space declarations. *)
Definition isDeclaration (a : xml.Attr) : bool :=
  String.eqb (xml.Space (xml.Attr_Name a)) "xmlns"
  || String.eqb (xml.Local (xml.Attr_Name a)) "xmlns"
  || strings.HasPrefix (xml.Local (xml.Attr_Name a)) "xmlns:".

Definition sortKey (a : xml.Attr) : string :=
  xml.Space (xml.Attr_Name a) +:+ "|" +:+ xml.Local (xml.Attr_Name a).

(** sort.Slice by [sortKey]: on the few attributes of a start tag it is an
    insertion sort, which leaves attributes of equal key in their order. *)
Fixpoint insertSorted (a : xml.Attr) (sorted : list xml.Attr) : list xml.Attr :=
  match sorted with
  | [] => [a]
  | b :: rest =>
      if String.ltb (sortKey b) (sortKey a) then b :: insertSorted a rest
      else a :: sorted
  end.

Definition sortAttrs (attrs : list xml.Attr) : list xml.Attr :=
  fold_right insertSorted [] attrs.

Definition normalizeAttrs (attrs : list xml.Attr) : list xml.Attr :=
  sortAttrs (List.filter (λ a, negb (isDeclaration a)) attrs).

Definition sameAttr (a b : xml.Attr) : bool :=
  String.eqb (xml.Space (xml.Attr_Name a)) (xml.Space (xml.Attr_Name b))
  && String.eqb (xml.Local (xml.Attr_Name a)) (xml.Local (xml.Attr_Name b))
  && String.eqb (xml.Attr_Value a) (xml.Attr_Value b).

Fixpoint sameAttrs (a1 a2 : list xml.Attr) : bool :=
  match a1, a2 with
  | [], [] => true
  | a :: a1', b :: a2' => sameAttr a b && sameAttrs a1' a2'
  | _, _ => false
  end.

Definition attrsEqual (attrs1 attrs2 : list xml.Attr) : bool :=
  let a1 := normalizeAttrs attrs1 in
  let a2 := normalizeAttrs attrs2 in
  (length a1 =? length a2)%nat && sameAttrs a1 a2.

Definition tokensEqual (t1 t2 : xml.Token) : bool :=
  match t1, t2 with
  | xml.StartElement n1 a1, xml.StartElement n2 a2 =>
      xml.eqName n1 n2 && attrsEqual a1 a2
  | xml.EndElement n1, xml.EndElement n2 => xml.eqName n1 n2
  | xml.CharData v1, xml.CharData v2 =>
      String.eqb (strings.TrimSpace v1) (strings.TrimSpace v2)
  | _, _ => false
  end.

(** What assertXMLEqual returns: nil, or one of its two errors. *)
Inductive verdict :=
| equal
| lengthMismatch
| tokenMismatch (expect got : xml.Token).

(** The loop of assertXMLEqual; every turn takes a token off each
    decoder, so [turns] beyond the length of the input are never used. *)
Fixpoint compare (turns : nat) (d1 d2 : Decoder) : verdict :=
  match nextSignificantToken d1, nextSignificantToken d2 with
  | None, None => equal
  | None, Some _ | Some _, None => lengthMismatch
  | Some (tok1, d1'), Some (tok2, d2') =>
      if tokensEqual tok1 tok2 then
        match turns with
        | O => lengthMismatch
        | S turns' => compare turns' d1' d2'
        end
      else tokenMismatch tok1 tok2
  end.

Definition assertXMLEqual (xml1 xml2 : Decoder) : verdict :=
  compare (length xml1) xml1 xml2.

End models_test.

(* ===================================================================== *)
(** ** The round trip through XML *)
(* ===================================================================== *)



(** xmlDecode(xmlEncode(v)) *)
Definition roundTrip {A} `{xml.Value A} (v : A) : option A :=
  xml.Unmarshal (xml.Marshal v).

(** The integers Go's int and int64 hold. *)
Definition int64 (n : Z) : Prop := - 2 ^ 63 <= n < 2 ^ 63.

(* ===================================================================== *)
(** ** Package net/http: requests and the ResponseWriter contract *)
(* ===================================================================== *)

Module http.

Definition StatusOK : Z := 200.
Definition StatusCreated : Z := 201.
Definition StatusFound : Z := 302.
Definition StatusBadRequest : Z := 400.
Definition StatusNotFound : Z := 404.
Definition StatusMethodNotAllowed : Z := 405.
Definition StatusInternalServerError : Z := 500.

(** A request after routing: [URL_Path] is the cleaned path,
    [PathValues] the wildcards the matched pattern bound, [URL_Query]
    and [Header] give the first value of each key. *)
Record Request := {
  Method : string;
  URL_Path : string;
  URL_Query : gmap string string;
  Header : gmap string string;
  PathValues : gmap string string;
  FormError : bool;   (* whether r.ParseForm() reports an error *)
}.

(** Header.Get, Values.Get, Request.PathValue: the empty string when the
    key is absent. *)
Definition Get (m : gmap string string) (key : string) : string :=
  default EmptyString (m !! key).

Definition PathValue (r : Request) (name : string) : string :=
  Get (PathValues r) name.

(** What a handler writes to the body, one entry per Write. *)
Inductive Chunk :=
| Raw (bytes : string)
| XMLDoc (doc : list xml.Node)
| JSONDoc (doc : json.Tree).   (* Encoder.Encode ends the document with a newline *)

(** The state of a ResponseWriter.  [handlerHeader] is the map Header()
    returns; WriteHeader fixes the status and the headers of the
    response ([sentHeader]) and later changes to the map do not reach
    the client. *)
Record ResponseWriter := {
  handlerHeader : gmap string string;
  wroteHeader : bool;
  status : Z;
  sentHeader : gmap string string;
  body : list Chunk;
}.

Definition NewResponseWriter : ResponseWriter :=
  {| handlerHeader := ∅; wroteHeader := false; status := 0;
     sentHeader := ∅; body := [] |}.

(** w.Header().Set(key, value) *)
Definition SetHeader (key value : string) (w : ResponseWriter) : ResponseWriter :=
  {| handlerHeader := <[key := value]> (handlerHeader w);
     wroteHeader := wroteHeader w; status := status w;
     sentHeader := sentHeader w; body := body w |}.

(** w.Header().Del(key) *)
Definition DelHeader (key : string) (w : ResponseWriter) : ResponseWriter :=
  {| handlerHeader := delete key (handlerHeader w);
     wroteHeader := wroteHeader w; status := status w;
     sentHeader := sentHeader w; body := body w |}.

(** w.WriteHeader(code): only the first call counts. *)
Definition WriteHeader (code : Z) (w : ResponseWriter) : ResponseWriter :=
  if wroteHeader w then w
  else {| handlerHeader := handlerHeader w; wroteHeader := true;
          status := code; sentHeader := handlerHeader w; body := body w |}.

(** w.Write(bytes): an implicit WriteHeader(200) comes first when the
    header has not been written. *)
Definition Write (c : Chunk) (w : ResponseWriter) : ResponseWriter :=
  let w := WriteHeader StatusOK w in
  {| handlerHeader := handlerHeader w; wroteHeader := wroteHeader w;
     status := status w; sentHeader := sentHeader w;
     body := body w ++ [c] |}.

(** http.Error *)
Definition Error (w : ResponseWriter) (error : string) (code : Z) : ResponseWriter :=
  let w := DelHeader "Content-Length" w in
  let w := SetHeader "Content-Type" "text/plain; charset=utf-8" w in
  let w := SetHeader "X-Content-Type-Options" "nosniff" w in
  let w := WriteHeader code w in
  Write (Raw (error +:+ xml.newline)) w.

(** http.Redirect with a target that is an absolute URL of one-byte
    characters without markup characters (so that neither the
    resolution against the request path nor the escapes change it). *)
Definition Redirect (w : ResponseWriter) (r : Request) (url : string) (code : Z)
  : ResponseWriter :=
  let hadCT := bool_decide (is_Some (handlerHeader w !! "Content-Type")) in
  let w := SetHeader "Location" url w in
  let w := if negb hadCT && (String.eqb (Method r) "GET" || String.eqb (Method r) "HEAD")
           then SetHeader "Content-Type" "text/html; charset=utf-8" w else w in
  let w := WriteHeader code w in
  if negb hadCT && String.eqb (Method r) "GET"
  then Write (Raw ("<a href=" +:+ xml.quote +:+ url +:+ xml.quote +:+ ">Found</a>."
                   +:+ xml.newline +:+ xml.newline)) w
  else w.

End http.

(* ===================================================================== *)
(** ** main.go: the in-memory store and its seeding *)
(* ===================================================================== *)

(** The package-level variables: the two stores and the random source the
    handlers draw put-codes from. *)
Record World := {
  dataStore : gmap string (gmap string (gmap Z string));
  personStore : gmap string OrcidRecord;
  randSource : rand.Source;
}.

(** createMockRecord; [now] is the reading of time.Now().UnixMilli().
    Indexing the first byte of an empty given name panics ([None]). *)
Definition createMockRecord (orcid givenName familyName bio : string) (now : Z)
  : option OrcidRecord :=
  match givenName with
  | EmptyString => None
  | String givenName0 _ =>
  Some {|
    OrcidRecord_XMLName := {| xml.Space := EmptyString; xml.Local := EmptyString |};
    OrcidRecord_OrcidIdentifier := {|
      OrcidIdentifier_Uri := "https://orcid.org/" +:+ orcid;
      OrcidIdentifier_Path := orcid;
      OrcidIdentifier_Host := "orcid.org" |};
    OrcidRecord_Person := {|
      Person_Name := {|
        Name_GivenNames := {| Value_Value := givenName |};
        Name_FamilyName := {| Value_Value := familyName |};
        Name_CreditName :=
          {| Value_Value := strings.ofByte givenName0 +:+ ". " +:+ familyName |} |};
      Person_Biography := Some {| Biography_Content := bio |};
      Person_Emails := Some {| Emails_Email := [
        {| Email_Email := strings.ToLower givenName +:+ "." +:+
                          strings.ToLower familyName +:+ "@mock.edu";
           Email_Verified := true;
           Email_Primary := true;
           Email_Visibility := "PUBLIC" |} ] |};
      Person_ResearcherUrls := Some {| ResearcherUrls_ResearcherUrl := [
        {| ResearcherUrl_UrlName := "Personal Website";
           ResearcherUrl_Url := {| Value_Value :=
             "https://" +:+ strings.ToLower givenName +:+ "." +:+
             strings.ToLower familyName +:+ ".mock" |} |} ] |} |};
    OrcidRecord_Activities := {|
      Activities_Works := {| WorkSummaryGroup_Group := [
        {| WorkGroup_WorkSummary := [
          {| WorkSummary_PutCode := 123456;
             WorkSummary_Title := {| Title_Title := {| Value_Value := "Mock Paper Title" |} |};
             WorkSummary_Type := "journal-article";
             WorkSummary_LastModified := {| LastModified_Value := now |} |} ] |} ] |};
      Activities_Employment := {| EmploymentSummaryGroup_AffiliationGroup := [
        {| AffiliationGroup_Summaries := [
          {| EmploymentSummary_PutCode := 789012;
             EmploymentSummary_DepartmentName := "Mock Department";
             EmploymentSummary_RoleTitle := "Mock Researcher";
             EmploymentSummary_Organization := {| Org_Name := "Mock University" |} |} ] |} ] |} |}
  |}
  end.

(** The demo users of init: orcid, given, family, bio. *)
Definition people : list (string * string * string * string) := [
  ("0000-0001-2345-6789", "Sofia", "Garcia",
   "Sofia Garcia is a researcher in the field of Computer Science.");
  ("0000-0002-1001-2002", "John", "Smith", "John Smith studies Physics.");
  ("0000-0003-3003-4004", "Wei", "Chen", "Wei Chen is a Biologist.");
  ("0000-0004-5005-6006", "Priya", "Patel", "Priya Patel works in Chemistry.");
  ("0000-0005-7007-8008", "Ahmed", "Al-Fayed", "Ahmed Al-Fayed is a Mathematician.");
  ("0000-0006-9009-0000", "Elena", "Popov", "Elena Popov researches History.")
].

(** One turn of the loop of init, for the [i]-th demo user; [clock i] is
    the time read while that user's record is built. *)
Definition initStep (clock : nat → Z) (acc : option World) (ip : nat * (string * string * string * string))
  : option World :=
  let '(i, (orcid, given, family, bio)) := ip in
  w ← acc;
  rec ← createMockRecord orcid given family bio (clock i);
  Some {|
    personStore := <[orcid := rec]> (personStore w);
    dataStore := <[orcid := {[ "work" := ∅; "employment" := ∅ ]}]> (dataStore w);
    randSource := randSource w |}.

(** func init(): the stores start empty ([make]) and receive the demo
    users in order. *)
Definition init (clock : nat → Z) (src : rand.Source) : option World :=
  fold_left (initStep clock) (imap (λ i p, (i, p)) people)
    (Some {| dataStore := ∅; personStore := ∅; randSource := src |}).

(* ===================================================================== *)
(** ** main.go: content negotiation and handlers *)
(* ===================================================================== *)

(** The decision of writeResponse: XML exactly on a /v3.0/ path whose
    Accept header does not name the JSON media type. *)
Definition useXML (r : http.Request) : bool :=
  let accept := http.Get (http.Header r) "Accept" in
  let isV3 := strings.HasPrefix (http.URL_Path r) "/v3.0/" in
  if isV3 then
    if strings.Contains accept "application/json" then false else true
  else false.

(** writeResponse handles content negotiation for /v3.0/ endpoints.
    [data] is any value both encoders accept. *)
Definition writeResponse {A} `{xml.Value A} `{json.Value A}
    (w : http.ResponseWriter) (r : http.Request) (data : A) : http.ResponseWriter :=
  if useXML r then
    let w := http.SetHeader "Content-Type" "application/xml; charset=utf-8" w in
    let w := http.Write (http.Raw xml.Header) w in
    http.Write (http.XMLDoc (xml.Marshal data)) w
  else
    let w := http.SetHeader "Content-Type" "application/json; charset=utf-8" w in
    http.Write (http.JSONDoc (json.marshal data)) w.

(** A handler reads the request and the package-level state and acts on
    the ResponseWriter. *)
Definition Handler : Type :=
  World → http.Request → http.ResponseWriter → World * http.ResponseWriter.

Definition handleToken : Handler := λ W r w,
  if http.FormError r then (W, http.Error w "Invalid request" http.StatusBadRequest)
  else
    let resp := {|
      TokenResponse_AccessToken := "mock-access-token-12345";
      TokenResponse_TokenType := "bearer";
      TokenResponse_RefreshToken := "mock-refresh-token-67890";
      TokenResponse_ExpiresIn := 631138518;
      TokenResponse_Scope := "/read-limited /activities/update";
      TokenResponse_Name := "Sofia Garcia";
      TokenResponse_ORCID := "0000-0001-2345-6789" |} in
    let w := http.SetHeader "Content-Type" "application/json; charset=utf-8" w in
    (W, http.Write (http.JSONDoc (json.marshal resp)) w).

Definition handleAuthorize : Handler := λ W r w,
  let redirectURI := http.Get (http.URL_Query r) "redirect_uri" in
  let state := http.Get (http.URL_Query r) "state" in
  if String.eqb redirectURI EmptyString
  then (W, http.Error w "Missing redirect_uri" http.StatusBadRequest)
  else
    let code := "mock-auth-code-12345" in
    let target := redirectURI +:+ "?code=" +:+ code in
    let target := if negb (String.eqb state EmptyString)
                  then target +:+ "&state=" +:+ state else target in
    (W, http.Redirect w r target http.StatusFound).

Definition handleGetRecord : Handler := λ W r w,
  let orcid := http.PathValue r "orcid" in
  match personStore W !! orcid with
  | None => (W, http.Error w "Record not found" http.StatusNotFound)
  | Some record => (W, writeResponse w r record)
  end.

Definition handleGetPerson : Handler := λ W r w,
  let orcid := http.PathValue r "orcid" in
  match personStore W !! orcid with
  | None => (W, http.Error w "Person not found" http.StatusNotFound)
  | Some record => (W, writeResponse w r (OrcidRecord_Person record))
  end.

Definition zeroName : xml.Name :=
  {| xml.Space := EmptyString; xml.Local := EmptyString |}.

Definition handleGetWork : Handler := λ W r w,
  let '(putCode, _) := strconv.Atoi (http.PathValue r "putCode") in
  let response := {|
    GenericWorkResponse_XMLName := zeroName;
    GenericWorkResponse_Type := "work";
    GenericWorkResponse_PutCode := putCode;
    GenericWorkResponse_Title :=
      {| Title_Title := {| Value_Value := "Retrieved Mock Work" |} |};
    GenericWorkResponse_PublicationDate :=
      {| DateYear_Year := {| Value_Value := "2023" |} |} |} in
  (W, writeResponse w r response).

(** The put-code of a new record: rand.Intn(999999) + 100000, drawn from
    the process-wide source. *)
Definition newPutCode (W : World) : Z * World :=
  let '(n, src) := rand.Intn 999999 (randSource W) in
  (n + 100000,
   {| dataStore := dataStore W; personStore := personStore W; randSource := src |}).

Definition handlePostWork : Handler := λ W r w,
  let orcid := http.PathValue r "orcid" in
  let '(newPutCode, W) := newPutCode W in
  let w := http.SetHeader "Location"
             ("https://api.orcid.org/v3.0/" +:+ orcid +:+ "/work/" +:+
              strconv.Itoa newPutCode) w in
  let w := http.WriteHeader http.StatusCreated w in
  (W, writeResponse w r
        {| PutCodeResponse_XMLName := zeroName; PutCodeResponse_PutCode := newPutCode |}).

Definition handlePutWork : Handler := λ W r w,
  let orcid := http.PathValue r "orcid" in
  let putCode := http.PathValue r "putCode" in
  let w := http.SetHeader "Location"
             ("https://api.orcid.org/v3.0/" +:+ orcid +:+ "/work/" +:+ putCode) w in
  let w := http.WriteHeader http.StatusOK w in
  (W, writeResponse w r
        {| UpdateResponse_XMLName := zeroName; UpdateResponse_PutCode := putCode;
           UpdateResponse_Status := "updated" |}).

Definition handleGetEmployment : Handler := λ W r w,
  let '(putCode, _) := strconv.Atoi (http.PathValue r "putCode") in
  let response := {|
    GenericEmploymentResponse_XMLName := zeroName;
    GenericEmploymentResponse_PutCode := putCode;
    GenericEmploymentResponse_DepartmentName := "Mock Department";
    GenericEmploymentResponse_RoleTitle := "Mock Researcher";
    GenericEmploymentResponse_Organization := {| Org_Name := "Mock Org" |};
    GenericEmploymentResponse_StartDate :=
      {| DateYear_Year := {| Value_Value := "2020" |} |} |} in
  (W, writeResponse w r response).

Definition handlePostEmployment : Handler := λ W r w,
  let orcid := http.PathValue r "orcid" in
  let '(newPutCode, W) := newPutCode W in
  let w := http.SetHeader "Location"
             ("https://api.orcid.org/v3.0/" +:+ orcid +:+ "/employment/" +:+
              strconv.Itoa newPutCode) w in
  let w := http.WriteHeader http.StatusCreated w in
  (W, writeResponse w r
        {| PutCodeResponse_XMLName := zeroName; PutCodeResponse_PutCode := newPutCode |}).

Definition handlePutEmployment : Handler := λ W r w,
  let orcid := http.PathValue r "orcid" in
  let putCode := http.PathValue r "putCode" in
  let w := http.SetHeader "Location"
             ("https://api.orcid.org/v3.0/" +:+ orcid +:+ "/employment/" +:+ putCode) w in
  let w := http.WriteHeader http.StatusOK w in
  (W, writeResponse w r
        {| UpdateResponse_XMLName := zeroName; UpdateResponse_PutCode := putCode;
           UpdateResponse_Status := "updated" |}).

(** The single hit every successful search reports. *)
Definition searchHit : OrcidIdentifier := {|
  OrcidIdentifier_Uri := "https://orcid.org/0000-0001-2345-6789";
  OrcidIdentifier_Path := "0000-0001-2345-6789";
  OrcidIdentifier_Host := "orcid.org" |}.

Definition handleSearch : Handler := λ W r w,
  let query := http.Get (http.URL_Query r) "q" in
  if strings.Contains query "error"
  then (W, http.Error w "Search failed" http.StatusInternalServerError)
  else
    let resp := {|
      SearchResponse_XMLName := zeroName;
      SearchResponse_Result := [ {| SearchResult_OrcidIdentifier := searchHit |} ];
      SearchResponse_NumFound := 1 |} in
    (W, writeResponse w r resp).

(* ===================================================================== *)
(** ** main.go: the routing table and the middleware *)
(* ===================================================================== *)

Inductive Segment := Lit (s : string) | Wildcard (name : string).

(** The patterns registered in main, method first, with the handler each
    one names. *)
Definition routes : list (string * list Segment * Handler) := [
  ("POST", [Lit "oauth"; Lit "token"], handleToken);
  ("GET", [Lit "oauth"; Lit "authorize"], handleAuthorize);
  ("GET", [Lit "v3.0"; Wildcard "orcid"; Lit "record"], handleGetRecord);
  ("GET", [Lit "v3.0"; Wildcard "orcid"; Lit "person"], handleGetPerson);
  ("GET", [Lit "v3.0"; Wildcard "orcid"; Lit "work"; Wildcard "putCode"], handleGetWork);
  ("POST", [Lit "v3.0"; Wildcard "orcid"; Lit "work"], handlePostWork);
  ("PUT", [Lit "v3.0"; Wildcard "orcid"; Lit "work"; Wildcard "putCode"], handlePutWork);
  ("GET", [Lit "v3.0"; Wildcard "orcid"; Lit "employment"; Wildcard "putCode"],
   handleGetEmployment);
  ("POST", [Lit "v3.0"; Wildcard "orcid"; Lit "employment"], handlePostEmployment);
  ("PUT", [Lit "v3.0"; Wildcard "orcid"; Lit "employment"; Wildcard "putCode"],
   handlePutEmployment);
  ("GET", [Lit "v3.0"; Lit "search"], handleSearch)
].

(** A pattern against the segments of a path: a literal matches itself, a
    wildcard any non-empty segment, which it binds. *)
Fixpoint matchPattern (pat : list Segment) (segs : list string)
    (bound : gmap string string) : option (gmap string string) :=
  match pat, segs with
  | [], [] => Some bound
  | Lit s :: pat', seg :: segs' =>
      if String.eqb s seg then matchPattern pat' segs' bound else None
  | Wildcard name :: pat', seg :: segs' =>
      if String.eqb seg EmptyString then None
      else matchPattern pat' segs' (<[name := seg]> bound)
  | _, _ => None
  end.

(** The segments after the leading slash of a path. *)
Definition segments (path : string) : option (list string) :=
  match strings.Split path "/" with
  | EmptyString :: segs => Some segs
  | _ => None
  end.

(** A pattern registered for GET also serves HEAD. *)
Definition methodMatches (pattern method : string) : bool :=
  String.eqb pattern method
  || (String.eqb pattern "GET" && String.eqb method "HEAD").

(** An incoming request before routing. *)
Record Incoming := {
  In_Method : string;
  In_Path : string;
  In_Query : gmap string string;
  In_Header : gmap string string;
  In_FormError : bool;
}.

(** ServeMux: the first registered pattern the method and path match,
    with the request carrying the wildcard bindings. *)
Fixpoint lookupRoute (rs : list (string * list Segment * Handler)) (i : Incoming)
    : option (Handler * http.Request) :=
  match rs with
  | [] => None
  | (method, pat, h) :: rs' =>
      match (if methodMatches method (In_Method i)
             then segs ← segments (In_Path i); matchPattern pat segs ∅
             else None) with
      | Some bound =>
          Some (h, {| http.Method := In_Method i; http.URL_Path := In_Path i;
                      http.URL_Query := In_Query i; http.Header := In_Header i;
                      http.PathValues := bound; http.FormError := In_FormError i |})
      | None => lookupRoute rs' i
      end
  end.

(** Whether some pattern matches the path under another method. *)
Definition pathKnown (i : Incoming) : bool :=
  existsb (λ '(_, pat, _),
    match segments (In_Path i) with
    | Some segs => bool_decide (is_Some (matchPattern pat segs ∅))
    | None => false
    end) routes.

(** middleware(mux): the CORS header is set before the routed handler
    runs; a request no pattern matches gets the mux's own 404 or 405.
    (Logging and the status-recording wrapper, which only feed the log,
    are left out.) *)
Definition serve (W : World) (i : Incoming) : World * http.ResponseWriter :=
  let w := http.SetHeader "Access-Control-Allow-Origin" "*" http.NewResponseWriter in
  match lookupRoute routes i with
  | Some (h, r) => h W r w
  | None =>
      if pathKnown i
      then (W, http.Error w "Method Not Allowed" http.StatusMethodNotAllowed)
      else (W, http.Error w "404 page not found" http.StatusNotFound)
  end.

(** The server handling a sequence of requests one after the other. *)
Fixpoint serveAll (W : World) (reqs : list Incoming) : World * list http.ResponseWriter :=
  match reqs with
  | [] => (W, [])
  | i :: rest =>
      let '(W1, w) := serve W i in
      let '(W2, ws) := serveAll W1 rest in
      (W2, w :: ws)
  end.

(* ===================================================================== *)
(** ** Reading a response *)
(* ===================================================================== *)

(** The media type writeResponse declares for the format it chooses. *)
Definition mediaType (r : http.Request) : string :=
  if useXML r then "application/xml; charset=utf-8"
  else "application/json; charset=utf-8".

(** The body writeResponse produces for [data]: the XML prolog and the XML
    document, or the JSON document. *)
Definition negotiated {A} `{xml.Value A} `{json.Value A}
    (r : http.Request) (data : A) : list http.Chunk :=
  if useXML r then [http.Raw xml.Header; http.XMLDoc (xml.Marshal data)]
  else [http.JSONDoc (json.marshal data)].

(** The ResponseWriter a routed handler receives from the middleware. *)
Definition freshWriter : http.ResponseWriter :=
  http.SetHeader "Access-Control-Allow-Origin" "*" http.NewResponseWriter.

(** The Content-Type the response is sent with, when the handler fixed
    one before the header was written. *)
Definition sentContentType (w : http.ResponseWriter) : option string :=
  http.sentHeader w !! "Content-Type".

Definition plainText : string := "text/plain; charset=utf-8".

(** The same stores, whatever the state of the random source. *)
Definition sameStores (W W' : World) : Prop :=
  personStore W = personStore W' ∧ dataStore W = dataStore W'.

(** A world for examples: the seeded stores, a clock that stands still and
    a random source that always draws [n]. *)
Definition zeroWorld (n : Z) : World :=
  {| dataStore := ∅; personStore := ∅;
     randSource := {| rand.raw := λ _, n; rand.used := 0 |} |}.

Definition demoWorld (n : Z) : World :=
  default (zeroWorld n)
    (init (λ _, 1700000000000) {| rand.raw := λ _, n; rand.used := 0 |}).

Definition request (method path : string) (accept : option string) : Incoming :=
  {| In_Method := method; In_Path := path; In_Query := ∅;
     In_Header := match accept with
                  | Some a => {[ "Accept" := a ]}
                  | None => ∅
                  end;
     In_FormError := false |}.

Definition sofia : string := "0000-0001-2345-6789".

(** The value handleGetWork synthesizes around a put-code. *)
Definition genericWork (putCode : Z) : GenericWorkResponse := {|
  GenericWorkResponse_XMLName := zeroName;
  GenericWorkResponse_Type := "work";
  GenericWorkResponse_PutCode := putCode;
  GenericWorkResponse_Title :=
    {| Title_Title := {| Value_Value := "Retrieved Mock Work" |} |};
  GenericWorkResponse_PublicationDate :=
    {| DateYear_Year := {| Value_Value := "2023" |} |} |}.

(** The value handleGetEmployment synthesizes around a put-code. *)
Definition genericEmployment (putCode : Z) : GenericEmploymentResponse := {|
  GenericEmploymentResponse_XMLName := zeroName;
  GenericEmploymentResponse_PutCode := putCode;
  GenericEmploymentResponse_DepartmentName := "Mock Department";
  GenericEmploymentResponse_RoleTitle := "Mock Researcher";
  GenericEmploymentResponse_Organization := {| Org_Name := "Mock Org" |};
  GenericEmploymentResponse_StartDate :=
    {| DateYear_Year := {| Value_Value := "2020" |} |} |}.

(* ===================================================================== *)
(** ** Vocabulary of the statements and proofs below *)
(* ===================================================================== *)

(** [Lacks local A]: no value of [A] is written with an element named
    [local] inside, unless the enclosing field gives it that name. *)
Class Lacks (local : string) (A : Type) `{xml.Value A} : Prop :=
  lacks : ∀ name (x : A), String.eqb (xml.Local name) local = false →
            xml.occursIn local (xml.marshalValue name x) = false.

(** [LacksKey key A]: no value of [A] is written with a member [key]. *)
Class LacksKey (key : string) (A : Type) `{json.Value A} : Prop :=
  lacksKey : ∀ x : A, json.hasKey key (json.marshal x) = false.

(** [written_as_child n local value]: the element [n] has no attribute
    [local] and a child element [local] holding [value]. *)
Definition written_as_child (n : xml.Node) (local value : string) : Prop :=
  xml.attrOf n local = None ∧ xml.childOf n local = Some value.

(** [written_as_attribute n local value]: the element [n] has the
    attribute [local] with value [value] and no child element [local]. *)
Definition written_as_attribute (n : xml.Node) (local value : string) : Prop :=
  xml.attrOf n local = Some value ∧ xml.childOf n local = None.

(** [not_written n local]: neither attribute nor child element. *)
Definition not_written (n : xml.Node) (local : string) : Prop :=
  xml.attrOf n local = None ∧ xml.childOf n local = None.

(** The number a string of decimal digits spells after the digits that
    make [acc]. *)
Fixpoint uintValue (d : Decimal.uint) (acc : Z) : Z :=
  match d with
  | Decimal.Nil => acc
  | Decimal.D0 l => uintValue l (acc * 10 + 0)
  | Decimal.D1 l => uintValue l (acc * 10 + 1)
  | Decimal.D2 l => uintValue l (acc * 10 + 2)
  | Decimal.D3 l => uintValue l (acc * 10 + 3)
  | Decimal.D4 l => uintValue l (acc * 10 + 4)
  | Decimal.D5 l => uintValue l (acc * 10 + 5)
  | Decimal.D6 l => uintValue l (acc * 10 + 6)
  | Decimal.D7 l => uintValue l (acc * 10 + 7)
  | Decimal.D8 l => uintValue l (acc * 10 + 8)
  | Decimal.D9 l => uintValue l (acc * 10 + 9)
  end.

Definition noSpace (s : string) : bool :=
  forallb (λ c, negb (strings.isSpace c)) (list_ascii_of_string s).

(** *** Shapes of marshalled documents *)

(** A local name the tokenizer reads back as it was written. *)
Definition okLocal (l : string) : Prop :=
  xml.countColons l = 0%nat ∧ l ≠ "xmlns" ∧ l ≠ "".

(** An attribute without name space and without a role in name-space
    resolution. *)
Definition plainAttr (a : xml.Attr) : Prop :=
  xml.Space (xml.Attr_Name a) = "" ∧ okLocal (xml.Local (xml.Attr_Name a)).

(** A name-space declaration spelled as an attribute of the struct: the
    decoder reads its name as the prefix it declares. *)
Definition declAttr (a : xml.Attr) : Prop :=
  xml.Space (xml.Attr_Name a) = ""
  ∧ ∃ p, xml.nsname (xml.Local (xml.Attr_Name a))
         = Some {| xml.Space := "xmlns"; xml.Local := p |}
         ∧ xml.Local (xml.Attr_Name a) ≠ "" ∧ p ≠ "".

(** The xsi:schemaLocation attribute of models.Person. *)
Definition schemaLocation (v : string) : xml.Attr :=
  {| xml.Attr_Name := {| xml.Space := models.ns_xsi; xml.Local := "schemaLocation" |};
     xml.Attr_Value := v |}.

(** The start tag of models.Person and its path attribute. *)
Definition personRoot : xml.Name :=
  {| xml.Space := models.ns_person; xml.Local := "person" |}.

Definition pathAttr (v : string) : xml.Attr :=
  {| xml.Attr_Name := {| xml.Space := ""; xml.Local := "path" |}; xml.Attr_Value := v |}.

(** The documents the struct tables of the sources produce below their
    root: every element is in a name space ([spaced]) or none is, and the
    attributes are plain. *)
#[warnings="-register-all"]
Inductive Inner (spaced : bool) : xml.Node → Prop :=
| Inner_Text data : Inner spaced (xml.Text data)
| Inner_Elem name attr kids :
    okLocal (xml.Local name) →
    String.eqb (xml.Space name) "" = negb spaced →
    Forall plainAttr attr →
    Forall (Inner spaced) kids →
    Inner spaced (xml.Elem name attr kids).

(** The default name-space declaration written on an element that has a
    name space, as the decoder reports it among the attributes. *)
Definition xmlnsAttr (name : xml.Name) : list xml.Attr :=
  if String.eqb (xml.Space name) "" then []
  else [{| xml.Attr_Name := {| xml.Space := ""; xml.Local := "xmlns" |};
           xml.Attr_Value := xml.Space name |}].

(** An attribute as the decoder reports it: a literal xmlns:p becomes a
    declaration of the prefix p; an attribute in a name space comes after
    the declaration of the prefix the printer made up for it. *)
Definition viewAttr (a : xml.Attr) : list xml.Attr :=
  let name := xml.Attr_Name a in
  if String.eqb (xml.Space name) "" then
    [{| xml.Attr_Name := default name (xml.nsname (xml.Local name));
        xml.Attr_Value := xml.Attr_Value a |}]
  else
    [{| xml.Attr_Name := {| xml.Space := "xmlns";
                            xml.Local := xml.pickPrefix (xml.Space name) |};
        xml.Attr_Value := xml.Space name |}; a].

(** A document as the decoder reports it. *)
Fixpoint resolved (n : xml.Node) : xml.Node :=
  match n with
  | xml.Text data => xml.Text data
  | xml.Elem name attr kids =>
      xml.Elem name (xmlnsAttr name ++ flat_map viewAttr attr) (List.map resolved kids)
  end.

Definition rawAttr (a : xml.Attr) : string * string :=
  (xml.Local (xml.Attr_Name a), xml.Attr_Value a).

(** A document of plain attributes as the printer writes it. *)
Fixpoint rawOf (n : xml.Node) : xml.Raw :=
  match n with
  | xml.Text data => xml.RawText data
  | xml.Elem name attr kids =>
      xml.RawElem (xml.Local name)
        ((if String.eqb (xml.Space name) "" then [] else [("xmlns", xml.Space name)])
           ++ List.map rawAttr attr)
        (List.map rawOf kids)
  end.

(** *** What a round trip returns *)

(** [norm x]: the value Unmarshal builds from the document written for
    [x]. *)
Class Norm (A : Type) := norm : A → A.

(** [valid x]: the integers inside [x] are integers Go's int holds. *)
Class Valid (A : Type) := valid : A → Prop.

#[global] Instance Norm_string : Norm string := λ s, s.
#[global] Instance Norm_int : Norm Z := λ n, n.
#[global] Instance Norm_bool : Norm bool := λ b, b.
#[global] Instance Norm_ptr {A} `{Norm A} : Norm (option A) := λ p, norm (A:=A) <$> p.
#[global] Instance Norm_slice {A} `{Norm A} : Norm (list A) | 10 := λ l, norm (A:=A) <$> l.
(** The nil entries of a slice of pointers write nothing and so do not
    come back. *)
#[global] Instance Norm_ptr_slice {A} `{Norm A} : Norm (list (option A)) | 0 :=
  λ l, (λ x, Some (norm (A:=A) x)) <$> omap id l.

#[global] Instance Valid_string : Valid string := λ _, True.
#[global] Instance Valid_int : Valid Z := int64.
#[global] Instance Valid_bool : Valid bool := λ _, True.
#[global] Instance Valid_ptr {A} `{Valid A} : Valid (option A) :=
  λ p, match p with Some x => valid (A:=A) x | None => True end.
#[global] Instance Valid_slice {A} `{Valid A} : Valid (list A) := Forall (valid (A:=A)).

(** [AllValid A]: [A] holds no integer, every value of [A] is valid. *)
Class AllValid (A : Type) `{Valid A} : Prop := all_valid : ∀ x : A, valid x.

(** [NormId A]: a round trip returns every value of [A] as it was. *)
Class NormId (A : Type) `{Norm A} : Prop := norm_id : ∀ x : A, norm x = x.


(** The elements written for a struct field. *)
Definition fieldNodes {A} `{xml.Value A} (omitempty : bool) (name : xml.Name) (x : A)
    : list xml.Node :=
  if omitempty && xml.isEmptyValue x then [] else xml.marshalValue name x.

(** The elements of one field read one after the other into the field. *)
Fixpoint unmarshalAll {A} `{xml.Value A} (x : A) (nodes : list xml.Node) : option A :=
  match nodes with
  | [] => Some x
  | n :: rest => x' ← xml.unmarshal x n; unmarshalAll x' rest
  end.

Definition named (name : xml.Name) (n : xml.Node) : Prop :=
  ∃ attr kids, n = xml.Elem name attr kids.

(** [RoundTrip spaced A]: the elements written for a field of type [A]
    under a name with ([spaced]) or without name space are of the inner
    shape and carry the field's name; read back into a zero field they
    give [norm x]; and [norm x] is written like [x]. *)
Class RoundTrip (spaced : bool) (A : Type) `{xml.Value A} `{Norm A} `{Valid A} : Prop := {
  rt_inner : ∀ name (x : A),
    okLocal (xml.Local name) → String.eqb (xml.Space name) "" = negb spaced →
    Forall (Inner spaced) (xml.marshalValue name x);
  rt_named : ∀ name (x : A), Forall (named name) (xml.marshalValue name x);
  rt_unmarshal : ∀ omitempty name (x x0 : A),
    x0 = xml.zero A → valid x →
    String.eqb (xml.Space name) "" = negb spaced →
    unmarshalAll x0 (List.map resolved (fieldNodes omitempty name x)) = Some (norm x);
  rt_norm : ∀ omitempty name (x : A),
    fieldNodes omitempty name (norm x) = fieldNodes omitempty name x;
}.

(** The relation between the tokens of two documents that differ in
    name-space declarations only. *)
Definition tokEquiv (t t' : xml.Token) : Prop :=
  t = t'
  ∨ ∃ name a a', t = xml.StartElement name a ∧ t' = xml.StartElement name a'
                 ∧ models_test.normalizeAttrs a = models_test.normalizeAttrs a'.

(** A token assertXMLEqual looks at. *)
Definition significant (t : xml.Token) : bool :=
  match t with
  | xml.StartElement _ _ | xml.EndElement _ => true
  | xml.CharData data => negb (String.length (strings.TrimSpace data) =? 0)%nat
  | _ => false
  end.

(** [Single A]: a value of [A] is written as exactly one element. *)
Class Single (A : Type) `{xml.Value A} : Prop :=
  single : ∀ name (x : A), ∃ attr kids, xml.marshalValue name x = [xml.Elem name attr kids].

(** *** main.go: what comes back, and which values are valid *)

#[global] Instance OrcidIdentifier_Norm : Norm OrcidIdentifier := λ x,
  {| OrcidIdentifier_Uri := norm (OrcidIdentifier_Uri x);
     OrcidIdentifier_Path := norm (OrcidIdentifier_Path x);
     OrcidIdentifier_Host := norm (OrcidIdentifier_Host x) |}.
#[global] Instance OrcidIdentifier_Valid : Valid OrcidIdentifier := λ x,
  valid (OrcidIdentifier_Uri x) ∧ valid (OrcidIdentifier_Path x) ∧ valid (OrcidIdentifier_Host x) ∧ True.

#[global] Instance Value_Norm : Norm Value := λ x,
  {| Value_Value := norm (Value_Value x) |}.
#[global] Instance Value_Valid : Valid Value := λ x,
  valid (Value_Value x) ∧ True.

#[global] Instance Name_Norm : Norm Name := λ x,
  {| Name_GivenNames := norm (Name_GivenNames x);
     Name_FamilyName := norm (Name_FamilyName x);
     Name_CreditName := norm (Name_CreditName x) |}.
#[global] Instance Name_Valid : Valid Name := λ x,
  valid (Name_GivenNames x) ∧ valid (Name_FamilyName x) ∧ valid (Name_CreditName x) ∧ True.

#[global] Instance Biography_Norm : Norm Biography := λ x,
  {| Biography_Content := norm (Biography_Content x) |}.
#[global] Instance Biography_Valid : Valid Biography := λ x,
  valid (Biography_Content x) ∧ True.

#[global] Instance Email_Norm : Norm Email := λ x,
  {| Email_Email := norm (Email_Email x);
     Email_Verified := norm (Email_Verified x);
     Email_Primary := norm (Email_Primary x);
     Email_Visibility := norm (Email_Visibility x) |}.
#[global] Instance Email_Valid : Valid Email := λ x,
  valid (Email_Email x) ∧ valid (Email_Verified x) ∧ valid (Email_Primary x) ∧ valid (Email_Visibility x) ∧ True.

#[global] Instance Emails_Norm : Norm Emails := λ x,
  {| Emails_Email := norm (Emails_Email x) |}.
#[global] Instance Emails_Valid : Valid Emails := λ x,
  valid (Emails_Email x) ∧ True.

#[global] Instance ResearcherUrl_Norm : Norm ResearcherUrl := λ x,
  {| ResearcherUrl_UrlName := norm (ResearcherUrl_UrlName x);
     ResearcherUrl_Url := norm (ResearcherUrl_Url x) |}.
#[global] Instance ResearcherUrl_Valid : Valid ResearcherUrl := λ x,
  valid (ResearcherUrl_UrlName x) ∧ valid (ResearcherUrl_Url x) ∧ True.

#[global] Instance ResearcherUrls_Norm : Norm ResearcherUrls := λ x,
  {| ResearcherUrls_ResearcherUrl := norm (ResearcherUrls_ResearcherUrl x) |}.
#[global] Instance ResearcherUrls_Valid : Valid ResearcherUrls := λ x,
  valid (ResearcherUrls_ResearcherUrl x) ∧ True.

#[global] Instance Person_Norm : Norm Person := λ x,
  {| Person_Name := norm (Person_Name x);
     Person_Biography := norm (Person_Biography x);
     Person_Emails := norm (Person_Emails x);
     Person_ResearcherUrls := norm (Person_ResearcherUrls x) |}.
#[global] Instance Person_Valid : Valid Person := λ x,
  valid (Person_Name x) ∧ valid (Person_Biography x) ∧ valid (Person_Emails x) ∧ valid (Person_ResearcherUrls x) ∧ True.

#[global] Instance Title_Norm : Norm Title := λ x,
  {| Title_Title := norm (Title_Title x) |}.
#[global] Instance Title_Valid : Valid Title := λ x,
  valid (Title_Title x) ∧ True.

#[global] Instance LastModified_Norm : Norm LastModified := λ x,
  {| LastModified_Value := norm (LastModified_Value x) |}.
#[global] Instance LastModified_Valid : Valid LastModified := λ x,
  valid (LastModified_Value x) ∧ True.

#[global] Instance WorkSummary_Norm : Norm WorkSummary := λ x,
  {| WorkSummary_PutCode := norm (WorkSummary_PutCode x);
     WorkSummary_Title := norm (WorkSummary_Title x);
     WorkSummary_Type := norm (WorkSummary_Type x);
     WorkSummary_LastModified := norm (WorkSummary_LastModified x) |}.
#[global] Instance WorkSummary_Valid : Valid WorkSummary := λ x,
  valid (WorkSummary_PutCode x) ∧ valid (WorkSummary_Title x) ∧ valid (WorkSummary_Type x) ∧ valid (WorkSummary_LastModified x) ∧ True.

#[global] Instance WorkGroup_Norm : Norm WorkGroup := λ x,
  {| WorkGroup_WorkSummary := norm (WorkGroup_WorkSummary x) |}.
#[global] Instance WorkGroup_Valid : Valid WorkGroup := λ x,
  valid (WorkGroup_WorkSummary x) ∧ True.

#[global] Instance WorkSummaryGroup_Norm : Norm WorkSummaryGroup := λ x,
  {| WorkSummaryGroup_Group := norm (WorkSummaryGroup_Group x) |}.
#[global] Instance WorkSummaryGroup_Valid : Valid WorkSummaryGroup := λ x,
  valid (WorkSummaryGroup_Group x) ∧ True.

#[global] Instance Org_Norm : Norm Org := λ x,
  {| Org_Name := norm (Org_Name x) |}.
#[global] Instance Org_Valid : Valid Org := λ x,
  valid (Org_Name x) ∧ True.

#[global] Instance EmploymentSummary_Norm : Norm EmploymentSummary := λ x,
  {| EmploymentSummary_PutCode := norm (EmploymentSummary_PutCode x);
     EmploymentSummary_DepartmentName := norm (EmploymentSummary_DepartmentName x);
     EmploymentSummary_RoleTitle := norm (EmploymentSummary_RoleTitle x);
     EmploymentSummary_Organization := norm (EmploymentSummary_Organization x) |}.
#[global] Instance EmploymentSummary_Valid : Valid EmploymentSummary := λ x,
  valid (EmploymentSummary_PutCode x) ∧ valid (EmploymentSummary_DepartmentName x) ∧ valid (EmploymentSummary_RoleTitle x) ∧ valid (EmploymentSummary_Organization x) ∧ True.

#[global] Instance AffiliationGroup_Norm : Norm AffiliationGroup := λ x,
  {| AffiliationGroup_Summaries := norm (AffiliationGroup_Summaries x) |}.
#[global] Instance AffiliationGroup_Valid : Valid AffiliationGroup := λ x,
  valid (AffiliationGroup_Summaries x) ∧ True.

#[global] Instance EmploymentSummaryGroup_Norm : Norm EmploymentSummaryGroup := λ x,
  {| EmploymentSummaryGroup_AffiliationGroup := norm (EmploymentSummaryGroup_AffiliationGroup x) |}.
#[global] Instance EmploymentSummaryGroup_Valid : Valid EmploymentSummaryGroup := λ x,
  valid (EmploymentSummaryGroup_AffiliationGroup x) ∧ True.

#[global] Instance Activities_Norm : Norm Activities := λ x,
  {| Activities_Works := norm (Activities_Works x);
     Activities_Employment := norm (Activities_Employment x) |}.
#[global] Instance Activities_Valid : Valid Activities := λ x,
  valid (Activities_Works x) ∧ valid (Activities_Employment x) ∧ True.


#[global] Instance SearchResult_Norm : Norm SearchResult := λ x,
  {| SearchResult_OrcidIdentifier := norm (SearchResult_OrcidIdentifier x) |}.
#[global] Instance SearchResult_Valid : Valid SearchResult := λ x,
  valid (SearchResult_OrcidIdentifier x) ∧ True.

#[global] Instance SearchResponse_Norm : Norm SearchResponse := λ x,
  {| SearchResponse_XMLName := {| xml.Space := EmptyString; xml.Local := "search:search" |};
     SearchResponse_Result := norm (SearchResponse_Result x);
     SearchResponse_NumFound := norm (SearchResponse_NumFound x) |}.
#[global] Instance SearchResponse_Valid : Valid SearchResponse := λ x,
  valid (SearchResponse_Result x) ∧ valid (SearchResponse_NumFound x) ∧ True.

#[global] Instance DateYear_Norm : Norm DateYear := λ x,
  {| DateYear_Year := norm (DateYear_Year x) |}.
#[global] Instance DateYear_Valid : Valid DateYear := λ x,
  valid (DateYear_Year x) ∧ True.

#[global] Instance GenericWorkResponse_Norm : Norm GenericWorkResponse := λ x,
  {| GenericWorkResponse_XMLName := {| xml.Space := EmptyString; xml.Local := "work:work" |};
     GenericWorkResponse_Type := norm (GenericWorkResponse_Type x);
     GenericWorkResponse_PutCode := norm (GenericWorkResponse_PutCode x);
     GenericWorkResponse_Title := norm (GenericWorkResponse_Title x);
     GenericWorkResponse_PublicationDate := norm (GenericWorkResponse_PublicationDate x) |}.
#[global] Instance GenericWorkResponse_Valid : Valid GenericWorkResponse := λ x,
  valid (GenericWorkResponse_Type x) ∧ valid (GenericWorkResponse_PutCode x) ∧ valid (GenericWorkResponse_Title x) ∧ valid (GenericWorkResponse_PublicationDate x) ∧ True.

#[global] Instance GenericEmploymentResponse_Norm : Norm GenericEmploymentResponse := λ x,
  {| GenericEmploymentResponse_XMLName := {| xml.Space := EmptyString; xml.Local := "employment:employment" |};
     GenericEmploymentResponse_PutCode := norm (GenericEmploymentResponse_PutCode x);
     GenericEmploymentResponse_DepartmentName := norm (GenericEmploymentResponse_DepartmentName x);
     GenericEmploymentResponse_RoleTitle := norm (GenericEmploymentResponse_RoleTitle x);
     GenericEmploymentResponse_Organization := norm (GenericEmploymentResponse_Organization x);
     GenericEmploymentResponse_StartDate := norm (GenericEmploymentResponse_StartDate x) |}.
#[global] Instance GenericEmploymentResponse_Valid : Valid GenericEmploymentResponse := λ x,
  valid (GenericEmploymentResponse_PutCode x) ∧ valid (GenericEmploymentResponse_DepartmentName x) ∧ valid (GenericEmploymentResponse_RoleTitle x) ∧ valid (GenericEmploymentResponse_Organization x) ∧ valid (GenericEmploymentResponse_StartDate x) ∧ True.

#[global] Instance PutCodeResponse_Norm : Norm PutCodeResponse := λ x,
  {| PutCodeResponse_XMLName := {| xml.Space := EmptyString; xml.Local := "response" |};
     PutCodeResponse_PutCode := norm (PutCodeResponse_PutCode x) |}.
#[global] Instance PutCodeResponse_Valid : Valid PutCodeResponse := λ x,
  valid (PutCodeResponse_PutCode x) ∧ True.

#[global] Instance UpdateResponse_Norm : Norm UpdateResponse := λ x,
  {| UpdateResponse_XMLName := {| xml.Space := EmptyString; xml.Local := "response" |};
     UpdateResponse_PutCode := norm (UpdateResponse_PutCode x);
     UpdateResponse_Status := norm (UpdateResponse_Status x) |}.
#[global] Instance UpdateResponse_Valid : Valid UpdateResponse := λ x,
  valid (UpdateResponse_PutCode x) ∧ valid (UpdateResponse_Status x) ∧ True.

(** *** models/person.go: what comes back *)

Module models_rt.
Import models.

#[global] Instance SourceOrcid_Norm : Norm SourceOrcid := λ x,
  {| SourceOrcid_Uri := norm (SourceOrcid_Uri x);
     SourceOrcid_Path := norm (SourceOrcid_Path x);
     SourceOrcid_Host := norm (SourceOrcid_Host x) |}.
#[global] Instance SourceOrcid_Valid : Valid SourceOrcid := λ x,
  valid (SourceOrcid_Uri x) ∧ valid (SourceOrcid_Path x) ∧ valid (SourceOrcid_Host x) ∧ True.

#[global] Instance SourceName_Norm : Norm SourceName := λ x,
  {| SourceName_Value := norm (SourceName_Value x) |}.
#[global] Instance SourceName_Valid : Valid SourceName := λ x,
  valid (SourceName_Value x) ∧ True.

#[global] Instance Source_Norm : Norm Source := λ x,
  {| Source_SourceOrcid := norm (Source_SourceOrcid x);
     Source_SourceName := norm (Source_SourceName x) |}.
#[global] Instance Source_Valid : Valid Source := λ x,
  valid (Source_SourceOrcid x) ∧ valid (Source_SourceName x) ∧ True.

#[global] Instance PersonName_Norm : Norm PersonName := λ x,
  {| PersonName_Visibility := norm (PersonName_Visibility x);
     PersonName_CreatedDate := norm (PersonName_CreatedDate x);
     PersonName_LastModifiedDate := norm (PersonName_LastModifiedDate x);
     PersonName_GivenNames := norm (PersonName_GivenNames x);
     PersonName_FamilyName := norm (PersonName_FamilyName x);
     PersonName_CreditName := norm (PersonName_CreditName x) |}.
#[global] Instance PersonName_Valid : Valid PersonName := λ x,
  valid (PersonName_Visibility x) ∧ valid (PersonName_CreatedDate x) ∧ valid (PersonName_LastModifiedDate x) ∧ valid (PersonName_GivenNames x) ∧ valid (PersonName_FamilyName x) ∧ valid (PersonName_CreditName x) ∧ True.

#[global] Instance OtherName_Norm : Norm OtherName := λ x,
  {| OtherName_Visibility := norm (OtherName_Visibility x);
     OtherName_PutCode := norm (OtherName_PutCode x);
     OtherName_CreatedDate := norm (OtherName_CreatedDate x);
     OtherName_LastModifiedDate := norm (OtherName_LastModifiedDate x);
     OtherName_Source := norm (OtherName_Source x);
     OtherName_Content := norm (OtherName_Content x) |}.
#[global] Instance OtherName_Valid : Valid OtherName := λ x,
  valid (OtherName_Visibility x) ∧ valid (OtherName_PutCode x) ∧ valid (OtherName_CreatedDate x) ∧ valid (OtherName_LastModifiedDate x) ∧ valid (OtherName_Source x) ∧ valid (OtherName_Content x) ∧ True.

#[global] Instance OtherNames_Norm : Norm OtherNames := λ x,
  {| OtherNames_LastModifiedDate := norm (OtherNames_LastModifiedDate x);
     OtherNames_OtherNames := norm (OtherNames_OtherNames x) |}.
#[global] Instance OtherNames_Valid : Valid OtherNames := λ x,
  valid (OtherNames_LastModifiedDate x) ∧ valid (OtherNames_OtherNames x) ∧ True.

#[global] Instance Biography_Norm : Norm Biography := λ x,
  {| Biography_Visibility := norm (Biography_Visibility x);
     Biography_CreatedDate := norm (Biography_CreatedDate x);
     Biography_LastModifiedDate := norm (Biography_LastModifiedDate x);
     Biography_Content := norm (Biography_Content x) |}.
#[global] Instance Biography_Valid : Valid Biography := λ x,
  valid (Biography_Visibility x) ∧ valid (Biography_CreatedDate x) ∧ valid (Biography_LastModifiedDate x) ∧ valid (Biography_Content x) ∧ True.

#[global] Instance ResearcherUrl_Norm : Norm ResearcherUrl := λ x,
  {| ResearcherUrl_Visibility := norm (ResearcherUrl_Visibility x);
     ResearcherUrl_PutCode := norm (ResearcherUrl_PutCode x);
     ResearcherUrl_CreatedDate := norm (ResearcherUrl_CreatedDate x);
     ResearcherUrl_LastModifiedDate := norm (ResearcherUrl_LastModifiedDate x);
     ResearcherUrl_Source := norm (ResearcherUrl_Source x);
     ResearcherUrl_UrlName := norm (ResearcherUrl_UrlName x);
     ResearcherUrl_Url := norm (ResearcherUrl_Url x) |}.
#[global] Instance ResearcherUrl_Valid : Valid ResearcherUrl := λ x,
  valid (ResearcherUrl_Visibility x) ∧ valid (ResearcherUrl_PutCode x) ∧ valid (ResearcherUrl_CreatedDate x) ∧ valid (ResearcherUrl_LastModifiedDate x) ∧ valid (ResearcherUrl_Source x) ∧ valid (ResearcherUrl_UrlName x) ∧ valid (ResearcherUrl_Url x) ∧ True.

#[global] Instance ResearcherUrls_Norm : Norm ResearcherUrls := λ x,
  {| ResearcherUrls_LastModifiedDate := norm (ResearcherUrls_LastModifiedDate x);
     ResearcherUrls_ResearcherUrls := norm (ResearcherUrls_ResearcherUrls x) |}.
#[global] Instance ResearcherUrls_Valid : Valid ResearcherUrls := λ x,
  valid (ResearcherUrls_LastModifiedDate x) ∧ valid (ResearcherUrls_ResearcherUrls x) ∧ True.

#[global] Instance Email_Norm : Norm Email := λ x,
  {| Email_Visibility := norm (Email_Visibility x);
     Email_CreatedDate := norm (Email_CreatedDate x);
     Email_LastModifiedDate := norm (Email_LastModifiedDate x);
     Email_Source := norm (Email_Source x);
     Email_Email := norm (Email_Email x) |}.
#[global] Instance Email_Valid : Valid Email := λ x,
  valid (Email_Visibility x) ∧ valid (Email_CreatedDate x) ∧ valid (Email_LastModifiedDate x) ∧ valid (Email_Source x) ∧ valid (Email_Email x) ∧ True.

#[global] Instance Emails_Norm : Norm Emails := λ x,
  {| Emails_Emails := norm (Emails_Emails x) |}.
#[global] Instance Emails_Valid : Valid Emails := λ x,
  valid (Emails_Emails x) ∧ True.

#[global] Instance Address_Norm : Norm Address := λ x,
  {| Address_Visibility := norm (Address_Visibility x);
     Address_PutCode := norm (Address_PutCode x);
     Address_CreatedDate := norm (Address_CreatedDate x);
     Address_LastModifiedDate := norm (Address_LastModifiedDate x);
     Address_Source := norm (Address_Source x);
     Address_Country := norm (Address_Country x) |}.
#[global] Instance Address_Valid : Valid Address := λ x,
  valid (Address_Visibility x) ∧ valid (Address_PutCode x) ∧ valid (Address_CreatedDate x) ∧ valid (Address_LastModifiedDate x) ∧ valid (Address_Source x) ∧ valid (Address_Country x) ∧ True.

#[global] Instance Addresses_Norm : Norm Addresses := λ x,
  {| Addresses_Addresses := norm (Addresses_Addresses x) |}.
#[global] Instance Addresses_Valid : Valid Addresses := λ x,
  valid (Addresses_Addresses x) ∧ True.

#[global] Instance Keyword_Norm : Norm Keyword := λ x,
  {| Keyword_Visibility := norm (Keyword_Visibility x);
     Keyword_PutCode := norm (Keyword_PutCode x);
     Keyword_CreatedDate := norm (Keyword_CreatedDate x);
     Keyword_LastModifiedDate := norm (Keyword_LastModifiedDate x);
     Keyword_Source := norm (Keyword_Source x);
     Keyword_Content := norm (Keyword_Content x) |}.
#[global] Instance Keyword_Valid : Valid Keyword := λ x,
  valid (Keyword_Visibility x) ∧ valid (Keyword_PutCode x) ∧ valid (Keyword_CreatedDate x) ∧ valid (Keyword_LastModifiedDate x) ∧ valid (Keyword_Source x) ∧ valid (Keyword_Content x) ∧ True.

#[global] Instance Keywords_Norm : Norm Keywords := λ x,
  {| Keywords_Keywords := norm (Keywords_Keywords x) |}.
#[global] Instance Keywords_Valid : Valid Keywords := λ x,
  valid (Keywords_Keywords x) ∧ True.

#[global] Instance ExternalIdentifier_Norm : Norm ExternalIdentifier := λ x,
  {| ExternalIdentifier_Visibility := norm (ExternalIdentifier_Visibility x);
     ExternalIdentifier_PutCode := norm (ExternalIdentifier_PutCode x);
     ExternalIdentifier_CreatedDate := norm (ExternalIdentifier_CreatedDate x);
     ExternalIdentifier_LastModifiedDate := norm (ExternalIdentifier_LastModifiedDate x);
     ExternalIdentifier_Source := norm (ExternalIdentifier_Source x);
     ExternalIdentifier_ExternalIdType := norm (ExternalIdentifier_ExternalIdType x);
     ExternalIdentifier_ExternalIdValue := norm (ExternalIdentifier_ExternalIdValue x);
     ExternalIdentifier_ExternalIdUrl := norm (ExternalIdentifier_ExternalIdUrl x) |}.
#[global] Instance ExternalIdentifier_Valid : Valid ExternalIdentifier := λ x,
  valid (ExternalIdentifier_Visibility x) ∧ valid (ExternalIdentifier_PutCode x) ∧ valid (ExternalIdentifier_CreatedDate x) ∧ valid (ExternalIdentifier_LastModifiedDate x) ∧ valid (ExternalIdentifier_Source x) ∧ valid (ExternalIdentifier_ExternalIdType x) ∧ valid (ExternalIdentifier_ExternalIdValue x) ∧ valid (ExternalIdentifier_ExternalIdUrl x) ∧ True.

#[global] Instance ExternalIdentifiers_Norm : Norm ExternalIdentifiers := λ x,
  {| ExternalIdentifiers_ExternalIdentifiers := norm (ExternalIdentifiers_ExternalIdentifiers x) |}.
#[global] Instance ExternalIdentifiers_Valid : Valid ExternalIdentifiers := λ x,
  valid (ExternalIdentifiers_ExternalIdentifiers x) ∧ True.

#[global] Instance Person_Norm : Norm Person := λ x,
  {| Person_XMLName := {| xml.Space := "http://www.orcid.org/ns/person"; xml.Local := "person" |};
     Person_XmlnsCommon := EmptyString;
     Person_XmlnsPerson := EmptyString;
     Person_XmlnsPersonal := EmptyString;
     Person_XmlnsOtherName := EmptyString;
     Person_XmlnsResearcherUrl := EmptyString;
     Person_XmlnsEmail := EmptyString;
     Person_XmlnsAddress := EmptyString;
     Person_XmlnsKeyword := EmptyString;
     Person_XmlnsExternalId := EmptyString;
     Person_XmlnsXsi := EmptyString;
     Person_XsiSchemaLocation := norm (Person_XsiSchemaLocation x);
     Person_LastModifiedDate := norm (Person_LastModifiedDate x);
     Person_Name := norm (Person_Name x);
     Person_OtherNames := norm (Person_OtherNames x);
     Person_Biography := norm (Person_Biography x);
     Person_ResearcherUrls := norm (Person_ResearcherUrls x);
     Person_Emails := norm (Person_Emails x);
     Person_Addresses := norm (Person_Addresses x);
     Person_Keywords := norm (Person_Keywords x);
     Person_ExternalIdentifiers := norm (Person_ExternalIdentifiers x);
     Person_Path := norm (Person_Path x) |}.
#[global] Instance Person_Valid : Valid Person := λ x,
  valid (Person_XsiSchemaLocation x) ∧ valid (Person_LastModifiedDate x) ∧ valid (Person_Name x) ∧ valid (Person_OtherNames x) ∧ valid (Person_Biography x) ∧ valid (Person_ResearcherUrls x) ∧ valid (Person_Emails x) ∧ valid (Person_Addresses x) ∧ valid (Person_Keywords x) ∧ valid (Person_ExternalIdentifiers x) ∧ valid (Person_Path x) ∧ True.

End models_rt.

(* ===================================================================== *)
(** ** Vocabulary of the further properties *)
(* ===================================================================== *)

(** The tokens of a document assertXMLEqual looks at. *)
Definition significantTokens (d : models_test.Decoder) : list xml.Token :=
  List.filter significant d.

(** The answer of assertXMLEqual read off the significant tokens of the
    two documents, pair by pair: the first pair tokensEqual refuses, else
    a difference in length, else nil. *)
Fixpoint verdictOf (l1 l2 : list xml.Token) : models_test.verdict :=
  match l1, l2 with
  | [], [] => models_test.equal
  | [], _ :: _ | _ :: _, [] => models_test.lengthMismatch
  | t1 :: r1, t2 :: r2 =>
      if models_test.tokensEqual t1 t2 then verdictOf r1 r2
      else models_test.tokenMismatch t1 t2
  end.

(** assertXMLEqual returns nil. *)
Definition xmlEqual (d1 d2 : models_test.Decoder) : Prop :=
  models_test.assertXMLEqual d1 d2 = models_test.equal.

(** The attributes of a start tag that are no name-space declarations:
    what normalizeAttrs keeps, before it sorts. *)
Definition attributes (attrs : list xml.Attr) : list xml.Attr :=
  List.filter (λ a, negb (models_test.isDeclaration a)) attrs.

(** A path segment the mux hands to a wildcard as it is: not empty,
    without a slash, and neither of the two segments cleaning a path
    removes. *)
Definition pathSegment (s : string) : bool :=
  negb (String.eqb s "") && negb (strings.Contains s "/")
  && negb (String.eqb s ".") && negb (String.eqb s "..").

(** The request a handler receives for [i] under the wildcard bindings
    [bound]. *)
Definition routed (i : Incoming) (bound : gmap string string) : http.Request :=
  {| http.Method := In_Method i; http.URL_Path := In_Path i;
     http.URL_Query := In_Query i; http.Header := In_Header i;
     http.PathValues := bound; http.FormError := In_FormError i |}.

(** The header the middleware sets on every response. *)
Definition allowOrigin : string := "Access-Control-Allow-Origin".

(** The value handlePutWork and handlePutEmployment answer. *)
Definition updated (putCode : string) : UpdateResponse :=
  {| UpdateResponse_XMLName := zeroName; UpdateResponse_PutCode := putCode;
     UpdateResponse_Status := "updated" |}.

(** What a PUT of a work or employment answers, [resource] being "work"
    or "employment". *)
Definition updatedAt (resource : string) (r : http.Request) (w : http.ResponseWriter) : Prop :=
  http.status w = http.StatusOK
  ∧ http.sentHeader w !! "Location"
    = Some ("https://api.orcid.org/v3.0/" +:+ http.PathValue r "orcid" +:+
            "/" +:+ resource +:+ "/" +:+ http.PathValue r "putCode")
  ∧ http.body w = negotiated r (updated (http.PathValue r "putCode")).

(** The JSON document of the token endpoint. *)
Definition tokenDocument : json.Tree :=
  json.JObject [
    ("access_token", json.JString "mock-access-token-12345");
    ("token_type", json.JString "bearer");
    ("refresh_token", json.JString "mock-refresh-token-67890");
    ("expires_in", json.JNumber 631138518);
    ("scope", json.JString "/read-limited /activities/update");
    ("name", json.JString "Sofia Garcia");
    ("orcid", json.JString "0000-0001-2345-6789") ].

(** A response writer on which the middleware's header is in the map and,
    once the header is written, among the headers sent. *)
Definition carriesOrigin (w : http.ResponseWriter) : Prop :=
  http.handlerHeader w !! allowOrigin = Some "*"
  ∧ (http.wroteHeader w = true → http.sentHeader w !! allowOrigin = Some "*").

(** getPort, over the environment of the process; os.Getenv gives the
    empty string for a variable that is not set. *)
Definition getPort (env : gmap string string) : string :=
  let port := default EmptyString (env !! "MOAT_PORT") in
  if negb (String.eqb port EmptyString) then
    if negb (strings.HasPrefix port ":") then ":" +:+ port else port
  else
    let port := default EmptyString (env !! "PORT") in
    if negb (String.eqb port EmptyString) then
      if negb (strings.HasPrefix port ":") then ":" +:+ port else port
    else ":8080".

(** [NormIdem A]: what a round trip returns comes back from a second
    round trip as it is. *)
Class NormIdem (A : Type) `{Norm A} : Prop := norm_idem : ∀ x : A, norm (norm x) = norm x.

(** The stores as init builds them: every record under its own
    identifier, every identifier with its two empty maps, the random
    source untouched. *)
Definition seeded (src : rand.Source) (W : World) : Prop :=
  randSource W = src
  ∧ (∀ id r, personStore W !! id = Some r →
       OrcidIdentifier_Path (OrcidRecord_OrcidIdentifier r) = id
       ∧ OrcidIdentifier_Uri (OrcidRecord_OrcidIdentifier r) = "https://orcid.org/" +:+ id)
  ∧ (∀ id, is_Some (personStore W !! id)
           ↔ dataStore W !! id = Some {[ "work" := ∅; "employment" := ∅ ]}).

(** The identifiers of the demo population, in the order of init. *)
Definition demoIdentifiers : list string := (λ p, p.1.1.1) <$> people.

(* ===================================================================== *)
(** ** Properties of the negotiation and of the handlers *)
(* ===================================================================== *)

Section WriteResponse.
Context {A : Type} `{xml.Value A} `{json.Value A}.
Implicit Types (w : http.ResponseWriter) (r : http.Request) (data : A).

Lemma writeResponse_body w r data :
  http.body (writeResponse w r data) = http.body w ++ negotiated r data.
Proof.
  unfold writeResponse, negotiated.
  destruct (useXML r); unfold http.Write, http.WriteHeader, http.SetHeader; simpl;
    destruct (http.wroteHeader w); simpl; rewrite <- ?app_assoc; reflexivity.
Qed.

(** On a writer whose header is not yet written, the response goes out
    with status 200 and the media type of the chosen format. *)
Lemma writeResponse_fresh w r data :
  http.wroteHeader w = false →
  http.status (writeResponse w r data) = http.StatusOK
  ∧ sentContentType (writeResponse w r data) = Some (mediaType r).
Proof.
  intros Hw. unfold writeResponse, mediaType, sentContentType.
  destruct (useXML r); unfold http.Write, http.WriteHeader, http.SetHeader; simpl;
    rewrite Hw; simpl; split; try reflexivity; apply lookup_insert_eq.
Qed.

(** Once the header is written, writeResponse changes neither the status
    nor the headers the response is sent with. *)
Lemma writeResponse_committed w r data :
  http.wroteHeader w = true →
  http.status (writeResponse w r data) = http.status w
  ∧ http.sentHeader (writeResponse w r data) = http.sentHeader w
  ∧ http.handlerHeader (writeResponse w r data) !! "Content-Type" = Some (mediaType r).
Proof.
  intros Hw. unfold writeResponse, mediaType.
  destruct (useXML r); unfold http.Write, http.WriteHeader, http.SetHeader; simpl;
    rewrite Hw; simpl; repeat split; apply lookup_insert_eq.
Qed.

End WriteResponse.

Lemma Error_fresh w msg code :
  http.wroteHeader w = false →
  http.status (http.Error w msg code) = code
  ∧ sentContentType (http.Error w msg code) = Some plainText
  ∧ http.body (http.Error w msg code) = http.body w ++ [http.Raw (msg +:+ xml.newline)].
Proof.
  intros Hw. unfold http.Error, sentContentType, http.Write, http.WriteHeader,
    http.SetHeader, http.DelHeader; simpl. rewrite Hw; simpl.
  repeat split. rewrite lookup_insert_ne by discriminate. apply lookup_insert_eq.
Qed.

(** C2 (content negotiation).  For every request: off the /v3.0/ prefix
    the chosen format is JSON; under it the format is JSON exactly when the
    Accept header contains application/json and XML otherwise, an absent
    header included; the choice is a function of the path and the Accept
    header alone; and the body writeResponse adds is the document in the
    chosen format. *)
Theorem C2_content_negotiation (r : http.Request) :
  let v3 := strings.HasPrefix (http.URL_Path r) "/v3.0/" in
  let wantsJSON := strings.Contains (http.Get (http.Header r) "Accept") "application/json" in
  (v3 = false → useXML r = false)
  ∧ (v3 = true → (useXML r = false ↔ wantsJSON = true))
  ∧ (v3 = true → (useXML r = true ↔ wantsJSON = false))
  ∧ (v3 = true → http.Header r !! "Accept" = None → useXML r = true)
  ∧ (∀ r', http.URL_Path r' = http.URL_Path r →
           http.Header r' !! "Accept" = http.Header r !! "Accept" →
           useXML r' = useXML r)
  ∧ (∀ (A : Type) (X : xml.Value A) (J : json.Value A)
       (w : http.ResponseWriter) (data : A),
       http.body (writeResponse w r data) =
       http.body w ++ (if useXML r
                       then [http.Raw xml.Header; http.XMLDoc (xml.Marshal data)]
                       else [http.JSONDoc (json.marshal data)])).
Proof.
  cbv zeta. unfold useXML.
  repeat split.
  - intros ->. reflexivity.
  - rewrite H. destruct (strings.Contains _ _); [reflexivity|discriminate].
  - rewrite H. intros ->. reflexivity.
  - rewrite H. destruct (strings.Contains _ _); [discriminate|reflexivity].
  - rewrite H. intros ->. reflexivity.
  - intros -> Hnone. unfold http.Get. rewrite Hnone. reflexivity.
  - intros r' Hp Ha. unfold http.Get. rewrite Hp, Ha. reflexivity.
  - intros A X J w data. apply writeResponse_body.
Qed.

(** The choices C2 names, on concrete requests. *)
Lemma C2_examples :
  let r p a := {| http.Method := "GET"; http.URL_Path := p; http.URL_Query := ∅;
                  http.Header := a; http.PathValues := ∅; http.FormError := false |} in
  useXML (r "/v3.0/0000-0001-2345-6789/record" {[ "Accept" := "application/json" ]}) = false
  ∧ useXML (r "/v3.0/0000-0001-2345-6789/record" ∅) = true
  ∧ useXML (r "/v3.0/0000-0001-2345-6789/record" {[ "Accept" := "application/xml" ]}) = true
  ∧ useXML (r "/v3.0/search" {[ "Accept" := "text/html, application/json;q=0.9" ]}) = false
  ∧ useXML (r "/oauth/token" {[ "Accept" := "application/xml" ]}) = false
  ∧ useXML (r "/oauth/authorize" ∅) = false.
Proof. vm_compute. repeat split. Qed.

(* --------------------------------------------------------------------- *)
(** *** Put-codes of created records *)

Lemma Intn_range (n : Z) (src : rand.Source) :
  0 < n → 0 <= fst (rand.Intn n src) < n.
Proof. intros Hn. unfold rand.Intn; simpl. apply Z.mod_pos_bound; lia. Qed.

Lemma newPutCode_range (W : World) :
  100000 <= fst (newPutCode W) <= 1099998.
Proof.
  unfold newPutCode.
  pose proof (Intn_range 999999 (randSource W) ltac:(lia)) as Hr.
  destruct (rand.Intn 999999 (randSource W)) as [n src]; simpl in *. lia.
Qed.

Lemma newPutCode_stores (W : World) : sameStores W (snd (newPutCode W)).
Proof.
  unfold newPutCode, sameStores.
  destruct (rand.Intn 999999 (randSource W)); simpl; auto.
Qed.

Lemma append_nonempty (a b : string) : a ≠ EmptyString → a +:+ b ≠ EmptyString.
Proof. destruct a; [congruence|discriminate]. Qed.

(** What a POST of a new work or employment answers, [resource] being
    "work" or "employment". *)
Definition created (resource : string) (W : World) (r : http.Request)
    (w : http.ResponseWriter) : Prop :=
  let n := fst (newPutCode W) in
  let location := "https://api.orcid.org/v3.0/" +:+ http.PathValue r "orcid" +:+
                  "/" +:+ resource +:+ "/" +:+ strconv.Itoa n in
  http.status w = http.StatusCreated
  ∧ http.sentHeader w !! "Location" = Some location
  ∧ location ≠ EmptyString
  ∧ http.body w = negotiated r {| PutCodeResponse_XMLName := zeroName;
                                  PutCodeResponse_PutCode := n |}
  ∧ 100000 <= n <= 1099998.

Lemma handlePostWork_created W r :
  created "work" W r (snd (handlePostWork W r freshWriter)).
Proof.
  unfold created, handlePostWork. cbv zeta.
  pose proof (newPutCode_range W) as Hr.
  destruct (newPutCode W) as [n W'] eqn:E; simpl in Hr |- *.
  rewrite writeResponse_body.
  destruct (writeResponse_committed
    (http.WriteHeader http.StatusCreated
       (http.SetHeader "Location"
          ("https://api.orcid.org/v3.0/" +:+ http.PathValue r "orcid" +:+ "/work/" +:+
           strconv.Itoa n) freshWriter)) r
    {| PutCodeResponse_XMLName := zeroName; PutCodeResponse_PutCode := n |} eq_refl)
    as (-> & -> & _).
  simpl. split; [reflexivity|]. split; [apply lookup_insert_eq|].
  split; [discriminate|]. split; [reflexivity|lia].
Qed.

Lemma handlePostEmployment_created W r :
  created "employment" W r (snd (handlePostEmployment W r freshWriter)).
Proof.
  unfold created, handlePostEmployment. cbv zeta.
  pose proof (newPutCode_range W) as Hr.
  destruct (newPutCode W) as [n W'] eqn:E; simpl in Hr |- *.
  rewrite writeResponse_body.
  destruct (writeResponse_committed
    (http.WriteHeader http.StatusCreated
       (http.SetHeader "Location"
          ("https://api.orcid.org/v3.0/" +:+ http.PathValue r "orcid" +:+ "/employment/" +:+
           strconv.Itoa n) freshWriter)) r
    {| PutCodeResponse_XMLName := zeroName; PutCodeResponse_PutCode := n |} eq_refl)
    as (-> & -> & _).
  simpl. split; [reflexivity|]. split; [apply lookup_insert_eq|].
  split; [discriminate|]. split; [reflexivity|lia].
Qed.

(** C4, as amended.  Every POST of a work or an employment is answered
    201 with a non-empty Location header; the put-code generated stands in
    decimal at the end of the Location and is the put-code of the body,
    and it is an integer of the interval [100000, 1099998]. *)
Theorem C4_created_put_code (W : World) (r : http.Request) :
  created "work" W r (snd (handlePostWork W r freshWriter))
  ∧ created "employment" W r (snd (handlePostEmployment W r freshWriter)).
Proof. split; [apply handlePostWork_created | apply handlePostEmployment_created]. Qed.

(** C4 as the claim states it fails: with a draw of 999998 the POST of a
    work answers put-code 1099998, above 999099. *)
Lemma C4_counterexample :
  ∃ w, snd (serve (demoWorld 999998)
              (request "POST" "/v3.0/0000-0001-2345-6789/work" (Some "application/json"))) = w
  ∧ http.status w = 201
  ∧ http.sentHeader w !! "Location"
    = Some "https://api.orcid.org/v3.0/0000-0001-2345-6789/work/1099998"
  ∧ http.body w = [http.JSONDoc (json.JObject [("put-code", json.JNumber 1099998)])]
  ∧ 999099 < 1099998.
Proof. eexists. split; [reflexivity|]. vm_compute. repeat split. Qed.

(* --------------------------------------------------------------------- *)
(** *** Search *)

(** C5.  GET /v3.0/search answers 500 with the plain-text body
    "Search failed" if and only if the query parameter q contains "error";
    otherwise it answers 200 with a SearchResponse of exactly one hit:
    num-found 1 and the one fixed identifier. *)
Theorem C5_search (W : World) (r : http.Request) :
  let w := snd (handleSearch W r freshWriter) in
  let failing := strings.Contains (http.Get (http.URL_Query r) "q") "error" in
  (http.status w = http.StatusInternalServerError ↔ failing = true)
  ∧ (failing = true →
       sentContentType w = Some plainText
       ∧ http.body w = [http.Raw ("Search failed" +:+ xml.newline)])
  ∧ (failing = false →
       http.status w = http.StatusOK
       ∧ sentContentType w = Some (mediaType r)
       ∧ ∃ resp, http.body w = negotiated r resp
                 ∧ SearchResponse_NumFound resp = 1
                 ∧ SearchResponse_Result resp
                   = [ {| SearchResult_OrcidIdentifier := {|
                            OrcidIdentifier_Uri := "https://orcid.org/0000-0001-2345-6789";
                            OrcidIdentifier_Path := "0000-0001-2345-6789";
                            OrcidIdentifier_Host := "orcid.org" |} |} ]).
Proof.
  cbv zeta. unfold handleSearch.
  destruct (strings.Contains _ _) eqn:E; simpl.
  - split; [split; reflexivity|]. split; [|discriminate].
    intros _. split; reflexivity.
  - match goal with |- context [writeResponse freshWriter r ?d] =>
      destruct (writeResponse_fresh freshWriter r d eq_refl) as [Hs Hc];
      pose proof (writeResponse_body freshWriter r d) as Hb
    end.
    rewrite Hs, Hc. split; [split; discriminate|]. split; [discriminate|].
    intros _. split; [reflexivity|]. split; [reflexivity|].
    eexists. split; [exact Hb|]. split; reflexivity.
Qed.

(** The two scenarios of the tests: q=test answers one hit, q=error 500. *)
Lemma C5_examples :
  let get q := snd (serve (demoWorld 0)
    {| In_Method := "GET"; In_Path := "/v3.0/search"; In_Query := {[ "q" := q ]};
       In_Header := {[ "Accept" := "application/json" ]}; In_FormError := false |}) in
  http.status (get "test") = 200
  ∧ http.status (get "error") = 500
  ∧ http.status (get "no errors here") = 500
  ∧ http.status (get "Error") = 200.
Proof. vm_compute. repeat split. Qed.

(* --------------------------------------------------------------------- *)
(** *** Record and person lookup *)

(** C6.  GET of a record or of a person answers 404 with a plain-text
    body if and only if the identifier is not in the store; for a known
    identifier it answers 200 with the stored record, or its person part,
    in the negotiated format. *)
Theorem C6_lookup (W : World) (r : http.Request) :
  let orcid := http.PathValue r "orcid" in
  let wr := snd (handleGetRecord W r freshWriter) in
  let wp := snd (handleGetPerson W r freshWriter) in
  (http.status wr = http.StatusNotFound ↔ personStore W !! orcid = None)
  ∧ (http.status wp = http.StatusNotFound ↔ personStore W !! orcid = None)
  ∧ (personStore W !! orcid = None →
       sentContentType wr = Some plainText
       ∧ http.body wr = [http.Raw ("Record not found" +:+ xml.newline)]
       ∧ sentContentType wp = Some plainText
       ∧ http.body wp = [http.Raw ("Person not found" +:+ xml.newline)])
  ∧ (∀ record, personStore W !! orcid = Some record →
       http.status wr = http.StatusOK
       ∧ sentContentType wr = Some (mediaType r)
       ∧ http.body wr = negotiated r record
       ∧ http.status wp = http.StatusOK
       ∧ sentContentType wp = Some (mediaType r)
       ∧ http.body wp = negotiated r (OrcidRecord_Person record)).
Proof.
  cbv zeta. unfold handleGetRecord, handleGetPerson.
  destruct (personStore W !! http.PathValue r "orcid") as [record|] eqn:E; simpl.
  - assert (Hs : ∀ (A : Type) (X : xml.Value A) (J : json.Value A) (d : A),
               http.status (writeResponse freshWriter r d) = http.StatusOK
               ∧ sentContentType (writeResponse freshWriter r d) = Some (mediaType r)
               ∧ http.body (writeResponse freshWriter r d) = negotiated r d).
    { intros A X J d. destruct (writeResponse_fresh freshWriter r d eq_refl) as [-> ->].
      rewrite writeResponse_body. auto. }
    destruct (Hs _ _ _ record) as (Hr1 & Hr2 & Hr3).
    destruct (Hs _ _ _ (OrcidRecord_Person record)) as (Hp1 & Hp2 & Hp3).
    rewrite Hr1, Hp1.
    split; [split; discriminate|]. split; [split; discriminate|].
    split; [discriminate|].
    intros ? [= <-]. auto 10.
  - split; [split; reflexivity|]. split; [split; reflexivity|].
    split; [|discriminate]. intros _. repeat split.
Qed.

(** The identifiers init seeds, and no others, are known. *)
Lemma seeded_identifiers (clock : nat → Z) (src : rand.Source) :
  ∃ W, init clock src = Some W
       ∧ ∀ orcid, is_Some (personStore W !! orcid) ↔ orcid ∈ (λ p, p.1.1.1) <$> people.
Proof.
  eexists. split; [reflexivity|].
  intros orcid. simpl.
  rewrite !lookup_insert_is_Some, lookup_empty, is_Some_alt.
  rewrite !elem_of_cons, elem_of_nil. intuition congruence.
Qed.

Lemma C6_examples :
  let get path := snd (serve (demoWorld 0) (request "GET" path None)) in
  http.status (get "/v3.0/0000-0001-2345-6789/record") = 200
  ∧ http.status (get "/v3.0/0000-0006-9009-0000/person") = 200
  ∧ http.status (get "/v3.0/0000-0000-0000-0000/record") = 404
  ∧ http.status (get "/v3.0/0000-0000-0000-0000/person") = 404
  ∧ http.body (get "/v3.0/0000-0000-0000-0000/person")
    = [http.Raw ("Person not found" +:+ xml.newline)].
Proof. vm_compute. repeat split. Qed.

(* --------------------------------------------------------------------- *)
(** *** The Content-Type of a response *)

(** Where writeResponse is the first to touch the response (the GET
    handlers), the response is sent with the media type of the chosen
    format and, for XML, starts with the prolog. *)
Lemma content_type_when_first (W : World) (r : http.Request) :
  ∀ (A : Type) (X : xml.Value A) (J : json.Value A) (data : A),
    let w := writeResponse freshWriter r data in
    (useXML r = true →
       sentContentType w = Some "application/xml; charset=utf-8"
       ∧ http.body w = [http.Raw xml.Header; http.XMLDoc (xml.Marshal data)])
    ∧ (useXML r = false →
       sentContentType w = Some "application/json; charset=utf-8"
       ∧ http.body w = [http.JSONDoc (json.marshal data)]).
Proof.
  intros A X J data w.
  destruct (writeResponse_fresh freshWriter r data eq_refl) as [_ Hc].
  pose proof (writeResponse_body freshWriter r data) as Hb.
  subst w. rewrite Hc, Hb. unfold mediaType, negotiated.
  split; intros ->; simpl; auto.
Qed.

(** The handlers that call WriteHeader before writeResponse: the media
    type writeResponse puts in the header map comes too late to be sent. *)
Lemma content_type_after_WriteHeader (W : World) (r : http.Request) :
  ∀ h, h ∈ [handlePostWork; handlePutWork; handlePostEmployment; handlePutEmployment] →
    let w := snd (h W r freshWriter) in
    http.handlerHeader w !! "Content-Type" = Some (mediaType r)
    ∧ sentContentType w = None.
Proof.
  intros h Hh. rewrite !elem_of_cons, elem_of_nil in Hh.
  destruct Hh as [->|[->|[->|[->|[]]]]]; cbv zeta;
    unfold handlePostWork, handlePostEmployment, handlePutWork, handlePutEmployment;
    try destruct (newPutCode W) as [n W']; simpl;
    match goal with |- context [writeResponse ?w0 r ?d] =>
      destruct (writeResponse_committed w0 r d eq_refl) as (_ & Hs & Hh)
    end;
    unfold sentContentType; rewrite Hs, Hh; split; reflexivity.
Qed.

(** C7 on the request that breaks it: a POST of a work asking for JSON.
    JSON is chosen and the body is the JSON document, but the response is
    sent, with status 201, without the Content-Type writeResponse chose:
    that one only reaches the handler's header map. *)
Theorem C7_post_sent_without_content_type :
  let i := request "POST" "/v3.0/0000-0001-2345-6789/work" (Some "application/json") in
  let w := snd (serve (demoWorld 0) i) in
  http.status w = 201
  ∧ http.body w = [http.JSONDoc (json.JObject [("put-code", json.JNumber 100000)])]
  ∧ http.handlerHeader w !! "Content-Type" = Some "application/json; charset=utf-8"
  ∧ sentContentType w = None.
Proof. vm_compute. repeat split. Qed.

(* --------------------------------------------------------------------- *)
(** *** The stores are never written *)

Lemma sameStores_refl W : sameStores W W.
Proof. split; reflexivity. Qed.

Lemma sameStores_trans W1 W2 W3 : sameStores W1 W2 → sameStores W2 W3 → sameStores W1 W3.
Proof. intros [? ?] [? ?]. split; congruence. Qed.

Lemma lookupRoute_In rs i h r :
  lookupRoute rs i = Some (h, r) → ∃ m p, (m, p, h) ∈ rs.
Proof.
  induction rs as [|[[m p] h'] rs IH]; simpl; [discriminate|].
  destruct (if methodMatches m (In_Method i) then _ else None).
  - intros [= <- _]. exists m, p. left.
  - intros Hl. destruct (IH Hl) as (m' & p' & Hin). exists m', p'. right. exact Hin.
Qed.

Lemma handlers_keep_stores m p h :
  (m, p, h) ∈ routes → ∀ W r w, sameStores W (fst (h W r w)).
Proof.
  unfold routes. rewrite !elem_of_cons, elem_of_nil.
  intros Hin W r w.
  repeat (destruct Hin as [[= _ _ ->]|Hin]); try contradiction;
    unfold handleToken, handleAuthorize, handleGetRecord, handleGetPerson,
      handleGetWork, handlePostWork, handlePutWork, handleGetEmployment,
      handlePostEmployment, handlePutEmployment, handleSearch;
    repeat match goal with
    | |- context [if ?b then _ else _] => destruct b
    | |- context [match ?o with Some _ => _ | None => _ end] => destruct o
    | |- context [strconv.Atoi ?s] => destruct (strconv.Atoi s)
    end; simpl; try apply sameStores_refl.
  all: split; reflexivity.
Qed.

Lemma serve_stores W i : sameStores W (fst (serve W i)).
Proof.
  unfold serve.
  destruct (lookupRoute routes i) as [[h r]|] eqn:E.
  - destruct (lookupRoute_In _ _ _ _ E) as (m & p & Hin).
    eapply handlers_keep_stores; eauto.
  - destruct (pathKnown i); apply sameStores_refl.
Qed.

Lemma serveAll_stores reqs : ∀ W, sameStores W (fst (serveAll W reqs)).
Proof.
  induction reqs as [|i rest IH]; intros W; simpl; [apply sameStores_refl|].
  pose proof (serve_stores W i) as H1.
  destruct (serve W i) as [W1 w]. simpl in H1.
  pose proof (IH W1) as H2.
  destruct (serveAll W1 rest) as [W2 ws]. simpl in *.
  eapply sameStores_trans; eauto.
Qed.

(** A GET reads nothing of the world but the person store. *)
Lemma get_reads_stores W W' i :
  sameStores W W' → In_Method i = "GET" → snd (serve W i) = snd (serve W' i).
Proof.
  intros [Hp Hd] Hm. unfold serve, routes, lookupRoute. rewrite Hm.
  repeat match goal with
  | |- context [methodMatches ?a ?b] =>
      let v := eval vm_compute in (methodMatches a b) in
      change (methodMatches a b) with v; cbv iota
  end.
  repeat match goal with
  | |- context [segments ?p ≫= ?f] => destruct (segments p ≫= f)
  end;
  unfold handleAuthorize, handleGetRecord, handleGetPerson, handleGetWork,
    handleGetEmployment, handleSearch; simpl; rewrite ?Hp;
  repeat match goal with
    | |- context [if ?b then _ else _] => destruct b
    | |- context [match ?o with Some _ => _ | None => _ end] => destruct o
    | |- context [strconv.Atoi ?s] => destruct (strconv.Atoi s)
    end; reflexivity.
Qed.

(** C8.  The stores are filled by init and no handler writes them:
    whatever requests are served, POST and PUT of works and employments
    included, both stores are afterwards exactly what they were, and any
    later GET is answered as it would have been before. *)
Theorem C8_store_immutable (W : World) (reqs : list Incoming) :
  let W' := fst (serveAll W reqs) in
  personStore W' = personStore W
  ∧ dataStore W' = dataStore W
  ∧ (∀ g, In_Method g = "GET" → snd (serve W' g) = snd (serve W g)).
Proof.
  cbv zeta. destruct (serveAll_stores reqs W) as [Hp Hd].
  split; [auto|]. split; [auto|].
  intros g Hg. symmetry. apply get_reads_stores; [split; auto|exact Hg].
Qed.

(** On the seeded world: after a POST and a PUT of a work and of an
    employment, the record of the same identifier reads as before. *)
Lemma C8_example :
  let reqs := [ request "POST" "/v3.0/0000-0001-2345-6789/work" None;
                request "PUT" "/v3.0/0000-0001-2345-6789/work/123456" None;
                request "POST" "/v3.0/0000-0001-2345-6789/employment" None;
                request "PUT" "/v3.0/0000-0001-2345-6789/employment/789012" None ] in
  let get := request "GET" "/v3.0/0000-0001-2345-6789/record" (Some "application/json") in
  http.status <$> snd (serveAll (demoWorld 7) reqs) = [201; 200; 201; 200]
  ∧ snd (serve (fst (serveAll (demoWorld 7) reqs)) get) = snd (serve (demoWorld 7) get)
  ∧ http.status (snd (serve (demoWorld 7) get)) = 200.
Proof. vm_compute. repeat split. Qed.


(* --------------------------------------------------------------------- *)
(** *** Put-codes read from the path *)








(** The usual malformed segments do answer put-code 0. *)
Lemma C10_examples :
  let code seg := http.body (snd (serve (demoWorld 0)
        (request "GET" ("/v3.0/0000-0001-2345-6789/work/" +:+ seg) (Some "application/json")))) in
  code "abc" = [http.JSONDoc (json.marshal (genericWork 0))]
  ∧ code "12x" = [http.JSONDoc (json.marshal (genericWork 0))]
  ∧ code "1.5" = [http.JSONDoc (json.marshal (genericWork 0))]
  ∧ code "x99999999999999999999" = [http.JSONDoc (json.marshal (genericWork 0))]
  ∧ code "123" = [http.JSONDoc (json.marshal (genericWork 123))].
Proof. vm_compute. repeat split. Qed.

(* ===================================================================== *)
(** ** Properties of the two encodings *)
(* ===================================================================== *)

Lemma occurs_Elem local name attr kids :
  xml.occurs local (xml.Elem name attr kids)
  = String.eqb (xml.Local name) local || xml.occursIn local kids.
Proof. reflexivity. Qed.

Lemma occursIn_app local a b :
  xml.occursIn local (a ++ b) = xml.occursIn local a || xml.occursIn local b.
Proof. apply existsb_app. Qed.

Lemma hasKey_JObject key members :
  json.hasKey key (json.JObject members)
  = existsb (λ kv, String.eqb (fst kv) key || json.hasKey key (snd kv)) members.
Proof.
  simpl. induction members as [|[k v] ms IH]; simpl; [reflexivity|].
  rewrite IH. reflexivity.
Qed.

Lemma hasKey_JArray key items :
  json.hasKey key (json.JArray items) = existsb (json.hasKey key) items.
Proof. reflexivity. Qed.

Section Kinds.
Variable local : string.

#[global] Instance Lacks_string : Lacks local string.
Proof. intros name x Hn. unfold xml.occursIn. simpl. rewrite Hn. reflexivity. Qed.

#[global] Instance Lacks_int : Lacks local Z.
Proof. intros name x Hn. unfold xml.occursIn. simpl. rewrite Hn. reflexivity. Qed.

#[global] Instance Lacks_bool : Lacks local bool.
Proof. intros name x Hn. unfold xml.occursIn. simpl. rewrite Hn. reflexivity. Qed.

#[global] Instance Lacks_ptr {A} `{Lacks local A} : Lacks local (option A).
Proof. intros name [x|] Hn; simpl; [apply lacks, Hn|reflexivity]. Qed.

#[global] Instance Lacks_slice {A} `{Lacks local A} : Lacks local (list A).
Proof.
  intros name l Hn. simpl. induction l as [|x l IH]; simpl; [reflexivity|].
  rewrite occursIn_app, IH, (lacks _ _ Hn). reflexivity.
Qed.

#[global] Instance LacksKey_string : LacksKey local string.
Proof. intros x. reflexivity. Qed.

#[global] Instance LacksKey_int : LacksKey local Z.
Proof. intros x. reflexivity. Qed.

#[global] Instance LacksKey_bool : LacksKey local bool.
Proof. intros x. reflexivity. Qed.

#[global] Instance LacksKey_ptr {A} `{LacksKey local A} : LacksKey local (option A).
Proof. intros [x|]; simpl; [apply lacksKey|reflexivity]. Qed.

#[global] Instance LacksKey_slice {A} `{LacksKey local A} : LacksKey local (list A).
Proof.
  intros l. change (json.marshal l) with (json.JArray (List.map json.marshal l)).
  rewrite hasKey_JArray. induction l as [|x l IH]; simpl; [reflexivity|].
  rewrite IH, lacksKey. reflexivity.
Qed.

End Kinds.

(** The start tag and the content of a struct, field by field. *)
Ltac open_struct inst tinfo :=
  cbn [xml.marshalValue inst xml.structValue];
  unfold xml.marshalStruct, xml.startName, xml.marshalAttrs, xml.marshalFields,
    xml.xmlname, xml.elemSpace, tinfo;
  cbn [flat_map List.find app andb orb negb String.eqb Ascii.eqb Bool.eqb
       xml.Local xml.Space].

Ltac open_object inst jinfo :=
  cbn [json.marshal inst json.structValue];
  unfold json.marshalStruct, jinfo;
  cbn [flat_map app andb orb negb].

Ltac lacks_struct inst tinfo :=
  let name := fresh "name" in
  let x := fresh "x" in
  let Hn := fresh "Hn" in
  intros name x Hn; unfold xml.occursIn; open_struct inst tinfo;
  cbn [existsb]; rewrite occurs_Elem, Hn;
  repeat rewrite occursIn_app;
  repeat match goal with
  | |- context [if ?b then _ else _] => destruct b
  end;
  rewrite ?lacks by reflexivity; reflexivity.

Ltac lacksKey_struct inst jinfo :=
  let x := fresh "x" in
  intros x; open_object inst jinfo;
  rewrite hasKey_JObject;
  repeat match goal with
  | |- context [if ?b then _ else _] => destruct b
  end;
  cbn [existsb app fst snd String.eqb Ascii.eqb Bool.eqb orb];
  rewrite ?lacksKey; reflexivity.

#[global] Instance bio_OrcidIdentifier : Lacks "biography" OrcidIdentifier.
Proof. lacks_struct OrcidIdentifier_xml OrcidIdentifier_tinfo. Qed.
#[global] Instance bio_Value : Lacks "biography" Value.
Proof. lacks_struct Value_xml Value_tinfo. Qed.
#[global] Instance bio_Name : Lacks "biography" Name.
Proof. lacks_struct Name_xml Name_tinfo. Qed.
#[global] Instance bio_Email : Lacks "biography" Email.
Proof. lacks_struct Email_xml Email_tinfo. Qed.
#[global] Instance bio_Emails : Lacks "biography" Emails.
Proof. lacks_struct Emails_xml Emails_tinfo. Qed.
#[global] Instance bio_ResearcherUrl : Lacks "biography" ResearcherUrl.
Proof. lacks_struct ResearcherUrl_xml ResearcherUrl_tinfo. Qed.
#[global] Instance bio_ResearcherUrls : Lacks "biography" ResearcherUrls.
Proof. lacks_struct ResearcherUrls_xml ResearcherUrls_tinfo. Qed.
#[global] Instance bio_Title : Lacks "biography" Title.
Proof. lacks_struct Title_xml Title_tinfo. Qed.
#[global] Instance bio_LastModified : Lacks "biography" LastModified.
Proof. lacks_struct LastModified_xml LastModified_tinfo. Qed.
#[global] Instance bio_WorkSummary : Lacks "biography" WorkSummary.
Proof. lacks_struct WorkSummary_xml WorkSummary_tinfo. Qed.
#[global] Instance bio_WorkGroup : Lacks "biography" WorkGroup.
Proof. lacks_struct WorkGroup_xml WorkGroup_tinfo. Qed.
#[global] Instance bio_WorkSummaryGroup : Lacks "biography" WorkSummaryGroup.
Proof. lacks_struct WorkSummaryGroup_xml WorkSummaryGroup_tinfo. Qed.
#[global] Instance bio_Org : Lacks "biography" Org.
Proof. lacks_struct Org_xml Org_tinfo. Qed.
#[global] Instance bio_EmploymentSummary : Lacks "biography" EmploymentSummary.
Proof. lacks_struct EmploymentSummary_xml EmploymentSummary_tinfo. Qed.
#[global] Instance bio_AffiliationGroup : Lacks "biography" AffiliationGroup.
Proof. lacks_struct AffiliationGroup_xml AffiliationGroup_tinfo. Qed.
#[global] Instance bio_EmploymentSummaryGroup : Lacks "biography" EmploymentSummaryGroup.
Proof. lacks_struct EmploymentSummaryGroup_xml EmploymentSummaryGroup_tinfo. Qed.
#[global] Instance bio_Activities : Lacks "biography" Activities.
Proof. lacks_struct Activities_xml Activities_tinfo. Qed.
#[global] Instance bio_Biography : Lacks "biography" Biography.
Proof. lacks_struct Biography_xml Biography_tinfo. Qed.

#[global] Instance biok_OrcidIdentifier : LacksKey "biography" OrcidIdentifier.
Proof. lacksKey_struct OrcidIdentifier_json OrcidIdentifier_jinfo. Qed.
#[global] Instance biok_Value : LacksKey "biography" Value.
Proof. lacksKey_struct Value_json Value_jinfo. Qed.
#[global] Instance biok_Name : LacksKey "biography" Name.
Proof. lacksKey_struct Name_json Name_jinfo. Qed.
#[global] Instance biok_Email : LacksKey "biography" Email.
Proof. lacksKey_struct Email_json Email_jinfo. Qed.
#[global] Instance biok_Emails : LacksKey "biography" Emails.
Proof. lacksKey_struct Emails_json Emails_jinfo. Qed.
#[global] Instance biok_ResearcherUrl : LacksKey "biography" ResearcherUrl.
Proof. lacksKey_struct ResearcherUrl_json ResearcherUrl_jinfo. Qed.
#[global] Instance biok_ResearcherUrls : LacksKey "biography" ResearcherUrls.
Proof. lacksKey_struct ResearcherUrls_json ResearcherUrls_jinfo. Qed.
#[global] Instance biok_Title : LacksKey "biography" Title.
Proof. lacksKey_struct Title_json Title_jinfo. Qed.
#[global] Instance biok_LastModified : LacksKey "biography" LastModified.
Proof. lacksKey_struct LastModified_json LastModified_jinfo. Qed.
#[global] Instance biok_WorkSummary : LacksKey "biography" WorkSummary.
Proof. lacksKey_struct WorkSummary_json WorkSummary_jinfo. Qed.
#[global] Instance biok_WorkGroup : LacksKey "biography" WorkGroup.
Proof. lacksKey_struct WorkGroup_json WorkGroup_jinfo. Qed.
#[global] Instance biok_WorkSummaryGroup : LacksKey "biography" WorkSummaryGroup.
Proof. lacksKey_struct WorkSummaryGroup_json WorkSummaryGroup_jinfo. Qed.
#[global] Instance biok_Org : LacksKey "biography" Org.
Proof. lacksKey_struct Org_json Org_jinfo. Qed.
#[global] Instance biok_EmploymentSummary : LacksKey "biography" EmploymentSummary.
Proof. lacksKey_struct EmploymentSummary_json EmploymentSummary_jinfo. Qed.
#[global] Instance biok_AffiliationGroup : LacksKey "biography" AffiliationGroup.
Proof. lacksKey_struct AffiliationGroup_json AffiliationGroup_jinfo. Qed.
#[global] Instance biok_EmploymentSummaryGroup : LacksKey "biography" EmploymentSummaryGroup.
Proof. lacksKey_struct EmploymentSummaryGroup_json EmploymentSummaryGroup_jinfo. Qed.
#[global] Instance biok_Activities : LacksKey "biography" Activities.
Proof. lacksKey_struct Activities_json Activities_jinfo. Qed.
#[global] Instance biok_Biography : LacksKey "biography" Biography.
Proof. lacksKey_struct Biography_json Biography_jinfo. Qed.

(** A person is written with a biography element exactly when the
    Biography pointer is set. *)
Lemma person_biography_element name (p : Person) :
  String.eqb (xml.Local name) "biography" = false →
  xml.occursIn "biography" (xml.marshalValue name p)
  = bool_decide (is_Some (Person_Biography p)).
Proof.
  intros Hn. unfold xml.occursIn. open_struct Person_xml Person_tinfo.
  cbn [existsb]. rewrite occurs_Elem, Hn. repeat rewrite occursIn_app.
  rewrite (lacks (local:="biography") _ (Person_Name p)) by reflexivity.
  destruct (Person_Biography p) as [b|]; cbn [xml.isEmptyValue xml.ptr_Value].
  - match goal with
    | |- context [xml.occursIn "biography" (xml.marshalValue ?n (Some b))] =>
        replace (xml.occursIn "biography" (xml.marshalValue n (Some b))) with true
          by reflexivity
    end.
    reflexivity.
  - repeat match goal with
    | |- context [if ?b then _ else _] => destruct b
    end; rewrite ?lacks by reflexivity; reflexivity.
Qed.

Lemma person_biography_key (p : Person) :
  json.hasKey "biography" (json.marshal p)
  = bool_decide (is_Some (Person_Biography p)).
Proof.
  open_object Person_json Person_jinfo. rewrite hasKey_JObject.
  destruct (Person_Biography p) as [b|]; cbn [json.isEmptyValue json.ptr_Value].
  - cbn [existsb app fst snd String.eqb Ascii.eqb Bool.eqb orb].
    rewrite lacksKey. reflexivity.
  - repeat match goal with
    | |- context [if ?b then _ else _] => destruct b
    end;
    cbn [existsb app fst snd String.eqb Ascii.eqb Bool.eqb orb];
    rewrite ?lacksKey; reflexivity.
Qed.

Lemma record_biography_element (r : OrcidRecord) :
  xml.occursIn "biography" (xml.Marshal r)
  = bool_decide (is_Some (Person_Biography (OrcidRecord_Person r))).
Proof.
  unfold xml.Marshal, xml.occursIn. open_struct OrcidRecord_xml OrcidRecord_tinfo.
  cbn [existsb]. rewrite occurs_Elem. repeat rewrite occursIn_app.
  rewrite (lacks (local:="biography") _ (OrcidRecord_OrcidIdentifier r)) by reflexivity.
  rewrite (lacks (local:="biography") _ (OrcidRecord_Activities r)) by reflexivity.
  rewrite person_biography_element by reflexivity.
  destruct (bool_decide _); reflexivity.
Qed.

Lemma record_biography_key (r : OrcidRecord) :
  json.hasKey "biography" (json.marshal r)
  = bool_decide (is_Some (Person_Biography (OrcidRecord_Person r))).
Proof.
  open_object OrcidRecord_json OrcidRecord_jinfo. rewrite hasKey_JObject.
  cbn [existsb app fst snd String.eqb Ascii.eqb Bool.eqb orb].
  rewrite person_biography_key.
  rewrite (lacksKey (key:="biography") (OrcidRecord_OrcidIdentifier r)).
  rewrite (lacksKey (key:="biography") (OrcidRecord_Activities r)).
  destruct (bool_decide _); reflexivity.
Qed.

(** C9 (optional-field omission).  A record, and a person, whose Biography
    is absent is written without any biography element in XML and without
    any biography key in JSON; one whose Biography is present is written
    with the element and with the key, whatever the content string, the
    empty string included, and they carry that string. *)
Theorem C9_optional_biography (r : OrcidRecord) :
  let p := OrcidRecord_Person r in
  (Person_Biography p = None →
     xml.occursIn "biography" (xml.Marshal r) = false
     ∧ json.hasKey "biography" (json.marshal r) = false
     ∧ xml.occursIn "biography" (xml.Marshal p) = false
     ∧ json.hasKey "biography" (json.marshal p) = false)
  ∧ (∀ b, Person_Biography p = Some b →
     xml.occursIn "biography" (xml.Marshal r) = true
     ∧ json.hasKey "biography" (json.marshal r) = true
     ∧ (∃ person, xml.Marshal p = [person]
          ∧ List.find (xml.isElemNamed "biography") (xml.kidsOf person)
            = Some (xml.Elem {| xml.Space := ""; xml.Local := "biography" |} []
                      [xml.Elem {| xml.Space := ""; xml.Local := "content" |} []
                         [xml.Text (Biography_Content b)]]))
     ∧ json.member (json.marshal p) "biography"
       = Some (json.JObject [("content", json.JString (Biography_Content b))])).
Proof.
  cbv zeta. split.
  - intros Hb. rewrite record_biography_element, record_biography_key.
    unfold xml.Marshal. rewrite person_biography_element by reflexivity.
    rewrite person_biography_key, Hb. repeat split.
  - intros b Hb. rewrite record_biography_element, record_biography_key, Hb.
    split; [reflexivity|]. split; [reflexivity|]. split.
    + eexists. split; [reflexivity|]. simpl. rewrite Hb. reflexivity.
    + simpl. rewrite Hb. reflexivity.
Qed.

(** The two cases on a seeded record: as seeded, with the biography taken
    away, and with a biography of empty content. *)
Lemma C9_examples :
  ∃ r, createMockRecord sofia "Sofia" "Garcia" "bio" 0 = Some r
  ∧ let without := set_OrcidRecord_Person
                     (set_Person_Biography None (OrcidRecord_Person r)) r in
    let empty := set_OrcidRecord_Person
                   (set_Person_Biography (Some {| Biography_Content := "" |})
                      (OrcidRecord_Person r)) r in
    xml.occursIn "biography" (xml.Marshal r) = true
    ∧ json.hasKey "biography" (json.marshal r) = true
    ∧ xml.occursIn "biography" (xml.Marshal without) = false
    ∧ json.hasKey "biography" (json.marshal without) = false
    ∧ xml.occursIn "biography" (xml.Marshal empty) = true
    ∧ json.hasKey "biography" (json.marshal empty) = true
    ∧ json.member (json.marshal (OrcidRecord_Person empty)) "biography"
      = Some (json.JObject [("content", json.JString "")]).
Proof. eexists. split; [reflexivity|]. vm_compute. repeat split. Qed.

(* --------------------------------------------------------------------- *)
(** *** Visibility and put-code *)

Lemma append_empty (s : string) : s +:+ "" = s.
Proof.
  induction s as [|c s IH]; [reflexivity|].
  change (String c (s +:+ "") = String c s). f_equal. exact IH.
Qed.

(** C3 as the claim states it fails on the records the server returns:
    the email of a seeded record is written with its visibility as a child
    element, the element itself carrying no attribute; likewise the
    put-code of its work summary. *)
Lemma C3_counterexample :
  ∃ (e : Email) (ws : WorkSummary) ne nw,
    createMockRecord sofia "Sofia" "Garcia" "bio" 0 ≫=
      (λ r, Person_Emails (OrcidRecord_Person r)) = Some {| Emails_Email := [e] |}
    ∧ xml.marshalValue {| xml.Space := ""; xml.Local := "email" |} e = [ne]
    ∧ xml.attrOf ne "visibility" = None
    ∧ xml.childOf ne "visibility" = Some "PUBLIC"
    ∧ WorkSummary_PutCode ws = 123456
    ∧ xml.marshalValue {| xml.Space := ""; xml.Local := "work-summary" |} ws = [nw]
    ∧ xml.attrOf nw "put-code" = None
    ∧ xml.childOf nw "put-code" = Some "123456".
Proof.
  eexists _, {| WorkSummary_PutCode := 123456;
                WorkSummary_Title := {| Title_Title := {| Value_Value := "Mock Paper Title" |} |};
                WorkSummary_Type := "journal-article";
                WorkSummary_LastModified := {| LastModified_Value := 0 |} |}, _, _.
  split; [reflexivity|]. split; [reflexivity|]. vm_compute. repeat split.
Qed.

(** C3, as amended.  In the records of main.go (Email, WorkSummary,
    EmploymentSummary) visibility and put-code are written in XML as child
    elements of their owning element and in JSON as members of its object,
    with the same value (a put-code in decimal in XML, as a number in
    JSON).  In the records of models/person.go (here Email and
    ResearcherUrl) a visibility or put-code that is not empty is written
    as an attribute of the owning element, never as a child element, and
    an empty one is not written at all. *)
Theorem C3_visibility_put_code (name : xml.Name) :
  (∀ e : Email, ∃ n,
     xml.marshalValue name e = [n]
     ∧ written_as_child n "visibility" (Email_Visibility e)
     ∧ json.member (json.marshal e) "visibility" = Some (json.JString (Email_Visibility e)))
  ∧ (∀ ws : WorkSummary, ∃ n,
     xml.marshalValue name ws = [n]
     ∧ written_as_child n "put-code" (strconv.Itoa (WorkSummary_PutCode ws))
     ∧ json.member (json.marshal ws) "put-code" = Some (json.JNumber (WorkSummary_PutCode ws)))
  ∧ (∀ es : EmploymentSummary, ∃ n,
     xml.marshalValue name es = [n]
     ∧ written_as_child n "put-code" (strconv.Itoa (EmploymentSummary_PutCode es))
     ∧ json.member (json.marshal es) "put-code"
       = Some (json.JNumber (EmploymentSummary_PutCode es)))
  ∧ (∀ e : models.Email, ∃ n,
     xml.marshalValue name e = [n]
     ∧ if String.eqb (models.Email_Visibility e) ""
       then not_written n "visibility"
       else written_as_attribute n "visibility" (models.Email_Visibility e))
  ∧ (∀ u : models.ResearcherUrl, ∃ n,
     xml.marshalValue name u = [n]
     ∧ (if String.eqb (models.ResearcherUrl_Visibility u) ""
        then not_written n "visibility"
        else written_as_attribute n "visibility" (models.ResearcherUrl_Visibility u))
     ∧ (if String.eqb (models.ResearcherUrl_PutCode u) ""
        then not_written n "put-code"
        else written_as_attribute n "put-code" (models.ResearcherUrl_PutCode u))).
Proof.
  unfold written_as_child, written_as_attribute, not_written.
  split; [|split; [|split; [|split]]].
  - intros [em ve pr vis]. eexists. split; [reflexivity|].
    cbn -[String.append]. rewrite append_empty. auto.
  - intros [pc ti ty lm]. eexists. split; [reflexivity|].
    cbn -[String.append]. rewrite append_empty. auto.
  - intros [pc dn rt org]. eexists. split; [reflexivity|].
    cbn -[String.append]. rewrite append_empty. auto.
  - intros [vis cd lmd src em]. eexists. split; [reflexivity|].
    cbn [models.Email_Visibility].
    destruct cd, lmd, src; destruct (String.eqb vis "") eqn:E;
      cbn -[String.append]; rewrite ?E; cbn -[String.append]; auto.
  - intros [vis pc cd lmd src un url]. eexists. split; [reflexivity|].
    cbn [models.ResearcherUrl_Visibility models.ResearcherUrl_PutCode].
    destruct cd, lmd, src; destruct (String.eqb vis "") eqn:E;
      destruct (String.eqb pc "") eqn:E';
      cbn -[String.append]; rewrite ?E, ?E'; cbn -[String.append]; auto.
Qed.

(* ===================================================================== *)
(** ** The round trip through XML *)
(* ===================================================================== *)

(** *** Numbers: ParseInt reads back what Itoa writes *)

Lemma uintValue_acc d : ∀ p, uintValue d (Zpos p) = Zpos (Pos.of_uint_acc d p).
Proof.
  induction d; intros p; simpl; try reflexivity;
    match goal with
    | |- uintValue _ ?a = Zpos (Pos.of_uint_acc _ ?b) =>
        replace a with (Zpos b) by lia; apply IHd
    end.
Qed.

Lemma uintValue_of_uint d : uintValue d 0 = Z.of_N (Pos.of_uint d).
Proof.
  induction d; simpl; try reflexivity; try exact IHd;
    match goal with
    | |- uintValue _ ?a = Zpos (Pos.of_uint_acc _ ?b) =>
        replace a with (Zpos b) by lia; apply uintValue_acc
    end.
Qed.

Lemma uintValue_to_uint p : uintValue (Pos.to_uint p) 0 = Zpos p.
Proof. rewrite uintValue_of_uint, DecimalPos.Unsigned.of_to. reflexivity. Qed.

Lemma uintValue_ge d : ∀ acc, 0 <= acc → acc <= uintValue d acc.
Proof.
  induction d; intros acc Hacc; simpl; try lia;
    match goal with
    | |- _ <= uintValue _ ?a => specialize (IHd a ltac:(lia)); lia
    end.
Qed.

Lemma parseUintLoop_digits d : ∀ acc,
  0 <= acc → uintValue d acc <= strconv.maxUint64 →
  strconv.parseUintLoop (NilEmpty.string_of_uint d) acc = (uintValue d acc, None).
Proof.
  assert (Hmax : strconv.maxUint64 = 18446744073709551615) by reflexivity.
  induction d; intros acc Hacc Hle; simpl; try reflexivity;
    match goal with
    | |- context [uintValue _ ?a] =>
        pose proof (uintValue_ge d a ltac:(lia)) as Hge
    end;
    simpl in Hle;
    change (strconv.maxUint64 / 10 + 1) with 1844674407370955162;
    change (2 ^ 64) with 18446744073709551616;
    rewrite Hmax in *;
    (destruct (Z.leb_spec 1844674407370955162 acc); [lia|]);
    cbv zeta;
    rewrite Z.mod_small by lia;
    match goal with
    | |- context [?x <? ?y] => destruct (Z.ltb_spec x y); [lia|]
    end;
    match goal with
    | |- context [?x <? ?y] => destruct (Z.ltb_spec x y); [lia|]
    end;
    simpl; apply IHd; lia.
Qed.

Lemma TrimLeft_noSpace s : noSpace s = true → strings.TrimLeft s = s.
Proof.
  destruct s as [|c s]; [reflexivity|]. unfold noSpace; simpl.
  destruct (strings.isSpace c); [discriminate|reflexivity].
Qed.

Lemma TrimRight_noSpace s : noSpace s = true → strings.TrimRight s = s.
Proof.
  induction s as [|c s IH]; [reflexivity|]. unfold noSpace; simpl.
  intros [Hc Hs]%andb_true_iff. rewrite (IH Hs).
  destruct s; [|reflexivity].
  destruct (strings.isSpace c); [discriminate|reflexivity].
Qed.

Lemma TrimSpace_noSpace s : noSpace s = true → strings.TrimSpace s = s.
Proof.
  intros Hs. unfold strings.TrimSpace.
  rewrite (TrimLeft_noSpace _ Hs). apply TrimRight_noSpace, Hs.
Qed.

Lemma noSpace_digits d : noSpace (NilEmpty.string_of_uint d) = true.
Proof. induction d; simpl; try reflexivity; exact IHd. Qed.

Lemma noSpace_Itoa n : noSpace (strconv.Itoa n) = true.
Proof.
  unfold strconv.Itoa. destruct n as [|p|p]; simpl; [reflexivity| |].
  - unfold NilZero.string_of_uint.
    destruct (Pos.to_uint p); try reflexivity; apply (noSpace_digits (_ u)) || apply noSpace_digits.
  - unfold NilZero.string_of_uint.
    destruct (Pos.to_uint p); try reflexivity; apply (noSpace_digits (_ u)) || apply noSpace_digits.
Qed.

Lemma ParseUint_to_uint p :
  Zpos p <= strconv.maxUint64 →
  strconv.ParseUint (NilZero.string_of_uint (Pos.to_uint p)) = (Zpos p, None).
Proof.
  intros Hp. pose proof (uintValue_to_uint p) as Hv.
  pose proof (DecimalPos.Unsigned.to_uint_nonnil p) as Hnil.
  unfold NilZero.string_of_uint.
  destruct (Pos.to_uint p) as [|l|l|l|l|l|l|l|l|l|l] eqn:E; [congruence|..];
    match goal with
    | |- strconv.ParseUint (NilEmpty.string_of_uint ?d) = _ =>
        change (strconv.ParseUint (NilEmpty.string_of_uint d))
          with (strconv.parseUintLoop (NilEmpty.string_of_uint d) 0);
        rewrite (parseUintLoop_digits d 0 ltac:(lia)) by (rewrite Hv; exact Hp);
        rewrite Hv; reflexivity
    end.
Qed.

Lemma ParseInt_Itoa n : int64 n → strconv.ParseInt (strconv.Itoa n) = (n, None).
Proof.
  unfold int64. intros Hn.
  assert (Hmax : strconv.maxUint64 = 18446744073709551615) by reflexivity.
  change (2 ^ 63) with 9223372036854775808 in Hn.
  destruct n as [|p|p]; [reflexivity| |].
  - unfold strconv.Itoa. simpl Z.to_int. simpl NilZero.string_of_int.
    pose proof (ParseUint_to_uint p ltac:(lia)) as HU.
    pose proof (DecimalPos.Unsigned.to_uint_nonnil p) as Hnil.
    unfold NilZero.string_of_uint in *.
    destruct (Pos.to_uint p) as [|l|l|l|l|l|l|l|l|l|l]; [congruence|..];
      unfold strconv.ParseInt; simpl NilEmpty.string_of_uint in *; cbv zeta;
      simpl Ascii.eqb; cbv iota; simpl orb; cbv iota;
      rewrite HU; change (2 ^ 63) with 9223372036854775808;
      simpl negb; rewrite andb_true_l; simpl andb;
      (destruct (Z.leb_spec 9223372036854775808 (Zpos p)); [lia|reflexivity]).
  - unfold strconv.Itoa. simpl Z.to_int. simpl NilZero.string_of_int.
    pose proof (ParseUint_to_uint p ltac:(lia)) as HU.
    unfold strconv.ParseInt. cbv zeta. simpl Ascii.eqb. cbv iota. simpl orb. cbv iota.
    rewrite HU. change (2 ^ 63) with 9223372036854775808.
    simpl negb. rewrite andb_false_l, andb_true_l.
    destruct (Z.ltb_spec 9223372036854775808 (Zpos p)); [lia|reflexivity].
Qed.

(** What Unmarshal makes of the text Marshal writes for an int. *)
Lemma parseInt_Itoa n : int64 n → xml.parseInt (strconv.Itoa n +:+ "") = Some n.
Proof.
  intros Hn. rewrite append_empty. unfold xml.parseInt.
  rewrite (TrimSpace_noSpace _ (noSpace_Itoa n)), (ParseInt_Itoa n Hn).
  destruct (String.eqb_spec (strconv.Itoa n) "") as [E|_]; [|reflexivity].
  pose proof (ParseInt_Itoa n Hn) as HP. rewrite E in HP. discriminate.
Qed.

(** *** The wire: what the decoder reports for a marshalled document *)

Lemma Node_ind' (P : xml.Node → Prop) :
  (∀ data, P (xml.Text data)) →
  (∀ name attr kids, Forall P kids → P (xml.Elem name attr kids)) →
  ∀ n, P n.
Proof.
  intros HT HE. fix IH 1. intros [name attr kids|data]; [|apply HT].
  apply HE. induction kids as [|k ks IHks]; constructor; [apply IH|exact IHks].
Qed.

Lemma cutColon_none s : xml.countColons s = 0%nat → xml.cutColon s = None.
Proof.
  induction s as [|c s IH]; simpl; [reflexivity|].
  destruct (Ascii.eqb c ":"); [discriminate|]. intros Hs. rewrite (IH Hs). reflexivity.
Qed.

Lemma nsname_plain l :
  xml.countColons l = 0%nat →
  xml.nsname l = Some {| xml.Space := ""; xml.Local := l |}.
Proof.
  intros Hl. unfold xml.nsname. rewrite Hl, (cutColon_none _ Hl). reflexivity.
Qed.

Lemma viewAttr_plain a : plainAttr a → viewAttr a = [a].
Proof.
  destruct a as [[sp l] v]. intros [Hs [Hc _]]. simpl in *. subst sp.
  unfold viewAttr. simpl. rewrite (nsname_plain _ Hc). reflexivity.
Qed.

Lemma viewAttrs_plain attr : Forall plainAttr attr → flat_map viewAttr attr = attr.
Proof.
  induction 1 as [|a attr Ha _ IH]; simpl; [reflexivity|].
  rewrite (viewAttr_plain _ Ha), IH. reflexivity.
Qed.

Lemma printAttrs_plain attr p :
  Forall plainAttr attr → xml.printAttrs attr p = (List.map rawAttr attr, p).
Proof.
  intros H. revert p.
  induction H as [|[[sp l] v] attr [Hs [_ [_ Hl]]] _ IH]; intros p; [reflexivity|].
  simpl in Hs, Hl. subst sp. apply String.eqb_neq in Hl.
  cbn [xml.printAttrs xml.Attr_Name xml.Local xml.Space xml.Attr_Value].
  rewrite Hl. cbn [String.eqb]. rewrite IH. reflexivity.
Qed.

Lemma readAttrs_plain attr :
  Forall plainAttr attr → xml.readAttrs (List.map rawAttr attr) = Some attr.
Proof.
  induction 1 as [|[[sp l] v] attr [Hs [Hc _]] _ IH]; simpl in *; [reflexivity|].
  subst sp. rewrite (nsname_plain _ Hc), IH. reflexivity.
Qed.

Lemma declare_plain attr ns :
  Forall plainAttr attr → fold_left xml.declare attr ns = ns.
Proof.
  intros H. revert ns.
  induction H as [|[[sp l] v] attr [Hs [_ [Hx _]]] _ IH]; intros ns; simpl in *;
    [reflexivity|].
  subst sp. unfold xml.declare at 2. simpl.
  apply String.eqb_neq in Hx. rewrite Hx. apply IH.
Qed.

Lemma translate_plain ns attr :
  Forall plainAttr attr →
  List.map (λ a, {| xml.Attr_Name := xml.translate ns (xml.Attr_Name a) false;
                    xml.Attr_Value := xml.Attr_Value a |}) attr = attr.
Proof.
  induction 1 as [|[[sp l] v] attr [Hs _] _ IH]; simpl in *; [reflexivity|].
  subst sp. rewrite IH. reflexivity.
Qed.

Lemma print_Inner spaced n :
  Inner spaced n → ∀ p, xml.print n p = (rawOf n, p).
Proof.
  induction n as [data|name attr kids IH] using Node_ind'; intros Hn p;
    [reflexivity|].
  inversion Hn as [|? ? ? Hl Hsp Hattr Hkids]; subst.
  simpl. rewrite (printAttrs_plain _ _ Hattr).
  assert (Hall : ∀ q,
    (fix printAll (kids : list xml.Node) (p : xml.printer) : list xml.Raw * xml.printer :=
       match kids with
       | [] => ([], p)
       | kid :: rest =>
           let '(r, p') := xml.print kid p in
           let '(rs, p'') := printAll rest p' in (r :: rs, p'')
       end) kids q = (List.map rawOf kids, q)).
  { clear Hn Hattr. induction kids as [|k ks IHks]; intros q; [reflexivity|].
    inversion IH as [|? ? IHk IHrest]; subst.
    inversion Hkids as [|? ? Hk Hrest]; subst.
    rewrite (IHk Hk q), (IHks IHrest Hrest q). reflexivity. }
  rewrite Hall. destruct p; reflexivity.
Qed.

Lemma tokenize_Elem ns name attr kids :
  xml.tokenize ns (xml.RawElem name attr kids)
  = n ← xml.nsname name;
    attr' ← xml.readAttrs attr;
    kids' ← mapM (xml.tokenize (fold_left xml.declare attr' ns)) kids;
    Some (xml.Elem (xml.translate (fold_left xml.declare attr' ns) n true)
            (List.map (λ a, {| xml.Attr_Name :=
                                 xml.translate (fold_left xml.declare attr' ns)
                                   (xml.Attr_Name a) false;
                               xml.Attr_Value := xml.Attr_Value a |}) attr')
            kids').
Proof. reflexivity. Qed.

Lemma mapM_tokenize_Inner spaced ns kids :
  Forall (λ n, Inner spaced n → ∀ ns, (spaced = false → xml.lookupNs ns "" = None) →
               xml.tokenize ns (rawOf n) = Some (resolved n)) kids →
  Forall (Inner spaced) kids →
  (spaced = false → xml.lookupNs ns "" = None) →
  mapM (xml.tokenize ns) (List.map rawOf kids) = Some (List.map resolved kids).
Proof.
  intros IH Hkids Hns.
  induction kids as [|k ks IHks]; [reflexivity|].
  inversion IH as [|? ? IHk IHrest]; subst.
  inversion Hkids as [|? ? Hk Hrest]; subst.
  cbn [List.map mapM]. rewrite (IHk Hk _ Hns). cbn [mbind option_bind].
  rewrite (IHks IHrest Hrest). reflexivity.
Qed.

Lemma tokenize_Inner spaced n :
  Inner spaced n → ∀ ns, (spaced = false → xml.lookupNs ns "" = None) →
  xml.tokenize ns (rawOf n) = Some (resolved n).
Proof.
  induction n as [data|name attr kids IH] using Node_ind'; intros Hn ns Hns;
    [reflexivity|].
  inversion Hn as [|? ? ? [Hc [Hx Hne]] Hsp Hattr Hkids]; subst.
  destruct name as [sp l]. simpl in Hc, Hx, Hne, Hsp.
  cbn [rawOf resolved xml.Local xml.Space]. rewrite tokenize_Elem.
  rewrite (nsname_plain _ Hc). cbn [mbind option_bind].
  unfold xmlnsAttr. cbn [xml.Space].
  rewrite (viewAttrs_plain _ Hattr).
  assert (Hx' : String.eqb l "xmlns" = false) by (apply String.eqb_neq; exact Hx).
  destruct spaced; simpl in Hsp; rewrite Hsp.
  - (* every element carries its name space *)
    cbn [app xml.readAttrs]. change (xml.nsname "xmlns")
      with (Some {| xml.Space := ""; xml.Local := "xmlns" |}).
    cbn [mbind option_bind]. rewrite (readAttrs_plain _ Hattr). cbn [mbind option_bind].
    cbn [fold_left].
    change (xml.declare ns {| xml.Attr_Name := {| xml.Space := ""; xml.Local := "xmlns" |};
                              xml.Attr_Value := sp |}) with (("", sp) :: ns).
    rewrite (declare_plain _ _ Hattr).
    rewrite (mapM_tokenize_Inner true _ _ IH Hkids) by discriminate.
    cbn [mbind option_bind List.map xml.Attr_Name xml.Attr_Value].
    rewrite (translate_plain _ _ Hattr).
    unfold xml.translate. cbn [xml.Space xml.Local String.eqb Ascii.eqb Bool.eqb andb negb].
    rewrite Hx'. reflexivity.
  - (* no element has a name space, and none is in scope *)
    apply String.eqb_eq in Hsp. subst sp.
    cbn [app]. rewrite (readAttrs_plain _ Hattr). cbn [mbind option_bind].
    rewrite (declare_plain _ _ Hattr).
    rewrite (mapM_tokenize_Inner false _ _ IH Hkids Hns).
    cbn [mbind option_bind].
    rewrite (translate_plain _ _ Hattr).
    unfold xml.translate. cbn [xml.Space xml.Local String.eqb Ascii.eqb Bool.eqb andb negb].
    rewrite Hx', (Hns eq_refl). reflexivity.
Qed.


(** *** The kinds of fields *)

Lemma unmarshalAll_app {A} `{xml.Value A} (x : A) a b :
  unmarshalAll x (a ++ b) = x' ← unmarshalAll x a; unmarshalAll x' b.
Proof.
  revert x. induction a as [|n a IH]; intros x; simpl; [reflexivity|].
  destruct (xml.unmarshal x n); simpl; [apply IH|reflexivity].
Qed.

Lemma fieldNodes_false {A} `{xml.Value A} name (x : A) :
  fieldNodes false name x = xml.marshalValue name x.
Proof. reflexivity. Qed.

#[global] Instance Single_string : Single string.
Proof. intros name x. eexists _, _. reflexivity. Qed.
#[global] Instance Single_int : Single Z.
Proof. intros name x. eexists _, _. reflexivity. Qed.
#[global] Instance Single_bool : Single bool.
Proof. intros name x. eexists _, _. reflexivity. Qed.

Lemma Inner_scalar spaced name data :
  okLocal (xml.Local name) → String.eqb (xml.Space name) "" = negb spaced →
  Forall (Inner spaced) [xml.Elem name [] [xml.Text data]].
Proof.
  intros Hl Hs. apply List.Forall_cons; [|apply List.Forall_nil].
  apply Inner_Elem; [assumption|assumption|apply List.Forall_nil|].
  apply List.Forall_cons; [apply Inner_Text|apply List.Forall_nil].
Qed.

#[global] Instance RoundTrip_string spaced : RoundTrip spaced string.
Proof.
  split.
  - intros name x Hl Hs. apply Inner_scalar; assumption.
  - intros name x. apply List.Forall_cons; [|apply List.Forall_nil]. eexists _, _. reflexivity.
  - intros om name x x0 -> _ Hs. unfold fieldNodes. cbn [xml.isEmptyValue xml.string_Value].
    destruct om; cbn [andb].
    + destruct (String.eqb_spec x "") as [->|_]; [reflexivity|].
      cbn -[String.append]. rewrite append_empty. reflexivity.
    + cbn -[String.append]. rewrite append_empty. reflexivity.
  - reflexivity.
Qed.

#[global] Instance RoundTrip_int spaced : RoundTrip spaced Z.
Proof.
  split.
  - intros name x Hl Hs. apply Inner_scalar; assumption.
  - intros name x. apply List.Forall_cons; [|apply List.Forall_nil]. eexists _, _. reflexivity.
  - intros om name x x0 -> Hx Hs. unfold fieldNodes. cbn [xml.isEmptyValue xml.int_Value].
    destruct om; cbn [andb].
    + destruct (Z.eqb_spec x 0) as [->|_]; [reflexivity|].
      cbn -[String.append xml.parseInt]. rewrite (parseInt_Itoa _ Hx). reflexivity.
    + cbn -[String.append xml.parseInt]. rewrite (parseInt_Itoa _ Hx). reflexivity.
  - reflexivity.
Qed.

#[global] Instance RoundTrip_bool spaced : RoundTrip spaced bool.
Proof.
  split.
  - intros name x Hl Hs. apply Inner_scalar; assumption.
  - intros name x. apply List.Forall_cons; [|apply List.Forall_nil]. eexists _, _. reflexivity.
  - intros om name x x0 -> _ Hs. destruct om, x; reflexivity.
  - reflexivity.
Qed.

Section Composite.
Context {A : Type} `{xml.Value A} `{Norm A} `{Valid A}.
Context (spaced : bool) `{!RoundTrip spaced A} `{!Single A}.

(** One element of a [Single] type, read into a zero value. *)
Lemma unmarshal_single name (x : A) n :
  valid x → String.eqb (xml.Space name) "" = negb spaced →
  xml.marshalValue name x = [n] →
  xml.unmarshal (xml.zero A) (resolved n) = Some (norm x).
Proof.
  intros Hx Hs Hn.
  pose proof (rt_unmarshal (spaced:=spaced) false name x (xml.zero A) eq_refl Hx Hs) as Hrt.
  rewrite fieldNodes_false, Hn in Hrt. simpl in Hrt.
  destruct (xml.unmarshal (xml.zero A) (resolved n)); simpl in Hrt; congruence.
Qed.

#[global] Instance RoundTrip_ptr : RoundTrip spaced (option A).
Proof.
  split.
  - intros name [x|] Hl Hs; cbn [xml.marshalValue xml.ptr_Value];
      [apply (rt_inner (A:=A)); assumption|apply List.Forall_nil].
  - intros name [x|]; cbn [xml.marshalValue xml.ptr_Value];
      [apply (rt_named (A:=A) (spaced:=spaced))|apply List.Forall_nil].
  - intros om name [x|] x0 -> Hx Hs; unfold fieldNodes;
      cbn [xml.isEmptyValue xml.ptr_Value andb];
      [|destruct om; reflexivity].
    rewrite andb_false_r. cbn [xml.marshalValue xml.ptr_Value].
    destruct (single name x) as (attr & kids & Hn). rewrite Hn.
    cbn [List.map unmarshalAll xml.unmarshal xml.ptr_Value xml.zero default].
    rewrite (unmarshal_single name x _ Hx Hs Hn). reflexivity.
  - intros om name [x|]; [|reflexivity].
    unfold fieldNodes. cbn [xml.isEmptyValue xml.ptr_Value norm Norm_ptr fmap option_fmap option_map].
    rewrite !andb_false_r. cbn [xml.marshalValue xml.ptr_Value].
    apply (rt_norm (spaced:=spaced) false).
Qed.

Lemma unmarshalAll_slice name (l acc : list A) :
  Forall valid l → String.eqb (xml.Space name) "" = negb spaced →
  unmarshalAll acc (List.map resolved (xml.marshalValue name l))
  = Some (acc ++ (norm (A:=A) <$> l)).
Proof.
  intros Hl Hs. revert acc.
  induction Hl as [|x l Hx _ IH]; intros acc.
  - simpl. rewrite app_nil_r. reflexivity.
  - cbn [xml.marshalValue xml.slice_Value flat_map].
    destruct (single name x) as (attr & kids & Hn). rewrite Hn.
    cbn [app List.map unmarshalAll xml.unmarshal xml.slice_Value].
    rewrite (unmarshal_single name x _ Hx Hs Hn). cbn [mbind option_bind].
    change (flat_map (xml.marshalValue name) l) with (xml.marshalValue name l).
    rewrite IH, <- app_assoc. reflexivity.
Qed.

Lemma marshal_slice_norm name (l : list A) :
  xml.marshalValue name (norm (A:=A) <$> l) = xml.marshalValue name l.
Proof.
  induction l as [|x l IH]; [reflexivity|].
  cbn [fmap list_fmap xml.marshalValue xml.slice_Value flat_map].
  f_equal; [apply (rt_norm (spaced:=spaced) false)|exact IH].
Qed.

#[global] Instance RoundTrip_slice : RoundTrip spaced (list A) | 10.
Proof.
  split.
  - intros name l Hl Hs. cbn [xml.marshalValue xml.slice_Value].
    induction l as [|x l IH]; [apply List.Forall_nil|].
    cbn [flat_map]. apply Forall_app. split; [apply (rt_inner (A:=A)); assumption|exact IH].
  - intros name l. cbn [xml.marshalValue xml.slice_Value].
    induction l as [|x l IH]; [apply List.Forall_nil|].
    cbn [flat_map]. apply Forall_app.
    split; [apply (rt_named (A:=A) (spaced:=spaced))|exact IH].
  - intros om name l x0 -> Hx Hs. unfold fieldNodes.
    destruct l as [|x l]; [destruct om; reflexivity|].
    cbn [xml.isEmptyValue xml.slice_Value]. rewrite andb_false_r.
    apply (unmarshalAll_slice name (x :: l) []); assumption.
  - intros om name l. unfold fieldNodes.
    change (norm l) with (norm (A:=A) <$> l). rewrite marshal_slice_norm.
    destruct l; reflexivity.
Qed.

Lemma unmarshalAll_ptr_slice name (l acc : list (option A)) :
  Forall valid l → String.eqb (xml.Space name) "" = negb spaced →
  unmarshalAll acc (List.map resolved (xml.marshalValue name l))
  = Some (acc ++ ((λ x, Some (norm (A:=A) x)) <$> omap id l)).
Proof.
  intros Hl Hs. revert acc.
  induction Hl as [|x l Hx _ IH]; intros acc.
  - simpl. rewrite app_nil_r. reflexivity.
  - cbn [xml.marshalValue xml.slice_Value flat_map].
    change (flat_map (xml.marshalValue name) l) with (xml.marshalValue name l).
    destruct x as [x|]; cbn [xml.marshalValue xml.ptr_Value omap list_omap id].
    + destruct (single name x) as (attr & kids & Hn). rewrite Hn.
      cbn [app List.map unmarshalAll xml.unmarshal xml.slice_Value xml.ptr_Value
           xml.zero default].
      rewrite (unmarshal_single name x _ Hx Hs Hn). cbn [mbind option_bind].
      rewrite IH, <- app_assoc. reflexivity.
    + cbn [app]. apply IH.
Qed.

Lemma marshal_ptr_slice_norm name (l : list (option A)) :
  xml.marshalValue name ((λ x, Some (norm (A:=A) x)) <$> omap id l)
  = xml.marshalValue name l.
Proof.
  induction l as [|[x|] l IH]; [reflexivity| |exact IH].
  cbn [omap list_omap id fmap list_fmap xml.marshalValue xml.slice_Value flat_map
       xml.ptr_Value].
  f_equal; [apply (rt_norm (spaced:=spaced) false)|exact IH].
Qed.

#[global] Instance RoundTrip_ptr_slice : RoundTrip spaced (list (option A)) | 0.
Proof.
  split.
  - intros name l Hl Hs. cbn [xml.marshalValue xml.slice_Value].
    induction l as [|[x|] l IH]; [apply List.Forall_nil| |exact IH].
    cbn [flat_map xml.marshalValue xml.ptr_Value]. apply Forall_app.
    split; [apply (rt_inner (A:=A)); assumption|exact IH].
  - intros name l. cbn [xml.marshalValue xml.slice_Value].
    induction l as [|[x|] l IH]; [apply List.Forall_nil| |exact IH].
    cbn [flat_map xml.marshalValue xml.ptr_Value]. apply Forall_app.
    split; [apply (rt_named (A:=A) (spaced:=spaced))|exact IH].
  - intros om name l x0 -> Hx Hs. unfold fieldNodes.
    destruct (om && xml.isEmptyValue l) eqn:E.
    + destruct l; [reflexivity|]. rewrite andb_false_r in E. discriminate.
    + apply (unmarshalAll_ptr_slice name l []); assumption.
  - intros om name l. unfold fieldNodes.
    change (norm l) with ((λ x, Some (norm (A:=A) x)) <$> omap id l).
    rewrite marshal_ptr_slice_norm.
    destruct om; [|reflexivity]. cbn [andb].
    destruct (xml.isEmptyValue _) eqn:E1; destruct (xml.isEmptyValue l) eqn:E2;
      try reflexivity.
    + destruct l; [discriminate|]. clear E2.
      rewrite <- marshal_ptr_slice_norm.
      destruct (_ <$> omap id (o :: l)); [reflexivity|discriminate].
    + destruct l; [reflexivity|discriminate].
Qed.

End Composite.

(** *** Structs *)

Lemma named_resolved name n : named name n → named name (resolved n).
Proof. intros (attr & kids & ->). eexists _, _. reflexivity. Qed.

Section StructStep.
Context {T : Type} (tinfo : list (xml.fieldInfo T)).

Lemma marshalFields_fieldNodes (x : T) :
  xml.marshalFields tinfo x
  = flat_map (λ f,
      match f with
      | xml.fCharData get _ => [xml.Text (get x)]
      | xml.fElement xmlns nm om get _ =>
          fieldNodes om {| xml.Space := xml.elemSpace tinfo xmlns; xml.Local := nm |} (get x)
      | _ => []
      end) tinfo.
Proof. reflexivity. Qed.

(** The elements of one field, met among the children of the struct's
    element, are read into that field one after the other. *)
Lemma unmarshalChildren_field {F} {V : xml.Value F} start xmlns nm om
    (get : T → F) (set : F → T → T) nodes rest :
  List.find (xml.matches tinfo start) tinfo = Some (xml.fElement xmlns nm om get set) →
  Forall (named start) nodes →
  (∀ y v, get (set y v) = y) →
  (∀ y y' v, set y (set y' v) = set y v) →
  (∀ v, set (get v) v = v) →
  ∀ v, xml.unmarshalChildren tinfo v (nodes ++ rest)
       = x' ← unmarshalAll (get v) nodes; xml.unmarshalChildren tinfo (set x' v) rest.
Proof.
  intros Hfind Hnamed Hgs Hss Hsg.
  induction Hnamed as [|n nodes (attr & kids & ->) _ IH]; intros v.
  - simpl. rewrite Hsg. reflexivity.
  - cbn [app xml.unmarshalChildren xml.unmarshalChild unmarshalAll]. rewrite Hfind.
    destruct (xml.unmarshal (get v) (xml.Elem start attr kids)) as [x1|];
      cbn [mbind option_bind]; [|reflexivity].
    rewrite IH, Hgs.
    destruct (unmarshalAll x1 nodes) as [x'|]; cbn [mbind option_bind]; [|reflexivity].
    rewrite Hss. reflexivity.
Qed.

Lemma field_step spaced {F} {V : xml.Value F} {N : Norm F} {Vd : Valid F}
    {R : RoundTrip spaced F} (v : T) start xmlns nm om
    (get : T → F) (set : F → T → T) (x : F) rest :
  List.find (xml.matches tinfo start) tinfo = Some (xml.fElement xmlns nm om get set) →
  (∀ y v, get (set y v) = y) →
  (∀ y y' v, set y (set y' v) = set y v) →
  (∀ v, set (get v) v = v) →
  get v = xml.zero F →
  valid x →
  String.eqb (xml.Space start) "" = negb spaced →
  xml.unmarshalChildren tinfo v (List.map resolved (fieldNodes om start x) ++ rest)
  = xml.unmarshalChildren tinfo (set (norm x) v) rest.
Proof.
  intros Hfind Hgs Hss Hsg Hz Hx Hs.
  rewrite (unmarshalChildren_field start xmlns nm om get set _ rest Hfind); try assumption.
  - rewrite (rt_unmarshal (spaced:=spaced) om start x (get v) Hz Hx Hs). reflexivity.
  - apply Forall_fmap. unfold fieldNodes. destruct (om && _); [apply List.Forall_nil|].
    eapply Forall_impl; [apply (rt_named (spaced:=spaced))|].
    intros n Hn. apply named_resolved, Hn.
Qed.

(** An attribute written only when its value is not empty. *)
Lemma assign_optional (c : bool) a (v : T) :
  (c = true → xml.assignAttr tinfo v a = v) →
  fold_left (xml.assignAttr tinfo) (if c then [] else [a]) v = xml.assignAttr tinfo v a.
Proof. destruct c; simpl; [intros H; symmetry; apply H; reflexivity|reflexivity]. Qed.

Lemma Inner_struct spaced name attr kids :
  okLocal (xml.Local name) → String.eqb (xml.Space name) "" = negb spaced →
  Forall plainAttr attr → Forall (Inner spaced) kids →
  Forall (Inner spaced) [xml.Elem name attr kids].
Proof.
  intros. apply List.Forall_cons; [|apply List.Forall_nil]. apply Inner_Elem; assumption.
Qed.

Lemma fieldNodes_Inner spaced {F} {V : xml.Value F} {N : Norm F} {Vd : Valid F}
    {R : RoundTrip spaced F} om name (x : F) :
  okLocal (xml.Local name) → String.eqb (xml.Space name) "" = negb spaced →
  Forall (Inner spaced) (fieldNodes om name x).
Proof.
  intros Hl Hs. unfold fieldNodes. destruct (om && _); [apply List.Forall_nil|].
  apply (rt_inner (spaced:=spaced)); assumption.
Qed.

End StructStep.

Ltac ok_local := split; [reflexivity|split; discriminate].

Ltac plain_attrs :=
  repeat (apply Forall_app; split);
  try apply List.Forall_nil;
  match goal with
  | |- Forall plainAttr (if ?c then [] else [_]) =>
      destruct c; [apply List.Forall_nil|];
      apply List.Forall_cons; [split; [reflexivity|ok_local]|apply List.Forall_nil]
  end.

Ltac inner_fields sp :=
  repeat (apply Forall_app; split);
  try apply List.Forall_nil;
  first
    [ apply (fieldNodes_Inner sp); [ok_local|reflexivity]
    | apply List.Forall_cons; [apply Inner_Text|apply List.Forall_nil] ].

Ltac lens := intros; match goal with v : _ |- _ => destruct v; reflexivity end.

Ltac split_valid :=
  repeat match goal with H : _ ∧ _ |- _ => destruct H end.

Lemma unmarshalChildren_text {T} (tinfo : list (xml.fieldInfo T)) v data rest :
  xml.unmarshalChildren tinfo v ([xml.Text data] ++ rest)
  = xml.unmarshalChildren tinfo v rest.
Proof. reflexivity. Qed.

Lemma chardata_text data rest :
  xml.chardata ([xml.Text data] ++ rest) = data +:+ xml.chardata rest.
Proof. reflexivity. Qed.

(** The children of a struct's element, field by field. *)
Ltac step_fields sp :=
  repeat first
    [ rewrite map_app
    | progress cbn [List.map resolved]
    | rewrite unmarshalChildren_text
    | match goal with
      | |- context [xml.unmarshalChildren ?ti ?v
                      (List.map resolved (fieldNodes ?om ?start ?x) ++ ?rest)] =>
          erewrite (field_step ti sp v start _ _ om _ _ x rest);
          [ | reflexivity | lens | lens | lens | reflexivity | assumption | reflexivity ]
      end ].

Lemma chardata_named start nodes rest :
  Forall (named start) nodes → xml.chardata (nodes ++ rest) = xml.chardata rest.
Proof.
  induction 1 as [|n nodes (attr & kids & ->) _ IH]; [reflexivity|exact IH].
Qed.

Lemma chardata_field spaced {F} {V : xml.Value F} {N : Norm F} {Vd : Valid F}
    {R : RoundTrip spaced F} om start (x : F) rest :
  xml.chardata (List.map resolved (fieldNodes om start x) ++ rest) = xml.chardata rest.
Proof.
  apply (chardata_named start). apply Forall_fmap.
  unfold fieldNodes. destruct (om && _); [apply List.Forall_nil|].
  eapply Forall_impl; [apply (rt_named (spaced:=spaced))|].
  intros n Hn. apply named_resolved, Hn.
Qed.

Ltac chardata_fields sp :=
  rewrite ?chardata_text;
  repeat match goal with
  | |- context [xml.chardata (List.map resolved (fieldNodes ?om ?start ?x) ++ ?rest)] =>
      rewrite (chardata_field sp om start x rest)
  end.

Lemma Elem_eq name attr attr' kids kids' :
  attr = attr' → kids = kids' →
  [xml.Elem name attr kids] = [xml.Elem name attr' kids'].
Proof. intros -> ->. reflexivity. Qed.

Lemma app_eq {A} (l l' r r' : list A) : l = l' → r = r' → l ++ r = l' ++ r'.
Proof. intros -> ->. reflexivity. Qed.

Ltac norm_fields sp :=
  repeat (apply app_eq;
    [ first
        [ match goal with
          | |- fieldNodes ?om ?nm _ = fieldNodes _ _ ?y => exact (rt_norm (spaced:=sp) om nm y)
          end
        | reflexivity ]
    | ]);
  reflexivity.

Ltac open_fields tinfo :=
  rewrite ?marshalFields_fieldNodes;
  cbn [flat_map tinfo app];
  repeat match goal with
  | |- context [xml.elemSpace tinfo ?s] =>
      let v := eval hnf in (xml.elemSpace tinfo s) in
      change (xml.elemSpace tinfo s) with v
  end.

Ltac open_attrs tinfo :=
  unfold xml.marshalAttrs;
  cbn [flat_map tinfo app].

Ltac single_struct :=
  let name := fresh "name" in
  let x := fresh "x" in
  intros name x; eexists _, _; reflexivity.

(** The optional attributes, the first one first: an attribute left out
    is an empty string, which is what the field holds before. *)
Ltac assign_attrs x :=
  repeat match goal with
  | |- context [fold_left (xml.assignAttr ?ti) (if ?c then [] else [?a]) ?v] =>
      lazymatch v with
      | context [fold_left _ _ _] => fail
      | _ =>
          rewrite (assign_optional ti c a v);
          [|let E := fresh "E" in
            intros E; apply andb_prop in E; destruct E as [_ E];
            apply String.eqb_eq in E; destruct x; cbn in E; subst; reflexivity]
      end
  end.

(** A struct without XMLName field whose attributes, if any, are plain
    and optional. *)
Ltac roundtrip_struct sp inst tinfo tzero tvalid :=
  let name := fresh "name" in
  let x := fresh "x" in
  let om := fresh "om" in
  let Hl := fresh "Hl" in
  let Hs := fresh "Hs" in
  let Hx := fresh "Hx" in
  split;
  [ intros name x Hl Hs;
    apply Inner_struct; [exact Hl|exact Hs|open_attrs tinfo; plain_attrs|];
    open_fields tinfo; inner_fields sp
  | intros name x; apply List.Forall_cons; [|apply List.Forall_nil];
    eexists _, _; reflexivity
  | intros om name x ? -> Hx Hs;
    unfold fieldNodes at 1; cbn [xml.isEmptyValue inst xml.structValue];
    rewrite andb_false_r;
    change (xml.marshalValue name x) with
      [xml.Elem name (xml.marshalAttrs tinfo x) (xml.marshalFields tinfo x)];
    cbn [List.map resolved unmarshalAll];
    change (xml.unmarshal (xml.zero _)) with (xml.unmarshalStruct tinfo tzero);
    unfold xml.unmarshalStruct;
    change (xml.checkName tinfo name tzero) with (Some tzero);
    cbn [mbind option_bind];
    unfold xmlnsAttr; rewrite Hs; cbn [negb];
    rewrite viewAttrs_plain by (open_attrs tinfo; plain_attrs);
    open_attrs tinfo; cbn [app fold_left];
    rewrite ?fold_left_app;
    assign_attrs x;
    cbn [fold_left];
    open_fields tinfo;
    cbv [valid tvalid] in Hx; split_valid;
    step_fields sp; chardata_fields sp;
    cbn [List.map xml.unmarshalChildren xml.chardata mbind option_bind];
    try rewrite append_empty;
    destruct x; reflexivity
  | intros om name x; unfold fieldNodes; cbn [xml.isEmptyValue inst xml.structValue];
    rewrite andb_false_r;
    change (xml.marshalValue name (norm x)) with
      [xml.Elem name (xml.marshalAttrs tinfo (norm x)) (xml.marshalFields tinfo (norm x))];
    change (xml.marshalValue name x) with
      [xml.Elem name (xml.marshalAttrs tinfo x) (xml.marshalFields tinfo x)];
    apply Elem_eq; [reflexivity|];
    open_fields tinfo; norm_fields sp ].

(** *** main.go: the structs below the root *)

#[global] Instance Single_OrcidIdentifier : Single OrcidIdentifier.
Proof. single_struct. Qed.

#[global] Instance RoundTrip_OrcidIdentifier : RoundTrip false OrcidIdentifier.
Proof. roundtrip_struct false OrcidIdentifier_xml OrcidIdentifier_tinfo OrcidIdentifier_zero OrcidIdentifier_Valid. Qed.

#[global] Instance Single_Value : Single Value.
Proof. single_struct. Qed.

#[global] Instance RoundTrip_Value : RoundTrip false Value.
Proof. roundtrip_struct false Value_xml Value_tinfo Value_zero Value_Valid. Qed.

#[global] Instance Single_Name : Single Name.
Proof. single_struct. Qed.

#[global] Instance RoundTrip_Name : RoundTrip false Name.
Proof. roundtrip_struct false Name_xml Name_tinfo Name_zero Name_Valid. Qed.

#[global] Instance Single_Biography : Single Biography.
Proof. single_struct. Qed.

#[global] Instance RoundTrip_Biography : RoundTrip false Biography.
Proof. roundtrip_struct false Biography_xml Biography_tinfo Biography_zero Biography_Valid. Qed.

#[global] Instance Single_Email : Single Email.
Proof. single_struct. Qed.

#[global] Instance RoundTrip_Email : RoundTrip false Email.
Proof. roundtrip_struct false Email_xml Email_tinfo Email_zero Email_Valid. Qed.

#[global] Instance Single_Emails : Single Emails.
Proof. single_struct. Qed.

#[global] Instance RoundTrip_Emails : RoundTrip false Emails.
Proof. roundtrip_struct false Emails_xml Emails_tinfo Emails_zero Emails_Valid. Qed.

#[global] Instance Single_ResearcherUrl : Single ResearcherUrl.
Proof. single_struct. Qed.

#[global] Instance RoundTrip_ResearcherUrl : RoundTrip false ResearcherUrl.
Proof. roundtrip_struct false ResearcherUrl_xml ResearcherUrl_tinfo ResearcherUrl_zero ResearcherUrl_Valid. Qed.

#[global] Instance Single_ResearcherUrls : Single ResearcherUrls.
Proof. single_struct. Qed.

#[global] Instance RoundTrip_ResearcherUrls : RoundTrip false ResearcherUrls.
Proof. roundtrip_struct false ResearcherUrls_xml ResearcherUrls_tinfo ResearcherUrls_zero ResearcherUrls_Valid. Qed.

#[global] Instance Single_Person : Single Person.
Proof. single_struct. Qed.

#[global] Instance RoundTrip_Person : RoundTrip false Person.
Proof. roundtrip_struct false Person_xml Person_tinfo Person_zero Person_Valid. Qed.

#[global] Instance Single_Title : Single Title.
Proof. single_struct. Qed.

#[global] Instance RoundTrip_Title : RoundTrip false Title.
Proof. roundtrip_struct false Title_xml Title_tinfo Title_zero Title_Valid. Qed.

#[global] Instance Single_LastModified : Single LastModified.
Proof. single_struct. Qed.

#[global] Instance RoundTrip_LastModified : RoundTrip false LastModified.
Proof. roundtrip_struct false LastModified_xml LastModified_tinfo LastModified_zero LastModified_Valid. Qed.

#[global] Instance Single_WorkSummary : Single WorkSummary.
Proof. single_struct. Qed.

#[global] Instance RoundTrip_WorkSummary : RoundTrip false WorkSummary.
Proof. roundtrip_struct false WorkSummary_xml WorkSummary_tinfo WorkSummary_zero WorkSummary_Valid. Qed.

#[global] Instance Single_WorkGroup : Single WorkGroup.
Proof. single_struct. Qed.

#[global] Instance RoundTrip_WorkGroup : RoundTrip false WorkGroup.
Proof. roundtrip_struct false WorkGroup_xml WorkGroup_tinfo WorkGroup_zero WorkGroup_Valid. Qed.

#[global] Instance Single_WorkSummaryGroup : Single WorkSummaryGroup.
Proof. single_struct. Qed.

#[global] Instance RoundTrip_WorkSummaryGroup : RoundTrip false WorkSummaryGroup.
Proof. roundtrip_struct false WorkSummaryGroup_xml WorkSummaryGroup_tinfo WorkSummaryGroup_zero WorkSummaryGroup_Valid. Qed.

#[global] Instance Single_Org : Single Org.
Proof. single_struct. Qed.

#[global] Instance RoundTrip_Org : RoundTrip false Org.
Proof. roundtrip_struct false Org_xml Org_tinfo Org_zero Org_Valid. Qed.

#[global] Instance Single_EmploymentSummary : Single EmploymentSummary.
Proof. single_struct. Qed.

#[global] Instance RoundTrip_EmploymentSummary : RoundTrip false EmploymentSummary.
Proof. roundtrip_struct false EmploymentSummary_xml EmploymentSummary_tinfo EmploymentSummary_zero EmploymentSummary_Valid. Qed.

#[global] Instance Single_AffiliationGroup : Single AffiliationGroup.
Proof. single_struct. Qed.

#[global] Instance RoundTrip_AffiliationGroup : RoundTrip false AffiliationGroup.
Proof. roundtrip_struct false AffiliationGroup_xml AffiliationGroup_tinfo AffiliationGroup_zero AffiliationGroup_Valid. Qed.

#[global] Instance Single_EmploymentSummaryGroup : Single EmploymentSummaryGroup.
Proof. single_struct. Qed.

#[global] Instance RoundTrip_EmploymentSummaryGroup : RoundTrip false EmploymentSummaryGroup.
Proof. roundtrip_struct false EmploymentSummaryGroup_xml EmploymentSummaryGroup_tinfo EmploymentSummaryGroup_zero EmploymentSummaryGroup_Valid. Qed.

#[global] Instance Single_Activities : Single Activities.
Proof. single_struct. Qed.

#[global] Instance RoundTrip_Activities : RoundTrip false Activities.
Proof. roundtrip_struct false Activities_xml Activities_tinfo Activities_zero Activities_Valid. Qed.
(** *** models/person.go: the structs below the root *)

Module models_roundtrip.
Import models models_rt.

#[global] Instance Single_models_SourceOrcid : Single SourceOrcid.
Proof. single_struct. Qed.

#[global] Instance RoundTrip_models_SourceOrcid : RoundTrip true SourceOrcid.
Proof. roundtrip_struct true SourceOrcid_xml SourceOrcid_tinfo SourceOrcid_zero SourceOrcid_Valid. Qed.

#[global] Instance Single_models_SourceName : Single SourceName.
Proof. single_struct. Qed.

#[global] Instance RoundTrip_models_SourceName : RoundTrip true SourceName.
Proof. roundtrip_struct true SourceName_xml SourceName_tinfo SourceName_zero SourceName_Valid. Qed.

#[global] Instance Single_models_Source : Single Source.
Proof. single_struct. Qed.

#[global] Instance RoundTrip_models_Source : RoundTrip true Source.
Proof. roundtrip_struct true Source_xml Source_tinfo Source_zero Source_Valid. Qed.

#[global] Instance Single_models_PersonName : Single PersonName.
Proof. single_struct. Qed.

#[global] Instance RoundTrip_models_PersonName : RoundTrip true PersonName.
Proof. roundtrip_struct true PersonName_xml PersonName_tinfo PersonName_zero PersonName_Valid. Qed.

#[global] Instance Single_models_OtherName : Single OtherName.
Proof. single_struct. Qed.

#[global] Instance RoundTrip_models_OtherName : RoundTrip true OtherName.
Proof. roundtrip_struct true OtherName_xml OtherName_tinfo OtherName_zero OtherName_Valid. Qed.

#[global] Instance Single_models_OtherNames : Single OtherNames.
Proof. single_struct. Qed.

#[global] Instance RoundTrip_models_OtherNames : RoundTrip true OtherNames.
Proof. roundtrip_struct true OtherNames_xml OtherNames_tinfo OtherNames_zero OtherNames_Valid. Qed.

#[global] Instance Single_models_Biography : Single Biography.
Proof. single_struct. Qed.

#[global] Instance RoundTrip_models_Biography : RoundTrip true Biography.
Proof. roundtrip_struct true Biography_xml Biography_tinfo Biography_zero Biography_Valid. Qed.

#[global] Instance Single_models_ResearcherUrl : Single ResearcherUrl.
Proof. single_struct. Qed.

#[global] Instance RoundTrip_models_ResearcherUrl : RoundTrip true ResearcherUrl.
Proof. roundtrip_struct true ResearcherUrl_xml ResearcherUrl_tinfo ResearcherUrl_zero ResearcherUrl_Valid. Qed.

#[global] Instance Single_models_ResearcherUrls : Single ResearcherUrls.
Proof. single_struct. Qed.

#[global] Instance RoundTrip_models_ResearcherUrls : RoundTrip true ResearcherUrls.
Proof. roundtrip_struct true ResearcherUrls_xml ResearcherUrls_tinfo ResearcherUrls_zero ResearcherUrls_Valid. Qed.

#[global] Instance Single_models_Email : Single Email.
Proof. single_struct. Qed.

#[global] Instance RoundTrip_models_Email : RoundTrip true Email.
Proof. roundtrip_struct true Email_xml Email_tinfo Email_zero Email_Valid. Qed.

#[global] Instance Single_models_Emails : Single Emails.
Proof. single_struct. Qed.

#[global] Instance RoundTrip_models_Emails : RoundTrip true Emails.
Proof. roundtrip_struct true Emails_xml Emails_tinfo Emails_zero Emails_Valid. Qed.

#[global] Instance Single_models_Address : Single Address.
Proof. single_struct. Qed.

#[global] Instance RoundTrip_models_Address : RoundTrip true Address.
Proof. roundtrip_struct true Address_xml Address_tinfo Address_zero Address_Valid. Qed.

#[global] Instance Single_models_Addresses : Single Addresses.
Proof. single_struct. Qed.

#[global] Instance RoundTrip_models_Addresses : RoundTrip true Addresses.
Proof. roundtrip_struct true Addresses_xml Addresses_tinfo Addresses_zero Addresses_Valid. Qed.

#[global] Instance Single_models_Keyword : Single Keyword.
Proof. single_struct. Qed.

#[global] Instance RoundTrip_models_Keyword : RoundTrip true Keyword.
Proof. roundtrip_struct true Keyword_xml Keyword_tinfo Keyword_zero Keyword_Valid. Qed.

#[global] Instance Single_models_Keywords : Single Keywords.
Proof. single_struct. Qed.

#[global] Instance RoundTrip_models_Keywords : RoundTrip true Keywords.
Proof. roundtrip_struct true Keywords_xml Keywords_tinfo Keywords_zero Keywords_Valid. Qed.

#[global] Instance Single_models_ExternalIdentifier : Single ExternalIdentifier.
Proof. single_struct. Qed.

#[global] Instance RoundTrip_models_ExternalIdentifier : RoundTrip true ExternalIdentifier.
Proof. roundtrip_struct true ExternalIdentifier_xml ExternalIdentifier_tinfo ExternalIdentifier_zero ExternalIdentifier_Valid. Qed.

#[global] Instance Single_models_ExternalIdentifiers : Single ExternalIdentifiers.
Proof. single_struct. Qed.

#[global] Instance RoundTrip_models_ExternalIdentifiers : RoundTrip true ExternalIdentifiers.
Proof. roundtrip_struct true ExternalIdentifiers_xml ExternalIdentifiers_tinfo ExternalIdentifiers_zero ExternalIdentifiers_Valid. Qed.

End models_roundtrip.
(** *** assertXMLEqual on documents that differ in declarations only *)

Lemma eqName_refl n : xml.eqName n n = true.
Proof. unfold xml.eqName. rewrite !String.eqb_refl. reflexivity. Qed.

Lemma sameAttrs_refl l : models_test.sameAttrs l l = true.
Proof.
  induction l as [|a l IH]; [reflexivity|].
  cbn [models_test.sameAttrs]. unfold models_test.sameAttr.
  rewrite !String.eqb_refl, IH. reflexivity.
Qed.

Lemma attrsEqual_normalized a a' :
  models_test.normalizeAttrs a = models_test.normalizeAttrs a' →
  models_test.attrsEqual a a' = true.
Proof.
  intros H. unfold models_test.attrsEqual. cbv zeta. rewrite H.
  rewrite Nat.eqb_refl, sameAttrs_refl. reflexivity.
Qed.

Lemma tokensEqual_equiv t t' :
  tokEquiv t t' → significant t = true → models_test.tokensEqual t t' = true.
Proof.
  intros [<-|(name & a & a' & -> & -> & Ha)] Hsig.
  - destruct t as [name a|name|data|data|target inst|data]; try discriminate; cbn.
    + rewrite eqName_refl, (attrsEqual_normalized a a eq_refl). reflexivity.
    + apply eqName_refl.
    + apply String.eqb_refl.
  - cbn. rewrite eqName_refl, (attrsEqual_normalized _ _ Ha). reflexivity.
Qed.








(** *** The root element of models.Person: literal declarations and an
    attribute in a name space *)

Lemma printAttrs_app a b p :
  xml.printAttrs (a ++ b) p
  = let '(ra, p1) := xml.printAttrs a p in
    let '(rb, p2) := xml.printAttrs b p1 in (ra ++ rb, p2).
Proof.
  revert p. induction a as [|x a IH]; intros p.
  - cbn [app xml.printAttrs]. destruct (xml.printAttrs b p). reflexivity.
  - cbn [app xml.printAttrs].
    destruct (if String.eqb (xml.Local (xml.Attr_Name x)) "" then _ else _) as [here p1].
    rewrite IH. destruct (xml.printAttrs a p1) as [ra p2].
    destruct (xml.printAttrs b p2) as [rb p3]. rewrite app_assoc. reflexivity.
Qed.

Lemma readAttrs_app a b :
  xml.readAttrs (a ++ b)
  = x ← xml.readAttrs a; y ← xml.readAttrs b; Some (x ++ y).
Proof.
  induction a as [|[k v] a IH].
  - cbn. destruct (xml.readAttrs b); reflexivity.
  - cbn [app xml.readAttrs]. destruct (xml.nsname k) as [n|]; [|reflexivity].
    cbn [mbind option_bind]. rewrite IH.
    destruct (xml.readAttrs a) as [x|]; [|reflexivity]. cbn [mbind option_bind].
    destruct (xml.readAttrs b) as [y|]; reflexivity.
Qed.

Lemma printAll_Inner spaced kids :
  Forall (Inner spaced) kids → ∀ q,
  (fix printAll (kids : list xml.Node) (p : xml.printer) : list xml.Raw * xml.printer :=
     match kids with
     | [] => ([], p)
     | kid :: rest =>
         let '(r, p') := xml.print kid p in
         let '(rs, p'') := printAll rest p' in (r :: rs, p'')
     end) kids q = (List.map rawOf kids, q).
Proof.
  induction 1 as [|k ks Hk _ IH]; intros q; [reflexivity|].
  rewrite (print_Inner _ _ Hk q), (IH q). reflexivity.
Qed.

Lemma mapM_tokenize spaced ns kids :
  Forall (Inner spaced) kids →
  (spaced = false → xml.lookupNs ns "" = None) →
  mapM (xml.tokenize ns) (List.map rawOf kids) = Some (List.map resolved kids).
Proof.
  intros Hkids Hns. apply (mapM_tokenize_Inner spaced); [|exact Hkids|exact Hns].
  apply Forall_forall. intros n _ Hn ns' Hns'. apply (tokenize_Inner spaced); assumption.
Qed.

Lemma printAttrs_decl L p :
  Forall declAttr L → xml.printAttrs L p = (List.map rawAttr L, p).
Proof.
  intros HL. revert p. induction HL as [|[[sp l] v] attr (Hs & q & Hq & Hne & _) _ IH];
    intros p; [reflexivity|].
  simpl in Hs, Hne. subst sp. apply String.eqb_neq in Hne.
  cbn [xml.printAttrs xml.Attr_Name xml.Local xml.Space xml.Attr_Value].
  rewrite Hne. cbn [String.eqb]. rewrite IH. reflexivity.
Qed.

Lemma readAttrs_decl L :
  Forall declAttr L → xml.readAttrs (List.map rawAttr L) = Some (flat_map viewAttr L).
Proof.
  intros HL. induction HL as [|[[sp l] v] attr (Hs & q & Hq & _) _ IH]; [reflexivity|].
  simpl in Hs, Hq. subst sp.
  cbn [List.map rawAttr xml.readAttrs xml.Attr_Name xml.Local xml.Attr_Value flat_map].
  rewrite Hq, IH. unfold viewAttr.
  cbn [xml.Attr_Name xml.Space xml.Local xml.Attr_Value String.eqb].
  rewrite Hq. reflexivity.
Qed.

Lemma lookupNs_decl L ns :
  Forall declAttr L →
  xml.lookupNs (fold_left xml.declare (flat_map viewAttr L) ns) "" = xml.lookupNs ns "".
Proof.
  intros HL. revert ns. induction HL as [|[[sp l] v] attr (Hs & q & Hq & _ & Hq') _ IH];
    intros ns; [reflexivity|].
  simpl in Hs, Hq. subst sp. cbn [flat_map]. rewrite fold_left_app, IH.
  unfold viewAttr. cbn [xml.Attr_Name xml.Space xml.Local xml.Attr_Value String.eqb].
  rewrite Hq. cbn [default from_option id fold_left]. unfold xml.declare at 1.
  cbn [xml.Attr_Name xml.Space xml.Local xml.Attr_Value].
  change (String.eqb "xmlns" "xmlns") with true. cbv iota.
  unfold xml.lookupNs. cbn [List.find fst].
  apply String.eqb_neq in Hq'. rewrite Hq'. reflexivity.
Qed.

Lemma translate_decl L ns :
  Forall declAttr L →
  List.map (λ a, {| xml.Attr_Name := xml.translate ns (xml.Attr_Name a) false;
                    xml.Attr_Value := xml.Attr_Value a |}) (flat_map viewAttr L)
  = flat_map viewAttr L.
Proof.
  intros HL. induction HL as [|[[sp l] v] attr (Hs & q & Hq & _) _ IH]; [reflexivity|].
  simpl in Hs, Hq. subst sp. cbn [flat_map]. rewrite map_app, IH.
  unfold viewAttr. cbn [xml.Attr_Name xml.Space xml.Local xml.Attr_Value String.eqb].
  rewrite Hq. reflexivity.
Qed.


Lemma createAttrPrefix_xsi :
  xml.createAttrPrefix models.ns_xsi {| xml.attrPrefix := []; xml.seq := 0 |}
  = ("_XMLSchema-instance", [("xmlns:_XMLSchema-instance", models.ns_xsi)],
     {| xml.attrPrefix := [(models.ns_xsi, "_XMLSchema-instance")]; xml.seq := 0 |}).
Proof. vm_compute. reflexivity. Qed.

Lemma printAttrs_schemaLocation v P :
  Forall plainAttr P →
  xml.printAttrs ([schemaLocation v] ++ P) {| xml.attrPrefix := []; xml.seq := 0 |}
  = ([("xmlns:_XMLSchema-instance", models.ns_xsi);
      ("_XMLSchema-instance:schemaLocation", v)] ++ List.map rawAttr P,
     {| xml.attrPrefix := [(models.ns_xsi, "_XMLSchema-instance")]; xml.seq := 0 |}).
Proof.
  intros HP. unfold schemaLocation.
  cbn [app xml.printAttrs xml.Attr_Name xml.Local xml.Space xml.Attr_Value].
  change (String.eqb "schemaLocation" "") with false.
  change (String.eqb models.ns_xsi "") with false. cbv iota.
  rewrite createAttrPrefix_xsi, (printAttrs_plain P _ HP). reflexivity.
Qed.

Lemma readAttrs_schemaLocation v :
  xml.readAttrs [("xmlns:_XMLSchema-instance", models.ns_xsi);
                 ("_XMLSchema-instance:schemaLocation", v)]
  = Some [{| xml.Attr_Name := {| xml.Space := "xmlns"; xml.Local := "_XMLSchema-instance" |};
             xml.Attr_Value := models.ns_xsi |};
          {| xml.Attr_Name := {| xml.Space := "_XMLSchema-instance";
                                 xml.Local := "schemaLocation" |};
             xml.Attr_Value := v |}].
Proof. reflexivity. Qed.

Lemma viewAttr_schemaLocation v :
  viewAttr (schemaLocation v)
  = [{| xml.Attr_Name := {| xml.Space := "xmlns"; xml.Local := "_XMLSchema-instance" |};
        xml.Attr_Value := models.ns_xsi |};
     schemaLocation v].
Proof. vm_compute. reflexivity. Qed.

Lemma reread_root name L (c : bool) v P kids :
  okLocal (xml.Local name) → String.eqb (xml.Space name) "" = false →
  Forall declAttr L → Forall plainAttr P → Forall (Inner true) kids →
  xml.reread (xml.Elem name (L ++ (if c then [] else [schemaLocation v]) ++ P) kids)
  = Some (resolved (xml.Elem name (L ++ (if c then [] else [schemaLocation v]) ++ P) kids)).
Proof.
  intros (Hc & Hx & Hne) Hs HL HP Hk. destruct name as [sp l]. simpl in Hc, Hx, Hne, Hs.
  assert (Hx' : String.eqb l "xmlns" = false) by (apply String.eqb_neq; exact Hx).
  unfold xml.reread. cbn [xml.print xml.Space xml.Local]. rewrite Hs.
  rewrite printAttrs_app, (printAttrs_decl L _ HL).
  cbn [resolved]. unfold xmlnsAttr. cbn [xml.Space]. rewrite Hs.
  rewrite !flat_map_app, (viewAttrs_plain P HP).
  destruct c.
  - cbn [app flat_map]. rewrite (printAttrs_plain P _ HP).
    rewrite (printAll_Inner true kids Hk). cbn [fst].
    rewrite tokenize_Elem, (nsname_plain _ Hc). cbn [mbind option_bind].
    cbn [app xml.readAttrs].
    change (xml.nsname "xmlns") with (Some {| xml.Space := ""; xml.Local := "xmlns" |}).
    cbn [mbind option_bind].
    rewrite readAttrs_app, (readAttrs_decl L HL), (readAttrs_plain P HP).
    cbn [mbind option_bind fold_left].
    change (xml.declare [] {| xml.Attr_Name := {| xml.Space := ""; xml.Local := "xmlns" |};
                              xml.Attr_Value := sp |}) with [("", sp)].
    rewrite fold_left_app, (declare_plain P _ HP).
    rewrite (mapM_tokenize true _ kids Hk) by discriminate.
    cbn [mbind option_bind List.map xml.Attr_Name xml.Attr_Value].
    rewrite map_app, (translate_decl L _ HL), (translate_plain _ P HP).
    unfold xml.translate at 1.
    cbn [xml.Space xml.Local String.eqb Ascii.eqb Bool.eqb andb negb].
    rewrite Hx', (lookupNs_decl L _ HL). reflexivity.
  - rewrite (printAttrs_schemaLocation v P HP).
    rewrite (printAll_Inner true kids Hk). cbn [fst].
    rewrite tokenize_Elem, (nsname_plain _ Hc). cbn [mbind option_bind].
    cbn [app xml.readAttrs].
    change (xml.nsname "xmlns") with (Some {| xml.Space := ""; xml.Local := "xmlns" |}).
    cbn [mbind option_bind].
    rewrite readAttrs_app, (readAttrs_decl L HL). cbn [mbind option_bind].
    change (?a :: ?b :: List.map rawAttr P) with ([a; b] ++ List.map rawAttr P).
    rewrite readAttrs_app, readAttrs_schemaLocation, (readAttrs_plain P HP).
    cbn [mbind option_bind fold_left].
    change (xml.declare [] {| xml.Attr_Name := {| xml.Space := ""; xml.Local := "xmlns" |};
                              xml.Attr_Value := sp |}) with [("", sp)].
    rewrite !fold_left_app, (declare_plain P _ HP).
    set (ns0 := fold_left xml.declare (flat_map viewAttr L) [("", sp)]).
    change (fold_left xml.declare [_; _] ns0)
      with (("_XMLSchema-instance", models.ns_xsi) :: ns0).
    rewrite (mapM_tokenize true _ kids Hk) by discriminate.
    cbn [mbind option_bind List.map xml.Attr_Name xml.Attr_Value].
    rewrite !map_app, (translate_decl L _ HL), (translate_plain _ P HP).
    cbn [flat_map]. rewrite viewAttr_schemaLocation.
    assert (Hname : xml.translate (("_XMLSchema-instance", models.ns_xsi) :: ns0)
                      {| xml.Space := ""; xml.Local := l |} true
                    = {| xml.Space := sp; xml.Local := l |}).
    { unfold xml.translate.
      cbn [xml.Space xml.Local String.eqb Ascii.eqb Bool.eqb andb negb].
      rewrite Hx'.
      change (xml.lookupNs (("_XMLSchema-instance", models.ns_xsi) :: ns0) "")
        with (xml.lookupNs ns0 "").
      subst ns0. rewrite (lookupNs_decl L _ HL). reflexivity. }
    rewrite Hname. reflexivity.
Qed.
(** *** models.Person *)


Lemma flat_map_optional {A B} (f : A → list B) (c : bool) a :
  flat_map f (if c then [] else [a]) = if c then [] else f a.
Proof. destruct c; [reflexivity|apply app_nil_r]. Qed.

Lemma assign_optional_list {T} (tinfo : list (xml.fieldInfo T)) (c : bool) l (v : T) :
  (c = true → fold_left (xml.assignAttr tinfo) l v = v) →
  fold_left (xml.assignAttr tinfo) (if c then [] else l) v
  = fold_left (xml.assignAttr tinfo) l v.
Proof. destruct c; [intros H; symmetry; apply H; reflexivity|reflexivity]. Qed.

Lemma assign_skip {T} (tinfo : list (xml.fieldInfo T)) (c : bool) l (v : T) :
  fold_left (xml.assignAttr tinfo) l v = v →
  fold_left (xml.assignAttr tinfo) (if c then [] else l) v = v.
Proof. destruct c; [reflexivity|intros H; exact H]. Qed.

Lemma decl_block (c : bool) a (rest tail : list xml.Attr) :
  declAttr a →
  (∃ L, Forall declAttr L ∧ rest = L ++ tail) →
  ∃ L, Forall declAttr L ∧ (if c then [] else [a]) ++ rest = L ++ tail.
Proof.
  intros Ha (L & HL & ->). exists ((if c then [] else [a]) ++ L).
  split; [|apply app_assoc].
  apply Forall_app. split; [|exact HL].
  destruct c; [apply List.Forall_nil|apply List.Forall_cons; [exact Ha|apply List.Forall_nil]].
Qed.

Ltac decl_attr :=
  split; [reflexivity|eexists; split; [reflexivity|split; discriminate]].

Module models_root.
Import models models_rt models_roundtrip.

Lemma Marshal_Person (p : Person) :
  xml.Marshal p = [xml.Elem personRoot (xml.marshalAttrs Person_tinfo p)
                     (xml.marshalFields Person_tinfo p)].
Proof. reflexivity. Qed.

Lemma marshalAttrs_Person (p : Person) :
  ∃ L, Forall declAttr L
       ∧ xml.marshalAttrs Person_tinfo p
         = L ++ (if true && String.eqb (Person_XsiSchemaLocation p) ""
                 then [] else [schemaLocation (Person_XsiSchemaLocation p)])
             ++ (if true && String.eqb (Person_Path p) ""
                 then [] else [pathAttr (Person_Path p)]).
Proof.
  open_attrs Person_tinfo.
  do 10 (apply decl_block; [decl_attr|]).
  exists []. split; [apply List.Forall_nil|].
  rewrite app_nil_r. reflexivity.
Qed.

Lemma plain_path (c : bool) v : Forall plainAttr (if c then [] else [pathAttr v]).
Proof.
  destruct c; [apply List.Forall_nil|].
  apply List.Forall_cons; [split; [reflexivity|ok_local]|apply List.Forall_nil].
Qed.

Lemma Inner_Person_fields (p : Person) :
  Forall (Inner true) (xml.marshalFields Person_tinfo p).
Proof. open_fields Person_tinfo. inner_fields true. Qed.

Lemma reread_Person (p : Person) :
  xml.reread (xml.Elem personRoot (xml.marshalAttrs Person_tinfo p)
                (xml.marshalFields Person_tinfo p))
  = Some (resolved (xml.Elem personRoot (xml.marshalAttrs Person_tinfo p)
                      (xml.marshalFields Person_tinfo p))).
Proof.
  destruct (marshalAttrs_Person p) as (L & HL & ->).
  apply reread_root;
    [ok_local|reflexivity|exact HL|apply plain_path|apply Inner_Person_fields].
Qed.

(** The attributes of the root, the first one first: a declaration is
    assigned to no field; an attribute left out is an empty string, which
    is what the field holds before. *)
Ltac assign_attr_lists x :=
  repeat match goal with
  | |- context [fold_left (xml.assignAttr ?ti) (if ?c then [] else ?l) ?v] =>
      lazymatch v with
      | context [if _ then _ else _] => fail
      | _ =>
          first
            [ rewrite (assign_skip ti c l v) by reflexivity
            | rewrite (assign_optional_list ti c l v);
              [|let E := fresh "E" in
                intros E; apply andb_prop in E; destruct E as [_ E];
                apply String.eqb_eq in E; destruct x; cbn in E; subst; reflexivity] ]
      end
  end.

Lemma unmarshal_Person (p : Person) :
  valid p →
  xml.unmarshal (xml.zero Person)
    (resolved (xml.Elem personRoot (xml.marshalAttrs Person_tinfo p)
                 (xml.marshalFields Person_tinfo p)))
  = Some (norm p).
Proof.
  intros Hx. cbn [resolved].
  change (xml.unmarshal (xml.zero Person)) with (xml.unmarshalStruct Person_tinfo Person_zero).
  unfold xml.unmarshalStruct.
  change (xml.checkName Person_tinfo personRoot Person_zero)
    with (Some (set_Person_XMLName personRoot Person_zero)).
  cbn [mbind option_bind].
  change (xmlnsAttr personRoot)
    with [{| xml.Attr_Name := {| xml.Space := ""; xml.Local := "xmlns" |};
             xml.Attr_Value := ns_person |}].
  open_attrs Person_tinfo.
  rewrite !flat_map_app, !flat_map_optional. cbn [flat_map fold_left].
  rewrite !fold_left_app. cbn [fold_left].
  assign_attr_lists p.
  open_fields Person_tinfo.
  cbv [valid Person_Valid] in Hx. split_valid.
  step_fields true. chardata_fields true.
  cbn [List.map xml.unmarshalChildren xml.chardata mbind option_bind].
  destruct p. reflexivity.
Qed.




Lemma roundTrip_Person (p : Person) : valid p → roundTrip p = Some (norm p).
Proof.
  intros Hx. unfold roundTrip. rewrite Marshal_Person. cbn [xml.Unmarshal].
  rewrite reread_Person. cbn [mbind option_bind].
  apply unmarshal_Person, Hx.
Qed.


End models_root.
(** *** models/person.go holds no integer *)

#[global] Instance AllValid_string : AllValid string.
Proof. intros x. exact I. Qed.

#[global] Instance AllValid_bool : AllValid bool.
Proof. intros x. exact I. Qed.

#[global] Instance AllValid_ptr {A} `{AllValid A} : AllValid (option A).
Proof. intros [x|]; [apply (all_valid x)|exact I]. Qed.

#[global] Instance AllValid_slice {A} `{AllValid A} : AllValid (list A).
Proof. intros l. apply Forall_forall. intros x _. apply (all_valid x). Qed.

Ltac all_valid_struct tvalid :=
  let x := fresh "x" in
  intros x; cbv [valid tvalid];
  repeat (split; [exact (all_valid _)|]); exact I.

Module models_valid.
Import models models_rt.

#[global] Instance AllValid_models_SourceOrcid : AllValid SourceOrcid.
Proof. all_valid_struct SourceOrcid_Valid. Qed.

#[global] Instance AllValid_models_SourceName : AllValid SourceName.
Proof. all_valid_struct SourceName_Valid. Qed.

#[global] Instance AllValid_models_Source : AllValid Source.
Proof. all_valid_struct Source_Valid. Qed.

#[global] Instance AllValid_models_PersonName : AllValid PersonName.
Proof. all_valid_struct PersonName_Valid. Qed.

#[global] Instance AllValid_models_OtherName : AllValid OtherName.
Proof. all_valid_struct OtherName_Valid. Qed.

#[global] Instance AllValid_models_OtherNames : AllValid OtherNames.
Proof. all_valid_struct OtherNames_Valid. Qed.

#[global] Instance AllValid_models_Biography : AllValid Biography.
Proof. all_valid_struct Biography_Valid. Qed.

#[global] Instance AllValid_models_ResearcherUrl : AllValid ResearcherUrl.
Proof. all_valid_struct ResearcherUrl_Valid. Qed.

#[global] Instance AllValid_models_ResearcherUrls : AllValid ResearcherUrls.
Proof. all_valid_struct ResearcherUrls_Valid. Qed.

#[global] Instance AllValid_models_Email : AllValid Email.
Proof. all_valid_struct Email_Valid. Qed.

#[global] Instance AllValid_models_Emails : AllValid Emails.
Proof. all_valid_struct Emails_Valid. Qed.

#[global] Instance AllValid_models_Address : AllValid Address.
Proof. all_valid_struct Address_Valid. Qed.

#[global] Instance AllValid_models_Addresses : AllValid Addresses.
Proof. all_valid_struct Addresses_Valid. Qed.

#[global] Instance AllValid_models_Keyword : AllValid Keyword.
Proof. all_valid_struct Keyword_Valid. Qed.

#[global] Instance AllValid_models_Keywords : AllValid Keywords.
Proof. all_valid_struct Keywords_Valid. Qed.

#[global] Instance AllValid_models_ExternalIdentifier : AllValid ExternalIdentifier.
Proof. all_valid_struct ExternalIdentifier_Valid. Qed.

#[global] Instance AllValid_models_ExternalIdentifiers : AllValid ExternalIdentifiers.
Proof. all_valid_struct ExternalIdentifiers_Valid. Qed.

#[global] Instance AllValid_models_Person : AllValid Person.
Proof. all_valid_struct Person_Valid. Qed.

End models_valid.
(** *** main.go: the full record *)

#[global] Instance NormId_string : NormId string.
Proof. intros x. reflexivity. Qed.

#[global] Instance NormId_int : NormId Z.
Proof. intros x. reflexivity. Qed.

#[global] Instance NormId_bool : NormId bool.
Proof. intros x. reflexivity. Qed.

#[global] Instance NormId_ptr {A} `{NormId A} : NormId (option A).
Proof. intros [x|]; [|reflexivity]. cbn. f_equal. apply (norm_id x). Qed.

#[global] Instance NormId_slice {A} `{NormId A} : NormId (list A).
Proof.
  intros l. induction l as [|x l IH]; [reflexivity|].
  change (norm (x :: l)) with (norm x :: norm l). rewrite IH, (norm_id x). reflexivity.
Qed.

Ltac norm_id_struct tnorm :=
  let x := fresh "x" in
  intros x; change (norm x) with (tnorm x); unfold tnorm;
  repeat rewrite norm_id; destruct x; reflexivity.

#[global] Instance NormId_OrcidIdentifier : NormId OrcidIdentifier.
Proof. norm_id_struct OrcidIdentifier_Norm. Qed.

#[global] Instance NormId_Value : NormId Value.
Proof. norm_id_struct Value_Norm. Qed.

#[global] Instance NormId_Name : NormId Name.
Proof. norm_id_struct Name_Norm. Qed.

#[global] Instance NormId_Biography : NormId Biography.
Proof. norm_id_struct Biography_Norm. Qed.

#[global] Instance NormId_Email : NormId Email.
Proof. norm_id_struct Email_Norm. Qed.

#[global] Instance NormId_Emails : NormId Emails.
Proof. norm_id_struct Emails_Norm. Qed.

#[global] Instance NormId_ResearcherUrl : NormId ResearcherUrl.
Proof. norm_id_struct ResearcherUrl_Norm. Qed.

#[global] Instance NormId_ResearcherUrls : NormId ResearcherUrls.
Proof. norm_id_struct ResearcherUrls_Norm. Qed.

#[global] Instance NormId_Person : NormId Person.
Proof. norm_id_struct Person_Norm. Qed.

#[global] Instance NormId_Title : NormId Title.
Proof. norm_id_struct Title_Norm. Qed.

#[global] Instance NormId_LastModified : NormId LastModified.
Proof. norm_id_struct LastModified_Norm. Qed.

#[global] Instance NormId_WorkSummary : NormId WorkSummary.
Proof. norm_id_struct WorkSummary_Norm. Qed.

#[global] Instance NormId_WorkGroup : NormId WorkGroup.
Proof. norm_id_struct WorkGroup_Norm. Qed.

#[global] Instance NormId_WorkSummaryGroup : NormId WorkSummaryGroup.
Proof. norm_id_struct WorkSummaryGroup_Norm. Qed.

#[global] Instance NormId_Org : NormId Org.
Proof. norm_id_struct Org_Norm. Qed.

#[global] Instance NormId_EmploymentSummary : NormId EmploymentSummary.
Proof. norm_id_struct EmploymentSummary_Norm. Qed.

#[global] Instance NormId_AffiliationGroup : NormId AffiliationGroup.
Proof. norm_id_struct AffiliationGroup_Norm. Qed.

#[global] Instance NormId_EmploymentSummaryGroup : NormId EmploymentSummaryGroup.
Proof. norm_id_struct EmploymentSummaryGroup_Norm. Qed.

#[global] Instance NormId_Activities : NormId Activities.
Proof. norm_id_struct Activities_Norm. Qed.










(* --------------------------------------------------------------------- *)
(** *** The round trip through XML *)




(* ===================================================================== *)
(** ** Further properties *)
(* ===================================================================== *)

(** *** models/person_test.go: the comparison *)

Lemma nextSignificantToken_skips (d : models_test.Decoder) :
  match models_test.nextSignificantToken d with
  | None => significantTokens d = []
  | Some (t, d') =>
      significant t = true
      ∧ ∃ skipped, d = skipped ++ t :: d' ∧ significantTokens skipped = []
  end.
Proof.
  induction d as [|tok d IH]; [reflexivity|].
  assert (Hskip : significant tok = false →
    match models_test.nextSignificantToken d with
    | None => significantTokens (tok :: d) = []
    | Some (t, d') =>
        significant t = true
        ∧ ∃ skipped, tok :: d = skipped ++ t :: d' ∧ significantTokens skipped = []
    end).
  { intros Hf. destruct (models_test.nextSignificantToken d) as [[t d']|].
    - destruct IH as (Ht & skipped & -> & Hs). split; [exact Ht|].
      exists (tok :: skipped). split; [reflexivity|].
      unfold significantTokens in *. cbn [List.filter]. rewrite Hf. exact Hs.
    - unfold significantTokens in *. cbn [List.filter]. rewrite Hf. exact IH. }
  assert (Htake : significant tok = true →
    significant tok = true
    ∧ ∃ skipped, tok :: d = skipped ++ tok :: d ∧ significantTokens skipped = []).
  { intros Ht. split; [exact Ht|]. exists []. split; reflexivity. }
  destruct tok as [name a|name|data|data|target inst|data];
    cbn [models_test.nextSignificantToken];
    try (apply Htake; reflexivity); try (apply Hskip; reflexivity).
  destruct (String.length (strings.TrimSpace data) =? 0)%nat eqn:E;
    [apply Hskip|apply Htake]; cbn [significant]; rewrite E; reflexivity.
Qed.

(** X1.  nextSignificantToken hands out the first significant token of
    the input (a start tag, an end tag, or character data that is not
    white space only) and leaves the decoder right after it; what it
    passes over holds no significant token; it reports io.EOF exactly
    when no significant token is left. *)
Theorem nextSignificantToken_first_significant (d : models_test.Decoder) :
  match models_test.nextSignificantToken d with
  | None => significantTokens d = []
  | Some (t, d') =>
      significant t = true
      ∧ ∃ skipped, d = skipped ++ t :: d' ∧ significantTokens skipped = []
  end.
Proof. exact (nextSignificantToken_skips d). Qed.

Lemma significantTokens_app a b :
  significantTokens (a ++ b) = significantTokens a ++ significantTokens b.
Proof. apply List.filter_app. Qed.

Lemma nextSignificantToken_filter d :
  match models_test.nextSignificantToken d with
  | None => significantTokens d = []
  | Some (t, d') =>
      significantTokens d = t :: significantTokens d' ∧ (length d' < length d)%nat
  end.
Proof.
  pose proof (nextSignificantToken_skips d) as H.
  destruct (models_test.nextSignificantToken d) as [[t d']|]; [|exact H].
  destruct H as (Ht & skipped & -> & Hs). split.
  - rewrite significantTokens_app, Hs. unfold significantTokens. cbn [app List.filter].
    rewrite Ht. reflexivity.
  - rewrite length_app. cbn [length]. lia.
Qed.

Lemma compare_verdictOf turns : ∀ d1 d2,
  (length d1 ≤ turns)%nat →
  models_test.compare turns d1 d2 = verdictOf (significantTokens d1) (significantTokens d2).
Proof.
  induction turns as [|turns IH]; intros d1 d2 Hlen;
    pose proof (nextSignificantToken_filter d1) as H1;
    pose proof (nextSignificantToken_filter d2) as H2;
    cbn [models_test.compare];
    destruct (models_test.nextSignificantToken d1) as [[t1 r1]|].
  - destruct H1 as [_ Hl1]. lia.
  - rewrite H1. destruct (models_test.nextSignificantToken d2) as [[t2 r2]|];
      [destruct H2 as [H2 _]|]; rewrite H2; reflexivity.
  - destruct H1 as [H1 Hl1]. rewrite H1.
    destruct (models_test.nextSignificantToken d2) as [[t2 r2]|];
      [destruct H2 as [H2 _]|]; rewrite H2; cbn [verdictOf]; [|reflexivity].
    destruct (models_test.tokensEqual t1 t2); [|reflexivity].
    apply IH. lia.
  - rewrite H1. destruct (models_test.nextSignificantToken d2) as [[t2 r2]|];
      [destruct H2 as [H2 _]|]; rewrite H2; reflexivity.
Qed.

Lemma assertXMLEqual_verdictOf (d1 d2 : models_test.Decoder) :
  models_test.assertXMLEqual d1 d2
  = verdictOf (significantTokens d1) (significantTokens d2).
Proof. apply compare_verdictOf. lia. Qed.

Lemma verdictOf_equal l1 : ∀ l2,
  verdictOf l1 l2 = models_test.equal
  ↔ Forall2 (λ t1 t2, models_test.tokensEqual t1 t2 = true) l1 l2.
Proof.
  induction l1 as [|t1 l1 IH]; intros [|t2 l2]; cbn [verdictOf].
  - split; [constructor|reflexivity].
  - split; [discriminate|intros H; inversion H].
  - split; [discriminate|intros H; inversion H].
  - destruct (models_test.tokensEqual t1 t2) eqn:E.
    + rewrite IH. split; [intros H; constructor; assumption|].
      intros H. inversion H; subst. assumption.
    + split; [discriminate|]. intros H. inversion H; subst. congruence.
Qed.

Lemma sameAttrs_sym a : ∀ b, models_test.sameAttrs a b = models_test.sameAttrs b a.
Proof.
  induction a as [|x a IH]; intros [|y b]; cbn [models_test.sameAttrs]; try reflexivity.
  rewrite IH. unfold models_test.sameAttr.
  rewrite (String.eqb_sym (xml.Space (xml.Attr_Name x))),
          (String.eqb_sym (xml.Local (xml.Attr_Name x))),
          (String.eqb_sym (xml.Attr_Value x)).
  reflexivity.
Qed.

Lemma sameAttrs_eq a : ∀ b, models_test.sameAttrs a b = true → a = b.
Proof.
  induction a as [|[[s l] v] a IH]; intros [|[[s' l'] v'] b]; cbn [models_test.sameAttrs];
    try discriminate; [reflexivity|].
  unfold models_test.sameAttr. cbn [xml.Attr_Name xml.Space xml.Local xml.Attr_Value].
  rewrite !andb_true_iff, !String.eqb_eq. intros [[[-> ->] ->] H].
  rewrite (IH _ H). reflexivity.
Qed.

(** attrsEqual holds exactly when the two normalized lists are the same. *)
Lemma attrsEqual_iff a b :
  models_test.attrsEqual a b = true
  ↔ models_test.normalizeAttrs a = models_test.normalizeAttrs b.
Proof.
  split; [|apply attrsEqual_normalized].
  unfold models_test.attrsEqual. cbv zeta. rewrite andb_true_iff.
  intros [_ H]. apply sameAttrs_eq, H.
Qed.

Lemma eqName_eq n m : xml.eqName n m = true ↔ n = m.
Proof.
  destruct n as [s l], m as [s' l']. unfold xml.eqName. cbn [xml.Space xml.Local].
  rewrite andb_true_iff, !String.eqb_eq. split; [intros [-> ->]; reflexivity|].
  intros [= -> ->]. split; reflexivity.
Qed.

Lemma tokensEqual_sym t1 t2 :
  models_test.tokensEqual t1 t2 = true → models_test.tokensEqual t2 t1 = true.
Proof.
  destruct t1, t2; cbn [models_test.tokensEqual]; try discriminate.
  - rewrite !andb_true_iff, !eqName_eq, !attrsEqual_iff. intros [-> ->]. split; reflexivity.
  - rewrite !eqName_eq. intros ->. reflexivity.
  - rewrite !String.eqb_eq. intros ->. reflexivity.
Qed.

Lemma tokensEqual_trans t1 t2 t3 :
  models_test.tokensEqual t1 t2 = true → models_test.tokensEqual t2 t3 = true →
  models_test.tokensEqual t1 t3 = true.
Proof.
  destruct t1, t2; cbn [models_test.tokensEqual]; try discriminate;
    destruct t3; cbn [models_test.tokensEqual]; try discriminate.
  - rewrite !andb_true_iff, !eqName_eq, !attrsEqual_iff.
    intros [-> ->] [-> ->]. split; reflexivity.
  - rewrite !eqName_eq. intros -> ->. reflexivity.
  - rewrite !String.eqb_eq. intros -> ->. reflexivity.
Qed.

Lemma tokensEqual_refl t : significant t = true → models_test.tokensEqual t t = true.
Proof. apply tokensEqual_equiv. left. reflexivity. Qed.

(** X3.  On documents the Decoder reads to their end, assertXMLEqual
    decides an equivalence: it answers nil on a document and itself,
    whichever of two documents comes first, and on the first and the last
    of three when it does on the first two and on the last two. *)
Theorem assertXMLEqual_equivalence :
  (∀ d, xmlEqual d d)
  ∧ (∀ d1 d2, xmlEqual d1 d2 → xmlEqual d2 d1)
  ∧ (∀ d1 d2 d3, xmlEqual d1 d2 → xmlEqual d2 d3 → xmlEqual d1 d3).
Proof.
  unfold xmlEqual. split; [|split].
  - intros d. rewrite assertXMLEqual_verdictOf, verdictOf_equal.
    unfold significantTokens.
    induction d as [|t d IH]; cbn [List.filter]; [constructor|].
    destruct (significant t) eqn:E; [|exact IH].
    constructor; [apply tokensEqual_refl, E|exact IH].
  - intros d1 d2. rewrite !assertXMLEqual_verdictOf, !verdictOf_equal.
    induction 1; constructor; [apply tokensEqual_sym|]; assumption.
  - intros d1 d2 d3. rewrite !assertXMLEqual_verdictOf, !verdictOf_equal.
    generalize (significantTokens d1), (significantTokens d2), (significantTokens d3).
    clear. intros l1 l2 l3 H12. revert l3.
    induction H12 as [|t1 t2 l1 l2 Ht Hl IH]; intros l3 H23; inversion H23; subst;
      constructor; [eapply tokensEqual_trans; eassumption|].
    apply IH. assumption.
Qed.

Lemma significantTokens_idem d : significantTokens (significantTokens d) = significantTokens d.
Proof.
  unfold significantTokens. induction d as [|t d IH]; [reflexivity|]. cbn [List.filter].
  destruct (significant t) eqn:E; cbn [List.filter]; rewrite ?E, IH; reflexivity.
Qed.

(** X2.  On documents the Decoder reads to their end, the loop of
    assertXMLEqual, which takes one significant token off each decoder
    per turn, compares the significant tokens of the two documents pair
    by pair: it answers the first pair tokensEqual refuses,
    else a difference in their number, else nil.  Comments, processing
    instructions, directives and character data of white space only make
    no difference to the answer, wherever they stand in either document. *)
Theorem assertXMLEqual_pairwise (d1 d2 : models_test.Decoder) :
  models_test.assertXMLEqual d1 d2
  = verdictOf (significantTokens d1) (significantTokens d2)
  ∧ models_test.assertXMLEqual d1 d2
    = models_test.assertXMLEqual (significantTokens d1) (significantTokens d2).
Proof.
  rewrite !assertXMLEqual_verdictOf, !significantTokens_idem. split; reflexivity.
Qed.
(** *** models/person_test.go: attributes in any order *)

From Stdlib Require OrdersEx.

Lemma compare_Lt_trans a b c :
  String.compare a b = Lt → String.compare b c = Lt → String.compare a c = Lt.
Proof.
  intros H1 H2.
  exact (@RelationClasses.StrictOrder_Transitive _ _
           OrdersEx.String_as_OT.lt_strorder a b c H1 H2).
Qed.

Lemma ltb_asym a b : String.ltb a b = true → String.ltb b a = false.
Proof.
  unfold String.ltb. rewrite (String.compare_antisym b a).
  destruct (String.compare a b); cbn; congruence.
Qed.

Lemma ltb_total a b : String.ltb a b = false → String.ltb b a = false → a = b.
Proof.
  unfold String.ltb. rewrite (String.compare_antisym b a).
  destruct (String.compare a b) eqn:E; cbn; try congruence.
  intros _ _. apply String.compare_eq_iff, E.
Qed.

Lemma ltb_trans a b c : String.ltb a b = true → String.ltb b c = true → String.ltb a c = true.
Proof.
  unfold String.ltb. intros H1 H2.
  destruct (String.compare a b) eqn:E1; try discriminate H1.
  destruct (String.compare b c) eqn:E2; try discriminate H2.
  rewrite (compare_Lt_trans _ _ _ E1 E2). reflexivity.
Qed.

(** b ≤ c and c < a give b < a. *)
Lemma ltb_le_lt a b c :
  String.ltb c b = false → String.ltb c a = true → String.ltb b a = true.
Proof.
  intros Hcb Hca. destruct (String.ltb b c) eqn:Hbc.
  - apply (ltb_trans _ _ _ Hbc Hca).
  - rewrite (ltb_total _ _ Hbc Hcb). exact Hca.
Qed.

Lemma insertSorted_perm a l : models_test.insertSorted a l ≡ₚ a :: l.
Proof.
  induction l as [|b l IH]; cbn [models_test.insertSorted]; [reflexivity|].
  destruct (String.ltb _ _); [|reflexivity].
  rewrite IH. apply perm_swap.
Qed.

Lemma sortAttrs_perm l : models_test.sortAttrs l ≡ₚ l.
Proof.
  induction l as [|a l IH]; [reflexivity|].
  cbn [models_test.sortAttrs fold_right]. rewrite insertSorted_perm.
  apply perm_skip, IH.
Qed.

(** Inserting two attributes of different keys, in either order. *)
Lemma insertSorted_comm a b l :
  models_test.sortKey a ≠ models_test.sortKey b →
  models_test.insertSorted a (models_test.insertSorted b l)
  = models_test.insertSorted b (models_test.insertSorted a l).
Proof.
  intros Hab. induction l as [|c l IH]; cbn [models_test.insertSorted].
  - destruct (String.ltb (models_test.sortKey b) (models_test.sortKey a)) eqn:Eba.
    + rewrite (ltb_asym _ _ Eba). reflexivity.
    + destruct (String.ltb (models_test.sortKey a) (models_test.sortKey b)) eqn:Eab;
        [reflexivity|].
      exfalso. apply Hab, ltb_total; assumption.
  - destruct (String.ltb (models_test.sortKey c) (models_test.sortKey a)) eqn:Eca,
             (String.ltb (models_test.sortKey c) (models_test.sortKey b)) eqn:Ecb;
      cbn [models_test.insertSorted]; rewrite ?Eca, ?Ecb.
    + rewrite IH. reflexivity.
    + rewrite (ltb_le_lt _ _ _ Ecb Eca). cbn [models_test.insertSorted].
      rewrite ?Eca. reflexivity.
    + rewrite (ltb_le_lt _ _ _ Eca Ecb). cbn [models_test.insertSorted].
      rewrite ?Ecb. reflexivity.
    + destruct (String.ltb (models_test.sortKey b) (models_test.sortKey a)) eqn:Eba.
      * rewrite (ltb_asym _ _ Eba). cbn [models_test.insertSorted]. rewrite ?Eca.
        reflexivity.
      * destruct (String.ltb (models_test.sortKey a) (models_test.sortKey b)) eqn:Eab.
        -- cbn [models_test.insertSorted]. rewrite ?Ecb. reflexivity.
        -- exfalso. apply Hab, ltb_total; assumption.
Qed.

Lemma sortAttrs_permutation l1 l2 :
  l1 ≡ₚ l2 → NoDup (models_test.sortKey <$> l1) →
  models_test.sortAttrs l1 = models_test.sortAttrs l2.
Proof.
  induction 1 as [|x l1 l2 Hp IH|x y l|l1 l2 l3 H12 IH12 H23 IH23]; intros Hnd.
  - reflexivity.
  - cbn [models_test.sortAttrs fold_right]. fold (models_test.sortAttrs l1).
    fold (models_test.sortAttrs l2). rewrite IH; [reflexivity|].
    rewrite fmap_cons in Hnd. apply NoDup_cons in Hnd. apply Hnd.
  - cbn [models_test.sortAttrs fold_right]. apply insertSorted_comm.
    rewrite !fmap_cons in Hnd. apply NoDup_cons in Hnd as [Hy _].
    intros E. apply Hy. rewrite E. left.
  - rewrite IH12 by exact Hnd. apply IH23.
    rewrite <- H12. exact Hnd.
Qed.

(** X4.  attrsEqual accepts two attribute lists exactly when, name-space
    declarations left out, one is a rearrangement of the other: the same
    attributes with the same values, in any order.  This holds when no
    two attributes of the first list have the same name, which is when
    the order sort.Slice leaves does not depend on how it sorts. *)
Theorem attrsEqual_rearranged (a b : list xml.Attr) :
  NoDup (models_test.sortKey <$> attributes a) →
  models_test.attrsEqual a b = true ↔ attributes a ≡ₚ attributes b.
Proof.
  intros Hnd. rewrite attrsEqual_iff. unfold models_test.normalizeAttrs.
  fold (attributes a). fold (attributes b). split.
  - intros H. rewrite <- (sortAttrs_perm (attributes a)), H. apply sortAttrs_perm.
  - intros H. apply sortAttrs_permutation; assumption.
Qed.


(** X4 on a start tag with two attributes and a declaration between them,
    against the two attributes in the other order. *)
Lemma attrsEqual_rearranged_witness :
  NoDup (models_test.sortKey <$> attributes
           [ {| xml.Attr_Name := {| xml.Space := ""; xml.Local := "visibility" |};
                xml.Attr_Value := "public" |};
             {| xml.Attr_Name := {| xml.Space := "xmlns"; xml.Local := "common" |};
                xml.Attr_Value := "http://www.orcid.org/ns/common" |};
             {| xml.Attr_Name := {| xml.Space := ""; xml.Local := "put-code" |};
                xml.Attr_Value := "42" |} ])
  ∧ (models_test.attrsEqual
       [ {| xml.Attr_Name := {| xml.Space := ""; xml.Local := "visibility" |};
            xml.Attr_Value := "public" |};
         {| xml.Attr_Name := {| xml.Space := "xmlns"; xml.Local := "common" |};
            xml.Attr_Value := "http://www.orcid.org/ns/common" |};
         {| xml.Attr_Name := {| xml.Space := ""; xml.Local := "put-code" |};
            xml.Attr_Value := "42" |} ]
       [ {| xml.Attr_Name := {| xml.Space := ""; xml.Local := "put-code" |};
            xml.Attr_Value := "42" |};
         {| xml.Attr_Name := {| xml.Space := ""; xml.Local := "visibility" |};
            xml.Attr_Value := "public" |} ] = true
     ↔ attributes
         [ {| xml.Attr_Name := {| xml.Space := ""; xml.Local := "visibility" |};
              xml.Attr_Value := "public" |};
           {| xml.Attr_Name := {| xml.Space := "xmlns"; xml.Local := "common" |};
              xml.Attr_Value := "http://www.orcid.org/ns/common" |};
           {| xml.Attr_Name := {| xml.Space := ""; xml.Local := "put-code" |};
              xml.Attr_Value := "42" |} ]
       ≡ₚ attributes
         [ {| xml.Attr_Name := {| xml.Space := ""; xml.Local := "put-code" |};
              xml.Attr_Value := "42" |};
           {| xml.Attr_Name := {| xml.Space := ""; xml.Local := "visibility" |};
              xml.Attr_Value := "public" |} ]).
Proof.
  assert (Hnd : NoDup (models_test.sortKey <$> attributes
           [ {| xml.Attr_Name := {| xml.Space := ""; xml.Local := "visibility" |};
                xml.Attr_Value := "public" |};
             {| xml.Attr_Name := {| xml.Space := "xmlns"; xml.Local := "common" |};
                xml.Attr_Value := "http://www.orcid.org/ns/common" |};
             {| xml.Attr_Name := {| xml.Space := ""; xml.Local := "put-code" |};
                xml.Attr_Value := "42" |} ]))
    by (apply (bool_decide_unpack (NoDup _)); vm_compute; reflexivity).
  split; [exact Hnd|apply attrsEqual_rearranged, Hnd].
Defined.
(** *** main.go: the routing table *)

Lemma Contains_slash c s :
  strings.Contains (String c s) "/" = Ascii.eqb c "/" || strings.Contains s "/".
Proof.
  cbn [strings.Contains String.prefix].
  destruct (ascii_dec "/" c) as [<-|Hne]; [destruct s; reflexivity|].
  destruct (Ascii.eqb_spec c "/") as [->|_]; [congruence|reflexivity].
Qed.

Lemma Split_sep s : strings.Split (String "/" s) "/" = "" :: strings.Split s "/".
Proof. reflexivity. Qed.

Lemma Split_segment a b :
  strings.Contains a "/" = false →
  strings.Split (a +:+ String "/" b) "/" = a :: strings.Split b "/".
Proof.
  induction a as [|c a IH]; [reflexivity|].
  rewrite Contains_slash. intros [Hc Ha]%orb_false_iff.
  change (String c a +:+ String "/" b) with (String c (a +:+ String "/" b)).
  cbn [strings.Split]. rewrite Hc, (IH Ha). reflexivity.
Qed.

Lemma Split_last a : strings.Contains a "/" = false → strings.Split a "/" = [a].
Proof.
  induction a as [|c a IH]; [reflexivity|].
  rewrite Contains_slash. intros [Hc Ha]%orb_false_iff.
  cbn [strings.Split]. rewrite Hc, (IH Ha). reflexivity.
Qed.

Lemma pathSegment_inv s :
  pathSegment s = true → String.eqb s "" = false ∧ strings.Contains s "/" = false.
Proof.
  unfold pathSegment. rewrite !andb_true_iff, !negb_true_iff. tauto.
Qed.

(** The segments of the paths of the routing table. *)
Lemma segments_3 a id b :
  strings.Contains a "/" = false → strings.Contains id "/" = false →
  strings.Contains b "/" = false →
  segments (String "/" (a +:+ String "/" (id +:+ String "/" b))) = Some [a; id; b].
Proof.
  intros Ha Hid Hb. unfold segments.
  rewrite Split_sep, (Split_segment _ _ Ha), (Split_segment _ _ Hid), (Split_last _ Hb).
  reflexivity.
Qed.

Lemma segments_4 a id b pc :
  strings.Contains a "/" = false → strings.Contains id "/" = false →
  strings.Contains b "/" = false → strings.Contains pc "/" = false →
  segments (String "/" (a +:+ String "/" (id +:+ String "/" (b +:+ String "/" pc))))
  = Some [a; id; b; pc].
Proof.
  intros Ha Hid Hb Hpc. unfold segments.
  rewrite Split_sep, (Split_segment _ _ Ha), (Split_segment _ _ Hid),
    (Split_segment _ _ Hb), (Split_last _ Hpc).
  reflexivity.
Qed.

Ltac methods :=
  repeat match goal with
  | |- context [methodMatches ?a ?b] =>
      let v := eval vm_compute in (methodMatches a b) in
      change (methodMatches a b) with v; cbv iota
  end.

(** The handler and the bindings the mux finds for a request of a known
    method and path. *)
Ltac route Hm Hp Hseg :=
  unfold routes; cbn [lookupRoute]; rewrite Hm, Hp; methods;
  rewrite Hseg; cbn [mbind option_bind matchPattern String.eqb Ascii.eqb Bool.eqb];
  repeat match goal with
  | H : String.eqb ?s "" = false |- context [String.eqb ?s ""] => rewrite H
  end;
  unfold routed; rewrite ?Hm, ?Hp; reflexivity.

Section Routes.
Context (i : Incoming) (id pc : string).
Hypothesis Hid : pathSegment id = true.
Hypothesis Hpc : pathSegment pc = true.

Lemma route_token :
  In_Method i = "POST" → In_Path i = "/oauth/token" →
  lookupRoute routes i = Some (handleToken, routed i ∅).
Proof.
  intros Hm Hp.
  assert (Hseg : segments "/oauth/token" = Some ["oauth"; "token"]) by reflexivity.
  route Hm Hp Hseg.
Qed.

Lemma route_authorize :
  In_Method i = "GET" → In_Path i = "/oauth/authorize" →
  lookupRoute routes i = Some (handleAuthorize, routed i ∅).
Proof.
  intros Hm Hp.
  assert (Hseg : segments "/oauth/authorize" = Some ["oauth"; "authorize"]) by reflexivity.
  route Hm Hp Hseg.
Qed.

Lemma route_search :
  In_Method i = "GET" → In_Path i = "/v3.0/search" →
  lookupRoute routes i = Some (handleSearch, routed i ∅).
Proof.
  intros Hm Hp.
  assert (Hseg : segments "/v3.0/search" = Some ["v3.0"; "search"]) by reflexivity.
  route Hm Hp Hseg.
Qed.

Lemma route_3 m (resource : string) h :
  strings.Contains resource "/" = false →
  (∀ Hm : In_Method i = m, ∀ Hp : In_Path i = "/v3.0/" +:+ id +:+ "/" +:+ resource,
     segments ("/v3.0/" +:+ id +:+ "/" +:+ resource) = Some ["v3.0"; id; resource] →
     String.eqb id "" = false →
     lookupRoute routes i = Some (h, routed i (<["orcid" := id]> ∅))) →
  In_Method i = m → In_Path i = "/v3.0/" +:+ id +:+ "/" +:+ resource →
  lookupRoute routes i = Some (h, routed i (<["orcid" := id]> ∅)).
Proof.
  intros Hr H Hm Hp. destruct (pathSegment_inv _ Hid) as [Hne Hs].
  apply (H Hm Hp); [|exact Hne].
  exact (segments_3 "v3.0" id resource eq_refl Hs Hr).
Qed.

Lemma route_4 m (resource : string) h :
  strings.Contains resource "/" = false →
  (∀ Hm : In_Method i = m,
   ∀ Hp : In_Path i = "/v3.0/" +:+ id +:+ "/" +:+ resource +:+ "/" +:+ pc,
     segments ("/v3.0/" +:+ id +:+ "/" +:+ resource +:+ "/" +:+ pc)
     = Some ["v3.0"; id; resource; pc] →
     String.eqb id "" = false → String.eqb pc "" = false →
     lookupRoute routes i
     = Some (h, routed i (<["putCode" := pc]> (<["orcid" := id]> ∅)))) →
  In_Method i = m → In_Path i = "/v3.0/" +:+ id +:+ "/" +:+ resource +:+ "/" +:+ pc →
  lookupRoute routes i = Some (h, routed i (<["putCode" := pc]> (<["orcid" := id]> ∅))).
Proof.
  intros Hr H Hm Hp. destruct (pathSegment_inv _ Hid) as [Hne Hs].
  destruct (pathSegment_inv _ Hpc) as [Hne' Hs'].
  apply (H Hm Hp); [|exact Hne|exact Hne'].
  exact (segments_4 "v3.0" id resource pc eq_refl Hs Hr Hs').
Qed.

Lemma route_record :
  In_Method i = "GET" → In_Path i = "/v3.0/" +:+ id +:+ "/record" →
  lookupRoute routes i = Some (handleGetRecord, routed i (<["orcid" := id]> ∅)).
Proof. apply (route_3 "GET" "record"); [reflexivity|]. intros Hm Hp Hseg Hne. route Hm Hp Hseg. Qed.

Lemma route_person :
  In_Method i = "GET" → In_Path i = "/v3.0/" +:+ id +:+ "/person" →
  lookupRoute routes i = Some (handleGetPerson, routed i (<["orcid" := id]> ∅)).
Proof. apply (route_3 "GET" "person"); [reflexivity|]. intros Hm Hp Hseg Hne. route Hm Hp Hseg. Qed.

Lemma route_post_work :
  In_Method i = "POST" → In_Path i = "/v3.0/" +:+ id +:+ "/work" →
  lookupRoute routes i = Some (handlePostWork, routed i (<["orcid" := id]> ∅)).
Proof. apply (route_3 "POST" "work"); [reflexivity|]. intros Hm Hp Hseg Hne. route Hm Hp Hseg. Qed.

Lemma route_post_employment :
  In_Method i = "POST" → In_Path i = "/v3.0/" +:+ id +:+ "/employment" →
  lookupRoute routes i = Some (handlePostEmployment, routed i (<["orcid" := id]> ∅)).
Proof.
  apply (route_3 "POST" "employment"); [reflexivity|]. intros Hm Hp Hseg Hne.
  route Hm Hp Hseg.
Qed.

Lemma route_get_work :
  In_Method i = "GET" → In_Path i = "/v3.0/" +:+ id +:+ "/work/" +:+ pc →
  lookupRoute routes i
  = Some (handleGetWork, routed i (<["putCode" := pc]> (<["orcid" := id]> ∅))).
Proof.
  apply (route_4 "GET" "work"); [reflexivity|]. intros Hm Hp Hseg Hne Hne'.
  route Hm Hp Hseg.
Qed.

Lemma route_put_work :
  In_Method i = "PUT" → In_Path i = "/v3.0/" +:+ id +:+ "/work/" +:+ pc →
  lookupRoute routes i
  = Some (handlePutWork, routed i (<["putCode" := pc]> (<["orcid" := id]> ∅))).
Proof.
  apply (route_4 "PUT" "work"); [reflexivity|]. intros Hm Hp Hseg Hne Hne'.
  route Hm Hp Hseg.
Qed.

Lemma route_get_employment :
  In_Method i = "GET" → In_Path i = "/v3.0/" +:+ id +:+ "/employment/" +:+ pc →
  lookupRoute routes i
  = Some (handleGetEmployment, routed i (<["putCode" := pc]> (<["orcid" := id]> ∅))).
Proof.
  apply (route_4 "GET" "employment"); [reflexivity|]. intros Hm Hp Hseg Hne Hne'.
  route Hm Hp Hseg.
Qed.

Lemma route_put_employment :
  In_Method i = "PUT" → In_Path i = "/v3.0/" +:+ id +:+ "/employment/" +:+ pc →
  lookupRoute routes i
  = Some (handlePutEmployment, routed i (<["putCode" := pc]> (<["orcid" := id]> ∅))).
Proof.
  apply (route_4 "PUT" "employment"); [reflexivity|]. intros Hm Hp Hseg Hne Hne'.
  route Hm Hp Hseg.
Qed.

End Routes.

(** X5.  The routing table of main: a request of one of these methods on
    one of these paths reaches the handler registered for it, with the
    segments of the path in the places of the wildcards as the values of
    orcid and putCode.  The segments are any strings that are not empty,
    hold no slash and are neither "." nor "..". *)
Theorem routes_dispatch (i : Incoming) (id pc : string) :
  pathSegment id = true → pathSegment pc = true →
  ∀ m p h bound,
    (m, p, h, bound) ∈
      [ ("POST", "/oauth/token", handleToken, ∅);
        ("GET", "/oauth/authorize", handleAuthorize, ∅);
        ("GET", "/v3.0/" +:+ id +:+ "/record", handleGetRecord, <["orcid" := id]> ∅);
        ("GET", "/v3.0/" +:+ id +:+ "/person", handleGetPerson, <["orcid" := id]> ∅);
        ("GET", "/v3.0/" +:+ id +:+ "/work/" +:+ pc, handleGetWork,
           <["putCode" := pc]> (<["orcid" := id]> ∅));
        ("POST", "/v3.0/" +:+ id +:+ "/work", handlePostWork, <["orcid" := id]> ∅);
        ("PUT", "/v3.0/" +:+ id +:+ "/work/" +:+ pc, handlePutWork,
           <["putCode" := pc]> (<["orcid" := id]> ∅));
        ("GET", "/v3.0/" +:+ id +:+ "/employment/" +:+ pc, handleGetEmployment,
           <["putCode" := pc]> (<["orcid" := id]> ∅));
        ("POST", "/v3.0/" +:+ id +:+ "/employment", handlePostEmployment,
           <["orcid" := id]> ∅);
        ("PUT", "/v3.0/" +:+ id +:+ "/employment/" +:+ pc, handlePutEmployment,
           <["putCode" := pc]> (<["orcid" := id]> ∅));
        ("GET", "/v3.0/search", handleSearch, ∅) ] →
    In_Method i = m → In_Path i = p →
    lookupRoute routes i = Some (h, routed i bound).
Proof.
  intros Hid Hpc m p h bound Hin. rewrite !elem_of_cons, elem_of_nil in Hin.
  repeat (destruct Hin as [[= -> -> -> ->]|Hin]); [..|contradiction].
  - apply route_token.
  - apply route_authorize.
  - apply route_record, Hid.
  - apply route_person, Hid.
  - apply route_get_work; assumption.
  - apply route_post_work, Hid.
  - apply route_put_work; assumption.
  - apply route_get_employment; assumption.
  - apply route_post_employment, Hid.
  - apply route_put_employment; assumption.
  - apply route_search.
Qed.

(** X5 on PUT /v3.0/0000-0001-2345-6789/work/42. *)
Lemma routes_dispatch_witness :
  pathSegment sofia = true ∧ pathSegment "42" = true
  ∧ lookupRoute routes (request "PUT" "/v3.0/0000-0001-2345-6789/work/42" None)
    = Some (handlePutWork,
            routed (request "PUT" "/v3.0/0000-0001-2345-6789/work/42" None)
              (<["putCode" := "42"]> (<["orcid" := sofia]> ∅))).
Proof.
  split; [reflexivity|]. split; [reflexivity|].
  apply (routes_dispatch (request "PUT" "/v3.0/0000-0001-2345-6789/work/42" None)
           sofia "42" eq_refl eq_refl "PUT" "/v3.0/0000-0001-2345-6789/work/42"
           handlePutWork (<["putCode" := "42"]> (<["orcid" := sofia]> ∅)));
    [repeat constructor|reflexivity|reflexivity].
Defined.
(** *** main.go: the handlers *)

Lemma atoiLoop_digits d : ∀ acc,
  strconv.atoiLoop (NilEmpty.string_of_uint d) acc = (uintValue d acc, None).
Proof. induction d; intros acc; simpl; try reflexivity; apply IHd. Qed.

(** Atoi reads back what Itoa writes. *)
Lemma Atoi_Itoa n : int64 n → strconv.Atoi (strconv.Itoa n) = (n, None).
Proof.
  intros Hn. pose proof (ParseInt_Itoa n Hn) as HP.
  unfold strconv.Atoi. cbv zeta.
  destruct ((0 <? String.length (strconv.Itoa n))%nat
            && (String.length (strconv.Itoa n) <? 19)%nat); [|exact HP].
  clear HP. destruct n as [|p|p]; [reflexivity| |].
  - unfold strconv.Itoa. simpl Z.to_int. simpl NilZero.string_of_int.
    pose proof (uintValue_to_uint p) as Hv.
    pose proof (DecimalPos.Unsigned.to_uint_nonnil p) as Hnil.
    unfold NilZero.string_of_uint.
    destruct (Pos.to_uint p) as [|l|l|l|l|l|l|l|l|l|l] eqn:E; [congruence|..];
      match goal with
      | |- context [NilEmpty.string_of_uint ?d] =>
          pose proof (atoiLoop_digits d 0) as HL; rewrite Hv in HL;
          simpl NilEmpty.string_of_uint in HL |- *;
          cbn [Ascii.eqb Bool.eqb orb andb]; cbv iota; rewrite HL; reflexivity
      end.
  - unfold strconv.Itoa. simpl Z.to_int. simpl NilZero.string_of_int.
    pose proof (uintValue_to_uint p) as Hv.
    pose proof (DecimalPos.Unsigned.to_uint_nonnil p) as Hnil.
    cbn [Ascii.eqb Bool.eqb orb andb]. cbv iota.
    unfold NilZero.string_of_uint.
    destruct (Pos.to_uint p) as [|l|l|l|l|l|l|l|l|l|l] eqn:E; [congruence|..];
      match goal with
      | |- context [NilEmpty.string_of_uint ?d] =>
          pose proof (atoiLoop_digits d 0) as HL; rewrite Hv in HL;
          simpl NilEmpty.string_of_uint in HL |- *;
          cbn [String.length Nat.ltb Nat.leb]; cbv iota; rewrite HL; reflexivity
      end.
Qed.

Lemma PathValue_routed i bound name :
  http.PathValue (routed i bound) name = default "" (bound !! name).
Proof. reflexivity. Qed.

(** **** The middleware's header *)

Lemma carriesOrigin_fresh : carriesOrigin freshWriter.
Proof. split; [reflexivity|discriminate]. Qed.

Lemma carriesOrigin_SetHeader key value w :
  key ≠ allowOrigin → carriesOrigin w → carriesOrigin (http.SetHeader key value w).
Proof.
  intros Hk [Hh Hs]. split; [|exact Hs].
  cbn [http.SetHeader http.handlerHeader]. rewrite lookup_insert_ne by exact Hk. exact Hh.
Qed.

Lemma carriesOrigin_DelHeader key w :
  key ≠ allowOrigin → carriesOrigin w → carriesOrigin (http.DelHeader key w).
Proof.
  intros Hk [Hh Hs]. split; [|exact Hs].
  cbn [http.DelHeader http.handlerHeader]. rewrite lookup_delete_ne by exact Hk. exact Hh.
Qed.

Lemma carriesOrigin_WriteHeader code w :
  carriesOrigin w →
  carriesOrigin (http.WriteHeader code w) ∧ http.wroteHeader (http.WriteHeader code w) = true.
Proof.
  intros [Hh Hs]. unfold http.WriteHeader.
  destruct (http.wroteHeader w) eqn:E; [split; [split|]; auto|].
  split; [split|]; cbn; auto.
Qed.

Lemma carriesOrigin_Write c w :
  carriesOrigin w →
  carriesOrigin (http.Write c w) ∧ http.wroteHeader (http.Write c w) = true.
Proof.
  intros H. destruct (carriesOrigin_WriteHeader http.StatusOK w H) as [[Hh Hs] Hw].
  unfold http.Write. cbv zeta. split; [split|]; cbn; auto.
Qed.

Lemma carriesOrigin_Error w msg code :
  carriesOrigin w →
  carriesOrigin (http.Error w msg code) ∧ http.wroteHeader (http.Error w msg code) = true.
Proof.
  intros H. unfold http.Error. cbv zeta. apply carriesOrigin_Write.
  apply carriesOrigin_WriteHeader.
  apply carriesOrigin_SetHeader; [discriminate|].
  apply carriesOrigin_SetHeader; [discriminate|].
  apply carriesOrigin_DelHeader; [discriminate|exact H].
Qed.

Lemma carriesOrigin_Redirect w r url code :
  carriesOrigin w →
  carriesOrigin (http.Redirect w r url code)
  ∧ http.wroteHeader (http.Redirect w r url code) = true.
Proof.
  intros H. unfold http.Redirect. cbv zeta.
  assert (H1 : carriesOrigin (http.SetHeader "Location" url w))
    by (apply carriesOrigin_SetHeader; [discriminate|exact H]).
  assert (H2 : carriesOrigin
    (if negb (bool_decide (is_Some (http.handlerHeader w !! "Content-Type")))
        && (String.eqb (http.Method r) "GET" || String.eqb (http.Method r) "HEAD")
     then http.SetHeader "Content-Type" "text/html; charset=utf-8"
            (http.SetHeader "Location" url w)
     else http.SetHeader "Location" url w)).
  { destruct (_ && _); [apply carriesOrigin_SetHeader; [discriminate|]|]; exact H1. }
  destruct (negb _ && String.eqb (http.Method r) "GET");
    [apply carriesOrigin_Write, carriesOrigin_WriteHeader, H2
    |apply carriesOrigin_WriteHeader, H2].
Qed.

Lemma carriesOrigin_writeResponse {A} `{xml.Value A} `{json.Value A} w r (data : A) :
  carriesOrigin w →
  carriesOrigin (writeResponse w r data)
  ∧ http.wroteHeader (writeResponse w r data) = true.
Proof.
  intros Hw. unfold writeResponse. destruct (useXML r); cbv zeta.
  - apply carriesOrigin_Write. apply carriesOrigin_Write.
    apply carriesOrigin_SetHeader; [discriminate|exact Hw].
  - apply carriesOrigin_Write.
    apply carriesOrigin_SetHeader; [discriminate|exact Hw].
Qed.

Lemma handlers_carry_origin m p h :
  (m, p, h) ∈ routes → ∀ W r w, carriesOrigin w →
  carriesOrigin (snd (h W r w)) ∧ http.wroteHeader (snd (h W r w)) = true.
Proof.
  unfold routes. rewrite !elem_of_cons, elem_of_nil.
  intros Hin W r w Hw.
  repeat (destruct Hin as [[= _ _ ->]|Hin]); try contradiction;
    unfold handleToken, handleAuthorize, handleGetRecord, handleGetPerson,
      handleGetWork, handlePostWork, handlePutWork, handleGetEmployment,
      handlePostEmployment, handlePutEmployment, handleSearch; cbv zeta;
    repeat match goal with
    | |- context [if ?b then _ else _] => destruct b
    | |- context [match ?o with Some _ => _ | None => _ end] => destruct o
    | |- context [strconv.Atoi ?s] => destruct (strconv.Atoi s)
    | |- context [newPutCode ?W] => destruct (newPutCode W)
    end; cbn [snd];
    repeat first
      [ apply carriesOrigin_Error | apply carriesOrigin_Redirect
      | apply carriesOrigin_writeResponse | apply carriesOrigin_Write
      | apply carriesOrigin_WriteHeader
      | apply carriesOrigin_SetHeader; [discriminate|] | exact Hw ].
Qed.

(** X7.  Every request the middleware is handed is answered, and the
    response is sent with the header Access-Control-Allow-Origin: * the
    middleware sets before it calls the mux: on the answers of the
    handlers, on their errors, and on the mux's own answers. *)
Theorem middleware_allow_origin (W : World) (i : Incoming) :
  let w := snd (serve W i) in
  http.wroteHeader w = true ∧ http.sentHeader w !! allowOrigin = Some "*".
Proof.
  cbv zeta. unfold serve. fold freshWriter.
  assert (H : carriesOrigin (snd (serve W i)) ∧ http.wroteHeader (snd (serve W i)) = true).
  { unfold serve. fold freshWriter.
    destruct (lookupRoute routes i) as [[h r]|] eqn:E.
    - destruct (lookupRoute_In _ _ _ _ E) as (m & p & Hin).
      apply (handlers_carry_origin m p h Hin), carriesOrigin_fresh.
    - destruct (pathKnown i); cbn [snd]; apply carriesOrigin_Error, carriesOrigin_fresh. }
  unfold serve in H. fold freshWriter in H.
  destruct H as [[_ Hs] Hw]. split; [exact Hw|exact (Hs Hw)].
Qed.

(** **** Methods without a handler *)

Lemma lookupRoute_method rs i :
  Forall (λ '(m, _, _), methodMatches m (In_Method i) = false) rs →
  lookupRoute rs i = None.
Proof.
  induction 1 as [|[[m p] h] rs Hm _ IH]; [reflexivity|].
  cbn [lookupRoute]. rewrite Hm. exact IH.
Qed.

(** X6.  No handler serves a request whose method is none of GET, HEAD,
    POST and PUT (DELETE, say, which the comments of main announce for
    works and employments): no pattern of the routing table matches it,
    and the package-level state stays as it is. *)
Theorem no_handler_for_other_methods (W : World) (i : Incoming) :
  In_Method i ∉ ["GET"; "HEAD"; "POST"; "PUT"] →
  lookupRoute routes i = None ∧ fst (serve W i) = W.
Proof.
  intros Hm.
  assert (Hg : String.eqb "GET" (In_Method i) = false)
    by (apply String.eqb_neq; intros E; apply Hm; rewrite <- E; set_solver).
  assert (Hh : String.eqb (In_Method i) "HEAD" = false)
    by (apply String.eqb_neq; intros E; apply Hm; rewrite E; set_solver).
  assert (Hp : String.eqb "POST" (In_Method i) = false)
    by (apply String.eqb_neq; intros E; apply Hm; rewrite <- E; set_solver).
  assert (Hu : String.eqb "PUT" (In_Method i) = false)
    by (apply String.eqb_neq; intros E; apply Hm; rewrite <- E; set_solver).
  assert (Hnone : lookupRoute routes i = None).
  { apply lookupRoute_method. unfold routes, methodMatches.
    repeat (apply List.Forall_cons;
            [rewrite ?Hg, ?Hp, ?Hu, ?Hh; reflexivity|]).
    apply List.Forall_nil. }
  split; [exact Hnone|].
  unfold serve. rewrite Hnone. destruct (pathKnown i); reflexivity.
Qed.

(** **** The OAuth endpoints *)

(** X8.  POST /oauth/token answers 200 with the one token document as
    JSON, whatever the Accept header asks for and whatever the form
    holds; only a form that does not parse is refused, with 400 and a
    plain-text body.  The state stays as it is. *)
Theorem token_always_json (W : World) (i : Incoming) :
  In_Method i = "POST" → In_Path i = "/oauth/token" →
  let w := snd (serve W i) in
  fst (serve W i) = W
  ∧ (In_FormError i = true →
       http.status w = http.StatusBadRequest
       ∧ sentContentType w = Some plainText
       ∧ http.body w = [http.Raw ("Invalid request" +:+ xml.newline)])
  ∧ (In_FormError i = false →
       http.status w = http.StatusOK
       ∧ sentContentType w = Some "application/json; charset=utf-8"
       ∧ http.body w = [http.JSONDoc tokenDocument]).
Proof.
  intros Hm Hp. cbv zeta. unfold serve. rewrite (route_token i Hm Hp).
  unfold handleToken, routed. cbn [http.FormError].
  destruct (In_FormError i); cbn [fst snd].
  - split; [reflexivity|]. split; [|discriminate]. intros _. repeat split.
  - split; [reflexivity|]. split; [discriminate|]. intros _. repeat split.
Qed.

(** X9.  GET /oauth/authorize answers 400 with a plain-text body when
    the query has no redirect_uri (or an empty one), and 302 otherwise,
    whatever else the query holds.  The state stays as it is. *)
Theorem authorize_needs_redirect_uri (W : World) (i : Incoming) :
  In_Method i = "GET" → In_Path i = "/oauth/authorize" →
  let w := snd (serve W i) in
  let redirectURI := http.Get (In_Query i) "redirect_uri" in
  fst (serve W i) = W
  ∧ (redirectURI = "" →
       http.status w = http.StatusBadRequest
       ∧ sentContentType w = Some plainText
       ∧ http.body w = [http.Raw ("Missing redirect_uri" +:+ xml.newline)])
  ∧ (redirectURI ≠ "" → http.status w = http.StatusFound).
Proof.
  intros Hm Hp. cbv zeta. unfold serve. rewrite (route_authorize i Hm Hp).
  unfold handleAuthorize, routed. cbn [http.URL_Query].
  destruct (String.eqb_spec (http.Get (In_Query i) "redirect_uri") "") as [E|E];
    cbn [fst snd].
  - split; [reflexivity|]. split; [|congruence]. intros _. repeat split.
  - split; [reflexivity|]. split; [congruence|]. intros _.
    unfold http.Redirect. cbv zeta.
    destruct (negb _ && String.eqb _ "GET"), (negb _ && (_ || _)); reflexivity.
Qed.

(** **** Works and employments *)

Lemma writeResponse_after_WriteHeader {A} `{xml.Value A} `{json.Value A}
    (w : http.ResponseWriter) code r (data : A) :
  http.wroteHeader w = false →
  let w' := writeResponse (http.WriteHeader code w) r data in
  http.status w' = code
  ∧ http.sentHeader w' = http.handlerHeader w
  ∧ http.body w' = http.body w ++ negotiated r data.
Proof.
  intros Hw. cbv zeta.
  assert (Hc : http.wroteHeader (http.WriteHeader code w) = true)
    by (unfold http.WriteHeader; rewrite Hw; reflexivity).
  destruct (writeResponse_committed _ r data Hc) as (Hs & Hh & _).
  rewrite Hs, Hh, writeResponse_body.
  unfold http.WriteHeader. rewrite Hw. repeat split.
Qed.

(** X10.  A PUT of a work or an employment is answered 200, for any
    identifier and any put-code, known or not: the Location header names
    the path of the request under https://api.orcid.org, the body holds
    the put-code as the path spells it and the status updated, and
    nothing is stored. *)
Theorem put_echoes_put_code (W : World) (r : http.Request) :
  updatedAt "work" r (snd (handlePutWork W r freshWriter))
  ∧ updatedAt "employment" r (snd (handlePutEmployment W r freshWriter))
  ∧ fst (handlePutWork W r freshWriter) = W
  ∧ fst (handlePutEmployment W r freshWriter) = W.
Proof.
  unfold updatedAt, handlePutWork, handlePutEmployment. cbv zeta. cbn [fst snd].
  split; [|split; [|split; reflexivity]];
    match goal with
    | |- context [writeResponse (http.WriteHeader ?c ?w) ?r ?d] =>
        destruct (writeResponse_after_WriteHeader w c r d eq_refl) as (-> & -> & ->)
    end;
    (split; [reflexivity|]); (split; [|reflexivity]);
    cbn [http.SetHeader http.handlerHeader]; apply lookup_insert_eq.
Qed.

(** X11.  strconv.Atoi reads back, without an error, every 64-bit integer
    from the decimal spelling strconv.Itoa gives it; so a GET of a work
    or an employment under the decimal spelling of a put-code answers the
    synthesized value with that put-code. *)
Theorem get_echoes_put_code (W : World) (r : http.Request) (n : Z) :
  int64 n → http.PathValue r "putCode" = strconv.Itoa n →
  strconv.Atoi (strconv.Itoa n) = (n, None)
  ∧ http.body (snd (handleGetWork W r freshWriter)) = negotiated r (genericWork n)
  ∧ http.body (snd (handleGetEmployment W r freshWriter))
    = negotiated r (genericEmployment n).
Proof.
  intros Hn Hpc. split; [exact (Atoi_Itoa n Hn)|].
  unfold handleGetWork, handleGetEmployment.
  rewrite Hpc, (Atoi_Itoa n Hn). cbn [snd]. rewrite !writeResponse_body.
  split; reflexivity.
Qed.

(** X6 on DELETE /v3.0/0000-0001-2345-6789/work/42. *)
Lemma no_handler_for_other_methods_witness :
  (In_Method (request "DELETE" "/v3.0/0000-0001-2345-6789/work/42" None)
     ∉ ["GET"; "HEAD"; "POST"; "PUT"])
  ∧ lookupRoute routes (request "DELETE" "/v3.0/0000-0001-2345-6789/work/42" None) = None
  ∧ fst (serve (demoWorld 0) (request "DELETE" "/v3.0/0000-0001-2345-6789/work/42" None))
    = demoWorld 0.
Proof.
  assert (H : In_Method (request "DELETE" "/v3.0/0000-0001-2345-6789/work/42" None)
              ∉ ["GET"; "HEAD"; "POST"; "PUT"])
    by (apply (bool_decide_unpack (_ ∉ _)); vm_compute; reflexivity).
  split; [exact H|].
  exact (no_handler_for_other_methods (demoWorld 0)
           (request "DELETE" "/v3.0/0000-0001-2345-6789/work/42" None) H).
Defined.

(** X8 on a POST that asks for XML. *)
Lemma token_always_json_witness :
  In_Method (request "POST" "/oauth/token" (Some "application/xml")) = "POST"
  ∧ In_Path (request "POST" "/oauth/token" (Some "application/xml")) = "/oauth/token"
  ∧ http.body (snd (serve (demoWorld 0)
                      (request "POST" "/oauth/token" (Some "application/xml"))))
    = [http.JSONDoc tokenDocument].
Proof.
  split; [reflexivity|]. split; [reflexivity|].
  apply (token_always_json (demoWorld 0)
           (request "POST" "/oauth/token" (Some "application/xml")) eq_refl eq_refl).
  reflexivity.
Defined.

(** X9 on a GET without a query. *)
Lemma authorize_needs_redirect_uri_witness :
  In_Method (request "GET" "/oauth/authorize" None) = "GET"
  ∧ In_Path (request "GET" "/oauth/authorize" None) = "/oauth/authorize"
  ∧ http.status (snd (serve (demoWorld 0) (request "GET" "/oauth/authorize" None)))
    = http.StatusBadRequest.
Proof.
  split; [reflexivity|]. split; [reflexivity|].
  apply (authorize_needs_redirect_uri (demoWorld 0)
           (request "GET" "/oauth/authorize" None) eq_refl eq_refl).
  reflexivity.
Defined.

(** X11 on the put-code 42. *)
Lemma get_echoes_put_code_witness :
  int64 42
  ∧ http.PathValue
      (routed (request "GET" "/v3.0/0000-0001-2345-6789/work/42" None)
         (<["putCode" := "42"]> (<["orcid" := sofia]> ∅))) "putCode"
    = strconv.Itoa 42
  ∧ http.body (snd (handleGetWork (demoWorld 0)
      (routed (request "GET" "/v3.0/0000-0001-2345-6789/work/42" None)
         (<["putCode" := "42"]> (<["orcid" := sofia]> ∅))) freshWriter))
    = negotiated
        (routed (request "GET" "/v3.0/0000-0001-2345-6789/work/42" None)
           (<["putCode" := "42"]> (<["orcid" := sofia]> ∅)))
        (genericWork 42).
Proof.
  assert (H42 : int64 42) by (unfold int64; lia).
  assert (Hpc : http.PathValue
      (routed (request "GET" "/v3.0/0000-0001-2345-6789/work/42" None)
         (<["putCode" := "42"]> (<["orcid" := sofia]> ∅))) "putCode"
    = strconv.Itoa 42) by reflexivity.
  split; [exact H42|]. split; [exact Hpc|].
  apply (get_echoes_put_code (demoWorld 0)
           (routed (request "GET" "/v3.0/0000-0001-2345-6789/work/42" None)
              (<["putCode" := "42"]> (<["orcid" := sofia]> ∅))) 42 H42 Hpc).
Defined.
(** **** A POST and the GET of what it created *)

Lemma Contains_slash_digits d :
  strings.Contains (NilEmpty.string_of_uint d) "/" = false.
Proof.
  induction d; [reflexivity|..];
    change (NilEmpty.string_of_uint ?x) with (NilEmpty.string_of_uint x);
    cbn [NilEmpty.string_of_uint]; rewrite Contains_slash, IHd; reflexivity.
Qed.

(** The decimal spelling of a positive integer is a path segment. *)
Lemma pathSegment_Itoa n : 0 < n → pathSegment (strconv.Itoa n) = true.
Proof.
  intros Hn. destruct n as [|p|p]; try lia.
  unfold strconv.Itoa. simpl Z.to_int. simpl NilZero.string_of_int.
  pose proof (DecimalPos.Unsigned.to_uint_nonnil p) as Hnil.
  unfold NilZero.string_of_uint, pathSegment.
  destruct (Pos.to_uint p) as [|l|l|l|l|l|l|l|l|l|l] eqn:E; [congruence|..];
    cbn [NilEmpty.string_of_uint]; rewrite Contains_slash, Contains_slash_digits;
    destruct l; reflexivity.
Qed.

Lemma location_path a b :
  Some ("https://api.orcid.org" +:+ a) = Some ("https://api.orcid.org" +:+ b) → a = b.
Proof. intros [= H]. exact H. Qed.

(** X16.  What a POST creates can be fetched: the Location header of the
    answer to a POST of a work or an employment is https://api.orcid.org
    followed by a path whose GET, whenever it is asked and whatever the
    state then, is routed to the handler of the resource and answers the
    put-code the POST answered. *)
Theorem created_then_retrievable (W W' : World) (post get : Incoming)
    (id resource : string) (hget : Handler) :
  pathSegment id = true →
  (resource, hget) ∈ [("work", handleGetWork); ("employment", handleGetEmployment)] →
  In_Method post = "POST" → In_Path post = "/v3.0/" +:+ id +:+ "/" +:+ resource →
  In_Method get = "GET" →
  http.sentHeader (snd (serve W post)) !! "Location"
    = Some ("https://api.orcid.org" +:+ In_Path get) →
  ∃ n bound,
    http.body (snd (serve W post))
    = negotiated (routed post (<["orcid" := id]> ∅))
        {| PutCodeResponse_XMLName := zeroName; PutCodeResponse_PutCode := n |}
    ∧ lookupRoute routes get = Some (hget, routed get bound)
    ∧ (resource = "work" →
         http.body (snd (serve W' get)) = negotiated (routed get bound) (genericWork n))
    ∧ (resource = "employment" →
         http.body (snd (serve W' get))
         = negotiated (routed get bound) (genericEmployment n)).
Proof.
  intros Hid Hin Hm Hp Hgm Hloc.
  pose proof (newPutCode_range W) as Hr.
  assert (Hn : int64 (fst (newPutCode W))) by (unfold int64; lia).
  assert (Hpc : pathSegment (strconv.Itoa (fst (newPutCode W))) = true)
    by (apply pathSegment_Itoa; lia).
  exists (fst (newPutCode W)),
    (<["putCode" := strconv.Itoa (fst (newPutCode W))]> (<["orcid" := id]> ∅)).
  rewrite !elem_of_cons, elem_of_nil in Hin.
  destruct Hin as [[= -> ->]|[[= -> ->]|[]]].
  - pose proof (route_post_work post id Hid Hm Hp) as Hroute.
    unfold serve in Hloc |- *. fold freshWriter in Hloc |- *. rewrite Hroute in Hloc |- *.
    pose proof (handlePostWork_created W (routed post (<["orcid" := id]> ∅)))
      as (_ & HL & _ & Hb & _).
    assert (Hgp : In_Path get
                  = "/v3.0/" +:+ id +:+ "/work/" +:+ strconv.Itoa (fst (newPutCode W))).
    { symmetry. apply location_path. rewrite <- Hloc, HL. reflexivity. }
    rewrite (route_get_work get id _ Hid Hpc Hgm Hgp).
    split; [exact Hb|]. split; [reflexivity|]. split; [|discriminate]. intros _.
    unfold handleGetWork.
    change (http.PathValue (routed get _) "putCode")
      with (strconv.Itoa (fst (newPutCode W))).
    rewrite (Atoi_Itoa _ Hn). cbn [snd fst]. rewrite writeResponse_body. reflexivity.
  - pose proof (route_post_employment post id Hid Hm Hp) as Hroute.
    unfold serve in Hloc |- *. fold freshWriter in Hloc |- *. rewrite Hroute in Hloc |- *.
    pose proof (handlePostEmployment_created W (routed post (<["orcid" := id]> ∅)))
      as (_ & HL & _ & Hb & _).
    assert (Hgp : In_Path get
                  = "/v3.0/" +:+ id +:+ "/employment/" +:+ strconv.Itoa (fst (newPutCode W))).
    { symmetry. apply location_path. rewrite <- Hloc, HL. reflexivity. }
    rewrite (route_get_employment get id _ Hid Hpc Hgm Hgp).
    split; [exact Hb|]. split; [reflexivity|]. split; [discriminate|]. intros _.
    unfold handleGetEmployment.
    change (http.PathValue (routed get _) "putCode")
      with (strconv.Itoa (fst (newPutCode W))).
    rewrite (Atoi_Itoa _ Hn). cbn [snd fst]. rewrite writeResponse_body. reflexivity.
Qed.

(** X16 on a POST of a work for 0000-0001-2345-6789 that draws 0, and the
    GET of the work 100000 its Location names, asked of a server in
    another state. *)
Lemma created_then_retrievable_witness :
  pathSegment sofia = true
  ∧ http.sentHeader
      (snd (serve (demoWorld 0) (request "POST" "/v3.0/0000-0001-2345-6789/work" None)))
      !! "Location"
    = Some ("https://api.orcid.org"
            +:+ In_Path (request "GET" "/v3.0/0000-0001-2345-6789/work/100000" None))
  ∧ ∃ n bound,
      lookupRoute routes (request "GET" "/v3.0/0000-0001-2345-6789/work/100000" None)
      = Some (handleGetWork,
              routed (request "GET" "/v3.0/0000-0001-2345-6789/work/100000" None) bound)
      ∧ http.body
          (snd (serve (demoWorld 7)
                  (request "GET" "/v3.0/0000-0001-2345-6789/work/100000" None)))
        = negotiated
            (routed (request "GET" "/v3.0/0000-0001-2345-6789/work/100000" None) bound)
            (genericWork n).
Proof.
  assert (Hloc : http.sentHeader
      (snd (serve (demoWorld 0) (request "POST" "/v3.0/0000-0001-2345-6789/work" None)))
      !! "Location"
    = Some ("https://api.orcid.org"
            +:+ In_Path (request "GET" "/v3.0/0000-0001-2345-6789/work/100000" None)))
    by (vm_compute; reflexivity).
  split; [reflexivity|]. split; [exact Hloc|].
  destruct (created_then_retrievable (demoWorld 0) (demoWorld 7)
              (request "POST" "/v3.0/0000-0001-2345-6789/work" None)
              (request "GET" "/v3.0/0000-0001-2345-6789/work/100000" None)
              sofia "work" handleGetWork eq_refl
              (list_elem_of_here _ _) eq_refl eq_refl eq_refl Hloc)
    as (n & bound & _ & Hroute & Hwork & _).
  exists n, bound. split; [exact Hroute|exact (Hwork eq_refl)].
Defined.
(** *** main.go: configuration and seeding *)

Lemma HasPrefix_colon x : strings.HasPrefix (":" +:+ x) ":" = true.
Proof.
  unfold strings.HasPrefix. cbn [String.append String.prefix].
  destruct (ascii_dec ":" ":") as [_|H]; [destruct x; reflexivity|congruence].
Qed.

(** X12.  getPort always answers an address that starts with a colon:
    the value of MOAT_PORT when it is set and not empty, else that of
    PORT when it is set and not empty, with a colon put before it if it
    has none, else :8080.  MOAT_PORT wins over PORT. *)
Theorem getPort_address (env : gmap string string) :
  strings.HasPrefix (getPort env) ":" = true
  ∧ (∀ port, env !! "MOAT_PORT" = Some port → port ≠ "" →
       getPort env = if strings.HasPrefix port ":" then port else ":" +:+ port)
  ∧ (default "" (env !! "MOAT_PORT") = "" → default "" (env !! "PORT") = "" →
       getPort env = ":8080")
  ∧ (∀ port, default "" (env !! "MOAT_PORT") = "" → env !! "PORT" = Some port →
       port ≠ "" →
       getPort env = if strings.HasPrefix port ":" then port else ":" +:+ port).
Proof.
  unfold getPort. cbv zeta. split; [|split; [|split]].
  - destruct (String.eqb_spec (default "" (env !! "MOAT_PORT")) "") as [E|E]; cbn [negb].
    + destruct (String.eqb_spec (default "" (env !! "PORT")) "") as [E'|E'];
        cbn [negb]; [reflexivity|].
      destruct (strings.HasPrefix (default "" (env !! "PORT")) ":") eqn:Hp;
        cbn [negb]; [exact Hp|apply HasPrefix_colon].
    + destruct (strings.HasPrefix (default "" (env !! "MOAT_PORT")) ":") eqn:Hp;
        cbn [negb]; [exact Hp|apply HasPrefix_colon].
  - intros port -> Hne. cbn [default from_option id].
    destruct (String.eqb_spec port "") as [E|_]; [contradiction|]. cbn [negb].
    destruct (strings.HasPrefix port ":"); reflexivity.
  - intros -> ->. reflexivity.
  - intros port -> -> Hne. cbn [default from_option id String.eqb negb].
    destruct (String.eqb_spec port "") as [E|_]; [contradiction|]. cbn [negb].
    destruct (strings.HasPrefix port ":"); reflexivity.
Qed.

Lemma initStep_seeded clock src acc ip W :
  (∀ W0, acc = Some W0 → seeded src W0) →
  initStep clock acc ip = Some W → seeded src W.
Proof.
  intros Hacc. destruct ip as [i [[[orcid given] family] bio]].
  unfold initStep. destruct acc as [W0|]; [|discriminate]. cbn [mbind option_bind].
  destruct (Hacc W0 eq_refl) as (Hsrc & Hrec & Hdata).
  destruct given as [|c given]; [discriminate|]. cbn [createMockRecord mbind option_bind].
  intros [= <-]. unfold seeded. cbn [randSource personStore dataStore].
  split; [exact Hsrc|]. split.
  - intros id r. rewrite lookup_insert_Some.
    intros [[<- <-]|[_ H]]; [split; reflexivity|apply (Hrec _ _ H)].
  - intros id. rewrite lookup_insert_is_Some, lookup_insert_Some, Hdata.
    split; [intros [->|[Hne H]]|intros [[-> _]|[Hne H]]]; auto.
Qed.

Lemma init_fold_seeded clock src l : ∀ acc W,
  (∀ W0, acc = Some W0 → seeded src W0) →
  fold_left (initStep clock) l acc = Some W → seeded src W.
Proof.
  induction l as [|ip l IH]; intros acc W Hacc; cbn [fold_left].
  - intros ->. apply (Hacc W eq_refl).
  - apply IH. intros W0 HW0. apply (initStep_seeded clock src acc ip W0 Hacc HW0).
Qed.

Lemma init_seeded clock src W : init clock src = Some W → seeded src W.
Proof.
  unfold init. intros HW. apply (init_fold_seeded clock src _ _ W) in HW; [exact HW|].
  intros W0 [= <-]. unfold seeded. cbn [randSource personStore dataStore].
  split; [reflexivity|]. split.
  - intros id r. rewrite lookup_empty. discriminate.
  - intros id. rewrite !lookup_empty. split; [intros [? H]|intros H]; discriminate.
Qed.

(** X13.  init never panics (no given name of the demo population is
    empty); it leaves the person store with the six demo identifiers as
    its keys, every record under its own identifier (the path of its
    orcid-identifier and the end of its URI), the data store with the two
    empty maps of works and employments for exactly these identifiers,
    and the random source as it was. *)
Theorem init_stores (clock : nat → Z) (src : rand.Source) :
  ∃ W, init clock src = Some W
       ∧ seeded src W
       ∧ ∀ id, is_Some (personStore W !! id) ↔ id ∈ demoIdentifiers.
Proof.
  destruct (seeded_identifiers clock src) as (W & HW & Hkeys).
  exists W. split; [exact HW|]. split; [exact (init_seeded clock src W HW)|exact Hkeys].
Qed.
(** **** The demo population, for the life of the process *)

(** X17.  After init and any sequence of requests, writes included, a GET
    of the record or of the person of an identifier is answered 200 when
    the identifier is one of the six of the demo population, with the
    record init stored for it, whose orcid-identifier has that path, or
    with the person of that record; and 404 with a plain-text body when
    it is any other path segment. *)
Theorem demo_population_served (clock : nat → Z) (src : rand.Source) (W0 : World)
    (reqs : list Incoming) (i : Incoming) (id : string) :
  init clock src = Some W0 → pathSegment id = true → In_Method i = "GET" →
  let W := fst (serveAll W0 reqs) in
  let r := routed i (<["orcid" := id]> ∅) in
  (id ∈ demoIdentifiers →
     ∃ record, personStore W0 !! id = Some record
       ∧ OrcidIdentifier_Path (OrcidRecord_OrcidIdentifier record) = id
       ∧ (In_Path i = "/v3.0/" +:+ id +:+ "/record" →
            http.status (snd (serve W i)) = http.StatusOK
            ∧ http.body (snd (serve W i)) = negotiated r record)
       ∧ (In_Path i = "/v3.0/" +:+ id +:+ "/person" →
            http.status (snd (serve W i)) = http.StatusOK
            ∧ http.body (snd (serve W i)) = negotiated r (OrcidRecord_Person record)))
  ∧ (id ∉ demoIdentifiers →
       (In_Path i = "/v3.0/" +:+ id +:+ "/record" →
          http.status (snd (serve W i)) = http.StatusNotFound
          ∧ http.body (snd (serve W i)) = [http.Raw ("Record not found" +:+ xml.newline)])
       ∧ (In_Path i = "/v3.0/" +:+ id +:+ "/person" →
            http.status (snd (serve W i)) = http.StatusNotFound
            ∧ http.body (snd (serve W i))
              = [http.Raw ("Person not found" +:+ xml.newline)])).
Proof.
  intros Hinit Hid Hm. cbv zeta.
  destruct (serveAll_stores reqs W0) as [Hstore _].
  destruct (init_seeded clock src W0 Hinit) as (_ & Hown & _).
  destruct (seeded_identifiers clock src) as (W1 & HW1 & Hkeys).
  rewrite Hinit in HW1. injection HW1 as <-.
  fold demoIdentifiers in Hkeys.
  assert (Hrec : In_Path i = "/v3.0/" +:+ id +:+ "/record" →
            snd (serve (fst (serveAll W0 reqs)) i)
            = snd (handleGetRecord (fst (serveAll W0 reqs))
                     (routed i (<["orcid" := id]> ∅)) freshWriter)).
  { intros Hp. unfold serve. fold freshWriter.
    rewrite (route_record i id Hid Hm Hp). reflexivity. }
  assert (Hper : In_Path i = "/v3.0/" +:+ id +:+ "/person" →
            snd (serve (fst (serveAll W0 reqs)) i)
            = snd (handleGetPerson (fst (serveAll W0 reqs))
                     (routed i (<["orcid" := id]> ∅)) freshWriter)).
  { intros Hp. unfold serve. fold freshWriter.
    rewrite (route_person i id Hid Hm Hp). reflexivity. }
  unfold handleGetRecord in Hrec. unfold handleGetPerson in Hper.
  change (http.PathValue (routed i (<["orcid" := id]> ∅)) "orcid") with id in Hrec, Hper.
  cbv zeta in Hrec, Hper. rewrite <- Hstore in Hrec, Hper.
  split.
  - intros Hin. apply Hkeys in Hin as [record Hlook].
    exists record. split; [exact Hlook|]. split; [apply (Hown id record Hlook)|].
    rewrite Hlook in Hrec, Hper. cbn [snd] in Hrec, Hper.
    split; intros Hp.
    + rewrite (Hrec Hp).
      destruct (writeResponse_fresh freshWriter (routed i (<["orcid" := id]> ∅)) record
                  eq_refl) as [-> _].
      rewrite writeResponse_body. split; reflexivity.
    + rewrite (Hper Hp).
      destruct (writeResponse_fresh freshWriter (routed i (<["orcid" := id]> ∅))
                  (OrcidRecord_Person record) eq_refl) as [-> _].
      rewrite writeResponse_body. split; reflexivity.
  - intros Hnin.
    assert (Hnone : personStore W0 !! id = None).
    { destruct (personStore W0 !! id) as [record|] eqn:E; [|reflexivity].
      exfalso. apply Hnin, Hkeys. exists record. exact E. }
    rewrite Hnone in Hrec, Hper. cbn [snd] in Hrec, Hper.
    split; intros Hp.
    + rewrite (Hrec Hp). split; reflexivity.
    + rewrite (Hper Hp). split; reflexivity.
Qed.

(** X17 on the record of 0000-0001-2345-6789, asked for after a POST and
    a PUT of a work. *)
Lemma demo_population_served_witness :
  init (λ _, 1700000000000) {| rand.raw := λ _, 7; rand.used := 0 |} = Some (demoWorld 7)
  ∧ pathSegment sofia = true
  ∧ sofia ∈ demoIdentifiers
  ∧ http.status
      (snd (serve
              (fst (serveAll (demoWorld 7)
                      [ request "POST" "/v3.0/0000-0001-2345-6789/work" None;
                        request "PUT" "/v3.0/0000-0001-2345-6789/work/123456" None ]))
              (request "GET" "/v3.0/0000-0001-2345-6789/record" None)))
    = http.StatusOK.
Proof.
  assert (Hinit : init (λ _, 1700000000000) {| rand.raw := λ _, 7; rand.used := 0 |}
                  = Some (demoWorld 7)) by reflexivity.
  assert (Hin : sofia ∈ demoIdentifiers) by apply list_elem_of_here.
  split; [exact Hinit|]. split; [reflexivity|]. split; [exact Hin|].
  destruct (demo_population_served _ _ (demoWorld 7)
              [ request "POST" "/v3.0/0000-0001-2345-6789/work" None;
                request "PUT" "/v3.0/0000-0001-2345-6789/work/123456" None ]
              (request "GET" "/v3.0/0000-0001-2345-6789/record" None) sofia
              Hinit eq_refl eq_refl) as [Hknown _].
  destruct (Hknown Hin) as (record & _ & _ & Hrecord & _).
  exact (proj1 (Hrecord eq_refl)).
Defined.
(** *** models/person.go and main.go: a second round trip *)

#[global] Instance NormIdem_string : NormIdem string.
Proof. intros x. reflexivity. Qed.

#[global] Instance NormIdem_bool : NormIdem bool.
Proof. intros x. reflexivity. Qed.

#[global] Instance NormIdem_ptr {A} `{NormIdem A} : NormIdem (option A).
Proof. intros [x|]; [|reflexivity]. cbn. f_equal. apply (norm_idem x). Qed.

#[global] Instance NormIdem_slice {A} `{NormIdem A} : NormIdem (list A) | 10.
Proof.
  intros l. induction l as [|x l IH]; [reflexivity|].
  change (norm (x :: l)) with (norm x :: norm l).
  change (norm (norm x :: norm l)) with (norm (norm x) :: norm (norm l)).
  rewrite IH, (norm_idem x). reflexivity.
Qed.

(** The nil entries are dropped by the first round trip; the second finds
    none. *)
#[global] Instance NormIdem_ptr_slice {A} `{NormIdem A} : NormIdem (list (option A)) | 0.
Proof.
  intros l. unfold norm, Norm_ptr_slice.
  induction l as [|[x|] l IH]; [reflexivity| |exact IH].
  cbn. f_equal; [f_equal; apply (norm_idem x)|exact IH].
Qed.

Ltac norm_idem_struct tnorm :=
  let x := fresh "x" in
  intros x; change (tnorm (tnorm x) = tnorm x); destruct x; unfold tnorm;
  cbn -[norm]; f_equal; apply norm_idem.

Module models_idem.
Import models models_rt.

#[global] Instance NormIdem_models_SourceOrcid : NormIdem SourceOrcid.
Proof. norm_idem_struct SourceOrcid_Norm. Qed.

#[global] Instance NormIdem_models_SourceName : NormIdem SourceName.
Proof. norm_idem_struct SourceName_Norm. Qed.

#[global] Instance NormIdem_models_Source : NormIdem Source.
Proof. norm_idem_struct Source_Norm. Qed.

#[global] Instance NormIdem_models_PersonName : NormIdem PersonName.
Proof. norm_idem_struct PersonName_Norm. Qed.

#[global] Instance NormIdem_models_OtherName : NormIdem OtherName.
Proof. norm_idem_struct OtherName_Norm. Qed.

#[global] Instance NormIdem_models_OtherNames : NormIdem OtherNames.
Proof. norm_idem_struct OtherNames_Norm. Qed.

#[global] Instance NormIdem_models_Biography : NormIdem Biography.
Proof. norm_idem_struct Biography_Norm. Qed.

#[global] Instance NormIdem_models_ResearcherUrl : NormIdem ResearcherUrl.
Proof. norm_idem_struct ResearcherUrl_Norm. Qed.

#[global] Instance NormIdem_models_ResearcherUrls : NormIdem ResearcherUrls.
Proof. norm_idem_struct ResearcherUrls_Norm. Qed.

#[global] Instance NormIdem_models_Email : NormIdem Email.
Proof. norm_idem_struct Email_Norm. Qed.

#[global] Instance NormIdem_models_Emails : NormIdem Emails.
Proof. norm_idem_struct Emails_Norm. Qed.

#[global] Instance NormIdem_models_Address : NormIdem Address.
Proof. norm_idem_struct Address_Norm. Qed.

#[global] Instance NormIdem_models_Addresses : NormIdem Addresses.
Proof. norm_idem_struct Addresses_Norm. Qed.

#[global] Instance NormIdem_models_Keyword : NormIdem Keyword.
Proof. norm_idem_struct Keyword_Norm. Qed.

#[global] Instance NormIdem_models_Keywords : NormIdem Keywords.
Proof. norm_idem_struct Keywords_Norm. Qed.

#[global] Instance NormIdem_models_ExternalIdentifier : NormIdem ExternalIdentifier.
Proof. norm_idem_struct ExternalIdentifier_Norm. Qed.

#[global] Instance NormIdem_models_ExternalIdentifiers : NormIdem ExternalIdentifiers.
Proof. norm_idem_struct ExternalIdentifiers_Norm. Qed.

#[global] Instance NormIdem_models_Person : NormIdem Person.
Proof. norm_idem_struct Person_Norm. Qed.

End models_idem.




(** X15.  The ten xmlns:* attribute fields of models.Person are never
    read back: whatever they hold, the Person decoded from the encoding
    has all ten empty, since the Decoder reports the attributes written
    for them as name-space declarations, under names no field of the
    struct has; its XMLName is the name person of the name space
    http://www.orcid.org/ns/person. *)
Theorem Person_declarations_not_read_back (p : models.Person) :
  ∃ p', roundTrip p = Some p'
        ∧ models.Person_XMLName p' = personRoot
        ∧ Forall (λ field : models.Person → string, field p' = "")
            [ models.Person_XmlnsCommon; models.Person_XmlnsPerson;
              models.Person_XmlnsPersonal; models.Person_XmlnsOtherName;
              models.Person_XmlnsResearcherUrl; models.Person_XmlnsEmail;
              models.Person_XmlnsAddress; models.Person_XmlnsKeyword;
              models.Person_XmlnsExternalId; models.Person_XmlnsXsi ].
Proof.
  exists (norm p). split; [apply models_root.roundTrip_Person, (all_valid p)|].
  split; [reflexivity|].
  repeat (apply List.Forall_cons; [reflexivity|]). apply List.Forall_nil.
Qed.
